(** * Instacart feature store (dbt project): relational model and properties

    The dbt models under [models/] and the macro [macros/time_windows.sql]
    are embedded as functions over lists of rows.  A relation is a list; the
    position of a row in the list stands for the physical order in which the
    engine happens to visit it, which SQL leaves unspecified.  Window
    functions ([row_number], [lag]) sort each partition with a stable sort, so
    rows tied on the ORDER BY key keep their physical order: this is how the
    engine's freedom on ties shows up in the model.

    Numbers: identifiers, counters, day and hour codes are [Z]; the results of
    [/] and [avg] are exact rationals in lowest terms ([Q] through [Qred]);
    the engine's fixed decimal scale is not modelled.  SQL NULL is [None].
    A division by zero aborts the statement: models are computed in the
    error monad [result]. *)

From Stdlib Require Import String Ascii List ZArith QArith Qreduction Bool Lia
  Permutation Sorted DecimalString DecimalZ.
Import ListNotations.
Open Scope Z_scope.

(* ------------------------------------------------------------------------- *)
(** ** Decidable equality on column values *)

Class EqDec (K : Type) := eq_dec : forall x y : K, {x = y} + {x <> y}.

#[global] Instance EqDec_Z : EqDec Z := Z.eq_dec.
#[global] Instance EqDec_string : EqDec string := string_dec.
#[global] Instance EqDec_unit : EqDec unit.
Proof. intros [] []; left; reflexivity. Defined.
#[global] Instance EqDec_option {K} `{EqDec K} : EqDec (option K).
Proof.
  intros [x|] [y|]; try (right; discriminate); try (left; reflexivity).
  destruct (eq_dec x y) as [->|n]; [left; reflexivity | right; congruence].
Defined.
#[global] Instance EqDec_prod {K L} `{EqDec K} `{EqDec L} : EqDec (K * L).
Proof.
  intros [a b] [c d].
  destruct (eq_dec a c) as [->|n]; [| right; congruence].
  destruct (eq_dec b d) as [->|n]; [left; reflexivity | right; congruence].
Defined.
#[global] Instance EqDec_list {K} `{EqDec K} : EqDec (list K).
Proof. intros x y; apply (list_eq_dec eq_dec). Defined.

Definition eqb {K} `{EqDec K} (x y : K) : bool :=
  if eq_dec x y then true else false.

(* ------------------------------------------------------------------------- *)
(** ** The error monad of a statement *)

Inductive sql_error := DivisionByZero.

Inductive result (A : Type) :=
| Ok (a : A)
| Raise (e : sql_error).
Arguments Ok {A} a.
Arguments Raise {A} e.

Definition bind {A B} (c : result A) (k : A -> result B) : result B :=
  match c with
  | Ok a => k a
  | Raise e => Raise e
  end.

Notation "x <- c ;; k" := (bind c (fun x => k))
  (at level 61, c at next level, right associativity).

(** [select f l]: evaluate the select list [f] on every row; the statement
    fails as soon as one row fails. *)
Fixpoint select {A B} (f : A -> result B) (l : list A) : result (list B) :=
  match l with
  | [] => Ok []
  | a :: l' => b <- f a ;; bs <- select f l' ;; Ok (b :: bs)
  end.

(* ------------------------------------------------------------------------- *)
(** ** Scalar operators *)

Module SQL.

(** [a / b]: NULL when an operand is NULL, an error when [b] is zero. *)
Definition div (a b : option Q) : result (option Q) :=
  match a, b with
  | Some x, Some y =>
      if Qeq_bool y 0 then Raise DivisionByZero else Ok (Some (Qred (x / y)))
  | _, _ => Ok None
  end.

(** [nullif(a, v)]: NULL when [a = v], otherwise [a]. *)
Definition nullif (a : option Q) (v : Q) : option Q :=
  match a with
  | Some x => if Qeq_bool x v then None else Some x
  | None => None
  end.

Definition coalesce {A} (a : option A) (d : A) : A :=
  match a with
  | Some x => x
  | None => d
  end.

Definition num (z : Z) : option Q := Some (inject_Z z).

(** [a - b] on nullable integers. *)
Definition sub (a b : option Z) : option Z :=
  match a, b with
  | Some x, Some y => Some (x - y)
  | _, _ => None
  end.

Definition subq (a b : option Q) : option Q :=
  match a, b with
  | Some x, Some y => Some (Qred (x - y))
  | _, _ => None
  end.

(** [x between lo and hi]. *)
Definition between (x lo hi : Z) : bool := (lo <=? x) && (x <=? hi).

(* ----------------------------------------------------------------------- *)
(** ** Aggregates.  They skip NULLs; [sum], [avg], [min], [max] of no
    non-NULL value are NULL. *)

Fixpoint non_null {A} (l : list (option A)) : list A :=
  match l with
  | [] => []
  | Some x :: l' => x :: non_null l'
  | None :: l' => non_null l'
  end.

Definition count {A} (l : list (option A)) : Z := Z.of_nat (length (non_null l)).

Definition count_star {A} (l : list A) : Z := Z.of_nat (length l).

Definition count_distinct {A} `{EqDec A} (l : list (option A)) : Z :=
  Z.of_nat (length (nodup eq_dec (non_null l))).

Definition zsum (l : list Z) : Z := fold_right Z.add 0 l.

Definition qsum (l : list Q) : Q := fold_right Qplus 0%Q l.

Definition sum (l : list (option Z)) : option Z :=
  match non_null l with
  | [] => None
  | vs => Some (zsum vs)
  end.

Definition sumq (l : list (option Q)) : option Q :=
  match non_null l with
  | [] => None
  | vs => Some (Qred (qsum vs))
  end.

Definition avgq (l : list (option Q)) : option Q :=
  match non_null l with
  | [] => None
  | vs => Some (Qred (qsum vs / inject_Z (Z.of_nat (length vs))))
  end.

Definition avg (l : list (option Z)) : option Q :=
  avgq (map (option_map inject_Z) l).

Definition max (l : list (option Z)) : option Z :=
  match non_null l with
  | [] => None
  | v :: vs => Some (fold_right Z.max v vs)
  end.

Definition min (l : list (option Z)) : option Z :=
  match non_null l with
  | [] => None
  | v :: vs => Some (fold_right Z.min v vs)
  end.

(* ----------------------------------------------------------------------- *)
(** ** Relational operators *)

Section Joins.
Context {A B : Type}.

(** [l inner join r on on]. *)
Definition inner_join (on : A -> B -> bool) (l : list A) (r : list B)
  : list (A * B) :=
  flat_map (fun a => map (pair a) (filter (on a) r)) l.

(** [l left join r on on]: an unmatched left row is kept once, with NULLs
    for the right side. *)
Definition left_join (on : A -> B -> bool) (l : list A) (r : list B)
  : list (A * option B) :=
  flat_map (fun a =>
              match filter (on a) r with
              | [] => [(a, None)]
              | ms => map (fun b => (a, Some b)) ms
              end) l.
End Joins.

(** [group by key]: one group per distinct key value (NULLs group together),
    each with its rows in physical order. *)
Definition group_by {A K} `{EqDec K} (key : A -> K) (l : list A)
  : list (K * list A) :=
  map (fun k => (k, filter (fun a => eqb (key a) k) l))
      (nodup eq_dec (map key l)).

(** Stable insertion sort; [le a b] says that [a] may come before [b]. *)
Fixpoint insert_by {A} (le : A -> A -> bool) (x : A) (l : list A) : list A :=
  match l with
  | [] => [x]
  | y :: l' => if le x y then x :: y :: l' else y :: insert_by le x l'
  end.

Fixpoint sort_by {A} (le : A -> A -> bool) (l : list A) : list A :=
  match l with
  | [] => []
  | x :: l' => insert_by le x (sort_by le l')
  end.

Definition asc {A} (k : A -> Z) (a b : A) : bool := k a <=? k b.
Definition desc {A} (k : A -> Z) (a b : A) : bool := k b <=? k a.

(** Number the rows of an ordered partition from 1. *)
Fixpoint number_from {A} (n : Z) (l : list A) : list (A * Z) :=
  match l with
  | [] => []
  | x :: l' => (x, n) :: number_from (n + 1) l'
  end.

(** [row_number() over (partition by pkey order by le)]. *)
Definition row_number {A P} `{EqDec P} (pkey : A -> P) (le : A -> A -> bool)
  (l : list A) : list (A * Z) :=
  flat_map (fun g => number_from 1 (sort_by le (snd g))) (group_by pkey l).

(** Pair every row of an ordered partition with the row before it. *)
Fixpoint with_prev {A} (prev : option A) (l : list A) : list (A * option A) :=
  match l with
  | [] => []
  | x :: l' => (x, prev) :: with_prev (Some x) l'
  end.

(** The row that [lag(...) over (partition by pkey order by le)] reads:
    the previous row of the partition, none for its first row. *)
Definition lag_row {A P} `{EqDec P} (pkey : A -> P) (le : A -> A -> bool)
  (l : list A) : list (A * option A) :=
  flat_map (fun g => with_prev None (sort_by le (snd g))) (group_by pkey l).

End SQL.

(* ------------------------------------------------------------------------- *)
(** ** macros/time_windows.sql: [calculate_time_window_aggs]

    The macro is generic in the relation and in its column names.  A row
    gives, for a column name, the value of that column read as a group-by
    key ([key_val]), as a date counted in days ([ts_val]) or as a numeric
    metric ([metric_val]); any of them may be NULL.  [current_date] is what
    the engine's [current_date()] returns for the statement.  The generated
    CTE [window_<w>] and columns [<metric>_<w>_day], [avg_<metric>_<w>_day]
    are named after the window length and the metric. *)

Module time_windows.

(** What the engine answers to the statement that a macro call renders:
    its rows, or a compilation error when the text is not a statement. *)
Inductive compiled (A : Type) :=
| Rows (rows : A)
| CompilationError.
Arguments Rows {A} rows.
Arguments CompilationError {A}.

Inductive out_col {col : Type} :=
| sum_day (metric : col) (window : Z)    (* {{ metric }}_{{ window }}_day *)
| avg_day (metric : col) (window : Z).   (* avg_{{ metric }}_{{ window }}_day *)
Arguments out_col col : clear implicits.

Section Macro.
Context {Row col KV : Type} `{EqDec col} `{EqDec KV}.
Variable key_val : col -> Row -> option KV.
Variable ts_val : col -> Row -> option Z.
Variable metric_val : col -> Row -> option Q.

(** [datediff('day', a, b)] on dates. *)
Definition datediff_day (a b : option Z) : option Z :=
  match a, b with
  | Some x, Some y => Some (y - x)
  | _, _ => None
  end.

Definition group_key (group_by_cols : list col) (r : Row) : list (option KV) :=
  map (fun c => key_val c r) group_by_cols.

(** [where datediff('day', ts, current_date()) <= window]; a NULL
    comparison does not pass. *)
Definition in_window (current_date : Z) (timestamp_col : col) (window : Z)
  (r : Row) : bool :=
  match datediff_day (ts_val timestamp_col r) (Some current_date) with
  | Some age => age <=? window
  | None => false
  end.

Record window_row := {
  w_key : list (option KV);
  w_aggs : list (col * (option Q * option Q))   (* metric: sum, avg *)
}.

(** The CTE [window_<w>]. *)
Definition window_cte (current_date : Z) (group_by_cols : list col)
  (timestamp_col : col) (metric_cols : list col) (window : Z)
  (source_data : list Row) : list window_row :=
  map (fun g =>
         {| w_key := fst g;
            w_aggs := map (fun m =>
                             (m, (SQL.sumq (map (metric_val m) (snd g)),
                                  SQL.avgq (map (metric_val m) (snd g)))))
                          metric_cols |})
      (SQL.group_by (group_key group_by_cols)
         (filter (in_window current_date timestamp_col window) source_data)).

(** [a = b] in a join condition: true only for equal non-NULL values. *)
Definition sql_eq (a b : option KV) : bool :=
  match a, b with
  | Some x, Some y => eqb x y
  | _, _ => false
  end.

(** [source_data.c1 = window_w.c1 and source_data.c2 = window_w.c2 ...]. *)
Fixpoint keys_match (a b : list (option KV)) : bool :=
  match a, b with
  | [], [] => true
  | x :: a', y :: b' => sql_eq x y && keys_match a' b'
  | _, _ => false
  end.

Fixpoint assoc {X V} `{EqDec X} (x : X) (l : list (X * V)) : option V :=
  match l with
  | [] => None
  | (y, v) :: l' => if eqb x y then Some v else assoc x l'
  end.

(** A row of [source_data left join window_w1 ... left join window_wn]:
    the source row and, per window name, the joined CTE row if any. *)
Definition joined_row : Type := Row * list (Z * option window_row).

Definition join_window (current_date : Z) (group_by_cols : list col)
  (timestamp_col : col) (metric_cols : list col) (source_data : list Row)
  (acc : list joined_row) (window : Z) : list joined_row :=
  map (fun p => (fst (fst p), snd (fst p) ++ [(window, snd p)]))
      (SQL.left_join
         (fun (jr : joined_row) wr =>
            keys_match (group_key group_by_cols (fst jr)) (w_key wr))
         acc
         (window_cte current_date group_by_cols timestamp_col metric_cols
            window source_data)).

(** [window_w.<column>] in the select list. *)
Definition cell (jr : joined_row) (window : Z) (metric : col)
  (pick : option Q * option Q -> option Q) : option Q :=
  match assoc window (snd jr) with
  | Some (Some wr) =>
      match assoc metric (w_aggs wr) with
      | Some p => pick p
      | None => None
      end
  | _ => None
  end.

Definition out_row : Type := list (option KV) * list (out_col col * Q).

Definition nonempty {X} (l : list X) : bool :=
  match l with
  | [] => false
  | _ :: _ => true
  end.

Fixpoint distinct {X} `{EqDec X} (l : list X) : bool :=
  match l with
  | [] => true
  | x :: l' => negb (existsb (eqb x) l') && distinct l'
  end.

(** The text that the template renders is a statement only for some
    argument lists.
    - The select lists, [group by] and [on] are written with [join] and
      [if not loop.last]: an empty [group_by_cols] leaves [select ,],
      [group by] and [on] without operand, an empty [metric_cols] leaves a
      comma before [from], and with no window the text ends after
      [with source_data as (...),].
    - A window length is part of the names [window_<w>] and
      [<metric>_<w>_day]: a negative length gives [window_-1], which is not
      an identifier, and a repeated length defines the CTE [window_<w>]
      twice.
    - A repeated metric or group-by column gives the CTE two columns of one
      name, and the references [window_<w>.<column>] of the final select
      are ambiguous.
    Column names are compared as the arguments are: no generated name is
    taken to collide with another column of the relation. *)
Definition compiles (group_by_cols metric_cols : list col) (windows : list Z)
  : bool :=
  nonempty group_by_cols && distinct group_by_cols
  && nonempty metric_cols && distinct metric_cols
  && nonempty windows && distinct windows
  && forallb (fun w => 0 <=? w) windows.

(** The rows of the final select, [source_data] left-joined with every
    [window_<w>]. *)
Definition statement_rows (current_date : Z) (source_data : list Row)
  (group_by_cols : list col) (timestamp_col : col) (metric_cols : list col)
  (windows : list Z) : list out_row :=
  let joined :=
    fold_left
      (join_window current_date group_by_cols timestamp_col metric_cols
         source_data)
      windows (map (fun r => (r, [])) source_data) in
  map (fun jr =>
         (group_key group_by_cols (fst jr),
          flat_map (fun w =>
            flat_map (fun m =>
              [(sum_day m w, SQL.coalesce (cell jr w m fst) 0%Q);
               (avg_day m w, SQL.coalesce (cell jr w m snd) 0%Q)])
              metric_cols)
            windows))
      joined.

Definition calculate_time_window_aggs (current_date : Z)
  (relation : list Row) (group_by_cols : list col) (timestamp_col : col)
  (metric_cols : list col) (time_windows : option (list Z))
  : compiled (list out_row) :=
  let default_windows := [7; 30; 90] in
  let windows :=
    match time_windows with Some ws => ws | None => default_windows end in
  if compiles group_by_cols metric_cols windows
  then Rows (statement_rows current_date relation group_by_cols timestamp_col
               metric_cols windows)
  else CompilationError.

(** The rows of group [k] that pass the membership test of window [w]. *)
Definition rows_in_window (current_date : Z) (group_by_cols : list col)
  (timestamp_col : col) (window : Z) (k : list (option KV))
  (relation : list Row) : list Row :=
  filter (fun r => eqb (group_key group_by_cols r) k)
         (filter (in_window current_date timestamp_col window) relation).

Definition is_some {X} (x : option X) : bool :=
  match x with Some _ => true | None => false end.

(** The value the contract asks for: the aggregate over the rows of the
    group inside the window, 0 when it is NULL. *)
Definition window_sum (now : Z) (g : list col) (ts m : col) (w : Z)
  (k : list (option KV)) (rel : list Row) : Q :=
  SQL.coalesce (SQL.sumq (map (metric_val m) (rows_in_window now g ts w k rel))) 0%Q.
Definition window_avg (now : Z) (g : list col) (ts m : col) (w : Z)
  (k : list (option KV)) (rel : list Row) : Q :=
  SQL.coalesce (SQL.avgq (map (metric_val m) (rows_in_window now g ts w k rel))) 0%Q.

(** The contract of the generator for one output row. *)
Definition carries_window_aggs now rel g ts ms ws (o : out_row) : Prop :=
  snd o =
  flat_map (fun w =>
    flat_map (fun m =>
      [(sum_day m w, window_sum now g ts m w (fst o) rel);
       (avg_day m w, window_avg now g ts m w (fst o) rel)]) ms) ws.

(** A row whose aggregates are all 0. *)
Definition carries_zeros ms ws (o : out_row) : Prop :=
  snd o =
  flat_map (fun w =>
    flat_map (fun m => [(sum_day m w, 0%Q); (avg_day m w, 0%Q)]) ms) ws.

(** The contract as the specification words it, for every base relation,
    group-key list and non-empty metric and window lists: the generator
    returns one relation, no group key is dropped and every output row
    carries the aggregates of its group. *)
Definition generator_contract now rel g ts ms ws : Prop :=
  ms <> [] -> ws <> [] ->
  exists t,
    calculate_time_window_aggs now rel g ts ms (Some ws) = Rows t /\
    map fst t = map (group_key g) rel /\
    Forall (carries_window_aggs now rel g ts ms ws) t.

(** A pipeline run executes its statements one after the other; the engine
    evaluates [current_date()] once for each statement, when it starts. *)
Record stage := {
  st_relation : list Row;
  st_group_by_cols : list col;
  st_timestamp_col : col;
  st_metric_cols : list col;
  st_time_windows : option (list Z)
}.

Definition run_stage (clock_reading : Z) (s : stage)
  : compiled (list out_row) :=
  calculate_time_window_aggs clock_reading (st_relation s)
    (st_group_by_cols s) (st_timestamp_col s) (st_metric_cols s)
    (st_time_windows s).

Fixpoint run_stages (clock_readings : list Z) (stages : list stage)
  : list (compiled (list out_row)) :=
  match clock_readings, stages with
  | c :: cs, s :: ss => run_stage c s :: run_stages cs ss
  | _, _ => []
  end.

(** Every stage of the run is evaluated against one and the same
    reference instant. *)
Definition single_reference_instant (clock_readings : list Z)
  (stages : list stage) : Prop :=
  exists now, run_stages clock_readings stages = map (run_stage now) stages.

End Macro.

(** A concrete relation for examples: one key column, one date column and one
    metric column, whatever the column name asked for. *)
Module Example.
Definition row : Type := option Z * option Z * option Q.
Definition key_val (_ : string) (r : row) : option Z := fst (fst r).
Definition ts_val (_ : string) (r : row) : option Z := snd (fst r).
Definition metric_val (_ : string) (r : row) : option Q := snd r.
Definition generate := calculate_time_window_aggs key_val ts_val metric_val.

(** One purchase of 5 units on day 3, for user 1. *)
Definition purchases : list row := [(Some 1, Some 3, Some (5 # 1))].

Definition weekly : stage :=
  {| st_relation := purchases;
     st_group_by_cols := ["user_id"%string];
     st_timestamp_col := "ordered_at"%string;
     st_metric_cols := ["amount"%string];
     st_time_windows := Some [7] |}.
End Example.

End time_windows.

(* ------------------------------------------------------------------------- *)
(** ** models/staging

    The staging models only rename the columns of the raw tables
    ([ORDER_ID as order_id], [ADD_TO_CART_ORDER as cart_position],
    [REORDERED as is_reordered], ...); the staged rows are the input of the
    pipeline.  Identifiers and the day and hour codes are integers; only
    [days_since_prior_order] is nullable (it is NULL for a first order, and
    holds whole days). *)

Module stg_instacart__orders.
Record row := {
  order_id : Z;
  user_id : Z;
  order_number : Z;
  order_dow : Z;
  order_hour_of_day : Z;
  days_since_prior_order : option Z;
  eval_set : string
}.
End stg_instacart__orders.

Module stg_instacart__order_products.
Record row := {
  order_id : Z;
  product_id : Z;
  cart_position : Z;
  is_reordered : Z
}.
End stg_instacart__order_products.

Module stg_instacart__products.
Record row := {
  product_id : Z;
  product_name : string;
  aisle_id : Z;
  department_id : Z
}.
End stg_instacart__products.

Module stg_instacart__aisles.
Record row := { aisle_id : Z; aisle_name : string }.
End stg_instacart__aisles.

Module stg_instacart__departments.
Record row := { department_id : Z; department_name : string }.
End stg_instacart__departments.

Module o := stg_instacart__orders.
Module op := stg_instacart__order_products.
Module p := stg_instacart__products.
Module a := stg_instacart__aisles.
Module d := stg_instacart__departments.

(** The staged relations a run reads through [ref]. *)
Record staged := {
  orders : list o.row;
  order_products : list op.row;
  products : list p.row;
  aisles : list a.row;
  departments : list d.row
}.

(** The [vars] of dbt_project.yml that the models read, and the one engine
    aggregate that has no rational value, [stddev]. *)
Record vars := {
  eval_set : string;
  min_orders : Z;
  stddev : list (option Z) -> option Q
}.

Definition default_vars (stddev : list (option Z) -> option Q) : vars :=
  {| eval_set := "prior"; min_orders := 4; stddev := stddev |}.

(** [where eval_set = '{{ var("eval_set", "prior") }}']. *)
Definition in_eval_set (v : vars) (r : o.row) : bool :=
  eqb (o.eval_set r) (eval_set v).

(** [case when is_reordered = 1 then 1 else 0 end]; a NULL flag (an order
    without lines after a left join) gives 0. *)
Definition reordered_flag (f : option Z) : option Z :=
  Some (if eqb f (Some 1) then 1 else 0).

Definition numq (z : option Z) : option Q := option_map inject_Z z.

Module Engine.

(** [median]: the middle value, or the mean of the two middle values. *)
Definition median (l : list (option Z)) : option Q :=
  let s := SQL.sort_by Z.leb (SQL.non_null l) in
  let n := List.length s in
  match s with
  | [] => None
  | _ =>
      if Nat.even n
      then Some (Qred (inject_Z (nth (n / 2 - 1) s 0 + nth (n / 2) s 0) / 2))
      else Some (inject_Z (nth (n / 2) s 0))
  end.

Definition occurrences (x : Z) (l : list Z) : nat :=
  List.length (filter (fun y => eqb y x) l).

(** [mode]: a most frequent value; among several, the one met first. *)
Definition mode (l : list (option Z)) : option Z :=
  let vs := SQL.non_null l in
  fold_right (fun x best =>
                match best with
                | Some b =>
                    if (occurrences b vs <=? occurrences x vs)%nat
                    then Some x else Some b
                | None => Some x
                end) None (nodup eq_dec vs).

End Engine.

(* ------------------------------------------------------------------------- *)
(** ** models/intermediate/int_instacart__user_order_metrics.sql *)

Module int_instacart__user_order_metrics.

Module orders_joined_row.
Record row := {
  order_id : Z;
  user_id : Z;
  order_number : Z;
  order_dow : Z;
  order_hour_of_day : Z;
  days_since_prior_order : option Z;
  basket_size : Z;
  reordered_items : option Z
}.
End orders_joined_row.
Module oj := orders_joined_row.

Record row := {
  user_id : Z;
  user_total_orders : option Z;
  avg_days_between_orders : option Q;
  std_days_between_orders : option Q;
  typical_order_hour : option Q;
  preferred_order_day : option Z;
  avg_order_hour : option Q;
  avg_basket_size : option Q;
  total_items_ordered : option Z;
  total_orders : Z;
  overall_reorder_rate : option Q
}.

Definition orders (v : vars) (db : staged) : list o.row :=
  filter (in_eval_set v) (orders db).

Definition orders_joined (v : vars) (db : staged) : list oj.row :=
  map (fun g =>
         match fst g with
         | (order_id, user_id, order_number, order_dow, order_hour_of_day,
            days_since_prior_order) =>
             {| oj.order_id := order_id;
                oj.user_id := user_id;
                oj.order_number := order_number;
                oj.order_dow := order_dow;
                oj.order_hour_of_day := order_hour_of_day;
                oj.days_since_prior_order := days_since_prior_order;
                oj.basket_size :=
                  SQL.count (map (fun r => option_map op.product_id (snd r))
                                 (snd g));
                oj.reordered_items :=
                  SQL.sum (map (fun r => reordered_flag
                                           (option_map op.is_reordered (snd r)))
                               (snd g)) |}
         end)
      (SQL.group_by
         (fun r : o.row * option op.row =>
            (o.order_id (fst r), o.user_id (fst r), o.order_number (fst r),
             o.order_dow (fst r), o.order_hour_of_day (fst r),
             o.days_since_prior_order (fst r)))
         (SQL.left_join (fun o op => eqb (o.order_id o) (op.order_id op))
            (orders v db) (order_products db))).

Definition user_metrics (v : vars) (db : staged) : result (list row) :=
  select (fun g =>
            let rows : list oj.row := snd g in
            overall_reorder_rate <-
              SQL.div (numq (SQL.sum (map oj.reordered_items rows)))
                      (numq (SQL.sum (map (fun r => Some (oj.basket_size r)) rows))) ;;
            Ok {| user_id := fst g;
                  user_total_orders :=
                    SQL.max (map (fun r => Some (oj.order_number r)) rows);
                  avg_days_between_orders :=
                    SQL.avg (map oj.days_since_prior_order rows);
                  std_days_between_orders :=
                    stddev v (map oj.days_since_prior_order rows);
                  typical_order_hour :=
                    Engine.median (map (fun r => Some (oj.order_hour_of_day r)) rows);
                  preferred_order_day :=
                    Engine.mode (map (fun r => Some (oj.order_dow r)) rows);
                  avg_order_hour :=
                    SQL.avg (map (fun r => Some (oj.order_hour_of_day r)) rows);
                  avg_basket_size :=
                    SQL.avg (map (fun r => Some (oj.basket_size r)) rows);
                  total_items_ordered :=
                    SQL.sum (map (fun r => Some (oj.basket_size r)) rows);
                  total_orders :=
                    SQL.count_distinct (map (fun r => Some (oj.order_id r)) rows);
                  overall_reorder_rate := overall_reorder_rate |})
         (SQL.group_by oj.user_id
            (filter (fun r => min_orders v <=? oj.order_number r)
                    (orders_joined v db))).

Definition model := user_metrics.

End int_instacart__user_order_metrics.

(* ------------------------------------------------------------------------- *)
(** ** models/intermediate/int_instacart__product_metrics.sql *)

Module int_instacart__product_metrics.

Record row := {
  product_id : Z;
  aisle_id : Z;
  department_id : Z;
  product_orders : Z;
  product_reorders : option Z;
  product_reorder_rate : option Q;
  product_avg_cart_position : option Q
}.

Definition orders (v : vars) (db : staged) : list o.row :=
  filter (in_eval_set v) (orders db).

Definition product_metrics (v : vars) (db : staged) : result (list row) :=
  select (fun g =>
            let rows : list (op.row * o.row * p.row) := snd g in
            let product_orders :=
              SQL.count_distinct
                (map (fun r => Some (op.order_id (fst (fst r)))) rows) in
            let product_reorders :=
              SQL.sum (map (fun r => reordered_flag
                                       (Some (op.is_reordered (fst (fst r)))))
                           rows) in
            product_reorder_rate <-
              SQL.div (numq product_reorders) (SQL.num product_orders) ;;
            Ok {| product_id := fst (fst (fst g));
                  aisle_id := snd (fst (fst g));
                  department_id := snd (fst g);
                  product_orders := product_orders;
                  product_reorders := product_reorders;
                  product_reorder_rate := product_reorder_rate;
                  product_avg_cart_position :=
                    SQL.avg (map (fun r => Some (op.cart_position (fst (fst r))))
                                 rows) |})
         (SQL.group_by
            (fun r : op.row * o.row * p.row =>
               (op.product_id (fst (fst r)), p.aisle_id (snd r),
                p.department_id (snd r)))
            (SQL.inner_join
               (fun r p => eqb (op.product_id (fst r)) (p.product_id p))
               (SQL.inner_join
                  (fun op o => eqb (op.order_id op) (o.order_id o))
                  (order_products db) (orders v db))
               (products db))).

Definition model := product_metrics.

End int_instacart__product_metrics.

(* ------------------------------------------------------------------------- *)
(** ** models/intermediate/int_instacart__user_product_metrics.sql *)

Module int_instacart__user_product_metrics.

Record row := {
  user_id : Z;
  product_id : Z;
  up_orders : Z;
  up_last_order_id : option Z;
  up_sum_pos_in_cart : option Z;
  up_avg_cart_position : option Q;
  up_last_order_hour : option Z;
  up_orders_ratio : option Q;
  up_orders_since_last : option Z;
  up_delta_hour_vs_last : option Z
}.

Definition orders (v : vars) (db : staged) : list o.row :=
  filter (in_eval_set v) (orders db).

Definition user_orders (v : vars) (db : staged) : list (o.row * op.row) :=
  SQL.inner_join (fun o op => eqb (o.order_id o) (op.order_id op))
    (orders v db) (order_products db).

Definition user_product_metrics (v : vars) (db : staged) : result (list row) :=
  select (fun g =>
            let rows : list (o.row * op.row) := snd g in
            let order_ids := map (fun r => Some (o.order_id (fst r))) rows in
            let order_numbers := map (fun r => Some (o.order_number (fst r))) rows in
            let hours := map (fun r => Some (o.order_hour_of_day (fst r))) rows in
            let positions := map (fun r => Some (op.cart_position (snd r))) rows in
            up_orders_ratio <-
              SQL.div (SQL.num (SQL.count_distinct order_ids))
                      (SQL.nullif (numq (SQL.max order_numbers)) 0) ;;
            Ok {| user_id := fst (fst g);
                  product_id := snd (fst g);
                  up_orders := SQL.count_distinct order_ids;
                  up_last_order_id := SQL.max order_numbers;
                  up_sum_pos_in_cart := SQL.sum positions;
                  up_avg_cart_position := SQL.avg positions;
                  up_last_order_hour := SQL.max hours;
                  up_orders_ratio := up_orders_ratio;
                  up_orders_since_last := SQL.max order_numbers;
                  up_delta_hour_vs_last :=
                    option_map Z.abs (SQL.sub (SQL.max hours) (SQL.min hours)) |})
         (SQL.group_by
            (fun r : o.row * op.row => (o.user_id (fst r), op.product_id (snd r)))
            (user_orders v db)).

Definition model := user_product_metrics.

End int_instacart__user_product_metrics.

(* ------------------------------------------------------------------------- *)
(** ** models/marts/core/instacart__user_features.sql *)

Module instacart__user_features.
Module um := int_instacart__user_order_metrics.

Module distinct_products_row.
Record row := { user_id : Z; distinct_products_count : Z }.
End distinct_products_row.
Module dp := distinct_products_row.

Module reorder_stats_row.
Record row := {
  user_id : Z;
  total_reordered_products : option Z;
  reorder_rate : option Q
}.
End reorder_stats_row.
Module rs := reorder_stats_row.

Record row := {
  user_id : Z;
  user_total_orders : option Z;
  avg_days_between_orders : option Q;
  std_days_between_orders : option Q;
  typical_order_hour : option Q;
  preferred_order_day : option Z;
  avg_order_hour : option Q;
  avg_basket_size : option Q;
  total_items_ordered : option Z;
  distinct_products_count : Z;
  avg_unique_products_per_order : option Q;
  total_reordered_products : option Z;
  reorder_rate : option Q;
  last_order_dow : Z;
  last_order_hour : Z;
  last_order_days_since_prior : option Z
}.

Definition user_metrics (v : vars) (db : staged) : result (list um.row) :=
  um.model v db.

(** A row of [last_orders] is an order with its [rn]. *)
Definition last_orders (v : vars) (db : staged) : list (o.row * Z) :=
  SQL.row_number o.user_id (SQL.desc o.order_number)
    (filter (in_eval_set v) (orders db)).

Definition last_order_per_user (v : vars) (db : staged) : list (o.row * Z) :=
  filter (fun r => snd r =? 1) (last_orders v db).

Definition distinct_products (v : vars) (db : staged) : list dp.row :=
  map (fun g =>
         {| dp.user_id := fst g;
            dp.distinct_products_count :=
              SQL.count_distinct
                (map (fun r : o.row * op.row => Some (op.product_id (snd r)))
                     (snd g)) |})
      (SQL.group_by (fun r : o.row * op.row => o.user_id (fst r))
         (filter (fun r => in_eval_set v (fst r))
            (SQL.inner_join (fun o op => eqb (o.order_id o) (op.order_id op))
               (orders db) (order_products db)))).

Definition reorder_stats (v : vars) (db : staged) : result (list rs.row) :=
  select (fun g =>
            let rows : list (o.row * op.row) := snd g in
            let reordered :=
              SQL.sum (map (fun r => Some (op.is_reordered (snd r))) rows) in
            reorder_rate <-
              SQL.div (numq reordered)
                      (SQL.nullif
                         (SQL.num (SQL.count
                            (map (fun r => Some (op.product_id (snd r))) rows)))
                         0) ;;
            Ok {| rs.user_id := fst g;
                  rs.total_reordered_products := reordered;
                  rs.reorder_rate := reorder_rate |})
         (SQL.group_by (fun r : o.row * op.row => o.user_id (fst r))
            (filter (fun r => in_eval_set v (fst r))
               (SQL.inner_join (fun o op => eqb (o.order_id o) (op.order_id op))
                  (orders db) (order_products db)))).

Definition final (v : vars) (db : staged) : result (list row) :=
  user_metrics <- user_metrics v db ;;
  reorder_stats <- reorder_stats v db ;;
  select (fun j : um.row * dp.row * rs.row * (o.row * Z) =>
            let '(um, dp, rs, lo) := j in
            avg_unique_products_per_order <-
              SQL.div (SQL.num (dp.distinct_products_count dp))
                      (SQL.nullif (SQL.num (um.total_orders um)) 0) ;;
            Ok {| user_id := um.user_id um;
                  user_total_orders := um.user_total_orders um;
                  avg_days_between_orders := um.avg_days_between_orders um;
                  std_days_between_orders := um.std_days_between_orders um;
                  typical_order_hour := um.typical_order_hour um;
                  preferred_order_day := um.preferred_order_day um;
                  avg_order_hour := um.avg_order_hour um;
                  avg_basket_size := um.avg_basket_size um;
                  total_items_ordered := um.total_items_ordered um;
                  distinct_products_count := dp.distinct_products_count dp;
                  avg_unique_products_per_order := avg_unique_products_per_order;
                  total_reordered_products := rs.total_reordered_products rs;
                  reorder_rate := rs.reorder_rate rs;
                  last_order_dow := o.order_dow (fst lo);
                  last_order_hour := o.order_hour_of_day (fst lo);
                  last_order_days_since_prior :=
                    o.days_since_prior_order (fst lo) |})
         (SQL.inner_join
            (fun (j : um.row * dp.row * rs.row) (lo : o.row * Z) =>
               eqb (um.user_id (fst (fst j))) (o.user_id (fst lo)))
            (SQL.inner_join
               (fun (j : um.row * dp.row) (rs : rs.row) =>
                  eqb (um.user_id (fst j)) (rs.user_id rs))
               (SQL.inner_join
                  (fun (um : um.row) (dp : dp.row) =>
                     eqb (um.user_id um) (dp.user_id dp))
                  user_metrics (distinct_products v db))
               reorder_stats)
            (last_order_per_user v db)).

Definition model := final.

End instacart__user_features.

(* ------------------------------------------------------------------------- *)
(** ** models/marts/core/instacart__product_features.sql *)

Module instacart__product_features.
Module pm := int_instacart__product_metrics.

Module product_peak_hours_row.
Record row := { product_id : Z; peak_hour : Z; orders_in_hour : Z }.
End product_peak_hours_row.
Module pph := product_peak_hours_row.

Module product_peak_days_row.
Record row := { product_id : Z; peak_day : Z; orders_in_day : Z }.
End product_peak_days_row.
Module ppd := product_peak_days_row.

Module department_stats_row.
Record row := {
  department_id : Z;
  avg_dept_orders : option Q;
  avg_dept_reorder_rate : option Q
}.
End department_stats_row.
Module ds := department_stats_row.

Record row := {
  product_id : Z;
  product_name : string;
  aisle_id : Z;
  aisle_name : string;
  department_id : Z;
  department_name : string;
  product_orders : Z;
  product_reorders : option Z;
  product_reorder_rate : option Q;
  product_avg_cart_position : option Q;
  department_popularity_rank : Z;
  aisle_popularity_rank : Z;
  peak_hour : option Z;
  peak_day : option Z;
  department_order_ratio : option Q;
  department_reorder_ratio : option Q
}.

(** A ranking row is a row of [product_metrics] with its rank. *)
Definition department_rankings (product_metrics : list pm.row)
  : list (pm.row * Z) :=
  SQL.row_number pm.department_id (SQL.desc pm.product_orders) product_metrics.

Definition aisle_rankings (product_metrics : list pm.row) : list (pm.row * Z) :=
  SQL.row_number pm.aisle_id (SQL.desc pm.product_orders) product_metrics.

(** The rows [op inner join o ... where o.eval_set = ...] that both peak
    CTEs group. *)
Definition purchases (v : vars) (db : staged) : list (op.row * o.row) :=
  filter (fun r => in_eval_set v (snd r))
    (SQL.inner_join (fun op o => eqb (op.order_id op) (o.order_id o))
       (order_products db) (orders db)).

(** The grouped select of [product_peak_hours], one row per product and hour:
    the rows that the window function of [product_peak_hours] ranks. *)
Definition orders_per_hour (v : vars) (db : staged) : list pph.row :=
  map (fun g =>
         {| pph.product_id := fst (fst g);
            pph.peak_hour := snd (fst g);
            pph.orders_in_hour := SQL.count_star (snd g) |})
      (SQL.group_by
         (fun r : op.row * o.row =>
            (op.product_id (fst r), o.order_hour_of_day (snd r)))
         (purchases v db)).

Definition product_peak_hours (v : vars) (db : staged) : list (pph.row * Z) :=
  filter (fun r => snd r =? 1)
    (SQL.row_number pph.product_id (SQL.desc pph.orders_in_hour)
       (orders_per_hour v db)).

Definition orders_per_day (v : vars) (db : staged) : list ppd.row :=
  map (fun g =>
         {| ppd.product_id := fst (fst g);
            ppd.peak_day := snd (fst g);
            ppd.orders_in_day := SQL.count_star (snd g) |})
      (SQL.group_by
         (fun r : op.row * o.row =>
            (op.product_id (fst r), o.order_dow (snd r)))
         (purchases v db)).

Definition product_peak_days (v : vars) (db : staged) : list (ppd.row * Z) :=
  filter (fun r => snd r =? 1)
    (SQL.row_number ppd.product_id (SQL.desc ppd.orders_in_day)
       (orders_per_day v db)).

Definition department_stats (product_metrics : list pm.row) : list ds.row :=
  map (fun g =>
         {| ds.department_id := fst g;
            ds.avg_dept_orders :=
              SQL.avg (map (fun r => Some (pm.product_orders r)) (snd g));
            ds.avg_dept_reorder_rate :=
              SQL.avgq (map pm.product_reorder_rate (snd g)) |})
      (SQL.group_by pm.department_id product_metrics).

Definition joined_row : Type :=
  p.row * pm.row * a.row * d.row * (pm.row * Z) * (pm.row * Z) * ds.row
  * option (pph.row * Z) * option (ppd.row * Z).

Definition final (v : vars) (db : staged) : result (list row) :=
  product_metrics <- pm.model v db ;;
  select (fun j : joined_row =>
            let '(p, pm, a, d, dr, ar, ds, pph, ppd) := j in
            department_order_ratio <-
              SQL.div (SQL.num (pm.product_orders pm))
                      (SQL.nullif (ds.avg_dept_orders ds) 0) ;;
            department_reorder_ratio <-
              SQL.div (pm.product_reorder_rate pm)
                      (SQL.nullif (ds.avg_dept_reorder_rate ds) 0) ;;
            Ok {| product_id := p.product_id p;
                  product_name := p.product_name p;
                  aisle_id := a.aisle_id a;
                  aisle_name := a.aisle_name a;
                  department_id := d.department_id d;
                  department_name := d.department_name d;
                  product_orders := pm.product_orders pm;
                  product_reorders := pm.product_reorders pm;
                  product_reorder_rate := pm.product_reorder_rate pm;
                  product_avg_cart_position := pm.product_avg_cart_position pm;
                  department_popularity_rank := snd dr;
                  aisle_popularity_rank := snd ar;
                  peak_hour := option_map (fun r => pph.peak_hour (fst r)) pph;
                  peak_day := option_map (fun r => ppd.peak_day (fst r)) ppd;
                  department_order_ratio := department_order_ratio;
                  department_reorder_ratio := department_reorder_ratio |})
    (SQL.left_join
       (fun '(p, _, _, _, _, _, _, _) (ppd : ppd.row * Z) =>
          eqb (p.product_id p) (ppd.product_id (fst ppd)))
    (SQL.left_join
       (fun '(p, _, _, _, _, _, _) (pph : pph.row * Z) =>
          eqb (p.product_id p) (pph.product_id (fst pph)))
    (SQL.inner_join
       (fun '(p, _, _, _, _, _) (ds : ds.row) =>
          eqb (p.department_id p) (ds.department_id ds))
    (SQL.inner_join
       (fun '(p, _, _, _, _) (ar : pm.row * Z) =>
          eqb (p.product_id p) (pm.product_id (fst ar)))
    (SQL.inner_join
       (fun '(p, _, _, _) (dr : pm.row * Z) =>
          eqb (p.product_id p) (pm.product_id (fst dr)))
    (SQL.inner_join
       (fun '(p, _, _) (d : d.row) =>
          eqb (p.department_id p) (d.department_id d))
    (SQL.inner_join
       (fun '(p, _) (a : a.row) => eqb (p.aisle_id p) (a.aisle_id a))
    (SQL.inner_join
       (fun (p : p.row) (pm : pm.row) =>
          eqb (p.product_id p) (pm.product_id pm))
       (products db) product_metrics)
       (aisles db))
       (departments db))
       (department_rankings product_metrics))
       (aisle_rankings product_metrics))
       (department_stats product_metrics))
       (product_peak_hours v db))
       (product_peak_days v db)).

Definition model := final.

End instacart__product_features.

(* ------------------------------------------------------------------------- *)
(** ** The day parts of both feature models *)

Definition morning : string := "morning".
Definition midday : string := "midday".
Definition evening : string := "evening".
Definition night : string := "night".

(** [case when h between 5 and 9 then 'morning' when h between 10 and 14
    then 'midday' when h between 15 and 19 then 'evening' else 'night' end]. *)
Definition day_part_of (hour : Z) : string :=
  if SQL.between hour 5 9 then morning
  else if SQL.between hour 10 14 then midday
  else if SQL.between hour 15 19 then evening
  else night.

(** The four bucket tests of [user_product_time_patterns]. *)
Definition is_morning (hour : Z) : bool := SQL.between hour 5 9.
Definition is_midday (hour : Z) : bool := SQL.between hour 10 14.
Definition is_evening (hour : Z) : bool := SQL.between hour 15 19.
Definition is_night (hour : Z) : bool := (20 <=? hour) || (hour <? 5).

(** [sum(case when c then 1 else 0 end)] over the rows of a group. *)
Definition count_when {A} (c : A -> bool) (rows : list A) : option Z :=
  SQL.sum (map (fun r => Some (if c r then 1 else 0)) rows).

(* ------------------------------------------------------------------------- *)
(** ** models/marts/core/instacart__order_features.sql *)

Module instacart__order_features.

Module order_metrics_row.
Record row := {
  order_id : Z;
  user_id : Z;
  order_number : Z;
  order_dow : Z;
  order_hour_of_day : Z;
  days_since_prior_order : option Z;
  basket_size : Z;
  num_reordered_items : option Z;
  reorder_ratio : option Q;
  avg_cart_position : option Q;
  min_cart_position : option Z;
  max_cart_position : option Z
}.
End order_metrics_row.
Module om := order_metrics_row.

Module prev_order_metrics_row.
Record row := {
  user_id : Z;
  order_number : Z;
  order_id : Z;
  prev_basket_size : option Z;
  prev_reorder_ratio : option Q;
  prev_order_dow : option Z;
  prev_order_hour : option Z
}.
End prev_order_metrics_row.
Module pom := prev_order_metrics_row.

Module product_diversity_row.
Record row := { order_id : Z; unique_aisles : Z; unique_departments : Z }.
End product_diversity_row.
Module pd := product_diversity_row.

Record row := {
  order_id : Z;
  user_id : Z;
  order_number : Z;
  order_dow : Z;
  order_hour_of_day : Z;
  days_since_prior_order : option Z;
  basket_size : Z;
  num_reordered_items : option Z;
  reorder_ratio : option Q;
  avg_cart_position : option Q;
  min_cart_position : option Z;
  max_cart_position : option Z;
  unique_aisles : option Z;
  unique_departments : option Z;
  aisle_diversity_ratio : option Q;
  department_diversity_ratio : option Q;
  basket_size_delta : option Z;
  reorder_ratio_delta : option Q;
  same_day_as_last_order : Z;
  similar_hour_as_last_order : Z;
  day_part : string
}.

Definition orders (v : vars) (db : staged) : list o.row :=
  filter (in_eval_set v) (orders db).

Definition order_metrics (v : vars) (db : staged) : result (list om.row) :=
  select (fun g =>
            let rows : list (o.row * option op.row) := snd g in
            let product_ids :=
              map (fun r => option_map op.product_id (snd r)) rows in
            let flags :=
              map (fun r => reordered_flag (option_map op.is_reordered (snd r)))
                  rows in
            let positions :=
              map (fun r => option_map op.cart_position (snd r)) rows in
            reorder_ratio <-
              SQL.div (numq (SQL.sum flags))
                      (SQL.nullif (SQL.num (SQL.count product_ids)) 0) ;;
            Ok match fst g with
               | (order_id, user_id, order_number, order_dow,
                  order_hour_of_day, days_since_prior_order) =>
                   {| om.order_id := order_id;
                      om.user_id := user_id;
                      om.order_number := order_number;
                      om.order_dow := order_dow;
                      om.order_hour_of_day := order_hour_of_day;
                      om.days_since_prior_order := days_since_prior_order;
                      om.basket_size := SQL.count product_ids;
                      om.num_reordered_items := SQL.sum flags;
                      om.reorder_ratio := reorder_ratio;
                      om.avg_cart_position := SQL.avg positions;
                      om.min_cart_position := SQL.min positions;
                      om.max_cart_position := SQL.max positions |}
               end)
         (SQL.group_by
            (fun r : o.row * option op.row =>
               (o.order_id (fst r), o.user_id (fst r), o.order_number (fst r),
                o.order_dow (fst r), o.order_hour_of_day (fst r),
                o.days_since_prior_order (fst r)))
            (SQL.left_join (fun o op => eqb (o.order_id o) (op.order_id op))
               (orders v db) (order_products db))).

(** [lag(x) over (partition by o.user_id order by o.order_number)] reads
    [x] in the previous row of the user's partition. *)
Definition prev_order_metrics (v : vars) (db : staged)
  (order_metrics : list om.row) : list pom.row :=
  map (fun r : (o.row * om.row) * option (o.row * om.row) =>
         let '(o, _) := fst r in
         let prev := snd r in
         {| pom.user_id := o.user_id o;
            pom.order_number := o.order_number o;
            pom.order_id := o.order_id o;
            pom.prev_basket_size :=
              option_map (fun q => om.basket_size (snd q)) prev;
            pom.prev_reorder_ratio :=
              match prev with
              | Some q => om.reorder_ratio (snd q)
              | None => None
              end;
            pom.prev_order_dow := option_map (fun q => o.order_dow (fst q)) prev;
            pom.prev_order_hour :=
              option_map (fun q => o.order_hour_of_day (fst q)) prev |})
      (SQL.lag_row (fun r : o.row * om.row => o.user_id (fst r))
         (SQL.asc (fun r : o.row * om.row => o.order_number (fst r)))
         (SQL.inner_join (fun o om => eqb (o.order_id o) (om.order_id om))
            (orders v db) order_metrics)).

Definition product_diversity (v : vars) (db : staged) : list pd.row :=
  map (fun g =>
         {| pd.order_id := fst g;
            pd.unique_aisles :=
              SQL.count_distinct
                (map (fun r : o.row * op.row * p.row => Some (p.aisle_id (snd r)))
                     (snd g));
            pd.unique_departments :=
              SQL.count_distinct
                (map (fun r : o.row * op.row * p.row =>
                        Some (p.department_id (snd r)))
                     (snd g)) |})
      (SQL.group_by (fun r : o.row * op.row * p.row => o.order_id (fst (fst r)))
         (SQL.inner_join
            (fun (r : o.row * op.row) p =>
               eqb (op.product_id (snd r)) (p.product_id p))
            (SQL.inner_join (fun o op => eqb (o.order_id o) (op.order_id op))
               (orders v db) (order_products db))
            (products db))).

(** [case when abs(a - b) = 0 then 1 else 0 end]; NULL falls to [else]. *)
Definition same_as (a : Z) (b : option Z) : Z :=
  match SQL.sub (Some a) b with
  | Some x => if Z.abs x =? 0 then 1 else 0
  | None => 0
  end.

(** [case when abs(a - b) <= 3 then 1 else 0 end]. *)
Definition within_3 (a : Z) (b : option Z) : Z :=
  match SQL.sub (Some a) b with
  | Some x => if Z.abs x <=? 3 then 1 else 0
  | None => 0
  end.

Definition final (v : vars) (db : staged) : result (list row) :=
  order_metrics <- order_metrics v db ;;
  select (fun j : om.row * option pom.row * option pd.row =>
            let '(om, pom, pd) := j in
            let unique_aisles := option_map pd.unique_aisles pd in
            let unique_departments := option_map pd.unique_departments pd in
            let prev_basket_size :=
              match pom with Some r => pom.prev_basket_size r | None => None end in
            let prev_reorder_ratio :=
              match pom with Some r => pom.prev_reorder_ratio r | None => None end in
            let prev_order_dow :=
              match pom with Some r => pom.prev_order_dow r | None => None end in
            let prev_order_hour :=
              match pom with Some r => pom.prev_order_hour r | None => None end in
            aisle_diversity_ratio <-
              SQL.div (numq unique_aisles)
                      (SQL.nullif (SQL.num (om.basket_size om)) 0) ;;
            department_diversity_ratio <-
              SQL.div (numq unique_departments)
                      (SQL.nullif (SQL.num (om.basket_size om)) 0) ;;
            Ok {| order_id := om.order_id om;
                  user_id := om.user_id om;
                  order_number := om.order_number om;
                  order_dow := om.order_dow om;
                  order_hour_of_day := om.order_hour_of_day om;
                  days_since_prior_order := om.days_since_prior_order om;
                  basket_size := om.basket_size om;
                  num_reordered_items := om.num_reordered_items om;
                  reorder_ratio := om.reorder_ratio om;
                  avg_cart_position := om.avg_cart_position om;
                  min_cart_position := om.min_cart_position om;
                  max_cart_position := om.max_cart_position om;
                  unique_aisles := unique_aisles;
                  unique_departments := unique_departments;
                  aisle_diversity_ratio := aisle_diversity_ratio;
                  department_diversity_ratio := department_diversity_ratio;
                  basket_size_delta :=
                    SQL.sub (Some (om.basket_size om)) prev_basket_size;
                  reorder_ratio_delta :=
                    SQL.subq (om.reorder_ratio om) prev_reorder_ratio;
                  same_day_as_last_order :=
                    same_as (om.order_dow om) prev_order_dow;
                  similar_hour_as_last_order :=
                    within_3 (om.order_hour_of_day om) prev_order_hour;
                  day_part := day_part_of (om.order_hour_of_day om) |})
         (SQL.left_join
            (fun (j : om.row * option pom.row) (pd : pd.row) =>
               eqb (om.order_id (fst j)) (pd.order_id pd))
            (SQL.left_join
               (fun (om : om.row) (pom : pom.row) =>
                  eqb (om.order_id om) (pom.order_id pom))
               order_metrics (prev_order_metrics v db order_metrics))
            (product_diversity v db)).

Definition model := final.

End instacart__order_features.

(* ------------------------------------------------------------------------- *)
(** ** models/marts/core/instacart__user_product_features.sql *)

Module instacart__user_product_features.
Module upm := int_instacart__user_product_metrics.
Module uf := instacart__user_features.
Module pfm := instacart__product_features.

Module product_features_row.
Record row := {
  product_id : Z;
  product_orders : Z;
  product_reorder_rate : option Q
}.
End product_features_row.
Module pf := product_features_row.

Module last_purchase_row.
Record row := {
  user_id : Z;
  product_id : Z;
  last_purchase_order_number : Z
}.
End last_purchase_row.
Module lp := last_purchase_row.

Module user_product_time_patterns_row.
Record row := {
  user_id : Z;
  product_id : Z;
  dow_0_purchases : option Z;
  dow_1_purchases : option Z;
  dow_2_purchases : option Z;
  dow_3_purchases : option Z;
  dow_4_purchases : option Z;
  dow_5_purchases : option Z;
  dow_6_purchases : option Z;
  morning_purchases : option Z;
  midday_purchases : option Z;
  evening_purchases : option Z;
  night_purchases : option Z
}.
End user_product_time_patterns_row.
Module uptp := user_product_time_patterns_row.

Module user_avg_stats_row.
Record row := { user_id : Z; avg_basket_size : option Q }.
End user_avg_stats_row.
Module uas := user_avg_stats_row.

Module user_product_normalized_row.
Record row := {
  user_id : Z;
  product_id : Z;
  up_orders : Z;
  user_relative_frequency : option Q;
  product_relative_frequency : option Q;
  relative_cart_position : option Q
}.
End user_product_normalized_row.
Module upn := user_product_normalized_row.

Module dominant_day_parts_row.
Record row := { user_id : Z; product_id : Z; dominant_day_part : string }.
End dominant_day_parts_row.
Module ddp := dominant_day_parts_row.

Module dominant_dows_row.
Record row := { user_id : Z; product_id : Z; dominant_dow : Z }.
End dominant_dows_row.
Module dd := dominant_dows_row.

Record row := {
  user_id : Z;
  product_id : Z;
  user_product_id : string;
  up_orders : Z;
  up_last_order_id : option Z;
  up_sum_pos_in_cart : option Z;
  up_avg_cart_position : option Q;
  up_last_order_hour : option Z;
  up_orders_ratio : option Q;
  up_orders_since_last : option Z;
  up_delta_hour_vs_last : option Z;
  last_purchase_order_number : option Z;
  orders_since_last_purchase : option Z;
  dow_0_purchases : option Z;
  dow_1_purchases : option Z;
  dow_2_purchases : option Z;
  dow_3_purchases : option Z;
  dow_4_purchases : option Z;
  dow_5_purchases : option Z;
  dow_6_purchases : option Z;
  morning_purchases : option Z;
  midday_purchases : option Z;
  evening_purchases : option Z;
  night_purchases : option Z;
  dominant_day_part : option string;
  dominant_dow : option Z;
  user_relative_frequency : option Q;
  product_relative_frequency : option Q;
  relative_cart_position : option Q
}.

Definition orders (v : vars) (db : staged) : list o.row :=
  filter (in_eval_set v) (orders db).

Definition product_features (product_features : list pfm.row) : list pf.row :=
  map (fun r => {| pf.product_id := pfm.product_id r;
                   pf.product_orders := pfm.product_orders r;
                   pf.product_reorder_rate := pfm.product_reorder_rate r |})
      product_features.

Definition purchases (v : vars) (db : staged) : list (o.row * op.row) :=
  SQL.inner_join (fun o op => eqb (o.order_id o) (op.order_id op))
    (orders v db) (order_products db).

(** A row of [user_product_recency] is a purchase with its [rn]. *)
Definition user_product_recency (v : vars) (db : staged)
  : list (o.row * op.row * Z) :=
  SQL.row_number
    (fun r : o.row * op.row => (o.user_id (fst r), op.product_id (snd r)))
    (SQL.desc (fun r : o.row * op.row => o.order_number (fst r)))
    (purchases v db).

Definition last_purchase (v : vars) (db : staged) : list lp.row :=
  map (fun r : o.row * op.row * Z =>
         {| lp.user_id := o.user_id (fst (fst r));
            lp.product_id := op.product_id (snd (fst r));
            lp.last_purchase_order_number := o.order_number (fst (fst r)) |})
      (filter (fun r => snd r =? 1) (user_product_recency v db)).

Definition user_product_time_patterns (v : vars) (db : staged)
  : list uptp.row :=
  map (fun g =>
         let rows : list (o.row * op.row) := snd g in
         let dow k := count_when (fun r => o.order_dow (fst r) =? k) rows in
         let part c := count_when (fun r => c (o.order_hour_of_day (fst r))) rows in
         {| uptp.user_id := fst (fst g);
            uptp.product_id := snd (fst g);
            uptp.dow_0_purchases := dow 0;
            uptp.dow_1_purchases := dow 1;
            uptp.dow_2_purchases := dow 2;
            uptp.dow_3_purchases := dow 3;
            uptp.dow_4_purchases := dow 4;
            uptp.dow_5_purchases := dow 5;
            uptp.dow_6_purchases := dow 6;
            uptp.morning_purchases := part is_morning;
            uptp.midday_purchases := part is_midday;
            uptp.evening_purchases := part is_evening;
            uptp.night_purchases := part is_night |})
      (SQL.group_by
         (fun r : o.row * op.row => (o.user_id (fst r), op.product_id (snd r)))
         (purchases v db)).

Definition user_avg_stats (user_features : list uf.row) : list uas.row :=
  map (fun r => {| uas.user_id := uf.user_id r;
                   uas.avg_basket_size := uf.avg_basket_size r |})
      user_features.

Definition user_product_normalized (user_product_metrics : list upm.row)
  (user_features : list uf.row) (product_features : list pf.row)
  : result (list upn.row) :=
  select (fun j : upm.row * uas.row * pf.row =>
            let '(upm, uas, pf) := j in
            user_relative_frequency <-
              SQL.div (SQL.num (upm.up_orders upm))
                      (SQL.nullif (uas.avg_basket_size uas) 0) ;;
            product_relative_frequency <-
              SQL.div (SQL.num (upm.up_orders upm))
                      (SQL.nullif (SQL.num (pf.product_orders pf)) 0) ;;
            relative_cart_position <-
              SQL.div (upm.up_avg_cart_position upm)
                      (SQL.nullif (uas.avg_basket_size uas) 0) ;;
            Ok {| upn.user_id := upm.user_id upm;
                  upn.product_id := upm.product_id upm;
                  upn.up_orders := upm.up_orders upm;
                  upn.user_relative_frequency := user_relative_frequency;
                  upn.product_relative_frequency := product_relative_frequency;
                  upn.relative_cart_position := relative_cart_position |})
         (SQL.inner_join
            (fun (j : upm.row * uas.row) (pf : pf.row) =>
               eqb (upm.product_id (fst j)) (pf.product_id pf))
            (SQL.inner_join
               (fun (upm : upm.row) (uas : uas.row) =>
                  eqb (upm.user_id upm) (uas.user_id uas))
               user_product_metrics (user_avg_stats user_features))
            product_features).

(** [greatest(x1, ..., xn)]: NULL as soon as one argument is NULL. *)
Definition greatest (x : option Z) (xs : list (option Z)) : option Z :=
  fold_left (fun acc y =>
               match acc, y with
               | Some a, Some b => Some (Z.max a b)
               | _, _ => None
               end) xs x.

(** [case g when x then ...]: the branch is taken when [g = x] is true. *)
Definition is_value (g x : option Z) : bool :=
  match g, x with
  | Some a, Some b => a =? b
  | _, _ => false
  end.

Definition dominant_day_part_of (r : uptp.row) : string :=
  let g := greatest (uptp.morning_purchases r)
             [uptp.midday_purchases r; uptp.evening_purchases r;
              uptp.night_purchases r] in
  if is_value g (uptp.morning_purchases r) then morning
  else if is_value g (uptp.midday_purchases r) then midday
  else if is_value g (uptp.evening_purchases r) then evening
  else night.

Definition dominant_dow_of (r : uptp.row) : Z :=
  let g := greatest (uptp.dow_0_purchases r)
             [uptp.dow_1_purchases r; uptp.dow_2_purchases r;
              uptp.dow_3_purchases r; uptp.dow_4_purchases r;
              uptp.dow_5_purchases r; uptp.dow_6_purchases r] in
  if is_value g (uptp.dow_0_purchases r) then 0
  else if is_value g (uptp.dow_1_purchases r) then 1
  else if is_value g (uptp.dow_2_purchases r) then 2
  else if is_value g (uptp.dow_3_purchases r) then 3
  else if is_value g (uptp.dow_4_purchases r) then 4
  else if is_value g (uptp.dow_5_purchases r) then 5
  else 6.

Definition dominant_day_parts (v : vars) (db : staged) : list ddp.row :=
  map (fun r => {| ddp.user_id := uptp.user_id r;
                   ddp.product_id := uptp.product_id r;
                   ddp.dominant_day_part := dominant_day_part_of r |})
      (user_product_time_patterns v db).

Definition dominant_dows (v : vars) (db : staged) : list dd.row :=
  map (fun r => {| dd.user_id := uptp.user_id r;
                   dd.product_id := uptp.product_id r;
                   dd.dominant_dow := dominant_dow_of r |})
      (user_product_time_patterns v db).

(** An integer written in decimal, as [concat] does. *)
Definition to_varchar (z : Z) : string :=
  NilZero.string_of_int (Z.to_int z).

(** [concat(user_id, '_', product_id)]. *)
Definition concat_key (user_id product_id : Z) : string :=
  (to_varchar user_id ++ "_" ++ to_varchar product_id)%string.

(** The composite key of a metric row. *)
Definition up_key (r : upm.row) : Z * Z := (upm.user_id r, upm.product_id r).

Definition joined_row : Type :=
  upm.row * uf.row * pf.row * option lp.row * option uptp.row
  * option upn.row * option ddp.row * option dd.row.

Definition col {A B} (r : option A) (f : A -> option B) : option B :=
  match r with Some x => f x | None => None end.

Definition final (v : vars) (db : staged) : result (list row) :=
  user_product_metrics <- upm.model v db ;;
  user_features <- uf.model v db ;;
  product_features_model <- pfm.model v db ;;
  let product_features := product_features product_features_model in
  user_product_normalized <-
    user_product_normalized user_product_metrics user_features
      product_features ;;
  Ok (map (fun j : joined_row =>
         let '(upm, uf, pf, lp, uptp, upn, ddp, dd) := j in
         let last_purchase_order_number :=
           option_map lp.last_purchase_order_number lp in
         {| user_id := upm.user_id upm;
            product_id := upm.product_id upm;
            user_product_id :=
              concat_key (upm.user_id upm) (upm.product_id upm);
            up_orders := upm.up_orders upm;
            up_last_order_id := upm.up_last_order_id upm;
            up_sum_pos_in_cart := upm.up_sum_pos_in_cart upm;
            up_avg_cart_position := upm.up_avg_cart_position upm;
            up_last_order_hour := upm.up_last_order_hour upm;
            up_orders_ratio := upm.up_orders_ratio upm;
            up_orders_since_last := upm.up_orders_since_last upm;
            up_delta_hour_vs_last := upm.up_delta_hour_vs_last upm;
            last_purchase_order_number := last_purchase_order_number;
            orders_since_last_purchase :=
              SQL.sub (uf.user_total_orders uf) last_purchase_order_number;
            dow_0_purchases := col uptp uptp.dow_0_purchases;
            dow_1_purchases := col uptp uptp.dow_1_purchases;
            dow_2_purchases := col uptp uptp.dow_2_purchases;
            dow_3_purchases := col uptp uptp.dow_3_purchases;
            dow_4_purchases := col uptp uptp.dow_4_purchases;
            dow_5_purchases := col uptp uptp.dow_5_purchases;
            dow_6_purchases := col uptp uptp.dow_6_purchases;
            morning_purchases := col uptp uptp.morning_purchases;
            midday_purchases := col uptp uptp.midday_purchases;
            evening_purchases := col uptp uptp.evening_purchases;
            night_purchases := col uptp uptp.night_purchases;
            dominant_day_part := option_map ddp.dominant_day_part ddp;
            dominant_dow := option_map dd.dominant_dow dd;
            user_relative_frequency := col upn upn.user_relative_frequency;
            product_relative_frequency :=
              col upn upn.product_relative_frequency;
            relative_cart_position := col upn upn.relative_cart_position |})
    (SQL.left_join
       (fun '(upm, _, _, _, _, _, _) (dd : dd.row) =>
          eqb (upm.user_id upm) (dd.user_id dd)
          && eqb (upm.product_id upm) (dd.product_id dd))
    (SQL.left_join
       (fun '(upm, _, _, _, _, _) (ddp : ddp.row) =>
          eqb (upm.user_id upm) (ddp.user_id ddp)
          && eqb (upm.product_id upm) (ddp.product_id ddp))
    (SQL.left_join
       (fun '(upm, _, _, _, _) (upn : upn.row) =>
          eqb (upm.user_id upm) (upn.user_id upn)
          && eqb (upm.product_id upm) (upn.product_id upn))
    (SQL.left_join
       (fun '(upm, _, _, _) (uptp : uptp.row) =>
          eqb (upm.user_id upm) (uptp.user_id uptp)
          && eqb (upm.product_id upm) (uptp.product_id uptp))
    (SQL.left_join
       (fun '(upm, _, _) (lp : lp.row) =>
          eqb (upm.user_id upm) (lp.user_id lp)
          && eqb (upm.product_id upm) (lp.product_id lp))
    (SQL.inner_join
       (fun '(upm, _) (pf : pf.row) =>
          eqb (upm.product_id upm) (pf.product_id pf))
    (SQL.inner_join
       (fun (upm : upm.row) (uf : uf.row) =>
          eqb (upm.user_id upm) (uf.user_id uf))
       user_product_metrics user_features)
       product_features)
       (last_purchase v db))
       (user_product_time_patterns v db))
       user_product_normalized)
       (dominant_day_parts v db))
       (dominant_dows v db))).

Definition model := final.

End instacart__user_product_features.

(* ------------------------------------------------------------------------- *)
(** ** models/marts/ml/instacart__training_features *)

Module instacart__training_features.
Module uf := instacart__user_features.
Module pfm := instacart__product_features.
Module ofe := instacart__order_features.
Module upf := instacart__user_product_features.

Record row := {
  user_id : Z;
  product_id : Z;
  order_id : Z;
  reordered : Z;
  user_features : option uf.row;
  product_features : option pfm.row;
  order_features : option ofe.row;
  user_product_features : option upf.row
}.

(** The label rows: the order lines of the orders of the target partition. *)
Definition labels (target : string) (db : staged) : list (o.row * op.row) :=
  SQL.inner_join (fun o op => eqb (o.order_id o) (op.order_id op))
    (filter (fun o => eqb (o.eval_set o) target) (orders db))
    (order_products db).

(** Modelled from the spec: the training assembler.  The repository only
    creates an empty models/marts/ml/instacart__training_features.sql and
    declares its columns [user_id], [product_id], [order_id], [reordered];
    the statement itself is missing.  Following section 4.5 of the
    specification, it has one row per order line of the target partition,
    with the raw label, and joins onto it the rows of UserFeatures,
    ProductFeatures, OrderFeatures and UserProductFeatures on their keys;
    a feature table without a row for the key contributes NULLs.  The
    feature tables are those of the feature pass, computed with the [vars]
    of the run. *)
Definition final (v : vars) (target : string) (db : staged)
  : result (list row) :=
  user_features <- uf.model v db ;;
  product_features <- pfm.model v db ;;
  order_features <- ofe.model v db ;;
  user_product_features <- upf.model v db ;;
  Ok (map (fun r : o.row * op.row =>
             let user_id := o.user_id (fst r) in
             let product_id := op.product_id (snd r) in
             let order_id := o.order_id (fst r) in
             {| user_id := user_id;
                product_id := product_id;
                order_id := order_id;
                reordered := op.is_reordered (snd r);
                user_features :=
                  find (fun f => eqb (uf.user_id f) user_id) user_features;
                product_features :=
                  find (fun f => eqb (pfm.product_id f) product_id)
                       product_features;
                order_features :=
                  find (fun f => eqb (ofe.order_id f) order_id) order_features;
                user_product_features :=
                  find (fun f => eqb (upf.user_id f) user_id
                                 && eqb (upf.product_id f) product_id)
                       user_product_features |})
          (labels target db)).

Definition model := final.

Definition same_key (r r' : row) : Prop :=
  user_id r = user_id r' /\ product_id r = product_id r' /\
  order_id r = order_id r'.

Definition same_features (r r' : row) : Prop :=
  user_features r = user_features r' /\
  product_features r = product_features r' /\
  order_features r = order_features r' /\
  user_product_features r = user_product_features r'.

End instacart__training_features.

(** The staged relations with another [orders] relation. *)
Definition with_orders (db : staged) (os : list o.row) : staged :=
  {| orders := os;
     order_products := order_products db;
     products := products db;
     aisles := aisles db;
     departments := departments db |}.

(** [l] is an order line of an order of the evaluation partition. *)
Definition line_of_partition (v : vars) (db : staged) (l : op.row) : bool :=
  existsb (fun x => eqb (o.order_id x) (op.order_id l))
          (filter (in_eval_set v) (orders db)).

(** Two inputs with the same evaluation partition: the same orders in the
    partition, the same order lines of those orders and the same catalogue.
    The orders outside the partition, and their order lines, may differ in
    any way. *)
Definition same_evaluation_partition (v : vars) (db db' : staged) : Prop :=
  filter (in_eval_set v) (orders db) = filter (in_eval_set v) (orders db') /\
  filter (line_of_partition v db) (order_products db) =
    filter (line_of_partition v db) (order_products db') /\
  products db = products db' /\
  aisles db = aisles db' /\
  departments db = departments db'.

(** [os'] is [os] where orders of user [u] with sequence number [n] or more
    may have other sequence number, day, hour and day-gap values; they stay
    orders of [u] in their partition. *)
Definition later_orders_modified (u n : Z) (os os' : list o.row) : Prop :=
  Forall2 (fun x y =>
             x = y \/
             (o.user_id x = u /\ n <= o.order_number x /\
              o.order_id y = o.order_id x /\ o.user_id y = o.user_id x /\
              o.eval_set y = o.eval_set x))
          os os'.

(** [db'] is [db] after a modification of the later orders of user [u]:
    the orders of [u] numbered [n] or more may have other sequence number,
    day, hour and day-gap values, and the order lines of the orders outside the evaluation
    partition (those of the labelled orders among them) may be changed,
    added or removed.  The order lines of the orders of the evaluation
    partition and the catalogue are the same. *)
Definition later_orders_modified_in (v : vars) (u n : Z) (db db' : staged)
  : Prop :=
  later_orders_modified u n (orders db) (orders db') /\
  filter (line_of_partition v db) (order_products db') =
    filter (line_of_partition v db) (order_products db) /\
  products db' = products db /\
  aisles db' = aisles db /\
  departments db' = departments db.

(** Point-in-time correctness by sequence number: the features joined onto
    a training row, whose order [x] has sequence number N, are unchanged
    when orders of the same user numbered N or more are modified. *)
Definition point_in_time_by_sequence (v : vars) (target : string)
  (db : staged) (os' : list o.row) : Prop :=
  forall t r x,
    instacart__training_features.model v target db = Ok t ->
    In r t ->
    In x (orders db) ->
    o.order_id x = instacart__training_features.order_id r ->
    later_orders_modified (instacart__training_features.user_id r)
      (o.order_number x) (orders db) os' ->
    exists t' r',
      instacart__training_features.model v target (with_orders db os') = Ok t' /\
      In r' t' /\
      instacart__training_features.same_key r r' /\
      instacart__training_features.same_features r r'.

(* ------------------------------------------------------------------------- *)
(** ** Vocabulary of the properties *)

(** [x] is the first bucket of the list among those with the greatest
    count. *)
Definition first_listed_max {X} (buckets : list (X * Z)) (x : X) : Prop :=
  exists before c after,
    buckets = before ++ (x, c) :: after /\
    (forall y, In y buckets -> snd y <= c) /\
    (forall y, In y before -> snd y < c).

Definition indicator (b : bool) : Z := if b then 1 else 0.

(** The rows of a relation are distinct and no two rows of one partition
    have the same sort key. *)
Definition no_ties {A P} (pkey : A -> P) (k : A -> Z) (l : list A) : Prop :=
  NoDup l /\
  forall a b, In a l -> In b l -> pkey a = pkey b -> k a = k b -> a = b.

(** The number of rows of the partition of [x] with a greater sort key. *)
Definition rows_above {A P} `{EqDec P} (pkey : A -> P) (k : A -> Z)
  (l : list A) (x : A) : Z :=
  SQL.count_star (filter (fun y => eqb (pkey y) (pkey x) && (k x <? k y)) l).

(** Two relations hold the same rows. *)
Definition same_rows {A} (l l' : list A) : Prop :=
  forall x, In x l <-> In x l'.

(** The character [c] occurs in [s]. *)
Fixpoint has_char (c : ascii) (s : string) : Prop :=
  match s with
  | EmptyString => False
  | String a s' => a = c \/ has_char c s'
  end.

(** The number of order lines of an order. *)
Definition lines_of (db : staged) (x : o.row) : Z :=
  SQL.count_star
    (filter (fun l => eqb (o.order_id x) (op.order_id l)) (order_products db)).

(** The six grouping columns of [order_metrics] and [orders_joined]. *)
Definition order_columns (x : o.row) : Z * Z * Z * Z * Z * option Z :=
  (o.order_id x, o.user_id x, o.order_number x, o.order_dow x,
   o.order_hour_of_day x, o.days_since_prior_order x).

(** [om] is the [order_metrics] row of order [x]. *)
Definition order_metrics_of (db : staged) (x : o.row)
  (om : instacart__order_features.om.row) : Prop :=
  instacart__order_features.om.order_id om = o.order_id x /\
  instacart__order_features.om.user_id om = o.user_id x /\
  instacart__order_features.om.order_number om = o.order_number x /\
  instacart__order_features.om.basket_size om = lines_of db x.

(** [r] is the [orders_joined] row of order [x]. *)
Definition orders_joined_of (db : staged) (x : o.row)
  (r : int_instacart__user_order_metrics.oj.row) : Prop :=
  int_instacart__user_order_metrics.oj.order_id r = o.order_id x /\
  int_instacart__user_order_metrics.oj.user_id r = o.user_id x /\
  int_instacart__user_order_metrics.oj.order_number r = o.order_number x /\
  int_instacart__user_order_metrics.oj.basket_size r = lines_of db x.

(** Every order of the evaluation partition that the user metrics keep
    ([order_number >= min_orders]) has at least one order line. *)
Definition kept_orders_have_lines (v : vars) (db : staged) : Prop :=
  forall x, In x (orders db) -> in_eval_set v x = true ->
            min_orders v <= o.order_number x -> 0 < lines_of db x.

(** The end-to-end scenario: user [u] has exactly the five orders [o1] to
    [o5], numbered 1 to 5, the first four in 'prior' and the fifth in
    'train'; the run uses the [vars] of dbt_project.yml. *)
Record five_orders (v : vars) (db : staged) (u : Z)
  (o1 o2 o3 o4 o5 : o.row) : Prop := {
  fo_eval_set : eval_set v = "prior"%string;
  fo_min_orders : min_orders v = 4;
  fo_order_ids : NoDup (map o.order_id (orders db));
  fo_orders :
    Permutation (filter (fun x => eqb (o.user_id x) u) (orders db))
                [o1; o2; o3; o4; o5];
  fo_numbers :
    o.order_number o1 = 1 /\ o.order_number o2 = 2 /\
    o.order_number o3 = 3 /\ o.order_number o4 = 4 /\
    o.order_number o5 = 5;
  fo_prior :
    o.eval_set o1 = "prior"%string /\ o.eval_set o2 = "prior"%string /\
    o.eval_set o3 = "prior"%string /\ o.eval_set o4 = "prior"%string;
  fo_target : o.eval_set o5 = "train"%string
}.

(** The OrderFeatures row of order [cur], whose previous order is [prev]. *)
Definition row_after (db : staged) (prev cur : o.row)
  (r : instacart__order_features.row) : Prop :=
  instacart__order_features.order_id r = o.order_id cur /\
  instacart__order_features.basket_size r = lines_of db cur /\
  instacart__order_features.basket_size_delta r =
    Some (lines_of db cur - lines_of db prev).

(** The OrderFeatures row of a first order. *)
Definition row_of_first (db : staged) (cur : o.row)
  (r : instacart__order_features.row) : Prop :=
  instacart__order_features.order_id r = o.order_id cur /\
  instacart__order_features.basket_size r = lines_of db cur /\
  instacart__order_features.basket_size_delta r = None.

(** What the scenario asks of the feature pass: UserFeatures has a row for
    the user, with [user_total_orders] = 4; OrderFeatures has, for the user,
    the rows of orders 1 to 4 only, each delta taken against the previous
    order. *)
Definition scenario_outcome (v : vars) (db : staged) (u : Z)
  (o1 o2 o3 o4 o5 : o.row) : Prop :=
  (exists t,
     instacart__user_features.model v db = Ok t /\
     (exists r, In r t /\ instacart__user_features.user_id r = u) /\
     (forall r, In r t -> instacart__user_features.user_id r = u ->
                instacart__user_features.user_total_orders r = Some 4)) /\
  (exists t,
     instacart__order_features.model v db = Ok t /\
     (forall r, In r t -> instacart__order_features.user_id r = u ->
        instacart__order_features.order_id r <> o.order_id o5 /\
        (row_of_first db o1 r \/ row_after db o1 o2 r \/
         row_after db o2 o3 r \/ row_after db o3 o4 r)) /\
     (forall x, In x [o1; o2; o3; o4] ->
        exists r, In r t /\
          instacart__order_features.order_id r = o.order_id x)).

(** The scenario as the specification words it, for any order lines. *)
Definition five_order_scenario (v : vars) (db : staged) (u : Z)
  (o1 o2 o3 o4 o5 : o.row) : Prop :=
  five_orders v db u o1 o2 o3 o4 o5 -> scenario_outcome v db u o1 o2 o3 o4 o5.

(** The rankings do not depend on the physical order of [product_metrics]:
    what reproducibility of the ranks asks for, ties included. *)
Definition rankings_reproducible
  (pms pms' : list int_instacart__product_metrics.row) : Prop :=
  Permutation pms pms' ->
  same_rows (instacart__product_features.department_rankings pms)
            (instacart__product_features.department_rankings pms') /\
  same_rows (instacart__product_features.aisle_rankings pms)
            (instacart__product_features.aisle_rankings pms').

(** Sample data: user 7 places five orders; orders 1 to 4 are in the
    'prior' partition and order 5 in 'train'. *)
Module Sample.
Open Scope string_scope.

Definition an_order id user n dow hour gap set : o.row :=
  {| o.order_id := id; o.user_id := user; o.order_number := n;
     o.order_dow := dow; o.order_hour_of_day := hour;
     o.days_since_prior_order := gap; o.eval_set := set |}.

Definition a_line order product position reordered : op.row :=
  {| op.order_id := order; op.product_id := product;
     op.cart_position := position; op.is_reordered := reordered |}.

Definition a_product id name aisle department : p.row :=
  {| p.product_id := id; p.product_name := name; p.aisle_id := aisle;
     p.department_id := department |}.

Definition o1 := an_order 1 7 1 0 8 None "prior".
Definition o2 := an_order 2 7 2 1 9 (Some 3) "prior".
Definition o3 := an_order 3 7 3 2 12 (Some 4) "prior".
Definition o4 := an_order 4 7 4 3 18 (Some 5) "prior".
Definition o5 := an_order 5 7 5 4 21 (Some 6) "train".

Definition catalog : list p.row :=
  [a_product 100 "milk" 1 1; a_product 101 "bread" 2 1;
   a_product 102 "soap" 3 2].

Definition shelves : list a.row :=
  [{| a.aisle_id := 1; a.aisle_name := "dairy" |};
   {| a.aisle_id := 2; a.aisle_name := "bakery" |};
   {| a.aisle_id := 3; a.aisle_name := "hygiene" |}].

Definition depts : list d.row :=
  [{| d.department_id := 1; d.department_name := "food" |};
   {| d.department_id := 2; d.department_name := "household" |}].

Definition db : staged :=
  {| orders := [o1; o2; o3; o4; o5];
     order_products :=
       [a_line 1 100 1 0; a_line 1 101 2 0; a_line 2 100 1 1;
        a_line 3 100 1 1; a_line 3 102 2 0; a_line 3 101 3 1;
        a_line 4 100 1 1; a_line 5 100 1 1];
     products := catalog;
     aisles := shelves;
     departments := depts |}.

(** The same five orders, none of them with an order line. *)
Definition db_without_lines : staged :=
  {| orders := [o1; o2; o3; o4; o5];
     order_products := [];
     products := catalog;
     aisles := shelves;
     departments := depts |}.

(** The same five orders; the fourth, the only one that reaches
    [min_orders], has no order line. *)
Definition db_fourth_order_empty : staged :=
  {| orders := [o1; o2; o3; o4; o5];
     order_products :=
       [a_line 1 100 1 0; a_line 1 101 2 0; a_line 2 100 1 1;
        a_line 3 100 1 1; a_line 3 102 2 0; a_line 3 101 3 1;
        a_line 5 100 1 1];
     products := catalog;
     aisles := shelves;
     departments := depts |}.

Definition no_stddev (_ : list (option Z)) : option Q := None.

(** Order 1, the 4th order of user 7, is in 'train'; order 2, the 5th, is
    in 'prior'. *)
Definition db_late_prior : staged :=
  {| orders := [an_order 1 7 4 0 8 (Some 3) "train";
                an_order 2 7 5 1 9 (Some 3) "prior"];
     order_products := [a_line 1 100 1 1; a_line 2 100 1 1];
     products := catalog;
     aisles := shelves;
     departments := depts |}.

(** The same orders, the 5th placed on day 6 instead of day 1. *)
Definition late_prior_moved : list o.row :=
  [an_order 1 7 4 0 8 (Some 3) "train"; an_order 2 7 5 6 9 (Some 3) "prior"].

(** The orders of [db] with the 'train' order placed at another time and
    numbered 9. *)
Definition target_moved : list o.row :=
  [o1; o2; o3; o4; an_order 5 7 9 6 3 (Some 9) "train"].

(** [db] with the 'train' order placed at another time and holding other
    order lines: milk is no longer a reorder, and soap is added. *)
Definition db_target_modified : staged :=
  {| orders := target_moved;
     order_products :=
       [a_line 1 100 1 0; a_line 1 101 2 0; a_line 2 100 1 1;
        a_line 3 100 1 1; a_line 3 102 2 0; a_line 3 101 3 1;
        a_line 4 100 1 1; a_line 5 100 1 0; a_line 5 102 2 0];
     products := catalog;
     aisles := shelves;
     departments := depts |}.

(** Milk is bought in three orders of the evaluation partition: twice at
    8 on day 0 and once at 12 on day 2. *)
Definition db_peaks : staged :=
  {| orders := [o1; an_order 6 8 1 0 8 None "prior"; o3];
     order_products := [a_line 1 100 1 0; a_line 6 100 1 0; a_line 3 100 1 1];
     products := catalog;
     aisles := shelves;
     departments := depts |}.

(** The same rows, met in another order. *)
Definition db_peaks_reordered : staged :=
  {| orders := [o3; o1; an_order 6 8 1 0 8 None "prior"];
     order_products := [a_line 3 100 1 1; a_line 1 100 1 0; a_line 6 100 1 0];
     products := catalog;
     aisles := shelves;
     departments := depts |}.

(** Two products of department 1 that were each ordered 3 times. *)
Definition milk_metrics : int_instacart__product_metrics.row :=
  {| int_instacart__product_metrics.product_id := 100;
     int_instacart__product_metrics.aisle_id := 1;
     int_instacart__product_metrics.department_id := 1;
     int_instacart__product_metrics.product_orders := 3;
     int_instacart__product_metrics.product_reorders := Some 2;
     int_instacart__product_metrics.product_reorder_rate := Some (2 # 3);
     int_instacart__product_metrics.product_avg_cart_position := Some 1%Q |}.

Definition bread_metrics : int_instacart__product_metrics.row :=
  {| int_instacart__product_metrics.product_id := 101;
     int_instacart__product_metrics.aisle_id := 2;
     int_instacart__product_metrics.department_id := 1;
     int_instacart__product_metrics.product_orders := 3;
     int_instacart__product_metrics.product_reorders := Some 1;
     int_instacart__product_metrics.product_reorder_rate := Some (1 # 3);
     int_instacart__product_metrics.product_avg_cart_position := Some 2%Q |}.

(** Soap, of department 2, was ordered once. *)
Definition soap_metrics : int_instacart__product_metrics.row :=
  {| int_instacart__product_metrics.product_id := 102;
     int_instacart__product_metrics.aisle_id := 3;
     int_instacart__product_metrics.department_id := 2;
     int_instacart__product_metrics.product_orders := 1;
     int_instacart__product_metrics.product_reorders := Some 0;
     int_instacart__product_metrics.product_reorder_rate := Some 0%Q;
     int_instacart__product_metrics.product_avg_cart_position := Some 2%Q |}.

(** The time pattern of (user 7, bread): one morning and one midday
    purchase, on days 0 and 2. *)
Definition bread_pattern : instacart__user_product_features.uptp.row :=
  {| instacart__user_product_features.uptp.user_id := 7;
     instacart__user_product_features.uptp.product_id := 101;
     instacart__user_product_features.uptp.dow_0_purchases := Some 1;
     instacart__user_product_features.uptp.dow_1_purchases := Some 0;
     instacart__user_product_features.uptp.dow_2_purchases := Some 1;
     instacart__user_product_features.uptp.dow_3_purchases := Some 0;
     instacart__user_product_features.uptp.dow_4_purchases := Some 0;
     instacart__user_product_features.uptp.dow_5_purchases := Some 0;
     instacart__user_product_features.uptp.dow_6_purchases := Some 0;
     instacart__user_product_features.uptp.morning_purchases := Some 1;
     instacart__user_product_features.uptp.midday_purchases := Some 1;
     instacart__user_product_features.uptp.evening_purchases := Some 0;
     instacart__user_product_features.uptp.night_purchases := Some 0 |}.

Definition v : vars := default_vars no_stddev.
End Sample.

(* ------------------------------------------------------------------------- *)
(** ** Vocabulary of the per-user properties *)

(** The orders of user [u] in the evaluation partition. *)
Definition evaluated_orders (v : vars) (db : staged) (u : Z) : list o.row :=
  filter (fun x => eqb (o.user_id x) u) (filter (in_eval_set v) (orders db)).

(** Those that [user_metrics] keeps: [order_number >= min_orders]. *)
Definition kept_orders (v : vars) (db : staged) (u : Z) : list o.row :=
  filter (fun x => min_orders v <=? o.order_number x) (evaluated_orders v db u).

(* ------------------------------------------------------------------------- *)
(** ** Vocabulary of the product properties *)

(** [ranked] gives every row of [l] one number; in each partition the
    numbers run from 1 to the size of the partition, no number is given
    twice, and a row with a greater sort key has a smaller number. *)
Definition ranks_partitions {A P} `{EqDec P} (pkey : A -> P) (k : A -> Z)
  (l : list A) (ranked : list (A * Z)) : Prop :=
  Permutation (map fst ranked) l /\
  (forall x n, In (x, n) ranked ->
     1 <= n <= SQL.count_star (filter (fun y => eqb (pkey y) (pkey x)) l)) /\
  NoDup (map (fun r => (pkey (fst r), snd r)) ranked) /\
  (forall x n y m, In (x, n) ranked -> In (y, m) ranked ->
     pkey x = pkey y -> k y < k x -> n < m).

(** The number of order lines of product [p] in orders of the evaluation
    partition placed at hour [h]. *)
Definition purchases_at_hour (v : vars) (db : staged) (p h : Z) : Z :=
  SQL.count_star
    (filter (fun r : op.row * o.row =>
               eqb (op.product_id (fst r), o.order_hour_of_day (snd r)) (p, h))
            (instacart__product_features.purchases v db)).

(** The same count for the orders placed on day [d] of the week. *)
Definition purchases_on_day (v : vars) (db : staged) (p d : Z) : Z :=
  SQL.count_star
    (filter (fun r : op.row * o.row =>
               eqb (op.product_id (fst r), o.order_dow (snd r)) (p, d))
            (instacart__product_features.purchases v db)).

(** User [u] has an order line in an order of the evaluation partition. *)
Definition has_purchase (v : vars) (db : staged) (u : Z) : Prop :=
  exists x l, In x (evaluated_orders v db u) /\ In l (order_products db) /\
              op.order_id l = o.order_id x.

(** The purchases of product [p] by user [u]: the order lines of the
    product in the user's orders of the evaluation partition, each with its
    order. *)
Definition purchases_of (v : vars) (db : staged) (u p : Z)
  : list (o.row * op.row) :=
  filter (fun r : o.row * op.row =>
            eqb (o.user_id (fst r), op.product_id (snd r)) (u, p))
         (instacart__user_product_features.purchases v db).

(** The number of order lines of user [u] in orders of the evaluation
    partition. *)
Definition lines_of_user (v : vars) (db : staged) (u : Z) : Z :=
  SQL.count_star
    (filter (fun r : o.row * op.row => eqb (o.user_id (fst r)) u)
       (filter (fun r => in_eval_set v (fst r))
          (SQL.inner_join (fun o op => eqb (o.order_id o) (op.order_id op))
             (orders db) (order_products db)))).

(** Product [p] is sold in the evaluation partition: an order line of the
    product belongs to an order of the partition. *)
Definition sold_in_partition (v : vars) (db : staged) (p : Z) : Prop :=
  exists l x, In l (order_products db) /\ In x (orders db) /\
              in_eval_set v x = true /\ op.order_id l = o.order_id x /\
              op.product_id l = p.

(** The catalogue row [c] has its aisle and its department. *)
Definition fully_described (db : staged) (c : p.row) : Prop :=
  (exists a, In a (aisles db) /\ a.aisle_id a = p.aisle_id c) /\
  (exists d, In d (departments db) /\ d.department_id d = p.department_id c).

(** The products of the order lines of user [u] in orders of the
    evaluation partition, one entry per order line. *)
Definition products_of_user (v : vars) (db : staged) (u : Z) : list Z :=
  map (fun r : o.row * op.row => op.product_id (snd r))
    (filter (fun r : o.row * op.row => eqb (o.user_id (fst r)) u)
       (filter (fun r => in_eval_set v (fst r))
          (SQL.inner_join (fun o op => eqb (o.order_id o) (op.order_id op))
             (orders db) (order_products db)))).

(* ------------------------------------------------------------------------- *)
(** ** nbs/01_config.ipynb: versions and names of feature views

    [FeatureStoreDefaults] is the dataclass of default settings and
    [defaults] its module-level instance, which the helpers read when they
    are called.  [str] is the text an f-string gives for an int.  [upper]
    stands for [str.upper], which maps a string character by character. *)

Module config.
Open Scope string_scope.

Record FeatureStoreDefaults := {
  version_prefix : string;
  refresh_frequency : string;
  feature_view_prefix : string;
  creation_mode : string;
  refresh_mode : string
}.

Definition defaults : FeatureStoreDefaults :=
  {| version_prefix := "V";
     refresh_frequency := "1 day";
     feature_view_prefix := "FV";
     creation_mode := "CREATE_IF_NOT_EXIST";
     refresh_mode := "FULL" |}.

Definition str (n : Z) : string := NilZero.string_of_int (Z.to_int n).

(** [create_version(major, minor)]. *)
Definition create_version (defaults : FeatureStoreDefaults) (major minor : Z)
  : string :=
  version_prefix defaults ++ str major ++ "_" ++ str minor.

(** The fields of [FeatureViewConfig] that its naming properties read, and
    its optional texts; [refresh], [features] and [tags] hold nested
    settings. *)
Record FeatureViewConfig := {
  name : string;
  domain : string;
  entity : string;
  feature_type : string;
  major_version : Z;
  minor_version : Z;
  timestamp_col : option string;
  description : option string
}.

(** [FeatureViewConfig.version]. *)
Definition version (self : FeatureViewConfig) : string :=
  "V" ++ str (major_version self) ++ "_" ++ str (minor_version self).

(** [if s:] on a string: true unless the string is empty. *)
Definition truthy (s : string) : bool :=
  match s with
  | EmptyString => false
  | String _ _ => true
  end.

(** [l.insert(i, x)]. *)
Definition insert {A} (i : nat) (x : A) (l : list A) : list A :=
  (firstn i l ++ x :: skipn i l)%list.

Section Names.
Variable upper : string -> string.

(** ["_".join(part.upper() for part in parts)]. *)
Definition join_upper (parts : list string) : string :=
  String.concat "_" (map upper parts).

(** [create_feature_view_name(domain, entity, feature_type)]. *)
Definition create_feature_view_name (defaults : FeatureStoreDefaults)
  (domain entity feature_type : string) : string :=
  let parts := [feature_view_prefix defaults; entity; feature_type] in
  let parts := if truthy domain then insert 1 domain parts else parts in
  join_upper parts.

(** [FeatureViewConfig.full_name]. *)
Definition full_name (self : FeatureViewConfig) : string :=
  let parts := ["FV"] in
  let parts :=
    if truthy (domain self) then (parts ++ [domain self])%list else parts in
  let parts := (parts ++ [entity self; feature_type self])%list in
  join_upper parts.

End Names.

(** [str.upper] on ASCII text. *)
Definition upper_char (c : ascii) : ascii :=
  let n := nat_of_ascii c in
  if ((97 <=? n) && (n <=? 122))%nat then ascii_of_nat (n - 32) else c.

Fixpoint upper_ascii (s : string) : string :=
  match s with
  | EmptyString => EmptyString
  | String c s' => String (upper_char c) (upper_ascii s')
  end.

End config.

(* ------------------------------------------------------------------------- *)
(** ** Facts about the relational operators *)

Module SQLFacts.
Import SQL.

Lemma eqb_true {K} `{EqDec K} (x y : K) : eqb x y = true <-> x = y.
Proof. unfold eqb; destruct (eq_dec x y); split; congruence. Qed.

Lemma eqb_false {K} `{EqDec K} (x y : K) : eqb x y = false <-> x <> y.
Proof. unfold eqb; destruct (eq_dec x y); split; congruence. Qed.

Lemma eqb_refl {K} `{EqDec K} (x : K) : eqb x x = true.
Proof. apply eqb_true; reflexivity. Qed.


Lemma select_ok_map {A B} (f : A -> result B) (g : A -> B) (l : list A) :
  (forall a, In a l -> f a = Ok (g a)) -> select f l = Ok (map g l).
Proof.
  induction l as [|a l IH]; intros Hf; simpl; [reflexivity|].
  rewrite (Hf a (or_introl eq_refl)); simpl.
  rewrite IH by (intros; apply Hf; right; assumption).
  reflexivity.
Qed.

Lemma select_inv {A B} (f : A -> result B) (l : list A) (t : list B) :
  select f l = Ok t -> Forall2 (fun a b => f a = Ok b) l t.
Proof.
  revert t; induction l as [|a l IH]; simpl; intros t Ht.
  - inversion Ht; constructor.
  - destruct (f a) as [b|e] eqn:Ea; simpl in Ht; [|discriminate].
    destruct (select f l) as [bs|e] eqn:El; simpl in Ht; [|discriminate].
    inversion Ht; subst; constructor; auto.
Qed.

Lemma select_raise {A B} (f : A -> result B) (l : list A) a e :
  In a l -> f a = Raise e -> exists e', select f l = Raise e'.
Proof.
  induction l as [|x l IH]; simpl; [tauto|].
  intros [->|Hin] Ha.
  - rewrite Ha; simpl; eauto.
  - destruct (f x); simpl; eauto.
    destruct (IH Hin Ha) as [e' ->]; simpl; eauto.
Qed.

Lemma find_hd_filter {A} (f : A -> bool) (l : list A) :
  find f l = hd_error (filter f l).
Proof.
  induction l as [|a l IH]; simpl; [reflexivity|].
  destruct (f a); simpl; auto.
Qed.

Lemma filter_at_most_one {A K} (key : A -> K) (f : A -> bool) (k : K)
  (l : list A) :
  NoDup (map key l) ->
  (forall a, In a l -> f a = true -> key a = k) ->
  (length (filter f l) <= 1)%nat.
Proof.
  induction l as [|a l IH]; simpl; intros Hnd Hk; [lia|].
  inversion Hnd as [|? ? Hnotin Hnd']; subst.
  destruct (f a) eqn:Ea; simpl.
  - assert (Hnil : filter f l = []).
    { destruct (filter f l) as [|b bs] eqn:Eb; [reflexivity|exfalso].
      assert (Hb : In b (filter f l)) by (rewrite Eb; left; reflexivity).
      apply filter_In in Hb as [Hb1 Hb2].
      apply Hnotin.
      rewrite (Hk a (or_introl eq_refl) Ea), <- (Hk b (or_intror Hb1) Hb2).
      apply in_map; assumption. }
    rewrite Hnil; simpl; lia.
  - apply IH; auto.
Qed.

Lemma filter_one_find {A} (f : A -> bool) (l : list A) :
  (length (filter f l) <= 1)%nat ->
  filter f l = match find f l with Some b => [b] | None => [] end.
Proof.
  rewrite find_hd_filter.
  destruct (filter f l) as [|b [|c bs]]; simpl; intros; try reflexivity; lia.
Qed.

Lemma left_join_unique {A B} (on : A -> B -> bool) (l : list A) (r : list B) :
  (forall a, In a l -> (length (filter (on a) r) <= 1)%nat) ->
  left_join on l r = map (fun a => (a, find (on a) r)) l.
Proof.
  unfold left_join.
  induction l as [|a l IH]; intros Hu; [reflexivity|].
  cbn [flat_map]; rewrite map_cons.
  rewrite IH by (intros; apply Hu; right; assumption).
  rewrite (filter_one_find (on a) r) by (apply Hu; left; reflexivity).
  destruct (find (on a) r); reflexivity.
Qed.

Lemma inner_join_unique {A B} (on : A -> B -> bool) (l : list A) (r : list B) :
  (forall a, In a l -> (length (filter (on a) r) <= 1)%nat) ->
  inner_join on l r =
  flat_map (fun a => match find (on a) r with
                     | Some b => [(a, b)]
                     | None => []
                     end) l.
Proof.
  unfold inner_join.
  induction l as [|a l IH]; intros Hu; [reflexivity|].
  cbn [flat_map].
  rewrite IH by (intros; apply Hu; right; assumption).
  rewrite (filter_one_find (on a) r) by (apply Hu; left; reflexivity).
  destruct (find (on a) r); reflexivity.
Qed.

Lemma group_by_keys {A K} `{EqDec K} (key : A -> K) (l : list A) :
  map fst (group_by key l) = nodup eq_dec (map key l).
Proof.
  unfold group_by; rewrite map_map; simpl; apply map_id.
Qed.

Lemma group_by_NoDup {A K} `{EqDec K} (key : A -> K) (l : list A) :
  NoDup (map fst (group_by key l)).
Proof. rewrite group_by_keys; apply NoDup_nodup. Qed.

Lemma group_by_In {A K} `{EqDec K} (key : A -> K) (l : list A) k rows :
  In (k, rows) (group_by key l) <->
  In k (map key l) /\ rows = filter (fun a => eqb (key a) k) l.
Proof.
  unfold group_by; rewrite in_map_iff; split.
  - intros (k' & Hk & Hin); inversion Hk; subst.
    apply nodup_In in Hin; auto.
  - intros (Hin & ->); exists k; split; [reflexivity|].
    apply nodup_In; assumption.
Qed.

Lemma group_rows_nonempty {A K} `{EqDec K} (key : A -> K) (l : list A) g :
  In g (group_by key l) -> snd g <> [].
Proof.
  destruct g as [k rows]; rewrite group_by_In; intros (Hin & ->); simpl.
  apply in_map_iff in Hin as (a & Ha & Hin).
  intros Hnil.
  assert (Hf : In a (filter (fun a0 => eqb (key a0) k) l)).
  { apply filter_In; split; [assumption|]; apply eqb_true; assumption. }
  rewrite Hnil in Hf; inversion Hf.
Qed.

Lemma find_map_key {K B} `{EqDec K} (h : K -> B) (key : B -> K) (k0 : K)
  (ks : list K) :
  (forall k, key (h k) = k) ->
  find (fun b => eqb k0 (key b)) (map h ks) =
  if in_dec eq_dec k0 ks then Some (h k0) else None.
Proof.
  intros Hk; induction ks as [|k ks IH]; simpl; [reflexivity|].
  rewrite Hk, IH.
  unfold eqb; destruct (eq_dec k0 k) as [->|n].
  - destruct (eq_dec k k); [reflexivity|congruence].
  - destruct (eq_dec k k0); [congruence|].
    destruct (in_dec eq_dec k0 ks); reflexivity.
Qed.

Lemma find_ext {A} (f g : A -> bool) (l : list A) :
  (forall a, f a = g a) -> find f l = find g l.
Proof.
  intros Hfg; induction l as [|a l IH]; simpl; [reflexivity|].
  rewrite Hfg, IH; reflexivity.
Qed.

Lemma find_none_all {A} (f : A -> bool) (l : list A) :
  (forall a, In a l -> f a = false) -> find f l = None.
Proof.
  induction l as [|a l IH]; simpl; intros Hf; [reflexivity|].
  rewrite (Hf a (or_introl eq_refl)); apply IH; intros; apply Hf; right; assumption.
Qed.

Lemma filter_filter {A} (f g : A -> bool) (l : list A) :
  filter f (filter g l) = filter (fun a => g a && f a) l.
Proof.
  induction l as [|a l IH]; simpl; [reflexivity|].
  destruct (g a); simpl; [destruct (f a)|]; rewrite IH; reflexivity.
Qed.

Lemma filter_comm {A} (f g : A -> bool) (l : list A) :
  filter f (filter g l) = filter g (filter f l).
Proof.
  rewrite !filter_filter; apply filter_ext; intros a; apply andb_comm.
Qed.

Lemma filter_nil_iff {A} (f : A -> bool) (l : list A) :
  filter f l = [] <-> forall a, In a l -> f a = false.
Proof.
  induction l as [|a l IH]; simpl; [tauto|].
  destruct (f a) eqn:Ea; split.
  - discriminate.
  - intros Hf; specialize (Hf a (or_introl eq_refl)); congruence.
  - intros Hn b [<-|Hb]; [assumption|]; apply IH; assumption.
  - intros Hf; apply IH; intros; apply Hf; right; assumption.
Qed.

Lemma non_null_map_perm {A B} (f : A -> option B) (l l' : list A) :
  Permutation l l' -> Permutation (non_null (map f l)) (non_null (map f l')).
Proof.
  induction 1 as [|x l l' _ IH|x y l|l l' l'' _ IH1 _ IH2]; simpl.
  - constructor.
  - destruct (f x); [constructor|]; assumption.
  - destruct (f x), (f y); try reflexivity; constructor.
  - etransitivity; eassumption.
Qed.

Lemma qsum_perm (l l' : list Q) : Permutation l l' -> (qsum l == qsum l')%Q.
Proof.
  induction 1 as [|x l l' _ IH|x y l|l l' l'' _ IH1 _ IH2]; simpl.
  - reflexivity.
  - rewrite IH; reflexivity.
  - ring.
  - etransitivity; eassumption.
Qed.

Lemma sumq_perm {A} (f : A -> option Q) (l l' : list A) :
  Permutation l l' -> sumq (map f l) = sumq (map f l').
Proof.
  intros Hp; unfold sumq.
  pose proof (non_null_map_perm f l l' Hp) as Hn.
  destruct (non_null (map f l)) as [|v vs] eqn:E1;
    destruct (non_null (map f l')) as [|v' vs'] eqn:E2.
  - reflexivity.
  - apply Permutation_nil in Hn; discriminate.
  - apply Permutation_sym, Permutation_nil in Hn; discriminate.
  - f_equal; apply Qred_complete, qsum_perm; assumption.
Qed.

Lemma avgq_perm {A} (f : A -> option Q) (l l' : list A) :
  Permutation l l' -> avgq (map f l) = avgq (map f l').
Proof.
  intros Hp; unfold avgq.
  pose proof (non_null_map_perm f l l' Hp) as Hn.
  destruct (non_null (map f l)) as [|v vs] eqn:E1;
    destruct (non_null (map f l')) as [|v' vs'] eqn:E2.
  - reflexivity.
  - apply Permutation_nil in Hn; discriminate.
  - apply Permutation_sym, Permutation_nil in Hn; discriminate.
  - f_equal; apply Qred_complete.
    rewrite (qsum_perm _ _ Hn), (Permutation_length Hn); reflexivity.
Qed.

Lemma filter_perm {A} (f : A -> bool) (l l' : list A) :
  Permutation l l' -> Permutation (filter f l) (filter f l').
Proof.
  induction 1 as [|x l l' _ IH|x y l|l l' l'' _ IH1 _ IH2]; simpl.
  - constructor.
  - destruct (f x); [constructor|]; assumption.
  - destruct (f x), (f y); try reflexivity; constructor.
  - etransitivity; eassumption.
Qed.

End SQLFacts.

(* ------------------------------------------------------------------------- *)
(** ** The window aggregation generator *)

Module time_windows_facts.
Import SQL SQLFacts time_windows.

Section MacroFacts.
Context {Row col KV : Type} `{EqDec col} `{EqDec KV}.
Variable key_val : col -> Row -> option KV.
Variable ts_val : col -> Row -> option Z.
Variable metric_val : col -> Row -> option Q.

Local Abbreviation generate := (calculate_time_window_aggs key_val ts_val metric_val).
Local Abbreviation rows_of_statement := (statement_rows key_val ts_val metric_val).
Local Abbreviation key_of := (group_key key_val).
Local Abbreviation window_of := (window_cte key_val ts_val metric_val).
Local Abbreviation member := (in_window ts_val).
Local Abbreviation rows_of := (rows_in_window key_val ts_val).
Local Abbreviation window_sum := (window_sum key_val ts_val metric_val).
Local Abbreviation window_avg := (window_avg key_val ts_val metric_val).

Lemma eqb_cons {X} `{EqDec X} (x y : X) (a b : list X) :
  eqb (x :: a) (y :: b) = eqb x y && eqb a b.
Proof.
  destruct (eqb x y) eqn:E1; destruct (eqb a b) eqn:E2; simpl;
    rewrite ?eqb_true, ?eqb_false in *; congruence.
Qed.

Lemma keys_match_spec (a b : list (option KV)) :
  keys_match a b = forallb is_some a && eqb a b.
Proof.
  revert b; induction a as [|x a IH]; intros [|y b]; simpl.
  - reflexivity.
  - reflexivity.
  - symmetry; apply andb_false_intro2, eqb_false; discriminate.
  - rewrite IH, eqb_cons. unfold sql_eq.
    destruct x as [x|], y as [y|]; cbn [is_some andb]; try reflexivity.
    + replace (eqb (Some x) (Some y)) with (eqb x y).
      * destruct (eqb x y), (forallb is_some a); reflexivity.
      * destruct (eqb x y) eqn:E; symmetry;
          rewrite ?eqb_true, ?eqb_false in *; congruence.
    + replace (eqb (Some x) (@None KV)) with false.
      * rewrite andb_false_r; reflexivity.
      * symmetry; apply eqb_false; discriminate.
Qed.

Lemma assoc_map {X V} `{EqDec X} (f : X -> V) (x : X) (l : list X) :
  In x l -> assoc x (map (fun y => (y, f y)) l) = Some (f x).
Proof.
  induction l as [|y l IH]; simpl; [tauto|].
  unfold eqb; destruct (eq_dec x y) as [->|n]; [reflexivity|].
  intros [E|Hin]; [congruence|auto].
Qed.

Lemma window_cte_unique now g ts ms w src (k : list (option KV)) :
  (length (filter (fun wr => keys_match k (w_key wr))
             (window_of now g ts ms w src)) <= 1)%nat.
Proof.
  apply (filter_at_most_one w_key _ k).
  - unfold window_cte. rewrite map_map; simpl.
    change (fun x : list (option KV) * list Row => fst x) with
      (@fst (list (option KV)) (list Row)).
    apply group_by_NoDup.
  - intros a _ Ha. rewrite keys_match_spec in Ha.
    apply andb_prop in Ha as [_ Ha]. apply eqb_true in Ha; auto.
Qed.

(** The chain of left joins keeps every source row exactly once. *)
Lemma joined_rows now g ts ms src ws (pre : Row -> list (Z * option window_row)) l :
  fold_left (join_window key_val ts_val metric_val now g ts ms src) ws
    (map (fun r => (r, pre r)) l) =
  map (fun r =>
         (r, pre r ++
             map (fun w =>
                    (w, find (fun wr => keys_match (key_of g r) (w_key wr))
                          (window_of now g ts ms w src))) ws)) l.
Proof.
  revert pre; induction ws as [|w ws IH]; intros pre; simpl.
  - apply map_ext; intros r; rewrite app_nil_r; reflexivity.
  - unfold join_window at 2.
    rewrite left_join_unique by (intros; apply window_cte_unique).
    rewrite !map_map; simpl.
    rewrite (IH (fun r => pre r ++ [(w, find _ _)])).
    apply map_ext; intros r. rewrite <- app_assoc; reflexivity.
Qed.

(** The CTE row joined to a source row. *)
Lemma joined_window_row now g ts ms w src (k : list (option KV)) :
  find (fun wr => keys_match k (w_key wr)) (window_of now g ts ms w src) =
  if forallb is_some k then
    match rows_of now g ts w k src with
    | [] => None
    | rows =>
        Some {| w_key := k;
                w_aggs := map (fun m => (m, (sumq (map (metric_val m) rows),
                                             avgq (map (metric_val m) rows))))
                              ms |}
    end
  else None.
Proof.
  destruct (forallb is_some k) eqn:Ek.
  - rewrite (find_ext _ (fun wr => eqb k (w_key wr)))
      by (intros; rewrite keys_match_spec, Ek; reflexivity).
    unfold window_cte, group_by. rewrite map_map. cbn [fst snd].
    rewrite (find_map_key
               (fun k0 => {| w_key := k0;
                             w_aggs := map (fun m => (m, (sumq (map (metric_val m) (filter (fun a => eqb (key_of g a) k0) (filter (member now ts w) src))),
                               avgq (map (metric_val m) (filter (fun a => eqb (key_of g a) k0) (filter (member now ts w) src)))))) ms |})
               w_key k) by reflexivity.
    unfold rows_in_window.
    destruct (in_dec eq_dec k _) as [Hin|Hnin].
    + apply nodup_In, in_map_iff in Hin as (r & Hr & Hin).
      destruct (filter (fun a => eqb (key_of g a) k) _) eqn:Ef; [|reflexivity].
      exfalso. rewrite filter_nil_iff in Ef. specialize (Ef r Hin).
      apply eqb_false in Ef; auto.
    + destruct (filter (fun a => eqb (key_of g a) k) _) as [|r rs] eqn:Ef;
        [reflexivity|exfalso].
      apply Hnin, nodup_In, in_map_iff. exists r.
      assert (Hr : In r (r :: rs)) by (left; reflexivity).
      rewrite <- Ef in Hr. apply filter_In in Hr as [Hr1 Hr2].
      apply eqb_true in Hr2; auto.
  - apply find_none_all; intros wr _.
    rewrite keys_match_spec, Ek; reflexivity.
Qed.

(** What the select list puts in the two columns of (metric, window). *)
Lemma cell_value now g ts ms ws src r w m pick :
  In w ws -> In m ms ->
  cell (r, map (fun w =>
                  (w, find (fun wr => keys_match (key_of g r) (w_key wr))
                        (window_of now g ts ms w src))) ws) w m pick =
  if forallb is_some (key_of g r) then
    match rows_of now g ts w (key_of g r) src with
    | [] => None
    | rows => pick (sumq (map (metric_val m) rows),
                    avgq (map (metric_val m) rows))
    end
  else None.
Proof.
  intros Hw Hm. unfold cell; simpl.
  rewrite (assoc_map (fun w => find _ (window_of now g ts ms w src)) w ws Hw).
  rewrite joined_window_row.
  destruct (forallb is_some (key_of g r)); [|reflexivity].
  destruct (rows_of now g ts w (key_of g r) src) as [|x xs]; [reflexivity|].
  cbn [w_aggs].
  rewrite (assoc_map (fun m => (sumq (map (metric_val m) (x :: xs)),
                                avgq (map (metric_val m) (x :: xs)))) m ms Hm).
  reflexivity.
Qed.

Lemma flat_map_ext_in {X Y} (f g : X -> list Y) (l : list X) :
  (forall x, In x l -> f x = g x) -> flat_map f l = flat_map g l.
Proof.
  induction l as [|x l IH]; simpl; intros Hfg; [reflexivity|].
  rewrite Hfg by (left; reflexivity).
  rewrite IH by (intros; apply Hfg; right; assumption).
  reflexivity.
Qed.

(** A call returns rows exactly when its statement compiles, and the rows
    are those of the final select. *)
Lemma generate_compiled now rel g ts ms ws :
  compiles g ms ws = true ->
  generate now rel g ts ms (Some ws) = Rows (rows_of_statement now rel g ts ms ws).
Proof.
  intros Hc. unfold calculate_time_window_aggs. rewrite Hc. reflexivity.
Qed.

Lemma generate_inv now rel g ts ms ws t :
  generate now rel g ts ms (Some ws) = Rows t ->
  compiles g ms ws = true /\ t = rows_of_statement now rel g ts ms ws.
Proof.
  unfold calculate_time_window_aggs.
  destruct (compiles g ms ws); [|discriminate].
  intros E; injection E as <-. split; reflexivity.
Qed.

Lemma generate_failed now rel g ts ms ws :
  compiles g ms ws = false ->
  generate now rel g ts ms (Some ws) = CompilationError.
Proof.
  intros Hc. unfold calculate_time_window_aggs. rewrite Hc. reflexivity.
Qed.

(** The generated statement, row by row. *)
Lemma generate_rows now rel g ts ms ws :
  rows_of_statement now rel g ts ms ws =
  map (fun r =>
         (key_of g r,
          flat_map (fun w =>
            flat_map (fun m =>
              if forallb is_some (key_of g r) then
                [(sum_day m w, window_sum now g ts m w (key_of g r) rel);
                 (avg_day m w, window_avg now g ts m w (key_of g r) rel)]
              else [(sum_day m w, 0%Q); (avg_day m w, 0%Q)]) ms) ws)) rel.
Proof.
  unfold statement_rows.
  rewrite (joined_rows now g ts ms rel ws (fun _ => []) rel).
  rewrite map_map. apply map_ext; intros r. cbn [fst snd app].
  f_equal. apply flat_map_ext_in; intros w Hw.
  apply flat_map_ext_in; intros m Hm.
  rewrite !(cell_value now g ts ms ws rel r w m) by assumption.
  unfold window_sum, window_avg.
  destruct (forallb is_some (key_of g r)); [|reflexivity].
  destruct (rows_of now g ts w (key_of g r) rel); reflexivity.
Qed.

Lemma window_sum_Qeq now g ts m w k rel :
  (window_sum now g ts m w k rel ==
   qsum (non_null (map (metric_val m) (rows_of now g ts w k rel))))%Q.
Proof.
  unfold time_windows.window_sum, sumq.
  destruct (non_null _) as [|v vs]; cbn [coalesce]; [reflexivity|].
  apply Qred_correct.
Qed.

Lemma qsum_filter_le (f : Row -> option Q) (p : Row -> bool) (l : list Row) :
  (forall r v, In r l -> f r = Some v -> (0 <= v)%Q) ->
  (qsum (non_null (map f (filter p l))) <= qsum (non_null (map f l)))%Q.
Proof.
  induction l as [|r l IH]; simpl; intros Hpos; [apply Qle_refl|].
  assert (IH' := IH (fun r v Hr => Hpos r v (or_intror Hr))).
  destruct (f r) as [v|] eqn:Ev.
  - assert (Hv := Hpos r v (or_introl eq_refl) Ev).
    destruct (p r); simpl; rewrite ?Ev; simpl.
    + apply Qplus_le_compat; [apply Qle_refl|assumption].
    + rewrite <- (Qplus_0_l (qsum (non_null (map f (filter p l))))).
      apply Qplus_le_compat; assumption.
  - destruct (p r); simpl; rewrite ?Ev; assumption.
Qed.

(** Windows are nested: a row inside the shorter window is inside the
    longer one. *)
Lemma in_window_mono now ts w1 w2 r :
  w1 <= w2 -> member now ts w1 r = true -> member now ts w2 r = true.
Proof.
  unfold in_window. destruct (datediff_day _ _); [|discriminate].
  rewrite !Z.leb_le; lia.
Qed.

Lemma rows_in_window_nested now g ts w1 w2 k rel :
  w1 <= w2 ->
  rows_of now g ts w1 k rel =
  filter (member now ts w1) (rows_of now g ts w2 k rel).
Proof.
  intros Hw. unfold rows_in_window.
  rewrite (filter_comm (member now ts w1)). f_equal.
  rewrite filter_filter. apply filter_ext; intros r.
  destruct (member now ts w1 r) eqn:E1.
  - rewrite (in_window_mono now ts w1 w2 r Hw E1); reflexivity.
  - symmetry; apply andb_false_r.
Qed.

Lemma window_sum_mono now g ts m w1 w2 k rel :
  w1 <= w2 ->
  (forall r v, In r rel -> metric_val m r = Some v -> (0 <= v)%Q) ->
  (window_sum now g ts m w1 k rel <= window_sum now g ts m w2 k rel)%Q.
Proof.
  intros Hw Hpos. rewrite !window_sum_Qeq.
  rewrite (rows_in_window_nested now g ts w1 w2 k rel Hw).
  apply qsum_filter_le. intros r v Hr. apply Hpos.
  unfold rows_in_window in Hr.
  apply filter_In in Hr as [Hr _]. apply filter_In in Hr as [Hr _]. exact Hr.
Qed.

(** The value found in a sum column of an output row. *)
Lemma sum_column_value now rel g ts ms ws o m w v :
  In o (rows_of_statement now rel g ts ms ws) ->
  In (sum_day m w, v) (snd o) ->
  v = if forallb is_some (fst o) then window_sum now g ts m w (fst o) rel
      else 0%Q.
Proof.
  rewrite generate_rows. intros Ho Hv.
  apply in_map_iff in Ho as (r & <- & _). cbn [fst snd] in *.
  apply in_flat_map in Hv as (w' & _ & Hv).
  apply in_flat_map in Hv as (m' & _ & Hv).
  destruct (forallb is_some (key_of g r));
    destruct Hv as [Hv|[Hv|[]]]; inversion Hv; reflexivity.
Qed.

Lemma rows_in_window_perm now g ts w k rel rel' :
  Permutation rel rel' ->
  Permutation (rows_of now g ts w k rel) (rows_of now g ts w k rel').
Proof. intros Hp; unfold rows_in_window; do 2 apply filter_perm; exact Hp. Qed.

Lemma generate_perm now rel rel' g ts ms ws :
  Permutation rel rel' ->
  Permutation (rows_of_statement now rel g ts ms ws)
              (rows_of_statement now rel' g ts ms ws).
Proof.
  intros Hp. rewrite !generate_rows.
  etransitivity; [apply Permutation_map; exact Hp|].
  apply Permutation_refl'. apply map_ext; intros r. f_equal.
  apply flat_map_ext_in; intros w _. apply flat_map_ext_in; intros m _.
  unfold time_windows.window_sum, time_windows.window_avg.
  rewrite (sumq_perm _ _ _ (rows_in_window_perm now g ts w (key_of g r) _ _ Hp)).
  rewrite (avgq_perm _ _ _ (rows_in_window_perm now g ts w (key_of g r) _ _ Hp)).
  reflexivity.
Qed.

Lemma run_stages_same_reading now (stages : list stage) :
  run_stages key_val ts_val metric_val (map (fun _ => now) stages) stages =
  map (run_stage key_val ts_val metric_val now) stages.
Proof.
  induction stages as [|s ss IH]; simpl; [reflexivity|].
  rewrite IH; reflexivity.
Qed.

(** A group none of whose dated rows is young enough has no row inside
    the window. *)
Lemma no_row_in_window now g ts w (k : list (option KV)) rel :
  (forall r d, In r rel -> key_of g r = k -> ts_val ts r = Some d ->
               w < now - d) ->
  rows_of now g ts w k rel = [].
Proof.
  intros Hold. unfold rows_in_window. apply filter_nil_iff. intros r Hr.
  apply filter_In in Hr as [Hr Hw]. apply eqb_false. intros Ek.
  unfold in_window, datediff_day in Hw.
  destruct (ts_val ts r) as [d|] eqn:Ed; [|discriminate].
  apply Z.leb_le in Hw. specialize (Hold r d Hr Ek Ed). lia.
Qed.

(** The rows inside a window are the rows of the group whose age in days,
    the current date minus their date, is at most the window length. *)
Lemma rows_in_window_In now g ts w (k : list (option KV)) rel r :
  In r (rows_of now g ts w k rel) <->
  In r rel /\ key_of g r = k /\
  exists d, ts_val ts r = Some d /\ now - d <= w.
Proof.
  unfold rows_in_window. rewrite !filter_In, eqb_true.
  unfold in_window, datediff_day.
  destruct (ts_val ts r) as [d|].
  - rewrite Z.leb_le. split.
    + intros [[Hr Hw] Hk]. repeat split; auto. exists d. auto.
    + intros (Hr & Hk & d' & E & Hw). injection E as <-. auto.
  - split.
    + intros [[_ Hw] _]. discriminate.
    + intros (_ & _ & d' & E & _). discriminate.
Qed.


(** C5.  For two window lengths W1 < W2 and a metric that is never
    negative, in every output row of the generator the W2 sum column is at
    least the W1 sum column; the windows are nested, since a row that
    passes [age <= W1] passes [age <= W2]. *)
Theorem wider_window_sum_ge now rel g ts ms ws m w1 w2 t o v1 v2 :
  w1 < w2 ->
  (forall r v, In r rel -> metric_val m r = Some v -> (0 <= v)%Q) ->
  generate now rel g ts ms (Some ws) = Rows t ->
  In o t ->
  In (sum_day m w1, v1) (snd o) ->
  In (sum_day m w2, v2) (snd o) ->
  (v1 <= v2)%Q /\
  (forall r, member now ts w1 r = true -> member now ts w2 r = true).
Proof.
  intros Hw Hpos Ht Ho H1 H2. apply generate_inv in Ht as [_ ->]. split.
  - rewrite (sum_column_value _ _ _ _ _ _ _ _ _ _ Ho H1).
    rewrite (sum_column_value _ _ _ _ _ _ _ _ _ _ Ho H2).
    destruct (forallb is_some (fst o)); [|apply Qle_refl].
    apply window_sum_mono; [lia|assumption].
  - intros r. apply in_window_mono; lia.
Qed.

(** C8 (amended).  The macro has no reference-instant parameter: each
    generated statement reads [current_date()] itself.  When every
    statement of a run gets the same reading, the run is the run against
    that one instant; and two evaluations with the same reading over the
    same rows, in whatever physical order, return the same rows (or both
    fail to compile). *)
Theorem same_reading_same_aggregates now (stages : list stage)
  rel rel' g ts ms ws :
  Permutation rel rel' ->
  run_stages key_val ts_val metric_val (map (fun _ => now) stages) stages =
    map (run_stage key_val ts_val metric_val now) stages /\
  match generate now rel g ts ms (Some ws),
        generate now rel' g ts ms (Some ws) with
  | Rows t, Rows t' => Permutation t t'
  | CompilationError, CompilationError => True
  | _, _ => False
  end.
Proof.
  intros Hp; split; [apply run_stages_same_reading|].
  destruct (compiles g ms ws) eqn:Hc.
  - rewrite !generate_compiled by exact Hc. apply generate_perm, Hp.
  - rewrite !generate_failed by exact Hc. exact I.
Qed.

End MacroFacts.

Import Example.
Open Scope string_scope.



Lemma wider_window_sum_ge_witness :
  ((5 # 1) <= (8 # 1))%Q /\
  (forall r, in_window ts_val 100 "ordered_at" 7 r = true ->
             in_window ts_val 100 "ordered_at" 30 r = true).
Proof.
  apply (wider_window_sum_ge key_val ts_val metric_val 100
           [(Some 1, Some 95, Some (5 # 1)); (Some 1, Some 80, Some (3 # 1))]
           ["user_id"] "ordered_at" ["amount"] [7; 30] "amount" 7 30
           [([Some 1],
             [(sum_day "amount" 7, 5 # 1); (avg_day "amount" 7, 5 # 1);
              (sum_day "amount" 30, 8 # 1); (avg_day "amount" 30, 4 # 1)]);
            ([Some 1],
             [(sum_day "amount" 7, 5 # 1); (avg_day "amount" 7, 5 # 1);
              (sum_day "amount" 30, 8 # 1); (avg_day "amount" 30, 4 # 1)])]
           ([Some 1],
            [(sum_day "amount" 7, 5 # 1); (avg_day "amount" 7, 5 # 1);
             (sum_day "amount" 30, 8 # 1); (avg_day "amount" 30, 4 # 1)])).
  - lia.
  - intros r v [<-|[<-|[]]] E; inversion E; subst; unfold Qle; simpl; lia.
  - reflexivity.
  - left; reflexivity.
  - left; reflexivity.
  - right; right; left; reflexivity.
Defined.

(** C8, as stated, fails: a run whose second statement starts after
    midnight evaluates the same stage against two different instants. *)
Lemma clock_read_per_statement :
  ~ single_reference_instant key_val ts_val metric_val [10; 11] [weekly; weekly].
Proof.
  intros [now Hnow]. cbn [run_stages map] in Hnow.
  injection Hnow as H10 H11. rewrite <- H11 in H10.
  vm_compute in H10. discriminate.
Qed.

Lemma same_reading_same_aggregates_witness :
  run_stages key_val ts_val metric_val (map (fun _ => 10) [weekly; weekly])
    [weekly; weekly] =
  map (run_stage key_val ts_val metric_val 10) [weekly; weekly] /\
  match
    generate 10 [(Some 1, Some 3, Some (5 # 1)); (Some 2, Some 9, Some (2 # 1))]
      ["user_id"] "ordered_at" ["amount"] (Some [7]),
    generate 10 [(Some 2, Some 9, Some (2 # 1)); (Some 1, Some 3, Some (5 # 1))]
      ["user_id"] "ordered_at" ["amount"] (Some [7])
  with
  | Rows t, Rows t' => Permutation t t'
  | CompilationError, CompilationError => True
  | _, _ => False
  end.
Proof.
  apply (same_reading_same_aggregates key_val ts_val metric_val).
  apply perm_swap.
Defined.

End time_windows_facts.

(* ------------------------------------------------------------------------- *)
(** ** Safe division *)

Module DivisionFacts.
Import SQL SQLFacts.

Lemma bind_ok {A B} (c : result A) (k : A -> result B) (b : B) :
  bind c k = Ok b -> exists a, c = Ok a /\ k a = Ok b.
Proof. destruct c as [a|e]; simpl; [eauto|discriminate]. Qed.

Lemma nullif_zero (b : option Q) (y : Q) :
  nullif b 0 = Some y -> Qeq_bool y 0 = false.
Proof.
  destruct b as [x|]; simpl; [|discriminate].
  destruct (Qeq_bool x 0) eqn:E; [discriminate|].
  intros Hx; inversion Hx; subst; exact E.
Qed.

(** [a / nullif(b, 0)] never fails, and is NULL when [b] is zero. *)
Lemma div_nullif (a b : option Q) :
  exists q, div a (nullif b 0) = Ok q /\
            (forall y, b = Some y -> (y == 0)%Q -> q = None).
Proof.
  unfold div. destruct a as [x|].
  - destruct (nullif b 0) as [y|] eqn:E.
    + rewrite (nullif_zero b y E). eexists; split; [reflexivity|].
      intros y' -> Hy. simpl in E. apply Qeq_bool_iff in Hy.
      rewrite Hy in E; discriminate.
    + eexists; split; [reflexivity|reflexivity].
  - exists None; split; [|reflexivity].
    destruct (nullif b 0); reflexivity.
Qed.

Lemma div_nullif_ok (a b : option Q) : exists q, div a (nullif b 0) = Ok q.
Proof. destruct (div_nullif a b) as (q & Hq & _); eauto. Qed.

Lemma guarded_bind {B} (a b : option Q) (k : option Q -> result B) :
  (forall q, exists r, k q = Ok r) ->
  exists r, bind (div a (nullif b 0)) k = Ok r.
Proof. intros Hk. destruct (div_nullif_ok a b) as [q ->]. apply Hk. Qed.

(** Discharge the next guarded division of a select list. *)
Ltac guarded := apply guarded_bind; intros ?q.

Lemma select_total {A B} (f : A -> result B) (l : list A) :
  (forall a, In a l -> exists b, f a = Ok b) -> exists t, select f l = Ok t.
Proof.
  induction l as [|a l IH]; simpl; intros Hf; [eauto|].
  destruct (Hf a (or_introl eq_refl)) as [b ->].
  destruct IH as [t ->]; [intros; apply Hf; right; assumption|].
  simpl; eauto.
Qed.

Lemma select_rows {A B} (f : A -> result B) (l : list A) (t : list B) :
  select f l = Ok t ->
  (forall b, In b t -> exists a, In a l /\ f a = Ok b) /\
  (forall a, In a l -> exists b, In b t /\ f a = Ok b).
Proof.
  intros Hs. apply select_inv in Hs.
  induction Hs as [|a b l t Hab _ [IH1 IH2]]; [split; intros ? []|split].
  - intros b' [<-|Hb]; [exists a; split; [left; reflexivity|assumption]|].
    destruct (IH1 b' Hb) as (a' & Ha' & Hf); exists a'; split; [right|]; assumption.
  - intros a' [<-|Ha]; [exists b; split; [left; reflexivity|assumption]|].
    destruct (IH2 a' Ha) as (b' & Hb' & Hf); exists b'; split; [right|]; assumption.
Qed.

Lemma select_keys {A B K} (f : A -> result B) (ka : A -> K) (kb : B -> K)
  (l : list A) (t : list B) :
  (forall a b, f a = Ok b -> kb b = ka a) ->
  select f l = Ok t -> map kb t = map ka l.
Proof.
  intros Hk Hs. apply select_inv in Hs.
  induction Hs as [|a b l t Hab _ IH]; simpl; [reflexivity|].
  rewrite (Hk a b Hab), IH; reflexivity.
Qed.

End DivisionFacts.

(* ------------------------------------------------------------------------- *)
(** ** Ratios of the intermediate models *)

Module RatioFacts.
Import SQL SQLFacts DivisionFacts.
Module um := int_instacart__user_order_metrics.

(** C2, at the failing input: the only order of the evaluation partition
    that reaches [min_orders] has no order line, [sum(basket_size)] is 0 and
    the unguarded division of [overall_reorder_rate] aborts the model. *)
Theorem overall_reorder_rate_divides_by_zero :
  um.model Sample.v
    {| orders := [Sample.an_order 1 1 4 0 8 None "prior"];
       order_products := [];
       products := [];
       aisles := [];
       departments := [] |}
  = Raise DivisionByZero.
Proof. vm_compute. reflexivity. Qed.

End RatioFacts.

(* ------------------------------------------------------------------------- *)
(** ** Day parts and dominant buckets *)

Module DayPartFacts.
Import SQL SQLFacts DivisionFacts.
Module upf := instacart__user_product_features.
Module uptp := upf.uptp.
Module ofe := instacart__order_features.

Lemma non_null_map_Some {A B} (f : A -> B) (l : list A) :
  non_null (map (fun r => Some (f r)) l) = map f l.
Proof. induction l as [|a l IH]; simpl; [|rewrite IH]; reflexivity. Qed.

Lemma zsum_indicator {A} (c : A -> bool) (l : list A) :
  zsum (map (fun r => if c r then 1 else 0) l) =
  Z.of_nat (List.length (filter c l)).
Proof.
  induction l as [|a l IH]; [reflexivity|].
  cbn [map filter]. change (zsum (?x :: ?t)) with (x + zsum t). rewrite IH.
  destruct (c a); cbn [List.length]; lia.
Qed.

Lemma count_when_some {A} (c : A -> bool) (rows : list A) :
  rows <> [] ->
  count_when c rows = Some (Z.of_nat (List.length (filter c rows))).
Proof.
  intros Hne. unfold count_when, sum. rewrite non_null_map_Some.
  destruct rows as [|r rows]; [congruence|].
  rewrite <- zsum_indicator. reflexivity.
Qed.

(** Every integer hour is in exactly one of the four buckets. *)
Lemma one_day_part (hour : Z) :
  indicator (is_morning hour) + indicator (is_midday hour)
  + indicator (is_evening hour) + indicator (is_night hour) = 1.
Proof.
  unfold is_morning, is_midday, is_evening, is_night, between, indicator.
  destruct (5 <=? hour) eqn:E1, (hour <=? 9) eqn:E2, (10 <=? hour) eqn:E3,
    (hour <=? 14) eqn:E4, (15 <=? hour) eqn:E5, (hour <=? 19) eqn:E6,
    (20 <=? hour) eqn:E7, (hour <? 5) eqn:E8; simpl; try reflexivity;
    rewrite ?Z.leb_le, ?Z.leb_gt, ?Z.ltb_lt, ?Z.ltb_ge in *; lia.
Qed.

Lemma day_part_ranges (hour : Z) :
  0 <= hour <= 23 ->
  (is_morning hour = true <-> 5 <= hour <= 9) /\
  (is_midday hour = true <-> 10 <= hour <= 14) /\
  (is_evening hour = true <-> 15 <= hour <= 19) /\
  (is_night hour = true <-> 20 <= hour \/ hour < 5).
Proof.
  intros Hh. unfold is_morning, is_midday, is_evening, is_night, between.
  rewrite !andb_true_iff, orb_true_iff, !Z.leb_le, Z.ltb_lt. tauto.
Qed.

Lemma day_part_of_bucket (hour : Z) :
  day_part_of hour =
  if is_morning hour then morning
  else if is_midday hour then midday
  else if is_evening hour then evening
  else night.
Proof. reflexivity. Qed.

Lemma day_part_of_label (hour : Z) :
  In (day_part_of hour) [morning; midday; evening; night].
Proof.
  unfold day_part_of.
  destruct (between hour 5 9); [left; reflexivity|].
  destruct (between hour 10 14); [right; left; reflexivity|].
  destruct (between hour 15 19); [right; right; left; reflexivity|].
  right; right; right; left; reflexivity.
Qed.

Lemma four_way_count {A} (hour : A -> Z) (rows : list A) :
  Z.of_nat (List.length (filter (fun r => is_morning (hour r)) rows))
  + Z.of_nat (List.length (filter (fun r => is_midday (hour r)) rows))
  + Z.of_nat (List.length (filter (fun r => is_evening (hour r)) rows))
  + Z.of_nat (List.length (filter (fun r => is_night (hour r)) rows))
  = Z.of_nat (List.length rows).
Proof.
  induction rows as [|r rows IH]; [reflexivity|].
  pose proof (one_day_part (hour r)) as H1. unfold indicator in H1.
  cbn [filter].
  destruct (is_morning (hour r)), (is_midday (hour r)),
    (is_evening (hour r)), (is_night (hour r));
    cbn [List.length]; lia.
Qed.

(** The rows of [user_product_time_patterns], group by group. *)
Lemma time_patterns_row v db r :
  In r (upf.user_product_time_patterns v db) ->
  exists rows,
    rows = filter (fun x : o.row * op.row =>
                     eqb (o.user_id (fst x), op.product_id (snd x))
                         (uptp.user_id r, uptp.product_id r))
                  (upf.purchases v db) /\
    rows <> [] /\
    uptp.dow_0_purchases r = count_when (fun x => o.order_dow (fst x) =? 0) rows /\
    uptp.dow_1_purchases r = count_when (fun x => o.order_dow (fst x) =? 1) rows /\
    uptp.dow_2_purchases r = count_when (fun x => o.order_dow (fst x) =? 2) rows /\
    uptp.dow_3_purchases r = count_when (fun x => o.order_dow (fst x) =? 3) rows /\
    uptp.dow_4_purchases r = count_when (fun x => o.order_dow (fst x) =? 4) rows /\
    uptp.dow_5_purchases r = count_when (fun x => o.order_dow (fst x) =? 5) rows /\
    uptp.dow_6_purchases r = count_when (fun x => o.order_dow (fst x) =? 6) rows /\
    uptp.morning_purchases r =
      count_when (fun x => is_morning (o.order_hour_of_day (fst x))) rows /\
    uptp.midday_purchases r =
      count_when (fun x => is_midday (o.order_hour_of_day (fst x))) rows /\
    uptp.evening_purchases r =
      count_when (fun x => is_evening (o.order_hour_of_day (fst x))) rows /\
    uptp.night_purchases r =
      count_when (fun x => is_night (o.order_hour_of_day (fst x))) rows.
Proof.
  unfold upf.user_product_time_patterns. intros Hr.
  apply in_map_iff in Hr as ([[u pr] rows] & <- & Hg).
  pose proof (group_rows_nonempty _ _ _ Hg) as Hne.
  apply group_by_In in Hg as [_ Hrows]. cbn [fst snd] in *.
  exists rows. split; [exact Hrows|]. split; [exact Hne|].
  repeat split; reflexivity.
Qed.

Ltac first_max before c after :=
  exists before, c, after;
  split; [reflexivity|];
  split; intros y Hy; cbn [In] in Hy;
  repeat (destruct Hy as [<-|Hy]; [cbn [snd]; lia|]);
  try contradiction.

Lemma dominant_day_part_first (r : uptp.row) (m mi e n : Z) :
  uptp.morning_purchases r = Some m ->
  uptp.midday_purchases r = Some mi ->
  uptp.evening_purchases r = Some e ->
  uptp.night_purchases r = Some n ->
  first_listed_max [(morning, m); (midday, mi); (evening, e); (night, n)]
    (upf.dominant_day_part_of r).
Proof.
  intros Hm Hmi He Hn. unfold upf.dominant_day_part_of.
  rewrite Hm, Hmi, He, Hn. cbn [upf.greatest fold_left upf.is_value].
  destruct (Z.eqb_spec (Z.max (Z.max (Z.max m mi) e) n) m) as [E1|E1].
  { first_max (@nil (string * Z)) m [(midday, mi); (evening, e); (night, n)]. }
  destruct (Z.eqb_spec (Z.max (Z.max (Z.max m mi) e) n) mi) as [E2|E2].
  { first_max [(morning, m)] mi [(evening, e); (night, n)]. }
  destruct (Z.eqb_spec (Z.max (Z.max (Z.max m mi) e) n) e) as [E3|E3].
  { first_max [(morning, m); (midday, mi)] e [(night, n)]. }
  first_max [(morning, m); (midday, mi); (evening, e)] n (@nil (string * Z)).
Qed.

Lemma dominant_dow_first (r : uptp.row) (d0 d1 d2 d3 d4 d5 d6 : Z) :
  uptp.dow_0_purchases r = Some d0 ->
  uptp.dow_1_purchases r = Some d1 ->
  uptp.dow_2_purchases r = Some d2 ->
  uptp.dow_3_purchases r = Some d3 ->
  uptp.dow_4_purchases r = Some d4 ->
  uptp.dow_5_purchases r = Some d5 ->
  uptp.dow_6_purchases r = Some d6 ->
  first_listed_max
    [(0, d0); (1, d1); (2, d2); (3, d3); (4, d4); (5, d5); (6, d6)]
    (upf.dominant_dow_of r).
Proof.
  intros H0 H1 H2 H3 H4 H5 H6. unfold upf.dominant_dow_of.
  rewrite H0, H1, H2, H3, H4, H5, H6.
  cbn [upf.greatest fold_left upf.is_value].
  set (g := Z.max (Z.max (Z.max (Z.max (Z.max (Z.max d0 d1) d2) d3) d4) d5) d6).
  assert (Hg : d0 <= g /\ d1 <= g /\ d2 <= g /\ d3 <= g /\ d4 <= g /\
               d5 <= g /\ d6 <= g /\
               (g = d0 \/ g = d1 \/ g = d2 \/ g = d3 \/ g = d4 \/ g = d5 \/
                g = d6)) by (subst g; lia).
  clearbody g.
  destruct (Z.eqb_spec g d0) as [E0|E0].
  { first_max (@nil (Z * Z)) d0
      [(1, d1); (2, d2); (3, d3); (4, d4); (5, d5); (6, d6)]. }
  destruct (Z.eqb_spec g d1) as [E1|E1].
  { first_max [(0, d0)] d1 [(2, d2); (3, d3); (4, d4); (5, d5); (6, d6)]. }
  destruct (Z.eqb_spec g d2) as [E2|E2].
  { first_max [(0, d0); (1, d1)] d2 [(3, d3); (4, d4); (5, d5); (6, d6)]. }
  destruct (Z.eqb_spec g d3) as [E3|E3].
  { first_max [(0, d0); (1, d1); (2, d2)] d3 [(4, d4); (5, d5); (6, d6)]. }
  destruct (Z.eqb_spec g d4) as [E4|E4].
  { first_max [(0, d0); (1, d1); (2, d2); (3, d3)] d4 [(5, d5); (6, d6)]. }
  destruct (Z.eqb_spec g d5) as [E5|E5].
  { first_max [(0, d0); (1, d1); (2, d2); (3, d3); (4, d4)] d5 [(6, d6)]. }
  first_max [(0, d0); (1, d1); (2, d2); (3, d3); (4, d4); (5, d5)] d6
    (@nil (Z * Z)).
Qed.

(** C6.  For every (user, product) group, [dominant_day_part] is the first
    of morning, midday, evening, night among the buckets with the greatest
    purchase count, and [dominant_dow] the smallest day among the days with
    the greatest count; the counts morning 5, midday 5, evening 2, night 1
    give 'morning'.  The selection is a function of the counts. *)
Theorem dominant_bucket_first_listed v db (r : uptp.row) :
  In r (upf.user_product_time_patterns v db) ->
  (exists m mi e n,
     uptp.morning_purchases r = Some m /\
     uptp.midday_purchases r = Some mi /\
     uptp.evening_purchases r = Some e /\
     uptp.night_purchases r = Some n /\
     first_listed_max [(morning, m); (midday, mi); (evening, e); (night, n)]
       (upf.dominant_day_part_of r)) /\
  (exists d0 d1 d2 d3 d4 d5 d6,
     uptp.dow_0_purchases r = Some d0 /\
     uptp.dow_1_purchases r = Some d1 /\
     uptp.dow_2_purchases r = Some d2 /\
     uptp.dow_3_purchases r = Some d3 /\
     uptp.dow_4_purchases r = Some d4 /\
     uptp.dow_5_purchases r = Some d5 /\
     uptp.dow_6_purchases r = Some d6 /\
     first_listed_max
       [(0, d0); (1, d1); (2, d2); (3, d3); (4, d4); (5, d5); (6, d6)]
       (upf.dominant_dow_of r)) /\
  In {| upf.ddp.user_id := uptp.user_id r;
        upf.ddp.product_id := uptp.product_id r;
        upf.ddp.dominant_day_part := upf.dominant_day_part_of r |}
     (upf.dominant_day_parts v db) /\
  In {| upf.dd.user_id := uptp.user_id r;
        upf.dd.product_id := uptp.product_id r;
        upf.dd.dominant_dow := upf.dominant_dow_of r |}
     (upf.dominant_dows v db) /\
  (uptp.morning_purchases r = Some 5 ->
   uptp.midday_purchases r = Some 5 ->
   uptp.evening_purchases r = Some 2 ->
   uptp.night_purchases r = Some 1 ->
   upf.dominant_day_part_of r = morning).
Proof.
  intros Hr.
  destruct (time_patterns_row v db r Hr)
    as (rows & _ & Hne & H0 & H1 & H2 & H3 & H4 & H5 & H6 & Hm & Hmi & He & Hn).
  rewrite count_when_some in H0, H1, H2, H3, H4, H5, H6, Hm, Hmi, He, Hn
    by exact Hne.
  split; [|split; [|split; [|split]]].
  - do 4 eexists. repeat (split; [eassumption|]).
    apply dominant_day_part_first; assumption.
  - do 7 eexists. repeat (split; [eassumption|]).
    apply dominant_dow_first; assumption.
  - unfold upf.dominant_day_parts.
    apply (in_map (fun r => {| upf.ddp.user_id := uptp.user_id r;
                               upf.ddp.product_id := uptp.product_id r;
                               upf.ddp.dominant_day_part :=
                                 upf.dominant_day_part_of r |})); exact Hr.
  - unfold upf.dominant_dows.
    apply (in_map (fun r => {| upf.dd.user_id := uptp.user_id r;
                               upf.dd.product_id := uptp.product_id r;
                               upf.dd.dominant_dow := upf.dominant_dow_of r |}));
      exact Hr.
  - intros E1 E2 E3 E4. unfold upf.dominant_day_part_of.
    rewrite E1, E2, E3, E4. reflexivity.
Qed.

Lemma dominant_bucket_first_listed_witness :
  In {| upf.ddp.user_id := 7;
        upf.ddp.product_id := 101;
        upf.ddp.dominant_day_part := "morning" |}
     (upf.dominant_day_parts Sample.v Sample.db).
Proof.
  assert (H : In Sample.bread_pattern
                (upf.user_product_time_patterns Sample.v Sample.db))
    by (vm_compute; tauto).
  exact (proj1 (proj2 (proj2
           (dominant_bucket_first_listed Sample.v Sample.db _ H)))).
Defined.

Lemma order_metrics_total v db : exists t, ofe.order_metrics v db = Ok t.
Proof.
  unfold ofe.order_metrics. apply select_total. intros g _. cbv zeta.
  guarded. eexists; reflexivity.
Qed.

(** A row of [instacart__order_features] and the joined rows it is computed
    from. *)
Lemma order_features_row v db t r :
  ofe.final v db = Ok t -> In r t ->
  exists oms om pom pd,
    ofe.order_metrics v db = Ok oms /\
    In (om, pom, pd)
       (left_join
          (fun (j : ofe.om.row * option ofe.pom.row) (pd : ofe.pd.row) =>
             eqb (ofe.om.order_id (fst j)) (ofe.pd.order_id pd))
          (left_join
             (fun (om : ofe.om.row) (pom : ofe.pom.row) =>
                eqb (ofe.om.order_id om) (ofe.pom.order_id pom))
             oms (ofe.prev_order_metrics v db oms))
          (ofe.product_diversity v db)) /\
    ofe.order_id r = ofe.om.order_id om /\
    ofe.user_id r = ofe.om.user_id om /\
    ofe.order_number r = ofe.om.order_number om /\
    ofe.order_hour_of_day r = ofe.om.order_hour_of_day om /\
    ofe.basket_size r = ofe.om.basket_size om /\
    ofe.basket_size_delta r =
      sub (Some (ofe.om.basket_size om))
          (match pom with
           | Some q => ofe.pom.prev_basket_size q
           | None => None
           end) /\
    ofe.day_part r = day_part_of (ofe.om.order_hour_of_day om).
Proof.
  unfold ofe.final. intros Hf Hr.
  apply bind_ok in Hf as (oms & Homs & Hsel).
  apply select_rows in Hsel as [Hsel _].
  destruct (Hsel r Hr) as ([[om pom] pd] & Hj & Hrow).
  exists oms, om, pom, pd. split; [exact Homs|]. split; [exact Hj|].
  apply bind_ok in Hrow as (q1 & _ & Hrow).
  apply bind_ok in Hrow as (q2 & _ & Hrow).
  inversion Hrow; subst; cbn. repeat split; reflexivity.
Qed.

Lemma order_features_total v db : exists t, ofe.final v db = Ok t.
Proof.
  unfold ofe.final. destruct (order_metrics_total v db) as [oms ->]. cbn [bind].
  apply select_total. intros [[om pom] pd] _. cbv zeta.
  do 2 guarded. eexists; reflexivity.
Qed.

(** The CASE chain of [day_part], range by range; its [else] takes every
    hour outside 5-19. *)
Lemma day_part_of_hours (hour : Z) :
  (day_part_of hour = morning <-> 5 <= hour <= 9) /\
  (day_part_of hour = midday <-> 10 <= hour <= 14) /\
  (day_part_of hour = evening <-> 15 <= hour <= 19) /\
  (day_part_of hour = night <-> 20 <= hour \/ hour < 5).
Proof.
  unfold day_part_of, between, morning, midday, evening, night.
  destruct (5 <=? hour) eqn:E1, (hour <=? 9) eqn:E2, (10 <=? hour) eqn:E3,
    (hour <=? 14) eqn:E4, (15 <=? hour) eqn:E5, (hour <=? 19) eqn:E6;
    cbn [andb];
    rewrite ?Z.leb_le, ?Z.leb_gt in *;
    repeat split; intros; try discriminate; try lia; try reflexivity.
Qed.

(** C10.  The four day parts partition the hours.  In OrderFeatures
    [day_part] is one of the four labels, and it is 'morning' exactly for
    the hours 5-9, 'midday' for 10-14, 'evening' for 15-19 and 'night' for
    20 and later or before 5, so every hour has exactly one label.  In the
    time patterns of a (user, product) pair the morning, midday, evening
    and night counts are the numbers of the pair's purchases at an hour of
    those same ranges, and they add up to the number of purchases of the
    pair. *)
Theorem day_parts_partition_hours v db :
  (exists t, ofe.model v db = Ok t /\
     forall r, In r t ->
       In (ofe.day_part r) [morning; midday; evening; night] /\
       (ofe.day_part r = morning <-> 5 <= ofe.order_hour_of_day r <= 9) /\
       (ofe.day_part r = midday <-> 10 <= ofe.order_hour_of_day r <= 14) /\
       (ofe.day_part r = evening <-> 15 <= ofe.order_hour_of_day r <= 19) /\
       (ofe.day_part r = night <->
        20 <= ofe.order_hour_of_day r \/ ofe.order_hour_of_day r < 5)) /\
  (forall r, In r (upf.user_product_time_patterns v db) ->
     let bought := purchases_of v db (uptp.user_id r) (uptp.product_id r) in
     let at_hours (test : Z -> bool) :=
       count_star
         (filter (fun x : o.row * op.row => test (o.order_hour_of_day (fst x)))
                 bought) in
     uptp.morning_purchases r =
       Some (at_hours (fun h => (5 <=? h) && (h <=? 9))) /\
     uptp.midday_purchases r =
       Some (at_hours (fun h => (10 <=? h) && (h <=? 14))) /\
     uptp.evening_purchases r =
       Some (at_hours (fun h => (15 <=? h) && (h <=? 19))) /\
     uptp.night_purchases r =
       Some (at_hours (fun h => (20 <=? h) || (h <? 5))) /\
     at_hours (fun h => (5 <=? h) && (h <=? 9))
     + at_hours (fun h => (10 <=? h) && (h <=? 14))
     + at_hours (fun h => (15 <=? h) && (h <=? 19))
     + at_hours (fun h => (20 <=? h) || (h <? 5))
     = count_star bought).
Proof.
  split.
  - destruct (order_features_total v db) as [t Ht]. exists t.
    split; [exact Ht|]. intros r Hr.
    destruct (order_features_row v db t r Ht Hr)
      as (oms & om & pom & pd & _ & _ & _ & _ & _ & Hh & _ & _ & Hd).
    rewrite Hd, Hh. split; [apply day_part_of_label|].
    apply day_part_of_hours.
  - intros r Hr. cbv zeta.
    destruct (time_patterns_row v db r Hr)
      as (rows & Hrows & Hne & _ & _ & _ & _ & _ & _ & _ & Hm & Hmi & He & Hn).
    rewrite count_when_some in Hm, Hmi, He, Hn by exact Hne.
    unfold purchases_of. rewrite <- Hrows.
    repeat (split; [assumption|]).
    apply (four_way_count (fun x : o.row * op.row => o.order_hour_of_day (fst x))).
Qed.

Lemma day_parts_partition_hours_witness :
  match ofe.model Sample.v Sample.db with
  | Ok t =>
      exists r, In r t /\ ofe.order_hour_of_day r = 18 /\
                ofe.day_part r = evening
  | Raise _ => False
  end.
Proof.
  destruct (day_parts_partition_hours Sample.v Sample.db)
    as [(t & Ht & Hrows) _].
  rewrite Ht. pose proof Ht as Et. vm_compute in Et. injection Et as Et.
  assert (Hnth : exists r, nth_error t 3 = Some r /\
                           ofe.order_hour_of_day r = 18)
    by (rewrite <- Et; eexists; split; reflexivity).
  destruct Hnth as (r & Hn & Hh). apply nth_error_In in Hn.
  exists r. split; [exact Hn|]. split; [exact Hh|].
  apply (Hrows r Hn). lia.
Defined.

End DayPartFacts.

(* ------------------------------------------------------------------------- *)
(** ** Partitions, sorting and window functions *)

Module WindowFacts.
Import SQL SQLFacts.

Lemma insert_by_perm {A} (le : A -> A -> bool) (x : A) (l : list A) :
  Permutation (insert_by le x l) (x :: l).
Proof.
  induction l as [|y l IH]; simpl; [reflexivity|].
  destruct (le x y); [reflexivity|].
  rewrite IH. apply perm_swap.
Qed.

Lemma sort_by_perm {A} (le : A -> A -> bool) (l : list A) :
  Permutation (sort_by le l) l.
Proof.
  induction l as [|x l IH]; simpl; [reflexivity|].
  rewrite insert_by_perm, IH; reflexivity.
Qed.

Lemma sort_by_In {A} (le : A -> A -> bool) (l : list A) (a : A) :
  In a (sort_by le l) <-> In a l.
Proof.
  split; apply Permutation_in;
    [apply sort_by_perm | apply Permutation_sym, sort_by_perm].
Qed.

Lemma map_fst_number_from {A} (n : Z) (l : list A) :
  map fst (number_from n l) = l.
Proof.
  revert n; induction l as [|x l IH]; intros n; simpl; [|rewrite IH]; reflexivity.
Qed.

Lemma map_fst_with_prev {A} (prev : option A) (l : list A) :
  map fst (with_prev prev l) = l.
Proof.
  revert prev; induction l as [|x l IH]; intros prev; simpl; [|rewrite IH];
    reflexivity.
Qed.

Lemma filter_split_perm {A} (f g : A -> bool) (l : list A) :
  (forall a, In a l -> f a = true -> g a = false) ->
  Permutation (filter (fun a => f a || g a) l) (filter f l ++ filter g l).
Proof.
  induction l as [|a l IH]; intros Hd; [reflexivity|].
  assert (IH' := IH (fun b Hb => Hd b (or_intror Hb))).
  cbn [filter]. destruct (f a) eqn:Ef.
  - rewrite (Hd a (or_introl eq_refl) Ef). cbn [orb app].
    constructor; exact IH'.
  - cbn [orb]. destruct (g a).
    + rewrite IH'. apply Permutation_middle.
    + exact IH'.
Qed.

Lemma in_dec_true {K} `{EqDec K} (x : K) (l : list K) :
  (if in_dec eq_dec x l then true else false) = true <-> In x l.
Proof. destruct (in_dec eq_dec x l); split; intros; congruence || auto. Qed.

Lemma filter_all {A} (f : A -> bool) (l : list A) :
  (forall a, In a l -> f a = true) -> filter f l = l.
Proof.
  induction l as [|a l IH]; simpl; intros Hf; [reflexivity|].
  rewrite (Hf a (or_introl eq_refl)), IH; [reflexivity|].
  intros; apply Hf; right; assumption.
Qed.

Lemma filter_ext_in' {A} (f g : A -> bool) (l : list A) :
  (forall a, In a l -> f a = g a) -> filter f l = filter g l.
Proof.
  induction l as [|a l IH]; simpl; intros Hfg; [reflexivity|].
  rewrite (Hfg a (or_introl eq_refl)), IH; [reflexivity|].
  intros; apply Hfg; right; assumption.
Qed.

Lemma groups_cover {A K} `{EqDec K} (key : A -> K) (l : list A) (ks : list K) :
  NoDup ks ->
  Permutation
    (flat_map (fun k => filter (fun a => eqb (key a) k) l) ks)
    (filter (fun a => if in_dec eq_dec (key a) ks then true else false) l).
Proof.
  induction 1 as [|k ks Hk Hnd IH]; cbn [flat_map].
  - rewrite (proj2 (filter_nil_iff _ l)); [reflexivity|]. intros a _.
    destruct (in_dec eq_dec (key a) []) as [[]|]; reflexivity.
  - rewrite IH, <- filter_split_perm.
    + apply Permutation_refl'. apply filter_ext. intros a.
      apply eq_iff_eq_true.
      rewrite orb_true_iff, !in_dec_true, eqb_true. simpl.
      split; intros [E|E]; auto.
    + intros a _ Ea. apply eqb_true in Ea.
      destruct (in_dec eq_dec (key a) ks); [congruence|reflexivity].
Qed.

(** The groups of a relation hold its rows, each once. *)
Lemma groups_perm {A K} `{EqDec K} (key : A -> K) (l : list A) :
  Permutation (flat_map snd (group_by key l)) l.
Proof.
  unfold group_by. rewrite flat_map_concat_map, map_map; cbn [snd].
  rewrite <- flat_map_concat_map.
  rewrite groups_cover by apply NoDup_nodup.
  apply Permutation_refl', filter_all.
  intros a Ha. apply in_dec_true, nodup_In, in_map, Ha.
Qed.

Lemma flat_map_perm_fst {A B C} (f : A -> list (B * C)) (g : A -> list B)
  (l : list A) :
  (forall a, In a l -> Permutation (map fst (f a)) (g a)) ->
  Permutation (map fst (flat_map f l)) (flat_map g l).
Proof.
  induction l as [|a l IH]; intros Hfg; [reflexivity|].
  cbn [flat_map]. rewrite map_app.
  apply Permutation_app; [apply Hfg; left; reflexivity|].
  apply IH; intros; apply Hfg; right; assumption.
Qed.

(** [row_number] and [lag] keep the rows of the relation, each once. *)
Lemma row_number_rows {A P} `{EqDec P} (pkey : A -> P) (le : A -> A -> bool)
  (l : list A) :
  Permutation (map fst (row_number pkey le l)) l.
Proof.
  unfold row_number. rewrite <- (groups_perm pkey l) at 2.
  apply flat_map_perm_fst. intros g _.
  rewrite map_fst_number_from. apply sort_by_perm.
Qed.

Lemma lag_row_rows {A P} `{EqDec P} (pkey : A -> P) (le : A -> A -> bool)
  (l : list A) :
  Permutation (map fst (lag_row pkey le l)) l.
Proof.
  unfold lag_row. rewrite <- (groups_perm pkey l) at 2.
  apply flat_map_perm_fst. intros g _.
  rewrite map_fst_with_prev. apply sort_by_perm.
Qed.

Lemma number_from_no_first {A} (n : Z) (l : list A) :
  1 < n -> filter (fun r => snd r =? 1) (number_from n l) = [].
Proof.
  revert n; induction l as [|x l IH]; intros n Hn; simpl; [reflexivity|].
  destruct (Z.eqb_spec n 1); [lia|]. apply IH; lia.
Qed.

Lemma first_of_partition {A} (l : list A) :
  filter (fun r => snd r =? 1) (number_from 1 l) =
  match l with [] => [] | x :: _ => [(x, 1)] end.
Proof.
  destruct l as [|x l]; simpl; [reflexivity|].
  rewrite number_from_no_first by lia. reflexivity.
Qed.

Lemma filter_flat_map {A B} (f : B -> bool) (g : A -> list B) (l : list A) :
  filter f (flat_map g l) = flat_map (fun a => filter f (g a)) l.
Proof.
  induction l as [|a l IH]; simpl; [reflexivity|].
  rewrite filter_app, IH; reflexivity.
Qed.

Lemma group_rows_key {A K} `{EqDec K} (key : A -> K) (l : list A) g a :
  In g (group_by key l) -> In a (snd g) -> key a = fst g /\ In a l.
Proof.
  destruct g as [k rows]. rewrite group_by_In. intros [_ ->] Ha.
  apply filter_In in Ha as [Ha Hk]. apply eqb_true in Hk. auto.
Qed.

(** [rn = 1] selects one row per partition. *)
Lemma first_rows_keys {A P} `{EqDec P} (pkey : A -> P) (le : A -> A -> bool)
  (l : list A) :
  map (fun r => pkey (fst r))
      (filter (fun r => snd r =? 1) (row_number pkey le l)) =
  map fst (group_by pkey l).
Proof.
  unfold row_number. rewrite filter_flat_map.
  assert (Hg : forall g, In g (group_by pkey l) ->
                 snd g <> [] /\ forall a, In a (snd g) -> pkey a = fst g).
  { intros g Hg; split; [eapply group_rows_nonempty; eassumption|].
    intros a Ha; eapply group_rows_key; eassumption. }
  induction (group_by pkey l) as [|g gs IH]; [reflexivity|].
  cbn [flat_map map]. rewrite map_app, IH
    by (intros; apply Hg; right; assumption).
  rewrite first_of_partition.
  destruct (Hg g (or_introl eq_refl)) as [Hne Hk].
  destruct (sort_by le (snd g)) as [|x s] eqn:Es.
  - exfalso. apply Hne. apply Permutation_nil.
    rewrite <- Es. apply sort_by_perm.
  - cbn [map app fst]. f_equal. apply Hk.
    apply (sort_by_In le). rewrite Es; left; reflexivity.
Qed.

Lemma first_rows_NoDup {A P} `{EqDec P} (pkey : A -> P) (le : A -> A -> bool)
  (l : list A) :
  NoDup (map (fun r => pkey (fst r))
             (filter (fun r => snd r =? 1) (row_number pkey le l))).
Proof. rewrite first_rows_keys. apply group_by_NoDup. Qed.

End WindowFacts.

(* ------------------------------------------------------------------------- *)
(** ** Keys through joins *)

Module KeyFacts.
Import SQL SQLFacts DivisionFacts WindowFacts.

Lemma NoDup_map_inj_in {A B} (f : A -> B) (l : list A) :
  NoDup l ->
  (forall x y, In x l -> In y l -> f x = f y -> x = y) ->
  NoDup (map f l).
Proof.
  induction 1 as [|a l Ha Hnd IH]; intros Hinj; simpl; constructor.
  - intros Hin. apply in_map_iff in Hin as (b & Hb & Hbl).
    apply Ha. rewrite (Hinj a b); auto; [left; reflexivity|right; assumption].
  - apply IH. intros; apply Hinj; auto; right; assumption.
Qed.

(** In a relation with a unique key, equal keys mean equal rows. *)
Lemma NoDup_key_inj {A K} (key : A -> K) (l : list A) (x y : A) :
  NoDup (map key l) -> In x l -> In y l -> key x = key y -> x = y.
Proof.
  induction l as [|a l IH]; simpl; intros Hnd Hx Hy E; [contradiction|].
  inversion Hnd as [|? ? Hna Hnd']; subst.
  destruct Hx as [<-|Hx], Hy as [<-|Hy]; auto.
  - exfalso; apply Hna; rewrite E; apply in_map; assumption.
  - exfalso; apply Hna; rewrite <- E; apply in_map; assumption.
Qed.

Lemma inner_join_In {A B} (on : A -> B -> bool) (l : list A) (r : list B) a b :
  In (a, b) (inner_join on l r) <-> In a l /\ In b r /\ on a b = true.
Proof.
  unfold inner_join. rewrite in_flat_map. split.
  - intros (a' & Ha & Hab). apply in_map_iff in Hab as (b' & E & Hb).
    inversion E; subst. apply filter_In in Hb as [Hb Hon]. auto.
  - intros (Ha & Hb & Hon). exists a; split; [assumption|].
    apply in_map, filter_In; auto.
Qed.

Lemma left_join_In {A B} (on : A -> B -> bool) (l : list A) (r : list B) a b :
  In (a, b) (left_join on l r) ->
  In a l /\
  match b with
  | Some x => In x r /\ on a x = true
  | None => forall x, In x r -> on a x = false
  end.
Proof.
  unfold left_join. rewrite in_flat_map. intros (a' & Ha & Hab).
  destruct (filter (on a') r) as [|x xs] eqn:Ef.
  - destruct Hab as [E|[]]. inversion E; subst. split; [assumption|].
    apply filter_nil_iff; assumption.
  - apply in_map_iff in Hab as (b' & E & Hb). inversion E; subst.
    rewrite <- Ef in Hb. apply filter_In in Hb. auto.
Qed.

(** A join condition that pins the key of the right row matches at most
    one row of a relation keyed by it. *)
Lemma unique_match {A B K} (kr : B -> K) (h : A -> K) (on : A -> B -> bool)
  (r : list B) :
  NoDup (map kr r) ->
  (forall a b, on a b = true -> kr b = h a) ->
  forall a, (List.length (filter (on a) r) <= 1)%nat.
Proof.
  intros Hnd Hon a. apply (filter_at_most_one kr (on a) (h a)); auto.
Qed.

Lemma inner_join_keys_incl {A B K} (kl : A -> K) (on : A -> B -> bool)
  (l : list A) (r : list B) k :
  In k (map (fun j => kl (fst j)) (inner_join on l r)) -> In k (map kl l).
Proof.
  intros Hk. apply in_map_iff in Hk as ([a b] & <- & Hj).
  apply inner_join_In in Hj as (Ha & _). apply in_map; exact Ha.
Qed.

(** No fan-out: an inner join with at most one match per left row keeps the
    left key unique. *)
Lemma inner_join_keys {A B K} (kl : A -> K) (on : A -> B -> bool)
  (l : list A) (r : list B) :
  (forall a, (List.length (filter (on a) r) <= 1)%nat) ->
  NoDup (map kl l) ->
  NoDup (map (fun j => kl (fst j)) (inner_join on l r)).
Proof.
  intros Hu. induction l as [|a l IH]; intros Hnd; [constructor|].
  inversion Hnd as [|? ? Hna Hnd']; subst.
  change (inner_join on (a :: l) r)
    with (map (pair a) (filter (on a) r) ++ inner_join on l r).
  specialize (Hu a).
  destruct (filter (on a) r) as [|b [|c bs]]; cbn [map app] in *.
  - apply IH; assumption.
  - constructor; [|apply IH; assumption].
    intros Hin. apply Hna. eapply inner_join_keys_incl; exact Hin.
  - simpl in Hu; lia.
Qed.

(** A left join with at most one match per left row returns the left rows,
    one for one. *)
Lemma left_join_keys {A B K} (kl : A -> K) (on : A -> B -> bool)
  (l : list A) (r : list B) :
  (forall a, (List.length (filter (on a) r) <= 1)%nat) ->
  map (fun j => kl (fst j)) (left_join on l r) = map kl l.
Proof.
  intros Hu. rewrite left_join_unique by (intros; apply Hu).
  rewrite map_map. reflexivity.
Qed.

Lemma left_join_keys_NoDup {A B K} (kl : A -> K) (on : A -> B -> bool)
  (l : list A) (r : list B) :
  (forall a, (List.length (filter (on a) r) <= 1)%nat) ->
  NoDup (map kl l) ->
  NoDup (map (fun j => kl (fst j)) (left_join on l r)).
Proof. intros Hu Hnd. rewrite left_join_keys; assumption. Qed.

Lemma Permutation_key_NoDup {A K} (key : A -> K) (l l' : list A) :
  Permutation l l' -> NoDup (map key l') -> NoDup (map key l).
Proof.
  intros Hp Hnd. eapply Permutation_NoDup; [|exact Hnd].
  apply Permutation_map, Permutation_sym, Hp.
Qed.

(** Ranking rows keep the keys of the ranked relation. *)
Lemma row_number_keys {A P K} `{EqDec P} (key : A -> K) (pkey : A -> P)
  (le : A -> A -> bool) (l : list A) :
  NoDup (map key l) ->
  NoDup (map (fun r => key (fst r)) (row_number pkey le l)).
Proof.
  intros Hnd. rewrite <- (map_map fst key).
  eapply Permutation_key_NoDup; [apply row_number_rows|exact Hnd].
Qed.

Lemma lag_row_keys {A P K} `{EqDec P} (key : A -> K) (pkey : A -> P)
  (le : A -> A -> bool) (l : list A) :
  NoDup (map key l) ->
  NoDup (map (fun r => key (fst r)) (lag_row pkey le l)).
Proof.
  intros Hnd. rewrite <- (map_map fst key).
  eapply Permutation_key_NoDup; [apply lag_row_rows|exact Hnd].
Qed.

End KeyFacts.

(* ------------------------------------------------------------------------- *)
(** ** Keys of the intermediate models *)

Module IntermediateKeys.
Import SQL SQLFacts DivisionFacts WindowFacts KeyFacts.
Module um := int_instacart__user_order_metrics.
Module pm := int_instacart__product_metrics.
Module upm := int_instacart__user_product_metrics.
Module ofe := instacart__order_features.

Lemma group_key_In {A K} `{EqDec K} (key : A -> K) (l : list A) (k : K) :
  In k (map fst (group_by key l)) <-> exists a, In a l /\ key a = k.
Proof.
  rewrite group_by_keys, nodup_In, in_map_iff. split.
  - intros (a & E & Ha); eauto.
  - intros (a & Ha & E); eauto.
Qed.

Lemma user_metrics_keys v db t :
  um.model v db = Ok t -> NoDup (map um.user_id t).
Proof.
  unfold um.model, um.user_metrics. intros Ht.
  apply (select_keys _ fst um.user_id _ _) in Ht.
  - rewrite Ht. apply group_by_NoDup.
  - intros g b Hb. cbv zeta in Hb.
    apply bind_ok in Hb as (q & _ & Hb). inversion Hb; reflexivity.
Qed.

Lemma product_metrics_keys v db t :
  NoDup (map p.product_id (products db)) ->
  pm.model v db = Ok t -> NoDup (map pm.product_id t).
Proof.
  unfold pm.model, pm.product_metrics. intros Hp Ht.
  assert (Hk : map pm.product_id t =
               map (fun k : Z * Z * Z => fst (fst k))
                   (map fst (group_by
                      (fun r : op.row * o.row * p.row =>
                         (op.product_id (fst (fst r)), p.aisle_id (snd r),
                          p.department_id (snd r)))
                      (inner_join
                         (fun r p => eqb (op.product_id (fst r)) (p.product_id p))
                         (inner_join
                            (fun op o => eqb (op.order_id op) (o.order_id o))
                            (order_products db) (pm.orders v db))
                         (products db))))).
  { rewrite map_map.
    apply (select_keys _ (fun g => fst (fst (fst g))) pm.product_id _ _) in Ht;
      [exact Ht|].
    intros g b Hb. cbv zeta in Hb.
    apply bind_ok in Hb as (q & _ & Hb). inversion Hb; reflexivity. }
  rewrite Hk. apply NoDup_map_inj_in; [apply group_by_NoDup|].
  intros k1 k2 H1 H2 E.
  apply group_key_In in H1 as ([r1 p1] & Hr1 & <-).
  apply group_key_In in H2 as ([r2 p2] & Hr2 & <-).
  apply inner_join_In in Hr1 as (_ & Hp1 & E1).
  apply inner_join_In in Hr2 as (_ & Hp2 & E2).
  apply eqb_true in E1, E2. cbn [fst snd] in *.
  assert (p1 = p2)
    by (apply (NoDup_key_inj p.product_id (products db)); congruence).
  subst. congruence.
Qed.

Lemma user_product_metrics_keys v db t :
  upm.model v db = Ok t ->
  NoDup (map (fun r => (upm.user_id r, upm.product_id r)) t).
Proof.
  unfold upm.model, upm.user_product_metrics. intros Ht.
  apply (select_keys _ fst (fun r => (upm.user_id r, upm.product_id r)) _ _)
    in Ht.
  - rewrite Ht. apply group_by_NoDup.
  - intros [[u pr] rows] b Hb. cbv zeta in Hb.
    apply bind_ok in Hb as (q & _ & Hb). inversion Hb; reflexivity.
Qed.

Lemma order_metrics_keys v db t :
  NoDup (map o.order_id (orders db)) ->
  ofe.order_metrics v db = Ok t -> NoDup (map ofe.om.order_id t).
Proof.
  unfold ofe.order_metrics. intros Ho Ht.
  apply (select_keys _ (fun g => fst (fst (fst (fst (fst (fst g))))))
           ofe.om.order_id _ _) in Ht.
  - rewrite Ht, <- (map_map fst (fun k => fst (fst (fst (fst (fst k)))))).
    apply NoDup_map_inj_in; [apply group_by_NoDup|].
    intros k1 k2 H1 H2 E.
    apply group_key_In in H1 as ([o1 l1] & Hr1 & <-).
    apply group_key_In in H2 as ([o2 l2] & Hr2 & <-).
    apply left_join_In in Hr1 as (Ho1 & _).
    apply left_join_In in Hr2 as (Ho2 & _).
    unfold ofe.orders in Ho1, Ho2.
    apply filter_In in Ho1 as [Ho1 _]. apply filter_In in Ho2 as [Ho2 _].
    cbn [fst snd] in *.
    assert (o1 = o2)
      by (apply (NoDup_key_inj o.order_id (orders db)); assumption).
    subst; reflexivity.
  - intros [[[[[[oid uid] n] dow] h] dsp] rows] b Hb. cbv zeta in Hb.
    apply bind_ok in Hb as (q & _ & Hb). inversion Hb; reflexivity.
Qed.

End IntermediateKeys.

(* ------------------------------------------------------------------------- *)
(** ** Keys of the feature tables *)

Module FeatureKeys.
Import SQL SQLFacts DivisionFacts WindowFacts KeyFacts IntermediateKeys.
Module uf := instacart__user_features.
Module pfm := instacart__product_features.
Module upf := instacart__user_product_features.

Lemma filter_keys_NoDup {A K} (key : A -> K) (f : A -> bool) (l : list A) :
  NoDup (map key l) -> NoDup (map key (filter f l)).
Proof.
  induction l as [|a l IH]; simpl; intros Hnd; [constructor|].
  inversion Hnd as [|? ? Hna Hnd']; subst.
  destruct (f a); simpl; [constructor|]; auto.
  intros Hin. apply Hna. apply in_map_iff in Hin as (b & E & Hb).
  apply filter_In in Hb as [Hb _]. rewrite <- E. apply in_map; assumption.
Qed.

Lemma reorder_stats_keys v db t :
  uf.reorder_stats v db = Ok t -> NoDup (map uf.rs.user_id t).
Proof.
  unfold uf.reorder_stats. intros Ht.
  apply (select_keys _ fst uf.rs.user_id _ _) in Ht.
  - rewrite Ht. apply group_by_NoDup.
  - intros g b Hb. cbv zeta in Hb.
    apply bind_ok in Hb as (q & _ & Hb). inversion Hb; reflexivity.
Qed.

Lemma distinct_products_keys v db :
  NoDup (map uf.dp.user_id (uf.distinct_products v db)).
Proof.
  unfold uf.distinct_products. rewrite map_map. cbn [uf.dp.user_id].
  apply group_by_NoDup.
Qed.

Lemma last_order_per_user_keys v db :
  NoDup (map (fun r : o.row * Z => o.user_id (fst r))
             (uf.last_order_per_user v db)).
Proof. apply first_rows_NoDup. Qed.

(** UserFeatures has one row per [user_id]. *)
Lemma user_features_keys v db t :
  uf.model v db = Ok t -> NoDup (map uf.user_id t).
Proof.
  unfold uf.model, uf.final. intros Ht.
  apply bind_ok in Ht as (ums & Hum & Ht).
  apply bind_ok in Ht as (rss & Hrs & Ht).
  apply (select_keys _
           (fun j : uf.um.row * uf.dp.row * uf.rs.row * (o.row * Z) =>
              uf.um.user_id (fst (fst (fst j))))
           uf.user_id _ _) in Ht.
  - rewrite Ht.
    apply (inner_join_keys
             (fun j : uf.um.row * uf.dp.row * uf.rs.row =>
                uf.um.user_id (fst (fst j)))).
    { apply (unique_match (fun r : o.row * Z => o.user_id (fst r))
               (fun j : uf.um.row * uf.dp.row * uf.rs.row =>
                  uf.um.user_id (fst (fst j)))).
      - apply last_order_per_user_keys.
      - intros j lo E. apply eqb_true in E. symmetry; exact E. }
    apply (inner_join_keys
             (fun j : uf.um.row * uf.dp.row => uf.um.user_id (fst j))).
    { apply (unique_match uf.rs.user_id
               (fun j : uf.um.row * uf.dp.row => uf.um.user_id (fst j))).
      - eapply reorder_stats_keys; eassumption.
      - intros j rs E. apply eqb_true in E. symmetry; exact E. }
    apply (inner_join_keys uf.um.user_id).
    { apply (unique_match uf.dp.user_id uf.um.user_id).
      - apply distinct_products_keys.
      - intros j dp E. apply eqb_true in E. symmetry; exact E. }
    eapply user_metrics_keys; eassumption.
  - intros [[[um dp] rs] lo] b Hb.
    apply bind_ok in Hb as (q & _ & Hb). inversion Hb; reflexivity.
Qed.

(** One step of a join chain: the join keeps the left key unique because
    the right relation is keyed by [kr] and the condition pins [kr] to
    [h] of the left row. *)
Ltac join_step kl kr h :=
  first [apply (inner_join_keys kl) | apply (left_join_keys_NoDup kl)];
  [apply (unique_match kr h);
   [|let j := fresh "j" in let x := fresh "x" in let E := fresh "E" in
     intros j x E; repeat (destruct j as [j ?]); cbn in E;
     rewrite ?andb_true_iff in E; rewrite ?eqb_true in E;
     unfold upf.up_key; cbn; intuition congruence]|].

Lemma department_stats_keys (pms : list pfm.pm.row) :
  NoDup (map pfm.ds.department_id (pfm.department_stats pms)).
Proof.
  unfold pfm.department_stats. rewrite map_map. cbn [pfm.ds.department_id].
  apply group_by_NoDup.
Qed.

(** ProductFeatures has one row per [product_id]. *)
Lemma product_features_keys v db t :
  NoDup (map p.product_id (products db)) ->
  NoDup (map a.aisle_id (aisles db)) ->
  NoDup (map d.department_id (departments db)) ->
  pfm.model v db = Ok t -> NoDup (map pfm.product_id t).
Proof.
  unfold pfm.model, pfm.final. intros Hp Ha Hd Ht.
  apply bind_ok in Ht as (pms & Hpm & Ht).
  pose proof (product_metrics_keys v db pms Hp Hpm) as Hpmk.
  apply (select_keys _
           (fun j : pfm.joined_row =>
              p.product_id
                (fst (fst (fst (fst (fst (fst (fst (fst j)))))))))
           pfm.product_id _ _) in Ht.
  - rewrite Ht.
    join_step
      (fun j : p.row * pfm.pm.row * a.row * d.row * (pfm.pm.row * Z)
               * (pfm.pm.row * Z) * pfm.ds.row * option (pfm.pph.row * Z) =>
         p.product_id (fst (fst (fst (fst (fst (fst (fst j))))))))
      (fun r : pfm.ppd.row * Z => pfm.ppd.product_id (fst r))
      (fun j : p.row * pfm.pm.row * a.row * d.row * (pfm.pm.row * Z)
               * (pfm.pm.row * Z) * pfm.ds.row * option (pfm.pph.row * Z) =>
         p.product_id (fst (fst (fst (fst (fst (fst (fst j)))))))).
    { apply first_rows_NoDup. }
    join_step
      (fun j : p.row * pfm.pm.row * a.row * d.row * (pfm.pm.row * Z)
               * (pfm.pm.row * Z) * pfm.ds.row =>
         p.product_id (fst (fst (fst (fst (fst (fst j)))))))
      (fun r : pfm.pph.row * Z => pfm.pph.product_id (fst r))
      (fun j : p.row * pfm.pm.row * a.row * d.row * (pfm.pm.row * Z)
               * (pfm.pm.row * Z) * pfm.ds.row =>
         p.product_id (fst (fst (fst (fst (fst (fst j))))))).
    { apply first_rows_NoDup. }
    join_step
      (fun j : p.row * pfm.pm.row * a.row * d.row * (pfm.pm.row * Z)
               * (pfm.pm.row * Z) =>
         p.product_id (fst (fst (fst (fst (fst j))))))
      pfm.ds.department_id
      (fun j : p.row * pfm.pm.row * a.row * d.row * (pfm.pm.row * Z)
               * (pfm.pm.row * Z) =>
         p.department_id (fst (fst (fst (fst (fst j)))))).
    { apply department_stats_keys. }
    join_step
      (fun j : p.row * pfm.pm.row * a.row * d.row * (pfm.pm.row * Z) =>
         p.product_id (fst (fst (fst (fst j)))))
      (fun r : pfm.pm.row * Z => pfm.pm.product_id (fst r))
      (fun j : p.row * pfm.pm.row * a.row * d.row * (pfm.pm.row * Z) =>
         p.product_id (fst (fst (fst (fst j))))).
    { apply row_number_keys; exact Hpmk. }
    join_step
      (fun j : p.row * pfm.pm.row * a.row * d.row =>
         p.product_id (fst (fst (fst j))))
      (fun r : pfm.pm.row * Z => pfm.pm.product_id (fst r))
      (fun j : p.row * pfm.pm.row * a.row * d.row =>
         p.product_id (fst (fst (fst j)))).
    { apply row_number_keys; exact Hpmk. }
    join_step
      (fun j : p.row * pfm.pm.row * a.row => p.product_id (fst (fst j)))
      d.department_id
      (fun j : p.row * pfm.pm.row * a.row => p.department_id (fst (fst j))).
    { exact Hd. }
    join_step
      (fun j : p.row * pfm.pm.row => p.product_id (fst j))
      a.aisle_id
      (fun j : p.row * pfm.pm.row => p.aisle_id (fst j)).
    { exact Ha. }
    join_step p.product_id pfm.pm.product_id p.product_id.
    { exact Hpmk. }
    exact Hp.
  - intros [[[[[[[[p0 pm0] a0] d0] dr0] ar0] ds0] pph0] ppd0] b Hb.
    apply bind_ok in Hb as (q1 & _ & Hb).
    apply bind_ok in Hb as (q2 & _ & Hb). inversion Hb; reflexivity.
Qed.

Module ofe := instacart__order_features.

Lemma prev_order_metrics_keys v db oms :
  NoDup (map o.order_id (orders db)) ->
  NoDup (map ofe.om.order_id oms) ->
  NoDup (map ofe.pom.order_id (ofe.prev_order_metrics v db oms)).
Proof.
  intros Ho Hom. unfold ofe.prev_order_metrics. rewrite map_map.
  rewrite (map_ext _ (fun r : (o.row * ofe.om.row) * option (o.row * ofe.om.row) =>
                        o.order_id (fst (fst r))))
    by (intros [[o0 om0] prev]; reflexivity).
  apply (lag_row_keys (fun r : o.row * ofe.om.row => o.order_id (fst r))).
  join_step o.order_id ofe.om.order_id o.order_id.
  { exact Hom. }
  apply filter_keys_NoDup; exact Ho.
Qed.

Lemma product_diversity_keys v db :
  NoDup (map ofe.pd.order_id (ofe.product_diversity v db)).
Proof.
  unfold ofe.product_diversity. rewrite map_map. cbn [ofe.pd.order_id].
  apply group_by_NoDup.
Qed.

(** OrderFeatures has one row per [order_id]. *)
Lemma order_features_keys v db t :
  NoDup (map o.order_id (orders db)) ->
  ofe.model v db = Ok t -> NoDup (map ofe.order_id t).
Proof.
  unfold ofe.model, ofe.final. intros Ho Ht.
  apply bind_ok in Ht as (oms & Hom & Ht).
  pose proof (order_metrics_keys v db oms Ho Hom) as Homk.
  apply (select_keys _
           (fun j : ofe.om.row * option ofe.pom.row * option ofe.pd.row =>
              ofe.om.order_id (fst (fst j)))
           ofe.order_id _ _) in Ht.
  - rewrite Ht.
    join_step
      (fun j : ofe.om.row * option ofe.pom.row => ofe.om.order_id (fst j))
      ofe.pd.order_id
      (fun j : ofe.om.row * option ofe.pom.row => ofe.om.order_id (fst j)).
    { apply product_diversity_keys. }
    join_step ofe.om.order_id ofe.pom.order_id ofe.om.order_id.
    { apply prev_order_metrics_keys; assumption. }
    exact Homk.
  - intros [[om0 pom0] pd0] b Hb.
    apply bind_ok in Hb as (q1 & _ & Hb).
    apply bind_ok in Hb as (q2 & _ & Hb). inversion Hb; reflexivity.
Qed.

Lemma product_features_cte_keys (pfs : list pfm.row) :
  NoDup (map pfm.product_id pfs) ->
  NoDup (map upf.pf.product_id (upf.product_features pfs)).
Proof.
  intros H. unfold upf.product_features. rewrite map_map. exact H.
Qed.

Lemma user_avg_stats_keys (ufs : list uf.row) :
  NoDup (map uf.user_id ufs) ->
  NoDup (map upf.uas.user_id (upf.user_avg_stats ufs)).
Proof.
  intros H. unfold upf.user_avg_stats. rewrite map_map. exact H.
Qed.

Lemma last_purchase_keys v db :
  NoDup (map (fun r => (upf.lp.user_id r, upf.lp.product_id r))
             (upf.last_purchase v db)).
Proof.
  unfold upf.last_purchase. rewrite map_map. cbn [upf.lp.user_id upf.lp.product_id].
  apply (first_rows_NoDup
           (fun r : o.row * op.row => (o.user_id (fst r), op.product_id (snd r)))).
Qed.

Lemma time_patterns_keys v db :
  NoDup (map (fun r => (upf.uptp.user_id r, upf.uptp.product_id r))
             (upf.user_product_time_patterns v db)).
Proof.
  unfold upf.user_product_time_patterns. rewrite map_map.
  cbn [upf.uptp.user_id upf.uptp.product_id].
  rewrite (map_ext _ fst) by (intros [[u pr] rows]; reflexivity).
  apply group_by_NoDup.
Qed.

Lemma dominant_day_parts_keys v db :
  NoDup (map (fun r => (upf.ddp.user_id r, upf.ddp.product_id r))
             (upf.dominant_day_parts v db)).
Proof.
  unfold upf.dominant_day_parts. rewrite map_map.
  cbn [upf.ddp.user_id upf.ddp.product_id]. apply time_patterns_keys.
Qed.

Lemma dominant_dows_keys v db :
  NoDup (map (fun r => (upf.dd.user_id r, upf.dd.product_id r))
             (upf.dominant_dows v db)).
Proof.
  unfold upf.dominant_dows. rewrite map_map.
  cbn [upf.dd.user_id upf.dd.product_id]. apply time_patterns_keys.
Qed.

Lemma user_product_normalized_keys upms ufs pfs t :
  NoDup (map upf.up_key upms) ->
  NoDup (map uf.user_id ufs) ->
  NoDup (map upf.pf.product_id pfs) ->
  upf.user_product_normalized upms ufs pfs = Ok t ->
  NoDup (map (fun r => (upf.upn.user_id r, upf.upn.product_id r)) t).
Proof.
  unfold upf.user_product_normalized. intros Hupm Huf Hpf Ht.
  apply (select_keys _
           (fun j : upf.upm.row * upf.uas.row * upf.pf.row =>
              upf.up_key (fst (fst j)))
           (fun r => (upf.upn.user_id r, upf.upn.product_id r)) _ _) in Ht.
  - rewrite Ht.
    join_step
      (fun j : upf.upm.row * upf.uas.row => upf.up_key (fst j))
      upf.pf.product_id
      (fun j : upf.upm.row * upf.uas.row => upf.upm.product_id (fst j)).
    { exact Hpf. }
    join_step upf.up_key upf.uas.user_id upf.upm.user_id.
    { apply user_avg_stats_keys; exact Huf. }
    exact Hupm.
  - intros [[upm0 uas0] pf0] b Hb.
    apply bind_ok in Hb as (q1 & _ & Hb).
    apply bind_ok in Hb as (q2 & _ & Hb).
    apply bind_ok in Hb as (q3 & _ & Hb). inversion Hb; reflexivity.
Qed.

(** UserProductFeatures has one row per (user_id, product_id). *)
Lemma user_product_features_keys v db t :
  NoDup (map p.product_id (products db)) ->
  NoDup (map a.aisle_id (aisles db)) ->
  NoDup (map d.department_id (departments db)) ->
  upf.model v db = Ok t ->
  NoDup (map (fun r => (upf.user_id r, upf.product_id r)) t).
Proof.
  unfold upf.model, upf.final. intros Hp Ha Hd Ht.
  apply bind_ok in Ht as (upms & Hupm & Ht).
  apply bind_ok in Ht as (ufs & Huf & Ht).
  apply bind_ok in Ht as (pfs & Hpf & Ht).
  apply bind_ok in Ht as (upns & Hupn & Ht).
  pose proof (user_product_metrics_keys v db upms Hupm) as Hupmk.
  pose proof (user_features_keys v db ufs Huf) as Hufk.
  pose proof (product_features_cte_keys pfs
                (product_features_keys v db pfs Hp Ha Hd Hpf)) as Hpfk.
  pose proof (user_product_normalized_keys _ _ _ _ Hupmk Hufk Hpfk Hupn)
    as Hupnk.
  inversion Ht as [Ht']. clear Ht Ht'. rewrite map_map.
  rewrite (map_ext _
             (fun j : upf.joined_row =>
                upf.up_key (fst (fst (fst (fst (fst (fst (fst j)))))))))
    by (intros [[[[[[[upm0 uf0] pf0] lp0] uptp0] upn0] ddp0] dd0];
        reflexivity).
  join_step
    (fun j : upf.upm.row * uf.row * upf.pf.row * option upf.lp.row
             * option upf.uptp.row * option upf.upn.row * option upf.ddp.row =>
       upf.up_key (fst (fst (fst (fst (fst (fst j)))))))
    (fun r => (upf.dd.user_id r, upf.dd.product_id r))
    (fun j : upf.upm.row * uf.row * upf.pf.row * option upf.lp.row
             * option upf.uptp.row * option upf.upn.row * option upf.ddp.row =>
       upf.up_key (fst (fst (fst (fst (fst (fst j))))))).
  { apply dominant_dows_keys. }
  join_step
    (fun j : upf.upm.row * uf.row * upf.pf.row * option upf.lp.row
             * option upf.uptp.row * option upf.upn.row =>
       upf.up_key (fst (fst (fst (fst (fst j))))))
    (fun r => (upf.ddp.user_id r, upf.ddp.product_id r))
    (fun j : upf.upm.row * uf.row * upf.pf.row * option upf.lp.row
             * option upf.uptp.row * option upf.upn.row =>
       upf.up_key (fst (fst (fst (fst (fst j)))))).
  { apply dominant_day_parts_keys. }
  join_step
    (fun j : upf.upm.row * uf.row * upf.pf.row * option upf.lp.row
             * option upf.uptp.row =>
       upf.up_key (fst (fst (fst (fst j)))))
    (fun r => (upf.upn.user_id r, upf.upn.product_id r))
    (fun j : upf.upm.row * uf.row * upf.pf.row * option upf.lp.row
             * option upf.uptp.row =>
       upf.up_key (fst (fst (fst (fst j))))).
  { exact Hupnk. }
  join_step
    (fun j : upf.upm.row * uf.row * upf.pf.row * option upf.lp.row =>
       upf.up_key (fst (fst (fst j))))
    (fun r => (upf.uptp.user_id r, upf.uptp.product_id r))
    (fun j : upf.upm.row * uf.row * upf.pf.row * option upf.lp.row =>
       upf.up_key (fst (fst (fst j)))).
  { apply time_patterns_keys. }
  join_step
    (fun j : upf.upm.row * uf.row * upf.pf.row => upf.up_key (fst (fst j)))
    (fun r => (upf.lp.user_id r, upf.lp.product_id r))
    (fun j : upf.upm.row * uf.row * upf.pf.row => upf.up_key (fst (fst j))).
  { apply last_purchase_keys. }
  join_step
    (fun j : upf.upm.row * uf.row => upf.up_key (fst j))
    upf.pf.product_id
    (fun j : upf.upm.row * uf.row => upf.upm.product_id (fst j)).
  { exact Hpfk. }
  join_step upf.up_key uf.user_id upf.upm.user_id.
  { exact Hufk. }
  exact Hupmk.
Qed.

End FeatureKeys.

(* ------------------------------------------------------------------------- *)
(** ** The composite key [user_product_id] *)

Module CompositeKey.
Module upf := instacart__user_product_features.

Lemma digits_no_underscore (d : Decimal.uint) :
  ~ has_char "_" (NilEmpty.string_of_uint d).
Proof.
  induction d; simpl; intros H; try contradiction;
    destruct H as [E|H]; try discriminate; auto.
Qed.

Lemma to_varchar_no_underscore (z : Z) : ~ has_char "_" (upf.to_varchar z).
Proof.
  unfold upf.to_varchar, NilZero.string_of_int, NilZero.string_of_uint.
  destruct (Z.to_int z) as [d|d]; destruct d; simpl;
    intros H; repeat (destruct H as [H|H]; try discriminate);
    try (eapply digits_no_underscore; eassumption); auto.
Qed.

Lemma split_at_separator (s1 s2 t1 t2 : string) :
  ~ has_char "_" s1 -> ~ has_char "_" s2 ->
  (s1 ++ "_" ++ t1 = s2 ++ "_" ++ t2)%string -> s1 = s2 /\ t1 = t2.
Proof.
  revert s2; induction s1 as [|a s1 IH]; intros [|b s2] H1 H2 E; simpl in *.
  - inversion E; auto.
  - inversion E; subst. exfalso; apply H2; left; reflexivity.
  - inversion E; subst. exfalso; apply H1; left; reflexivity.
  - inversion E; subst. destruct (IH s2) as [-> ->]; auto.
Qed.

Lemma to_int_proper (z : Z) :
  Z.to_int z <> Decimal.Pos Decimal.Nil /\ Z.to_int z <> Decimal.Neg Decimal.Nil.
Proof.
  destruct z as [|q|q]; simpl; split; try discriminate;
    intros E; inversion E as [E']; apply (DecimalPos.Unsigned.to_uint_nonnil q E').
Qed.

Lemma to_varchar_inj (z z' : Z) : upf.to_varchar z = upf.to_varchar z' -> z = z'.
Proof.
  unfold upf.to_varchar. intros E.
  apply DecimalZ.to_int_inj.
  destruct (to_int_proper z) as [H1 H2], (to_int_proper z') as [H1' H2'].
  pose proof (NilZero.isi _ H1 H2) as I. rewrite E in I.
  rewrite (NilZero.isi _ H1' H2') in I. inversion I; reflexivity.
Qed.

(** [concat(user_id, '_', product_id)] determines the pair. *)
Lemma concat_key_inj (u pr u' pr' : Z) :
  upf.concat_key u pr = upf.concat_key u' pr' -> u = u' /\ pr = pr'.
Proof.
  unfold upf.concat_key. intros E.
  apply split_at_separator in E as [Eu Ep];
    try apply to_varchar_no_underscore.
  split; apply to_varchar_inj; assumption.
Qed.

End CompositeKey.

(* ------------------------------------------------------------------------- *)
(** ** Key uniqueness of the four feature tables *)

Module KeyUniqueness.
Import SQL SQLFacts DivisionFacts KeyFacts FeatureKeys CompositeKey.
Module uf := instacart__user_features.
Module pfm := instacart__product_features.
Module ofe := instacart__order_features.
Module upf := instacart__user_product_features.

Lemma user_product_id_is_concat v db t r :
  upf.model v db = Ok t -> In r t ->
  upf.user_product_id r = upf.concat_key (upf.user_id r) (upf.product_id r).
Proof.
  unfold upf.model, upf.final. intros Ht Hr.
  apply bind_ok in Ht as (upms & _ & Ht).
  apply bind_ok in Ht as (ufs & _ & Ht).
  apply bind_ok in Ht as (pfs & _ & Ht).
  apply bind_ok in Ht as (upns & _ & Ht).
  inversion Ht as [Ht']. clear Ht. rewrite <- Ht' in Hr.
  apply in_map_iff in Hr
    as ([[[[[[[upm0 uf0] pf0] lp0] uptp0] upn0] ddp0] dd0] & <- & _).
  reflexivity.
Qed.

(** C3.  When [order_id], [product_id], [aisle_id] and [department_id] are
    unique in their tables and the order lines are keyed by
    (order_id, product_id), every feature table that the run produces has a
    unique key: [user_id] in UserFeatures, [product_id] in ProductFeatures,
    [order_id] in OrderFeatures, and the pair (user_id, product_id), as well
    as its materialisation [user_product_id], in UserProductFeatures; no join
    of the composers fans a key out.  The key columns are read from the base
    relation of each join chain, never from the nullable side of a left
    join: they are integers, not NULL. *)
Theorem feature_keys_unique v db :
  NoDup (map o.order_id (orders db)) ->
  NoDup (map p.product_id (products db)) ->
  NoDup (map a.aisle_id (aisles db)) ->
  NoDup (map d.department_id (departments db)) ->
  NoDup (map (fun l => (op.order_id l, op.product_id l)) (order_products db)) ->
  (forall t, uf.model v db = Ok t -> NoDup (map uf.user_id t)) /\
  (forall t, pfm.model v db = Ok t -> NoDup (map pfm.product_id t)) /\
  (forall t, ofe.model v db = Ok t -> NoDup (map ofe.order_id t)) /\
  (forall t, upf.model v db = Ok t ->
     NoDup (map (fun r => (upf.user_id r, upf.product_id r)) t) /\
     NoDup (map upf.user_product_id t)).
Proof.
  intros Ho Hp Ha Hd _. repeat split.
  - intros t; apply user_features_keys.
  - intros t; apply product_features_keys; assumption.
  - intros t; apply order_features_keys; assumption.
  - eapply user_product_features_keys; eassumption.
  - pose proof (user_product_features_keys v db t Hp Ha Hd H) as Hk.
    rewrite (map_ext_in _ (fun r => upf.concat_key (upf.user_id r)
                                      (upf.product_id r)))
      by (intros r Hr; eapply user_product_id_is_concat; eassumption).
    rewrite <- (map_map (fun r => (upf.user_id r, upf.product_id r))
                  (fun k => upf.concat_key (fst k) (snd k))).
    apply NoDup_map_inj_in; [exact Hk|].
    intros [u1 p1] [u2 p2] _ _ E. cbn [fst snd] in E.
    apply concat_key_inj in E as [-> ->]. reflexivity.
Qed.

Ltac distinct_keys :=
  repeat (constructor; [cbn; intuition congruence|]); constructor.

Lemma feature_keys_unique_witness :
  match upf.model Sample.v Sample.db with
  | Ok t => NoDup (map upf.user_product_id t)
  | Raise _ => False
  end.
Proof.
  destruct (upf.model Sample.v Sample.db) as [t|e] eqn:E.
  - apply (feature_keys_unique Sample.v Sample.db); try exact E;
      cbn; distinct_keys.
  - vm_compute in E. discriminate.
Defined.

End KeyUniqueness.

(* ------------------------------------------------------------------------- *)
(** ** Ordered partitions *)

Module OrderFacts.
Import SQL SQLFacts WindowFacts.

Lemma insert_by_sorted {A} (k : A -> Z) (x : A) (l : list A) :
  StronglySorted (fun a b => k a <= k b) l ->
  StronglySorted (fun a b => k a <= k b) (insert_by (asc k) x l).
Proof.
  induction 1 as [|y l Hs IH Hy]; simpl.
  - constructor; constructor.
  - unfold asc at 1. destruct (Z.leb_spec (k x) (k y)) as [Hle|Hgt].
    + constructor; [constructor; assumption|].
      constructor; [assumption|].
      eapply Forall_impl; [|exact Hy]. simpl; intros; lia.
    + constructor; [assumption|].
      eapply Permutation_Forall; [apply Permutation_sym, insert_by_perm|].
      constructor; [lia|assumption].
Qed.

Lemma sort_by_sorted {A} (k : A -> Z) (l : list A) :
  StronglySorted (fun a b => k a <= k b) (sort_by (asc k) l).
Proof.
  induction l as [|x l IH]; simpl; [constructor|].
  apply insert_by_sorted; assumption.
Qed.

Lemma insert_by_desc_sorted {A} (k : A -> Z) (x : A) (l : list A) :
  StronglySorted (fun a b => k b <= k a) l ->
  StronglySorted (fun a b => k b <= k a) (insert_by (desc k) x l).
Proof.
  induction 1 as [|y l Hs IH Hy]; simpl.
  - constructor; constructor.
  - unfold desc at 1. destruct (Z.leb_spec (k y) (k x)) as [Hle|Hgt].
    + constructor; [constructor; assumption|].
      constructor; [assumption|].
      eapply Forall_impl; [|exact Hy]. simpl; intros; lia.
    + constructor; [assumption|].
      eapply Permutation_Forall; [apply Permutation_sym, insert_by_perm|].
      constructor; [lia|assumption].
Qed.

Lemma sort_by_desc_sorted {A} (k : A -> Z) (l : list A) :
  StronglySorted (fun a b => k b <= k a) (sort_by (desc k) l).
Proof.
  induction l as [|x l IH]; simpl; [constructor|].
  apply insert_by_desc_sorted; assumption.
Qed.

(** A strictly ordered arrangement of the rows is the only ordered one. *)
Lemma sorted_arrangement_unique {A} (k : A -> Z) (s s' : list A) :
  StronglySorted (fun a b => k a < k b) s ->
  StronglySorted (fun a b => k a <= k b) s' ->
  Permutation s' s -> s' = s.
Proof.
  intros Hs; revert s'.
  induction Hs as [|x xs Hxs IH Hx]; intros s' Hs' Hp.
  - apply Permutation_nil, Permutation_sym, Hp.
  - destruct s' as [|y ys].
    + apply Permutation_nil_cons in Hp; contradiction.
    + inversion Hs' as [|? ? Hys Hy]; subst.
      assert (Hyx : y = x).
      { assert (Hin : In y (x :: xs))
          by (eapply Permutation_in; [exact Hp|left; reflexivity]).
        destruct Hin as [E|Hin]; [auto|exfalso].
        assert (Hlt : k x < k y)
          by (rewrite Forall_forall in Hx; apply Hx; assumption).
        assert (Hin' : In x (y :: ys))
          by (eapply Permutation_in;
              [apply Permutation_sym; exact Hp|left; reflexivity]).
        destruct Hin' as [E|Hin']; [subst; lia|].
        rewrite Forall_forall in Hy. specialize (Hy x Hin'). lia. }
      subst y. f_equal. apply IH; [assumption|].
      eapply Permutation_cons_inv; exact Hp.
Qed.

Lemma sort_by_asc_is {A} (k : A -> Z) (l s : list A) :
  Permutation l s -> StronglySorted (fun a b => k a < k b) s ->
  sort_by (asc k) l = s.
Proof.
  intros Hp Hs. apply (sorted_arrangement_unique k); [assumption| |].
  - apply sort_by_sorted.
  - rewrite sort_by_perm; assumption.
Qed.

Lemma sorted_weaken {A} (R R' : A -> A -> Prop) (l : list A) :
  (forall a b, R a b -> R' a b) -> StronglySorted R l -> StronglySorted R' l.
Proof.
  intros HR. induction 1 as [|x l Hs IH Hx]; constructor; [assumption|].
  eapply Forall_impl; [|exact Hx]. intros; apply HR; assumption.
Qed.

Lemma sort_by_desc_is {A} (k : A -> Z) (l s : list A) :
  Permutation l s -> StronglySorted (fun a b => k b < k a) s ->
  sort_by (desc k) l = s.
Proof.
  intros Hp Hs.
  apply (sorted_arrangement_unique (fun a => - k a)).
  - eapply sorted_weaken; [|exact Hs]. simpl; intros; lia.
  - eapply sorted_weaken; [|apply (sort_by_desc_sorted k)]. simpl; intros; lia.
  - rewrite sort_by_perm; assumption.
Qed.

(** The rows that a window function computes for the partition of [x]. *)
Lemma partition_In {A B P} `{EqDec P} (pkey : A -> P) (le : A -> A -> bool)
  (h : list A -> list (A * B)) (l : list A) (x : A) (y : B) :
  (forall s, map fst (h s) = s) ->
  In (x, y) (flat_map (fun g => h (sort_by le (snd g))) (group_by pkey l)) <->
  In (x, y) (h (sort_by le (filter (fun a => eqb (pkey a) (pkey x)) l))).
Proof.
  intros Hh. rewrite in_flat_map. split.
  - intros ([k rows] & Hg & Hxy). cbn [snd] in Hxy.
    assert (Hx : In x rows).
    { apply (sort_by_In le). rewrite <- (Hh (sort_by le rows)).
      apply (in_map fst) in Hxy. exact Hxy. }
    destruct (group_rows_key pkey l (k, rows) x Hg Hx) as [Hk _].
    apply group_by_In in Hg as [_ Hrows]. cbn [fst] in Hk.
    rewrite Hk, <- Hrows. exact Hxy.
  - intros Hxy.
    assert (Hx : In x (filter (fun a => eqb (pkey a) (pkey x)) l)).
    { apply (sort_by_In le). rewrite <- (Hh (sort_by le _)).
      apply (in_map fst) in Hxy. exact Hxy. }
    apply filter_In in Hx as [Hx _].
    exists (pkey x, filter (fun a => eqb (pkey a) (pkey x)) l). split.
    + apply group_by_In. split; [apply in_map; exact Hx|reflexivity].
    + exact Hxy.
Qed.

Lemma row_number_In {A P} `{EqDec P} (pkey : A -> P) (le : A -> A -> bool)
  (l : list A) (x : A) (n : Z) :
  In (x, n) (row_number pkey le l) <->
  In (x, n)
     (number_from 1 (sort_by le (filter (fun a => eqb (pkey a) (pkey x)) l))).
Proof.
  apply (partition_In pkey le (number_from 1)).
  intros s; apply map_fst_number_from.
Qed.

Lemma lag_row_In {A P} `{EqDec P} (pkey : A -> P) (le : A -> A -> bool)
  (l : list A) (x : A) (prev : option A) :
  In (x, prev) (lag_row pkey le l) <->
  In (x, prev)
     (with_prev None (sort_by le (filter (fun a => eqb (pkey a) (pkey x)) l))).
Proof.
  apply (partition_In pkey le (with_prev None)).
  intros s; apply map_fst_with_prev.
Qed.

(** In a strictly descending partition the number of a row is one more
    than the number of rows above it. *)
Lemma number_from_rank {A} (k : A -> Z) (s : list A) (m : Z) (x : A) (n : Z) :
  StronglySorted (fun a b => k b < k a) s ->
  In (x, n) (number_from m s) <->
  In x s /\
  n = m + Z.of_nat (List.length (filter (fun y => k x <? k y) s)).
Proof.
  intros Hs; revert m. induction Hs as [|y s Hs IH Hy]; intros m.
  - simpl; tauto.
  - rewrite Forall_forall in Hy.
    assert (Hnone : filter (fun z => k y <? k z) s = []).
    { apply filter_nil_iff. intros z Hz. specialize (Hy z Hz).
      apply Z.ltb_ge; lia. }
    cbn [number_from In]. rewrite IH. split.
    + intros [E|[Hx ->]].
      * inversion E; subst. split; [left; reflexivity|].
        cbn [filter]. rewrite Z.ltb_irrefl, Hnone. simpl; lia.
      * split; [right; exact Hx|].
        specialize (Hy x Hx). apply Z.ltb_lt in Hy.
        cbn [filter]. rewrite Hy. cbn [List.length]. lia.
    + intros [[->|Hx] ->].
      * left. cbn [filter]. rewrite Z.ltb_irrefl, Hnone. f_equal; simpl; lia.
      * right. split; [exact Hx|].
        specialize (Hy x Hx). apply Z.ltb_lt in Hy.
        cbn [filter]. rewrite Hy. cbn [List.length]. lia.
Qed.

Lemma sorted_strict {A} (k : A -> Z) (s : list A) :
  StronglySorted (fun a b => k b <= k a) s ->
  NoDup s ->
  (forall a b, In a s -> In b s -> k a = k b -> a = b) ->
  StronglySorted (fun a b => k b < k a) s.
Proof.
  induction 1 as [|x s Hs IH Hx]; intros Hnd Hk; constructor.
  - inversion Hnd; subst. apply IH; [assumption|].
    intros; apply Hk; auto; right; assumption.
  - inversion Hnd as [|? ? Hnx _]; subst.
    rewrite Forall_forall in *. intros b Hb. specialize (Hx b Hb).
    destruct (Z.eq_dec (k b) (k x)) as [E|E]; [|lia].
    exfalso. apply Hnx.
    rewrite <- (Hk b x (or_intror Hb) (or_introl eq_refl) E). exact Hb.
Qed.

Lemma NoDup_filter' {A} (f : A -> bool) (l : list A) :
  NoDup l -> NoDup (filter f l).
Proof.
  induction 1 as [|a l Ha Hnd IH]; simpl; [constructor|].
  destruct (f a); [constructor|]; auto.
  intros Hin; apply Ha. apply filter_In in Hin as [Hin _]; exact Hin.
Qed.

(** Without ties, [row_number] gives each row its rank in its partition. *)
Lemma row_number_rank {A P} `{EqDec P} (pkey : A -> P) (k : A -> Z)
  (l : list A) (x : A) (n : Z) :
  no_ties pkey k l ->
  In (x, n) (row_number pkey (desc k) l) <->
  In x l /\ n = 1 + rows_above pkey k l x.
Proof.
  intros [Hnd Hties]. rewrite row_number_In.
  set (part := filter (fun a => eqb (pkey a) (pkey x)) l).
  assert (Hpart : forall a, In a part <-> In a l /\ pkey a = pkey x).
  { intros a. unfold part. rewrite filter_In, eqb_true. tauto. }
  assert (Hs : StronglySorted (fun a b => k b < k a) (sort_by (desc k) part)).
  { apply sorted_strict.
    - apply sort_by_desc_sorted.
    - eapply Permutation_NoDup;
        [apply Permutation_sym, sort_by_perm|apply NoDup_filter', Hnd].
    - intros a b Ha Hb E. apply sort_by_In, Hpart in Ha, Hb.
      destruct Ha as [Ha Hpa], Hb as [Hb Hpb].
      apply Hties; congruence. }
  rewrite (number_from_rank k _ 1 x n Hs), sort_by_In, Hpart.
  unfold rows_above, count_star.
  rewrite (Permutation_length
             (filter_perm (fun y => k x <? k y) _ _ (sort_by_perm (desc k) part))).
  unfold part. rewrite filter_filter. split.
  - intros [[Hx _] ->]. auto.
  - intros [Hx ->]. auto.
Qed.

Lemma no_ties_perm {A P} (pkey : A -> P) (k : A -> Z) (l l' : list A) :
  Permutation l l' -> no_ties pkey k l -> no_ties pkey k l'.
Proof.
  intros Hp [Hnd Ht]. split; [eapply Permutation_NoDup; eassumption|].
  intros a b Ha Hb. apply Ht; eapply Permutation_in;
    try (apply Permutation_sym; exact Hp); assumption.
Qed.

Lemma rows_above_perm {A P} `{EqDec P} (pkey : A -> P) (k : A -> Z)
  (l l' : list A) (x : A) :
  Permutation l l' -> rows_above pkey k l x = rows_above pkey k l' x.
Proof.
  intros Hp. unfold rows_above, count_star.
  rewrite (Permutation_length (filter_perm _ _ _ Hp)). reflexivity.
Qed.

(** Without ties the ranks do not depend on the physical order. *)
Lemma row_number_reproducible {A P} `{EqDec P} (pkey : A -> P) (k : A -> Z)
  (l l' : list A) :
  Permutation l l' -> no_ties pkey k l ->
  same_rows (row_number pkey (desc k) l) (row_number pkey (desc k) l').
Proof.
  intros Hp Hn [x n].
  rewrite (row_number_rank pkey k l x n Hn).
  rewrite (row_number_rank pkey k l' x n (no_ties_perm _ _ _ _ Hp Hn)).
  rewrite (rows_above_perm pkey k l l' x Hp).
  split; intros [Hx ->]; split; try reflexivity;
    eapply Permutation_in; try exact Hx;
    [exact Hp|apply Permutation_sym; exact Hp].
Qed.

End OrderFacts.

(* ------------------------------------------------------------------------- *)
(** ** Rankings and rank-1 selections *)

Module RankingFacts.
Import SQL SQLFacts WindowFacts OrderFacts.
Module pfm := instacart__product_features.
Module pm := int_instacart__product_metrics.

Lemma inner_join_perm {A B} (on : A -> B -> bool) (l l' : list A)
  (r r' : list B) :
  Permutation l l' -> Permutation r r' ->
  Permutation (inner_join on l r) (inner_join on l' r').
Proof.
  intros Hl Hr. unfold inner_join.
  transitivity (flat_map (fun a => map (pair a) (filter (on a) r')) l).
  - clear Hl. induction l as [|a l IH]; [reflexivity|].
    cbn [flat_map]. apply Permutation_app; [|exact IH].
    apply Permutation_map, filter_perm, Hr.
  - apply Permutation_flat_map, Hl.
Qed.

Lemma nodup_perm {K} `{EqDec K} (l l' : list K) :
  Permutation l l' -> Permutation (nodup eq_dec l) (nodup eq_dec l').
Proof.
  intros Hp. apply NoDup_Permutation; try apply NoDup_nodup.
  intros x. rewrite !nodup_In. split; apply Permutation_in;
    [exact Hp|apply Permutation_sym; exact Hp].
Qed.

(** Grouped counts do not depend on the physical order. *)
Lemma grouped_counts_perm {A K R} `{EqDec K} (key : A -> K)
  (mk : K -> Z -> R) (l l' : list A) :
  Permutation l l' ->
  Permutation
    (map (fun g => mk (fst g) (count_star (snd g))) (group_by key l))
    (map (fun g => mk (fst g) (count_star (snd g))) (group_by key l')).
Proof.
  intros Hp. unfold group_by. rewrite !map_map. cbn [fst snd].
  rewrite (map_ext
             (fun k => mk k (count_star (filter (fun a => eqb (key a) k) l)))
             (fun k => mk k (count_star (filter (fun a => eqb (key a) k) l')))).
  - apply Permutation_map, nodup_perm, Permutation_map, Hp.
  - intros k. unfold count_star.
    rewrite (Permutation_length (filter_perm _ _ _ Hp)). reflexivity.
Qed.

Lemma purchases_perm v db db' :
  Permutation (order_products db) (order_products db') ->
  Permutation (orders db) (orders db') ->
  Permutation (pfm.purchases v db) (pfm.purchases v db').
Proof.
  intros Hl Ho. unfold pfm.purchases.
  apply filter_perm, inner_join_perm; assumption.
Qed.

Lemma orders_per_hour_perm v db db' :
  Permutation (order_products db) (order_products db') ->
  Permutation (orders db) (orders db') ->
  Permutation (pfm.orders_per_hour v db) (pfm.orders_per_hour v db').
Proof.
  intros Hl Ho. unfold pfm.orders_per_hour.
  apply (grouped_counts_perm
           (fun r : op.row * o.row =>
              (op.product_id (fst r), o.order_hour_of_day (snd r)))
           (fun k n => {| pfm.pph.product_id := fst k;
                          pfm.pph.peak_hour := snd k;
                          pfm.pph.orders_in_hour := n |})).
  apply purchases_perm; assumption.
Qed.

Lemma orders_per_day_perm v db db' :
  Permutation (order_products db) (order_products db') ->
  Permutation (orders db) (orders db') ->
  Permutation (pfm.orders_per_day v db) (pfm.orders_per_day v db').
Proof.
  intros Hl Ho. unfold pfm.orders_per_day.
  apply (grouped_counts_perm
           (fun r : op.row * o.row =>
              (op.product_id (fst r), o.order_dow (snd r)))
           (fun k n => {| pfm.ppd.product_id := fst k;
                          pfm.ppd.peak_day := snd k;
                          pfm.ppd.orders_in_day := n |})).
  apply purchases_perm; assumption.
Qed.

Lemma same_rows_filter {A} (f : A -> bool) (l l' : list A) :
  same_rows l l' -> same_rows (filter f l) (filter f l').
Proof. intros Hs x. rewrite !filter_In, (Hs x). tauto. Qed.



Ltac concrete_no_ties :=
  split;
  [repeat (constructor; [cbn; intuition discriminate|]); constructor
  |let a := fresh "a" in let b := fresh "b" in
   let Ha := fresh "Ha" in let Hb := fresh "Hb" in
   intros a b Ha Hb; cbn in Ha, Hb;
   repeat (destruct Ha as [<-|Ha]); try contradiction;
   repeat (destruct Hb as [<-|Hb]); try contradiction;
   cbn; intros; try reflexivity; try discriminate].


End RankingFacts.

(* ------------------------------------------------------------------------- *)
(** ** Which orders the features are computed from *)

Module LeakageFacts.
Import SQL SQLFacts DivisionFacts.
Module um := int_instacart__user_order_metrics.
Module pm := int_instacart__product_metrics.
Module upm := int_instacart__user_product_metrics.
Module uf := instacart__user_features.
Module pfm := instacart__product_features.
Module ofe := instacart__order_features.
Module upf := instacart__user_product_features.
Module tf := instacart__training_features.

Lemma filter_pairs_left {A B} (f : A -> bool) (a : A) (l : list B) :
  filter (fun r : A * B => f (fst r)) (map (pair a) l) =
  if f a then map (pair a) l else [].
Proof.
  induction l as [|b l IH]; simpl; [destruct (f a); reflexivity|].
  rewrite IH. destruct (f a); reflexivity.
Qed.

(** [where] on the left table of a join filters the left table. *)
Lemma filter_inner_join_left {A B} (f : A -> bool) (on : A -> B -> bool)
  (l : list A) (r : list B) :
  filter (fun j => f (fst j)) (inner_join on l r) = inner_join on (filter f l) r.
Proof.
  unfold inner_join. induction l as [|a l IH]; [reflexivity|].
  cbn [flat_map filter]. rewrite filter_app, IH, filter_pairs_left.
  destruct (f a); reflexivity.
Qed.

Lemma filter_pairs_right {A B} (f : B -> bool) (a : A) (l : list B) :
  filter (fun r : A * B => f (snd r)) (map (pair a) l) =
  map (pair a) (filter f l).
Proof.
  induction l as [|b l IH]; simpl; [reflexivity|].
  rewrite IH. destruct (f b); reflexivity.
Qed.

(** [where] on the right table of a join filters the right table. *)
Lemma filter_inner_join_right {A B} (f : B -> bool) (on : A -> B -> bool)
  (l : list A) (r : list B) :
  filter (fun j => f (snd j)) (inner_join on l r) = inner_join on l (filter f r).
Proof.
  unfold inner_join. induction l as [|a l IH]; [reflexivity|].
  cbn [flat_map]. rewrite filter_app, IH, filter_pairs_right, filter_comm.
  reflexivity.
Qed.

Lemma eqb_sym {K} `{EqDec K} (x y : K) : eqb x y = eqb y x.
Proof.
  destruct (eqb y x) eqn:E; rewrite ?eqb_true, ?eqb_false in *; congruence.
Qed.

Lemma existsb_pointwise {A} (f g : A -> bool) (l : list A) :
  (forall a, f a = g a) -> existsb f l = existsb g l.
Proof.
  intros Hfg. induction l as [|a l IH]; [reflexivity|].
  cbn [existsb]. rewrite Hfg, IH. reflexivity.
Qed.

(** A join reads, of its right table, the rows that match a left row. *)
Lemma inner_join_matched_right {A B} (on : A -> B -> bool)
  (l : list A) (r : list B) :
  inner_join on l r =
  inner_join on l (filter (fun b => existsb (fun a => on a b) l) r).
Proof.
  unfold inner_join. apply time_windows_facts.flat_map_ext_in. intros a Ha.
  f_equal. rewrite filter_filter. apply WindowFacts.filter_ext_in'.
  intros b _. destruct (on a b) eqn:E;
    rewrite ?andb_true_r, ?andb_false_r; try reflexivity.
  first [symmetry; apply existsb_exists | apply existsb_exists];
    exists a; auto.
Qed.

Lemma left_join_matched_right {A B} (on : A -> B -> bool)
  (l : list A) (r : list B) :
  left_join on l r =
  left_join on l (filter (fun b => existsb (fun a => on a b) l) r).
Proof.
  unfold left_join. apply time_windows_facts.flat_map_ext_in. intros a Ha.
  replace (filter (on a) (filter (fun b => existsb (fun a => on a b) l) r))
    with (filter (on a) r); [reflexivity|].
  rewrite filter_filter. apply WindowFacts.filter_ext_in'.
  intros b _. destruct (on a b) eqn:E;
    rewrite ?andb_true_r, ?andb_false_r; try reflexivity.
  first [symmetry; apply existsb_exists | apply existsb_exists];
    exists a; auto.
Qed.

(** And of its left table, the rows that match a right row. *)
Lemma inner_join_matched_left {A B} (on : A -> B -> bool)
  (l : list A) (r : list B) :
  inner_join on l r = inner_join on (filter (fun a => existsb (on a) r) l) r.
Proof.
  unfold inner_join. induction l as [|a l IH]; [reflexivity|].
  cbn [flat_map filter]. destruct (existsb (on a) r) eqn:E.
  - cbn [flat_map]. rewrite IH. reflexivity.
  - rewrite IH.
    replace (filter (on a) r) with (@nil B); [reflexivity|].
    symmetry. apply filter_nil_iff. intros b Hb.
    destruct (on a b) eqn:Eb; [|reflexivity].
    assert (existsb (on a) r = true)
      by (apply existsb_exists; exists b; auto).
    congruence.
Qed.

Section SamePartition.
Variables (v : vars) (db db' : staged).
Hypothesis Hsame : same_evaluation_partition v db db'.

(** The three ways in which the models join the orders of the evaluation
    partition with the order lines. *)
Lemma lines_of_orders_partition :
  inner_join (fun o op => eqb (o.order_id o) (op.order_id op))
    (filter (in_eval_set v) (orders db)) (order_products db) =
  inner_join (fun o op => eqb (o.order_id o) (op.order_id op))
    (filter (in_eval_set v) (orders db')) (order_products db').
Proof.
  destruct Hsame as (Ho & Hl & _). unfold line_of_partition in Hl.
  rewrite (inner_join_matched_right _ _ (order_products db)).
  rewrite (inner_join_matched_right _ _ (order_products db')).
  rewrite <- Ho. cbv beta. rewrite Hl. reflexivity.
Qed.

Lemma lines_or_null_of_orders_partition :
  left_join (fun o op => eqb (o.order_id o) (op.order_id op))
    (filter (in_eval_set v) (orders db)) (order_products db) =
  left_join (fun o op => eqb (o.order_id o) (op.order_id op))
    (filter (in_eval_set v) (orders db')) (order_products db').
Proof.
  destruct Hsame as (Ho & Hl & _). unfold line_of_partition in Hl.
  rewrite (left_join_matched_right _ _ (order_products db)).
  rewrite (left_join_matched_right _ _ (order_products db')).
  rewrite <- Ho. cbv beta. rewrite Hl. reflexivity.
Qed.

Lemma orders_of_lines_partition :
  inner_join (fun op o => eqb (op.order_id op) (o.order_id o))
    (order_products db) (filter (in_eval_set v) (orders db)) =
  inner_join (fun op o => eqb (op.order_id op) (o.order_id o))
    (order_products db') (filter (in_eval_set v) (orders db')).
Proof.
  destruct Hsame as (Ho & Hl & _). unfold line_of_partition in Hl.
  rewrite (inner_join_matched_left _ (order_products db)).
  rewrite (inner_join_matched_left _ (order_products db')).
  rewrite <- Ho. cbv beta.
  assert (E : forall ls,
            filter (fun a => existsb
                      (fun o => eqb (op.order_id a) (o.order_id o))
                      (filter (in_eval_set v) (orders db))) ls =
            filter (fun l => existsb
                      (fun x => eqb (o.order_id x) (op.order_id l))
                      (filter (in_eval_set v) (orders db))) ls)
    by (intros ls; apply filter_ext; intros l; apply existsb_pointwise;
        intros x; apply eqb_sym).
  rewrite !E, Hl. reflexivity.
Qed.

Lemma user_order_metrics_partition : um.model v db = um.model v db'.
Proof.
  unfold um.model, um.user_metrics, um.orders_joined, um.orders.
  rewrite lines_or_null_of_orders_partition. reflexivity.
Qed.

Lemma product_metrics_partition : pm.model v db = pm.model v db'.
Proof.
  destruct Hsame as (_ & _ & Hp & _).
  unfold pm.model, pm.product_metrics, pm.orders.
  rewrite orders_of_lines_partition, Hp. reflexivity.
Qed.

Lemma user_product_metrics_partition : upm.model v db = upm.model v db'.
Proof.
  unfold upm.model, upm.user_product_metrics, upm.user_orders, upm.orders.
  rewrite lines_of_orders_partition. reflexivity.
Qed.

Lemma user_features_partition : uf.model v db = uf.model v db'.
Proof.
  destruct Hsame as (Ho & _).
  unfold uf.model, uf.final, uf.user_metrics.
  rewrite user_order_metrics_partition.
  unfold uf.reorder_stats, uf.distinct_products, uf.last_order_per_user,
    uf.last_orders.
  rewrite !(filter_inner_join_left (in_eval_set v)).
  rewrite lines_of_orders_partition, Ho. reflexivity.
Qed.

Lemma product_features_partition : pfm.model v db = pfm.model v db'.
Proof.
  destruct Hsame as (_ & _ & Hp & Ha & Hd).
  unfold pfm.model, pfm.final.
  rewrite product_metrics_partition.
  unfold pfm.product_peak_hours, pfm.product_peak_days, pfm.orders_per_hour,
    pfm.orders_per_day, pfm.purchases.
  rewrite !(filter_inner_join_right (in_eval_set v)).
  rewrite orders_of_lines_partition, Hp, Ha, Hd. reflexivity.
Qed.

Lemma order_features_partition : ofe.model v db = ofe.model v db'.
Proof.
  destruct Hsame as (Ho & _ & Hp & _).
  unfold ofe.model, ofe.final, ofe.order_metrics, ofe.prev_order_metrics,
    ofe.product_diversity, ofe.orders.
  rewrite lines_or_null_of_orders_partition, lines_of_orders_partition, Ho, Hp.
  reflexivity.
Qed.

Lemma user_product_features_partition : upf.model v db = upf.model v db'.
Proof.
  unfold upf.model, upf.final.
  rewrite user_product_metrics_partition, user_features_partition,
    product_features_partition.
  unfold upf.last_purchase, upf.user_product_recency, upf.dominant_day_parts,
    upf.dominant_dows, upf.user_product_time_patterns, upf.purchases,
    upf.orders.
  rewrite lines_of_orders_partition. reflexivity.
Qed.

End SamePartition.

(** The feature pass reads the orders only through the filter on the
    evaluation partition ('prior'), and the order lines only through a join
    with the orders that pass it: two inputs with the same evaluation
    partition give the same UserFeatures, ProductFeatures, OrderFeatures
    and UserProductFeatures, and the same features on every training
    row. *)
Lemma features_from_evaluation_partition v target db db' :
  same_evaluation_partition v db' db ->
  uf.model v db' = uf.model v db /\
  pfm.model v db' = pfm.model v db /\
  ofe.model v db' = ofe.model v db /\
  upf.model v db' = upf.model v db /\
  (forall t, tf.model v target db = Ok t ->
     exists t', tf.model v target db' = Ok t' /\
       forall r r', In r t -> In r' t' -> tf.same_key r r' ->
                    tf.same_features r r').
Proof.
  intros Hs.
  pose proof (user_features_partition _ _ _ Hs) as Huf.
  pose proof (product_features_partition _ _ _ Hs) as Hpf.
  pose proof (order_features_partition _ _ _ Hs) as Hof.
  pose proof (user_product_features_partition _ _ _ Hs) as Hupf.
  repeat (split; [assumption|]).
  intros t Ht. unfold tf.model, tf.final in *.
  rewrite Huf, Hpf, Hof, Hupf.
  apply bind_ok in Ht as (ufs & -> & Ht).
  apply bind_ok in Ht as (pfs & -> & Ht).
  apply bind_ok in Ht as (ofs & -> & Ht).
  apply bind_ok in Ht as (upfs & -> & Ht).
  cbn [bind]. eexists; split; [reflexivity|].
  inversion Ht as [Ht']. clear Ht Ht'.
  intros r r' Hr Hr' (Eu & Ep & Eo).
  apply in_map_iff in Hr as (x & <- & _).
  apply in_map_iff in Hr' as (x' & <- & _).
  cbn in Eu, Ep, Eo. unfold tf.same_features. cbn.
  rewrite Eu, Ep, Eo. repeat split; reflexivity.
Qed.

(** Orders numbered [n] or more are outside the evaluation partition when
    all the orders of the user in the partition are older. *)
Lemma later_orders_outside_partition v u n os os' :
  (forall x, In x os -> o.user_id x = u -> in_eval_set v x = true ->
             o.order_number x < n) ->
  later_orders_modified u n os os' ->
  filter (in_eval_set v) os' = filter (in_eval_set v) os.
Proof.
  intros Hold Hm. induction Hm as [|x y os os' Hxy _ IH]; [reflexivity|].
  assert (IH' : filter (in_eval_set v) os' = filter (in_eval_set v) os)
    by (apply IH; intros; apply Hold; auto; right; assumption).
  cbn [filter]. destruct Hxy as [<-|(Hu & Hn & _ & _ & Hset)].
  - rewrite IH'; reflexivity.
  - assert (Hx : in_eval_set v x = false).
    { destruct (in_eval_set v x) eqn:Ex; [|reflexivity].
      specialize (Hold x (or_introl eq_refl) Hu Ex). lia. }
    assert (Hy : in_eval_set v y = false)
      by (unfold in_eval_set in *; rewrite Hset; exact Hx).
    rewrite Hx, Hy. exact IH'.
Qed.




End LeakageFacts.

(* ------------------------------------------------------------------------- *)
(** ** The end-to-end scenario *)

Module ScenarioFacts.
Import SQL SQLFacts DivisionFacts WindowFacts KeyFacts IntermediateKeys
  FeatureKeys OrderFacts DayPartFacts.
Module um := int_instacart__user_order_metrics.
Module uf := instacart__user_features.
Module ofe := instacart__order_features.

(** The rows that a join contributes for one left row, picked out by a key
    of the left row. *)
Lemma flat_map_rows_of {A B K} `{EqDec K} (g : A -> list B) (proj : B -> A)
  (key : A -> K) (l : list A) (x : A) :
  (forall a b, In b (g a) -> proj b = a) ->
  NoDup l -> In x l ->
  (forall a, In a l -> key a = key x -> a = x) ->
  filter (fun b => eqb (key (proj b)) (key x)) (flat_map g l) = g x.
Proof.
  intros Hg Hnd Hx Hk.
  assert (Hsame : filter (fun b => eqb (key (proj b)) (key x)) (g x) = g x).
  { apply filter_all. intros b Hb. rewrite (Hg x b Hb). apply eqb_refl. }
  assert (Hother : forall a, a <> x -> In a l ->
            filter (fun b => eqb (key (proj b)) (key x)) (g a) = []).
  { intros a0 Hne Ha. apply filter_nil_iff. intros b Hb.
    rewrite (Hg a0 b Hb). apply eqb_false. intros E. apply Hne, Hk; assumption. }
  induction l as [|a l IH]; [contradiction|].
  inversion Hnd as [|? ? Hna Hnd']; subst.
  cbn [flat_map]. rewrite filter_app.
  destruct Hx as [->|Hx].
  - rewrite Hsame.
    rewrite (proj2 (filter_nil_iff _ (flat_map g l))); [apply app_nil_r|].
    intros b Hb. apply in_flat_map in Hb as (a' & Ha' & Hb).
    rewrite (Hg a' b Hb). apply eqb_false. intros E.
    apply Hna. rewrite <- (Hk a' (or_intror Ha') E). exact Ha'.
  - rewrite (Hother a); [|intros ->; contradiction|left; reflexivity].
    apply IH; auto.
    + intros; apply Hk; auto; right; assumption.
    + intros; apply Hother; auto; right; assumption.
Qed.

Lemma left_join_covers {A B} (on : A -> B -> bool) (l : list A) (r : list B) a :
  In a l -> exists b, In (a, b) (left_join on l r).
Proof.
  intros Ha. unfold left_join.
  destruct (filter (on a) r) as [|b bs] eqn:E.
  - exists None. apply in_flat_map. exists a. rewrite E. split; [exact Ha|].
    left; reflexivity.
  - exists (Some b). apply in_flat_map. exists a. rewrite E. split; [exact Ha|].
    left; reflexivity.
Qed.

Lemma left_join_fst {A B} (on : A -> B -> bool) (r : list B) (a : A) j :
  In j (match filter (on a) r with
        | [] => [(a, None)]
        | ms => map (fun b => (a, Some b)) ms
        end) ->
  fst j = a.
Proof.
  destruct (filter (on a) r) as [|b bs].
  - intros [<-|[]]; reflexivity.
  - intros Hj. apply in_map_iff in Hj as (b' & <- & _). reflexivity.
Qed.

(** With unique order ids, the group of an order holds its own joined
    rows. *)
Lemma order_group_rows (os : list o.row) (lines : list op.row) (x : o.row) :
  NoDup (map o.order_id os) -> In x os ->
  filter (fun r : o.row * option op.row =>
            eqb (order_columns (fst r)) (order_columns x))
         (left_join (fun o op => eqb (o.order_id o) (op.order_id op)) os lines)
  = match filter (fun l => eqb (o.order_id x) (op.order_id l)) lines with
    | [] => [(x, None)]
    | ms => map (fun b => (x, Some b)) ms
    end.
Proof.
  intros Hnd Hx. unfold left_join.
  apply (flat_map_rows_of
           (fun a => match filter (fun l => eqb (o.order_id a) (op.order_id l))
                             lines with
                     | [] => [(a, None)]
                     | ms => map (fun b => (a, Some b)) ms
                     end)
           fst order_columns os x).
  - intros a b Hb.
    apply (left_join_fst (fun o op => eqb (o.order_id o) (op.order_id op))
             lines a b Hb).
  - eapply NoDup_map_inv; exact Hnd.
  - exact Hx.
  - intros a Ha E. apply (NoDup_key_inj o.order_id os); auto.
    unfold order_columns in E. congruence.
Qed.

Lemma basket_of_group (lines : list op.row) (x : o.row) :
  count (map (fun r : o.row * option op.row => option_map op.product_id (snd r))
             (match filter (fun l => eqb (o.order_id x) (op.order_id l)) lines
              with
              | [] => [(x, None)]
              | ms => map (fun b => (x, Some b)) ms
              end))
  = count_star (filter (fun l => eqb (o.order_id x) (op.order_id l)) lines).
Proof.
  unfold count, count_star.
  destruct (filter (fun l => eqb (o.order_id x) (op.order_id l)) lines)
    as [|b bs]; [reflexivity|].
  rewrite map_map. cbn [snd option_map].
  rewrite non_null_map_Some, length_map. reflexivity.
Qed.

(** [order_metrics] has the row of every order of the evaluation
    partition, and nothing else. *)
Lemma order_metrics_rows v db oms :
  NoDup (map o.order_id (orders db)) ->
  ofe.order_metrics v db = Ok oms ->
  (forall x, In x (ofe.orders v db) ->
     exists om, In om oms /\ order_metrics_of db x om) /\
  (forall om, In om oms ->
     exists x, In x (ofe.orders v db) /\ order_metrics_of db x om).
Proof.
  intros Hnd Hom. unfold ofe.order_metrics in Hom.
  apply select_rows in Hom as [Hrows Hgroups].
  assert (Hnd' : NoDup (map o.order_id (ofe.orders v db)))
    by (apply filter_keys_NoDup; exact Hnd).
  assert (Hrow : forall x g om,
            In x (ofe.orders v db) ->
            fst g = order_columns x ->
            snd g = filter (fun r : o.row * option op.row =>
                              eqb (order_columns (fst r)) (order_columns x))
                      (left_join (fun o op => eqb (o.order_id o) (op.order_id op))
                         (ofe.orders v db) (order_products db)) ->
            (let rows : list (o.row * option op.row) := snd g in
             let product_ids :=
               map (fun r => option_map op.product_id (snd r)) rows in
             let flags :=
               map (fun r => reordered_flag (option_map op.is_reordered (snd r)))
                   rows in
             let positions :=
               map (fun r => option_map op.cart_position (snd r)) rows in
             reorder_ratio <-
               div (numq (sum flags)) (nullif (num (count product_ids)) 0) ;;
             Ok match fst g with
                | (order_id, user_id, order_number, order_dow,
                   order_hour_of_day, days_since_prior_order) =>
                    {| ofe.om.order_id := order_id;
                       ofe.om.user_id := user_id;
                       ofe.om.order_number := order_number;
                       ofe.om.order_dow := order_dow;
                       ofe.om.order_hour_of_day := order_hour_of_day;
                       ofe.om.days_since_prior_order := days_since_prior_order;
                       ofe.om.basket_size := count product_ids;
                       ofe.om.num_reordered_items := sum flags;
                       ofe.om.reorder_ratio := reorder_ratio;
                       ofe.om.avg_cart_position := avg positions;
                       ofe.om.min_cart_position := min positions;
                       ofe.om.max_cart_position := max positions |}
                end) = Ok om ->
            order_metrics_of db x om).
  { intros x [k rows] om Hx Hk Hr Hf. cbn [fst snd] in *. cbv zeta in Hf.
    apply bind_ok in Hf as (q & _ & Hf). subst k rows.
    rewrite (order_group_rows _ _ x Hnd' Hx) in Hf.
    rewrite basket_of_group in Hf.
    inversion Hf; subst. unfold order_metrics_of, lines_of; cbn.
    repeat split; reflexivity. }
  split.
  - intros x Hx.
    destruct (left_join_covers
                (fun o op => eqb (o.order_id o) (op.order_id op))
                (ofe.orders v db) (order_products db) x Hx) as [y Hy].
    match type of Hgroups with
    | forall a, In a (group_by ?key ?l) -> _ =>
        assert (Hg : In (order_columns x,
                         filter (fun r => eqb (key r) (order_columns x)) l)
                        (group_by key l))
    end.
    { apply group_by_In. split; [|reflexivity].
      apply in_map_iff. exists (x, y). split; [reflexivity|exact Hy]. }
    destruct (Hgroups _ Hg) as (om & Hom & Hf).
    exists om. split; [exact Hom|].
    eapply (Hrow x _ om Hx); [| |exact Hf]; reflexivity.
  - intros om Hom. destruct (Hrows om Hom) as ([k rows] & Hg & Hf).
    pose proof Hg as Hg'. apply group_by_In in Hg' as [Hk Hr].
    apply in_map_iff in Hk as ([x y] & Hk & Hxy).
    apply left_join_In in Hxy as [Hx _].
    exists x. split; [exact Hx|].
    eapply (Hrow x _ om Hx); [| |exact Hf]; cbn [fst snd];
      [symmetry; exact Hk|rewrite Hr, <- Hk; reflexivity].
Qed.

(** [orders_joined] has the row of every order of the evaluation
    partition, and nothing else. *)
Lemma orders_joined_rows v db :
  NoDup (map o.order_id (orders db)) ->
  (forall x, In x (um.orders v db) ->
     exists r, In r (um.orders_joined v db) /\ orders_joined_of db x r) /\
  (forall r, In r (um.orders_joined v db) ->
     exists x, In x (um.orders v db) /\ orders_joined_of db x r).
Proof.
  intros Hnd.
  assert (Hnd' : NoDup (map o.order_id (um.orders v db)))
    by (apply filter_keys_NoDup; exact Hnd).
  unfold um.orders_joined.
  set (lj := left_join (fun o op => eqb (o.order_id o) (op.order_id op))
               (um.orders v db) (order_products db)).
  assert (Hrow : forall x, In x (um.orders v db) ->
            orders_joined_of db x
              (match order_columns x with
               | (order_id, user_id, order_number, order_dow,
                  order_hour_of_day, days_since_prior_order) =>
                   {| um.oj.order_id := order_id;
                      um.oj.user_id := user_id;
                      um.oj.order_number := order_number;
                      um.oj.order_dow := order_dow;
                      um.oj.order_hour_of_day := order_hour_of_day;
                      um.oj.days_since_prior_order := days_since_prior_order;
                      um.oj.basket_size :=
                        count (map (fun r : o.row * option op.row =>
                                      option_map op.product_id (snd r))
                                   (filter (fun r : o.row * option op.row =>
                                              eqb (order_columns (fst r))
                                                  (order_columns x)) lj));
                      um.oj.reordered_items :=
                        sum (map (fun r : o.row * option op.row =>
                                    reordered_flag
                                      (option_map op.is_reordered (snd r)))
                                 (filter (fun r : o.row * option op.row =>
                                            eqb (order_columns (fst r))
                                                (order_columns x)) lj)) |}
               end)).
  { intros x Hx. unfold lj.
    rewrite (order_group_rows _ _ x Hnd' Hx), basket_of_group.
    unfold orders_joined_of, lines_of, order_columns; cbn.
    repeat split; reflexivity. }
  split.
  - intros x Hx.
    destruct (left_join_covers
                (fun o op => eqb (o.order_id o) (op.order_id op))
                (um.orders v db) (order_products db) x Hx) as [y Hy].
    eexists. split; [|apply (Hrow x Hx)].
    apply in_map_iff.
    exists (order_columns x,
            filter (fun r : o.row * option op.row =>
                      eqb (order_columns (fst r)) (order_columns x)) lj).
    split; [reflexivity|].
    apply group_by_In. split; [|reflexivity].
    apply in_map_iff. exists (x, y). split; [reflexivity|exact Hy].
  - intros r Hr. apply in_map_iff in Hr as ([k rows] & <- & Hg).
    apply group_by_In in Hg as [Hk Hrows].
    apply in_map_iff in Hk as ([x y] & Hk & Hxy).
    apply left_join_In in Hxy as [Hx _]. cbn [fst] in Hk.
    exists x. split; [exact Hx|].
    cbn [fst snd]. rewrite Hrows, <- Hk. apply (Hrow x Hx).
Qed.

Lemma zsum_positive (l : list Z) :
  l <> [] -> (forall x, In x l -> 0 < x) -> 0 < zsum l.
Proof.
  induction l as [|a l IH]; [congruence|]. intros _ Hpos.
  change (zsum (a :: l)) with (a + zsum l).
  assert (Ha : 0 < a) by (apply Hpos; left; reflexivity).
  destruct l as [|b l]; [simpl; lia|].
  assert (0 < zsum (b :: l)); [|lia].
  apply IH; [discriminate|]. intros; apply Hpos; right; assumption.
Qed.

Lemma div_by_nonzero (a : option Q) (z : Z) :
  z <> 0 -> exists q, div a (Some (inject_Z z)) = Ok q.
Proof.
  intros Hz. unfold div. destruct a as [x|]; [|eauto].
  destruct (Qeq_bool (inject_Z z) 0) eqn:E; [|eauto].
  apply Qeq_bool_iff in E. unfold Qeq, inject_Z in E. simpl in E. lia.
Qed.

Lemma max_of_constant {A} (f : A -> Z) (c : Z) (l : list A) :
  l <> [] -> (forall x, In x l -> f x = c) ->
  max (map (fun x => Some (f x)) l) = Some c.
Proof.
  intros Hne Hc. unfold max. rewrite non_null_map_Some.
  destruct l as [|a l]; [congruence|]. cbn [map]. f_equal.
  rewrite (Hc a (or_introl eq_refl)).
  assert (Hl : forall x, In x l -> f x = c)
    by (intros; apply Hc; right; assumption).
  clear Hne Hc. induction l as [|b l IH]; [reflexivity|].
  cbn [map fold_right]. rewrite (Hl b (or_introl eq_refl)), IH; [lia|].
  intros; apply Hl; right; assumption.
Qed.

(** When the kept orders have lines, no user group of [user_metrics] has
    an empty basket total, and the model is computed. *)
Lemma user_metrics_total v db :
  NoDup (map o.order_id (orders db)) ->
  kept_orders_have_lines v db ->
  exists t, um.model v db = Ok t.
Proof.
  intros Hnd Hlines. unfold um.model, um.user_metrics.
  destruct (orders_joined_rows v db Hnd) as [_ Hto].
  apply select_total. intros [k rows] Hg. cbv zeta. cbn [fst snd].
  pose proof (group_rows_nonempty _ _ _ Hg) as Hne.
  apply group_by_In in Hg as [_ Hrows]. cbn [snd] in Hne.
  assert (Hpos : forall r, In r rows -> 0 < um.oj.basket_size r).
  { intros r Hr. rewrite Hrows in Hr.
    apply filter_In in Hr as [Hr _]. apply filter_In in Hr as [Hr Hmin].
    destruct (Hto r Hr) as (x & Hx & _ & _ & En & Eb).
    rewrite Eb. unfold um.orders in Hx. apply filter_In in Hx as [Hx He].
    apply Hlines; auto. apply Z.leb_le in Hmin. congruence. }
  assert (Hsum : exists z, z <> 0 /\
            numq (sum (map (fun r => Some (um.oj.basket_size r)) rows)) =
            Some (inject_Z z)).
  { exists (zsum (map um.oj.basket_size rows)). split.
    - assert (0 < zsum (map um.oj.basket_size rows)); [|lia].
      apply zsum_positive.
      + destruct rows; [congruence|discriminate].
      + intros x Hx. apply in_map_iff in Hx as (r & <- & Hr). auto.
    - unfold sum. rewrite non_null_map_Some.
      destruct rows as [|r rows']; [congruence|]. reflexivity. }
  destruct Hsum as (z & Hz & ->).
  destruct (div_by_nonzero
              (numq (sum (map um.oj.reordered_items rows))) z Hz) as [q ->].
  cbn [bind]. eauto.
Qed.

Section FiveOrders.
Variables (v : vars) (db : staged) (u : Z) (o1 o2 o3 o4 o5 : o.row).
Hypothesis scenario : five_orders v db u o1 o2 o3 o4 o5.

Lemma user_orders_are_the_five x :
  In x (orders db) -> o.user_id x = u ->
  x = o1 \/ x = o2 \/ x = o3 \/ x = o4 \/ x = o5.
Proof.
  intros Hx Hu.
  assert (Hin : In x [o1; o2; o3; o4; o5]).
  { eapply Permutation_in; [apply (fo_orders _ _ _ _ _ _ _ _ scenario)|].
    apply filter_In. split; [exact Hx|]. apply eqb_true; exact Hu. }
  cbn in Hin. intuition.
Qed.

Lemma five_in_orders x :
  In x [o1; o2; o3; o4; o5] -> In x (orders db) /\ o.user_id x = u.
Proof.
  intros Hx.
  assert (Hin : In x (filter (fun x => eqb (o.user_id x) u) (orders db))).
  { eapply Permutation_in;
      [apply Permutation_sym, (fo_orders _ _ _ _ _ _ _ _ scenario)|exact Hx]. }
  apply filter_In in Hin as [Hin Hu]. apply eqb_true in Hu. auto.
Qed.

Lemma target_not_evaluated : in_eval_set v o5 = false.
Proof.
  unfold in_eval_set.
  rewrite (fo_eval_set _ _ _ _ _ _ _ _ scenario),
    (fo_target _ _ _ _ _ _ _ _ scenario).
  reflexivity.
Qed.

Lemma prior_evaluated x : In x [o1; o2; o3; o4] -> in_eval_set v x = true.
Proof.
  destruct (fo_prior _ _ _ _ _ _ _ _ scenario) as (E1 & E2 & E3 & E4).
  unfold in_eval_set. rewrite (fo_eval_set _ _ _ _ _ _ _ _ scenario).
  intros [<-|[<-|[<-|[<-|[]]]]]; apply eqb_true; assumption.
Qed.

(** The orders of the user in the evaluation partition are orders 1 to 4. *)
Lemma evaluated_orders_of_user x :
  In x (ofe.orders v db) /\ o.user_id x = u <-> In x [o1; o2; o3; o4].
Proof.
  unfold ofe.orders. rewrite filter_In. split.
  - intros [[Hx He] Hu].
    destruct (user_orders_are_the_five x Hx Hu) as [-> | [-> | [-> | [-> | ->]]]];
      cbn; auto.
    rewrite target_not_evaluated in He; discriminate.
  - intros Hx. assert (H5 : In x [o1; o2; o3; o4; o5])
      by (cbn in *; intuition).
    destruct (five_in_orders x H5) as [Hin Hu].
    repeat split; auto. apply prior_evaluated; exact Hx.
Qed.

Lemma order_of_id x y :
  In x (orders db) -> In y (orders db) -> o.order_id x = o.order_id y -> x = y.
Proof.
  apply (NoDup_key_inj o.order_id (orders db)).
  apply (fo_order_ids _ _ _ _ _ _ _ _ scenario).
Qed.

Lemma numbers_ascend :
  StronglySorted (fun a b => o.order_number a < o.order_number b)
                 [o1; o2; o3; o4].
Proof.
  destruct (fo_numbers _ _ _ _ _ _ _ _ scenario) as (N1 & N2 & N3 & N4 & N5).
  repeat (constructor; [|repeat constructor; lia]). constructor.
Qed.

Lemma metrics_of_the_four oms :
  ofe.order_metrics v db = Ok oms ->
  exists om1 om2 om3 om4,
    (In om1 oms /\ order_metrics_of db o1 om1) /\
    (In om2 oms /\ order_metrics_of db o2 om2) /\
    (In om3 oms /\ order_metrics_of db o3 om3) /\
    (In om4 oms /\ order_metrics_of db o4 om4).
Proof.
  intros Hom.
  destruct (order_metrics_rows v db oms
              (fo_order_ids _ _ _ _ _ _ _ _ scenario) Hom) as [Hrows _].
  assert (H : forall x, In x [o1; o2; o3; o4] ->
                exists om, In om oms /\ order_metrics_of db x om).
  { intros x Hx. apply Hrows. apply evaluated_orders_of_user; exact Hx. }
  destruct (H o1) as (om1 & H1); [cbn; auto|].
  destruct (H o2) as (om2 & H2); [cbn; auto|].
  destruct (H o3) as (om3 & H3); [cbn; auto|].
  destruct (H o4) as (om4 & H4); [cbn; auto|].
  exists om1, om2, om3, om4. auto.
Qed.

Lemma four_distinct : NoDup [o1; o2; o3; o4].
Proof.
  destruct (fo_numbers _ _ _ _ _ _ _ _ scenario) as (N1 & N2 & N3 & N4 & N5).
  repeat (constructor;
          [cbn; intros H; repeat (destruct H as [H|H]; [rewrite H in *; lia|]);
           exact H|]).
  constructor.
Qed.

(** The partition of the user in [orders o inner join order_metrics om]. *)
Lemma user_partition oms om1 om2 om3 om4 :
  ofe.order_metrics v db = Ok oms ->
  In om1 oms /\ order_metrics_of db o1 om1 ->
  In om2 oms /\ order_metrics_of db o2 om2 ->
  In om3 oms /\ order_metrics_of db o3 om3 ->
  In om4 oms /\ order_metrics_of db o4 om4 ->
  Permutation
    (filter (fun j : o.row * ofe.om.row => eqb (o.user_id (fst j)) u)
       (inner_join (fun o om => eqb (o.order_id o) (ofe.om.order_id om))
          (ofe.orders v db) oms))
    [(o1, om1); (o2, om2); (o3, om3); (o4, om4)].
Proof.
  intros Hom [I1 M1] [I2 M2] [I3 M3] [I4 M4].
  pose proof (fo_order_ids _ _ _ _ _ _ _ _ scenario) as Hids.
  pose proof (order_metrics_keys v db oms Hids Hom) as Hkeys.
  apply NoDup_Permutation.
  - apply NoDup_filter'.
    apply (NoDup_map_inv (fun j : o.row * ofe.om.row => o.order_id (fst j))).
    apply (inner_join_keys o.order_id).
    + apply (unique_match ofe.om.order_id o.order_id); [exact Hkeys|].
      intros a b E. apply eqb_true in E. symmetry; exact E.
    + apply filter_keys_NoDup; exact Hids.
  - apply (NoDup_map_inv fst). exact four_distinct.
  - intros [x om]. rewrite filter_In, inner_join_In, !eqb_true. cbn [fst].
    split.
    + intros [(Hx & Ho & Eid) Hu].
      assert (Hx4 : In x [o1; o2; o3; o4])
        by (apply evaluated_orders_of_user; auto).
      assert (Hsame : forall om', In om' oms -> order_metrics_of db x om' ->
                        om = om').
      { intros om' Ho' (Eid' & _).
        apply (NoDup_key_inj ofe.om.order_id oms); auto. congruence. }
      cbn in Hx4. destruct Hx4 as [<-|[<-|[<-|[<-|[]]]]];
        [rewrite (Hsame om1)|rewrite (Hsame om2)|rewrite (Hsame om3)
         |rewrite (Hsame om4)]; cbn; auto.
    + intros Hin.
      assert (Hx4 : In x [o1; o2; o3; o4])
        by (cbn in Hin; cbn;
            destruct Hin as [E|[E|[E|[E|[]]]]]; inversion E; auto).
      apply evaluated_orders_of_user in Hx4 as [Hx Hu].
      cbn in Hin.
      destruct Hin as [E|[E|[E|[E|[]]]]]; inversion E; subst x om;
        [destruct M1 as (Eid & _)|destruct M2 as (Eid & _)
         |destruct M3 as (Eid & _)|destruct M4 as (Eid & _)]; auto.
Qed.

(** What [lag] reads on the rows of the user: nothing for order 1, then each
    time the previous order. *)
Lemma lag_on_user_partition oms om1 om2 om3 om4 j prev :
  ofe.order_metrics v db = Ok oms ->
  In om1 oms /\ order_metrics_of db o1 om1 ->
  In om2 oms /\ order_metrics_of db o2 om2 ->
  In om3 oms /\ order_metrics_of db o3 om3 ->
  In om4 oms /\ order_metrics_of db o4 om4 ->
  o.user_id (fst j) = u ->
  In (j, prev)
     (lag_row (fun r : o.row * ofe.om.row => o.user_id (fst r))
        (asc (fun r : o.row * ofe.om.row => o.order_number (fst r)))
        (inner_join (fun o om => eqb (o.order_id o) (ofe.om.order_id om))
           (ofe.orders v db) oms)) <->
  In (j, prev)
     [((o1, om1), None); ((o2, om2), Some (o1, om1));
      ((o3, om3), Some (o2, om2)); ((o4, om4), Some (o3, om3))].
Proof.
  intros Hom H1 H2 H3 H4 Hu. rewrite lag_row_In, Hu.
  rewrite (sort_by_asc_is
             (fun r : o.row * ofe.om.row => o.order_number (fst r))
             _ [(o1, om1); (o2, om2); (o3, om3); (o4, om4)]).
  - reflexivity.
  - apply user_partition; assumption.
  - destruct (fo_numbers _ _ _ _ _ _ _ _ scenario) as (N1 & N2 & N3 & N4 & N5).
    repeat (constructor; [|repeat constructor; cbn; lia]). constructor.
Qed.

Lemma prev_order_metrics_of_user oms om1 om2 om3 om4 q x :
  ofe.order_metrics v db = Ok oms ->
  In om1 oms /\ order_metrics_of db o1 om1 ->
  In om2 oms /\ order_metrics_of db o2 om2 ->
  In om3 oms /\ order_metrics_of db o3 om3 ->
  In om4 oms /\ order_metrics_of db o4 om4 ->
  In q (ofe.prev_order_metrics v db oms) ->
  In x [o1; o2; o3; o4] ->
  ofe.pom.order_id q = o.order_id x ->
  (x = o1 /\ ofe.pom.prev_basket_size q = None) \/
  (x = o2 /\ ofe.pom.prev_basket_size q = Some (lines_of db o1)) \/
  (x = o3 /\ ofe.pom.prev_basket_size q = Some (lines_of db o2)) \/
  (x = o4 /\ ofe.pom.prev_basket_size q = Some (lines_of db o3)).
Proof.
  intros Hom H1 H2 H3 H4 Hq Hx Eid.
  unfold ofe.prev_order_metrics in Hq.
  apply in_map_iff in Hq as ([[y om] prev] & <- & Hlag).
  cbn [fst snd ofe.pom.order_id ofe.pom.prev_basket_size] in *.
  assert (Hy : In y (ofe.orders v db)).
  { assert (Hj : In (y, om)
                    (inner_join
                       (fun o om => eqb (o.order_id o) (ofe.om.order_id om))
                       (ofe.orders v db) oms)).
    { eapply Permutation_in;
        [apply (lag_row_rows
                  (fun r : o.row * ofe.om.row => o.user_id (fst r))
                  (asc (fun r : o.row * ofe.om.row => o.order_number (fst r))))|].
      apply (in_map fst) in Hlag. exact Hlag. }
    apply inner_join_In in Hj as [Hj _]. exact Hj. }
  assert (Eyx : y = x).
  { apply order_of_id; auto.
    - unfold ofe.orders in Hy. apply filter_In in Hy as [Hy _]; exact Hy.
    - apply evaluated_orders_of_user in Hx as [Hx' _].
      unfold ofe.orders in Hx'. apply filter_In in Hx' as [Hx' _]; exact Hx'. }
  assert (Hu : o.user_id (fst (y, om)) = u).
  { cbn. rewrite Eyx. apply evaluated_orders_of_user in Hx as [_ Hu]; exact Hu. }
  apply (lag_on_user_partition oms om1 om2 om3 om4 (y, om) prev
           Hom H1 H2 H3 H4 Hu) in Hlag.
  destruct (fo_numbers _ _ _ _ _ _ _ _ scenario) as (N1 & N2 & N3 & N4 & N5).
  destruct H1 as (_ & _ & _ & _ & B1), H2 as (_ & _ & _ & _ & B2),
    H3 as (_ & _ & _ & _ & B3), H4 as (_ & _ & _ & _ & B4).
  cbn in Hlag.
  destruct Hlag as [E|[E|[E|[E|[]]]]]; inversion E as [[Ey Eom Eprev]];
    rewrite <- Eyx, <- Ey; cbn [option_map snd].
  - left; split; reflexivity.
  - right; left; split; [reflexivity|congruence].
  - right; right; left; split; [reflexivity|congruence].
  - right; right; right; split; [reflexivity|congruence].
Qed.

Lemma prev_order_metrics_has oms om1 om2 om3 om4 x :
  ofe.order_metrics v db = Ok oms ->
  In om1 oms /\ order_metrics_of db o1 om1 ->
  In om2 oms /\ order_metrics_of db o2 om2 ->
  In om3 oms /\ order_metrics_of db o3 om3 ->
  In om4 oms /\ order_metrics_of db o4 om4 ->
  In x [o1; o2; o3; o4] ->
  exists q, In q (ofe.prev_order_metrics v db oms) /\
            ofe.pom.order_id q = o.order_id x.
Proof.
  intros Hom H1 H2 H3 H4 Hx.
  assert (Hu : o.user_id x = u)
    by (apply evaluated_orders_of_user in Hx as [_ Hu]; exact Hu).
  assert (Hl : exists om prev,
            In ((x, om), prev)
               [((o1, om1), None); ((o2, om2), Some (o1, om1));
                ((o3, om3), Some (o2, om2)); ((o4, om4), Some (o3, om3))]).
  { cbn in Hx. destruct Hx as [<-|[<-|[<-|[<-|[]]]]];
      do 2 eexists; cbn; eauto 6. }
  destruct Hl as (om & prev & Hl).
  apply (lag_on_user_partition oms om1 om2 om3 om4 (x, om) prev
           Hom H1 H2 H3 H4 Hu) in Hl.
  eexists. split.
  - unfold ofe.prev_order_metrics. apply in_map. exact Hl.
  - reflexivity.
Qed.

(** OrderFeatures on the orders of the user: rows for orders 1 to 4, each
    delta against the order before. *)
Lemma order_features_of_user :
  exists t,
    ofe.model v db = Ok t /\
    (forall r, In r t -> ofe.user_id r = u ->
       ofe.order_id r <> o.order_id o5 /\
       (row_of_first db o1 r \/ row_after db o1 o2 r \/
        row_after db o2 o3 r \/ row_after db o3 o4 r)) /\
    (forall x, In x [o1; o2; o3; o4] ->
       exists r, In r t /\ ofe.order_id r = o.order_id x).
Proof.
  destruct (order_features_total v db) as [t Ht]. exists t.
  split; [exact Ht|].
  pose proof Ht as Hsel. unfold ofe.final in Hsel.
  apply bind_ok in Hsel as (oms & Hom & Hsel).
  destruct (metrics_of_the_four oms Hom) as (om1 & om2 & om3 & om4 & H1 & H2 & H3 & H4).
  pose proof (fo_order_ids _ _ _ _ _ _ _ _ scenario) as Hids.
  destruct (order_metrics_rows v db oms Hids Hom) as [Hof Hto].
  pose proof (order_metrics_keys v db oms Hids Hom) as Hkeys.
  split.
  - intros r Hr Hu.
    destruct (order_features_row v db t r Ht Hr)
      as (oms' & om & pom & pd & Hom' & Hj & Eid & Euid & _ & _ & Ebs & Ed & _).
    rewrite Hom in Hom'. inversion Hom' as [Eoms]. rewrite <- Eoms in Hj.
    clear Hom' Eoms oms'.
    apply left_join_In in Hj as [Hj _].
    apply left_join_In in Hj as [Hin Hpom].
    destruct (Hto om Hin) as (x & Hx & Mid & Muid & Mn & Mbs).
    assert (Hx4 : In x [o1; o2; o3; o4]).
    { apply evaluated_orders_of_user. split; [exact Hx|congruence]. }
    assert (Hne : ofe.order_id r <> o.order_id o5).
    { rewrite Eid, Mid. intros E.
      assert (E5 : x = o5).
      { apply order_of_id; auto.
        - unfold ofe.orders in Hx. apply filter_In in Hx as [Hx _]; exact Hx.
        - apply (five_in_orders o5). cbn; auto 6. }
      rewrite E5 in Hx. unfold ofe.orders in Hx.
      apply filter_In in Hx as [_ Hx].
      rewrite target_not_evaluated in Hx. discriminate. }
    split; [exact Hne|].
    destruct pom as [q|].
    + destruct Hpom as [Hq Eq]. apply eqb_true in Eq.
      assert (Eqx : ofe.pom.order_id q = o.order_id x) by congruence.
      destruct (prev_order_metrics_of_user oms om1 om2 om3 om4 q x
                  Hom H1 H2 H3 H4 Hq Hx4 Eqx)
        as [[Ex Ep]|[[Ex Ep]|[[Ex Ep]|[Ex Ep]]]];
        rewrite Ep in Ed; rewrite Ex in *; cbn [sub] in Ed.
      * left. repeat split; congruence.
      * right; left. repeat split; congruence.
      * right; right; left. repeat split; congruence.
      * right; right; right. repeat split; congruence.
    + exfalso.
      destruct (prev_order_metrics_has oms om1 om2 om3 om4 x
                  Hom H1 H2 H3 H4 Hx4) as (q & Hq & Eq).
      specialize (Hpom q Hq). apply eqb_false in Hpom. congruence.
  - intros x Hx4.
    assert (Hx : In x (ofe.orders v db))
      by (apply evaluated_orders_of_user in Hx4 as [Hx _]; exact Hx).
    destruct (Hof x Hx) as (om & Hin & Mid & _).
    destruct (left_join_covers
                (fun (om : ofe.om.row) (pom : ofe.pom.row) =>
                   eqb (ofe.om.order_id om) (ofe.pom.order_id pom))
                oms (ofe.prev_order_metrics v db oms) om Hin) as [pom Hj1].
    destruct (left_join_covers
                (fun (j : ofe.om.row * option ofe.pom.row) (pd : ofe.pd.row) =>
                   eqb (ofe.om.order_id (fst j)) (ofe.pd.order_id pd))
                _ (ofe.product_diversity v db) (om, pom) Hj1) as [pd Hj2].
    apply select_rows in Hsel as [_ Hsel].
    destruct (Hsel _ Hj2) as (r & Hr & Hf).
    exists r. split; [exact Hr|].
    apply bind_ok in Hf as (q1 & _ & Hf).
    apply bind_ok in Hf as (q2 & _ & Hf).
    inversion Hf; cbn. exact Mid.
Qed.

Hypothesis lines : kept_orders_have_lines v db.

(** [user_metrics] has one group for the user, made of order 4 alone. *)
Lemma user_metrics_of_user ums :
  um.model v db = Ok ums ->
  (exists r, In r ums /\ um.user_id r = u) /\
  (forall r, In r ums -> um.user_id r = u -> um.user_total_orders r = Some 4).
Proof.
  intros Hm. unfold um.model, um.user_metrics in Hm.
  destruct (select_rows _ _ _ Hm) as [Hfrom Hto].
  destruct (orders_joined_rows v db (fo_order_ids _ _ _ _ _ _ _ _ scenario))
    as [Hoj_to Hoj_from].
  destruct (fo_numbers _ _ _ _ _ _ _ _ scenario) as (N1 & N2 & N3 & N4 & N5).
  pose proof (fo_min_orders _ _ _ _ _ _ _ _ scenario) as Hmin.
  split.
  - assert (H4 : In o4 (um.orders v db) /\ o.user_id o4 = u)
      by (apply evaluated_orders_of_user; cbn; auto).
    destruct H4 as [H4 Hu4].
    destruct (Hoj_to o4 H4) as (r4 & Hr4 & _ & Eu & En & _).
    assert (Hkey : In u (map um.oj.user_id
                     (filter (fun r => min_orders v <=? um.oj.order_number r)
                             (um.orders_joined v db)))).
    { apply in_map_iff. exists r4. split; [congruence|].
      apply filter_In. split; [exact Hr4|]. apply Z.leb_le. lia. }
    destruct (Hto (u, filter (fun a => eqb (um.oj.user_id a) u)
                     (filter (fun r => min_orders v <=? um.oj.order_number r)
                             (um.orders_joined v db)))) as (b & Hb & E).
    { apply group_by_In. split; [exact Hkey|reflexivity]. }
    exists b. split; [exact Hb|].
    cbv zeta in E. apply bind_ok in E as (q & _ & E).
    inversion E; reflexivity.
  - intros r Hr Hu.
    destruct (Hfrom r Hr) as ([k rows] & Hg & E).
    pose proof (group_rows_nonempty _ _ _ Hg) as Hne. cbn [snd] in Hne.
    apply group_by_In in Hg as [_ Hrows].
    cbv zeta in E. apply bind_ok in E as (q & _ & E).
    inversion E; subst r; cbn [um.user_id um.user_total_orders fst snd] in *.
    apply max_of_constant; [exact Hne|].
    intros x Hx. rewrite Hrows in Hx.
    apply filter_In in Hx as [Hx Hk]. apply eqb_true in Hk.
    apply filter_In in Hx as [Hx Hge]. apply Z.leb_le in Hge.
    destruct (Hoj_from x Hx) as (y & Hy & _ & Eu & En & _).
    assert (Hy4 : In y [o1; o2; o3; o4])
      by (apply evaluated_orders_of_user; split; [exact Hy|congruence]).
    rewrite En.
    destruct Hy4 as [<- | [<- | [<- | [<- | []]]]]; lia.
Qed.

(** Order 4 has a line in the evaluation partition, so the user is a group
    of [distinct_products] and [reorder_stats]. *)
Lemma user_has_purchases :
  In u (map (fun r : o.row * op.row => o.user_id (fst r))
          (filter (fun r => in_eval_set v (fst r))
             (inner_join (fun o op => eqb (o.order_id o) (op.order_id op))
                (orders db) (order_products db)))).
Proof.
  destruct (fo_numbers _ _ _ _ _ _ _ _ scenario) as (N1 & N2 & N3 & N4 & N5).
  pose proof (fo_min_orders _ _ _ _ _ _ _ _ scenario) as Hmin.
  assert (H4 : In o4 (um.orders v db) /\ o.user_id o4 = u)
    by (apply evaluated_orders_of_user; cbn; auto).
  destruct H4 as [H4 Hu4]. apply filter_In in H4 as [H4 He4].
  assert (Hl : 0 < lines_of db o4) by (apply lines; auto; lia).
  unfold lines_of, count_star in Hl.
  destruct (filter (fun l => eqb (o.order_id o4) (op.order_id l))
                   (order_products db)) as [|l ls] eqn:Ef;
    [simpl in Hl; lia|].
  assert (Hin : In l (filter (fun l => eqb (o.order_id o4) (op.order_id l))
                             (order_products db)))
    by (rewrite Ef; left; reflexivity).
  apply filter_In in Hin as [Hin Hon].
  apply in_map_iff. exists (o4, l). split; [exact Hu4|].
  apply filter_In. split; [|exact He4].
  apply inner_join_In. auto.
Qed.

Lemma distinct_products_of_user :
  exists r, In r (uf.distinct_products v db) /\ uf.dp.user_id r = u.
Proof.
  unfold uf.distinct_products.
  eexists. split.
  - apply in_map_iff. eexists (u, _). split; [reflexivity|].
    apply group_by_In. split; [exact user_has_purchases|reflexivity].
  - reflexivity.
Qed.

Lemma reorder_stats_total : exists t, uf.reorder_stats v db = Ok t.
Proof.
  unfold uf.reorder_stats. apply select_total. intros g _.
  cbv zeta. guarded. eauto.
Qed.

Lemma reorder_stats_of_user rss :
  uf.reorder_stats v db = Ok rss ->
  exists r, In r rss /\ uf.rs.user_id r = u.
Proof.
  intros Hm. unfold uf.reorder_stats in Hm.
  destruct (select_rows _ _ _ Hm) as [_ Hto].
  destruct (Hto (u, filter (fun a : o.row * op.row =>
                              eqb (o.user_id (fst a)) u)
                     (filter (fun r => in_eval_set v (fst r))
                        (inner_join
                           (fun o op => eqb (o.order_id o) (op.order_id op))
                           (orders db) (order_products db)))))
    as (b & Hb & E).
  { apply group_by_In. split; [exact user_has_purchases|reflexivity]. }
  exists b. split; [exact Hb|].
  cbv zeta in E. apply bind_ok in E as (q & _ & E).
  inversion E; reflexivity.
Qed.

Lemma last_order_of_user :
  exists lo, In lo (uf.last_order_per_user v db) /\ o.user_id (fst lo) = u.
Proof.
  assert (H4 : In o4 (um.orders v db) /\ o.user_id o4 = u)
    by (apply evaluated_orders_of_user; cbn; auto).
  destruct H4 as [H4 Hu4].
  assert (Hin : In u (map (fun r : o.row * Z => o.user_id (fst r))
                        (uf.last_order_per_user v db))).
  { unfold uf.last_order_per_user, uf.last_orders.
    rewrite first_rows_keys, group_by_keys. apply nodup_In.
    apply in_map_iff. exists o4. split; [exact Hu4|exact H4]. }
  apply in_map_iff in Hin as (lo & E & Hlo). eauto.
Qed.

(** UserFeatures is computed, has a row for the user, and reports four
    orders for the user. *)
Lemma user_features_of_user :
  exists t,
    uf.model v db = Ok t /\
    (exists r, In r t /\ uf.user_id r = u) /\
    (forall r, In r t -> uf.user_id r = u -> uf.user_total_orders r = Some 4).
Proof.
  destruct (user_metrics_total v db (fo_order_ids _ _ _ _ _ _ _ _ scenario)
              lines) as [ums Hums].
  destruct reorder_stats_total as [rss Hrss].
  destruct (user_metrics_of_user ums Hums) as [(a & Ha & Eua) Hfour].
  destruct distinct_products_of_user as (b & Hb & Eub).
  destruct (reorder_stats_of_user rss Hrss) as (c & Hc & Euc).
  destruct last_order_of_user as (d & Hd & Eud).
  unfold uf.model, uf.final, uf.user_metrics.
  rewrite Hums, Hrss. cbn [bind].
  match goal with
  | |- exists t, select ?F ?J = Ok t /\ _ =>
      destruct (select_total F J) as [t Ht]
  end.
  { intros [[[a' b'] c'] d'] _. guarded. eauto. }
  exists t. split; [exact Ht|].
  destruct (select_rows _ _ _ Ht) as [Hfrom Hto].
  split.
  - destruct (Hto (a, b, c, d)) as (r & Hr & E).
    { apply inner_join_In. split; [|split; [exact Hd|]].
      - apply inner_join_In. split; [|split; [exact Hc|]].
        + apply inner_join_In. split; [exact Ha|split; [exact Hb|]].
          apply eqb_true; congruence.
        + cbn [fst]. apply eqb_true; congruence.
      - cbn [fst]. apply eqb_true; congruence. }
    exists r. split; [exact Hr|].
    apply bind_ok in E as (q & _ & E). inversion E; exact Eua.
  - intros r Hr Hu.
    destruct (Hfrom r Hr) as ([[[a' b'] c'] d'] & Hj & E).
    apply bind_ok in E as (q & _ & E).
    inversion E; subst r; cbn [uf.user_id uf.user_total_orders] in *.
    apply inner_join_In in Hj as (Hj & _ & _).
    apply inner_join_In in Hj as (Hj & _ & _).
    apply inner_join_In in Hj as (Hj & _ & _).
    apply Hfour; assumption.
Qed.

End FiveOrders.

(** X28.  A user has exactly five orders, numbered 1 to 5, orders 1 to 4
    in 'prior' and order 5 in 'train', and the feature pass runs over
    'prior' with [min_orders] = 4.  When every order of the evaluation
    partition that the user metrics keep has at least one order line,
    UserFeatures is computed, has a row for the user, and reports
    [user_total_orders] = 4; OrderFeatures has, for the user, the rows of
    orders 1 to 4 only, the delta of order 1 is NULL and the delta of each
    later order is its basket size minus the basket size of the order before
    it. *)
Theorem five_order_scenario_with_lines v db u o1 o2 o3 o4 o5 :
  five_orders v db u o1 o2 o3 o4 o5 ->
  kept_orders_have_lines v db ->
  scenario_outcome v db u o1 o2 o3 o4 o5.
Proof.
  intros Hs Hl. split.
  - apply (user_features_of_user v db u o1 o2 o3 o4 o5); assumption.
  - apply order_features_of_user; assumption.
Qed.

Lemma five_order_scenario_with_lines_witness :
  scenario_outcome Sample.v Sample.db 7
    Sample.o1 Sample.o2 Sample.o3 Sample.o4 Sample.o5.
Proof.
  assert (Hs : five_orders Sample.v Sample.db 7
                 Sample.o1 Sample.o2 Sample.o3 Sample.o4 Sample.o5).
  { constructor; try reflexivity.
    - cbn. repeat (constructor; [cbn; intuition lia|]). constructor.
    - cbn. repeat split; reflexivity.
    - cbn. repeat split; reflexivity. }
  assert (Hl : kept_orders_have_lines Sample.v Sample.db).
  { intros x Hx He Hm. cbn in Hx.
    destruct Hx as [<- | [<- | [<- | [<- | [<- | []]]]]];
      vm_compute; reflexivity. }
  exact (five_order_scenario_with_lines Sample.v Sample.db 7
           Sample.o1 Sample.o2 Sample.o3 Sample.o4 Sample.o5 Hs Hl).
Defined.

(** C9, at the failing input: the five orders of the scenario, where the
    user's order 4, the only one that reaches [min_orders], has no order
    line.  [sum(basket_size)] of the user is 0, the unguarded division of
    [overall_reorder_rate] aborts the user metrics and with them
    UserFeatures, which reports no [user_total_orders] for the user. *)
Theorem scenario_with_empty_order_fails :
  five_orders Sample.v Sample.db_fourth_order_empty 7
    Sample.o1 Sample.o2 Sample.o3 Sample.o4 Sample.o5 /\
  instacart__user_features.model Sample.v Sample.db_fourth_order_empty =
    Raise DivisionByZero /\
  ~ five_order_scenario Sample.v Sample.db_fourth_order_empty 7
      Sample.o1 Sample.o2 Sample.o3 Sample.o4 Sample.o5.
Proof.
  assert (Hs : five_orders Sample.v Sample.db_fourth_order_empty 7
                 Sample.o1 Sample.o2 Sample.o3 Sample.o4 Sample.o5).
  { constructor; try reflexivity.
    - cbn. repeat (constructor; [cbn; intuition lia|]). constructor.
    - cbn. repeat split; reflexivity.
    - cbn. repeat split; reflexivity. }
  split; [exact Hs|]. split; [vm_compute; reflexivity|].
  intros H. destruct (H Hs) as [(t & Ht & _) _].
  vm_compute in Ht. discriminate.
Qed.

End ScenarioFacts.

(* ------------------------------------------------------------------------- *)
(** ** The user metrics: which users, which orders, and when they fail *)

Module UserOrderFacts.
Import SQL SQLFacts DivisionFacts WindowFacts KeyFacts DayPartFacts.
Module um := int_instacart__user_order_metrics.

Lemma evaluated_orders_In v db u x :
  In x (evaluated_orders v db u) <->
  In x (orders db) /\ in_eval_set v x = true /\ o.user_id x = u.
Proof.
  unfold evaluated_orders. rewrite !filter_In, eqb_true. tauto.
Qed.

Lemma kept_orders_In v db u x :
  In x (kept_orders v db u) <->
  In x (evaluated_orders v db u) /\ min_orders v <= o.order_number x.
Proof. unfold kept_orders. rewrite filter_In, Z.leb_le. tauto. Qed.

(** The key columns of [orders_joined] are those of the orders of the
    evaluation partition. *)
Lemma orders_joined_columns v db :
  (forall x, In x (um.orders v db) ->
     exists r, In r (um.orders_joined v db) /\
       um.oj.order_id r = o.order_id x /\ um.oj.user_id r = o.user_id x /\
       um.oj.order_number r = o.order_number x) /\
  (forall r, In r (um.orders_joined v db) ->
     exists x, In x (um.orders v db) /\
       um.oj.order_id r = o.order_id x /\ um.oj.user_id r = o.user_id x /\
       um.oj.order_number r = o.order_number x).
Proof.
  unfold um.orders_joined. split.
  - intros x Hx.
    destruct (ScenarioFacts.left_join_covers
                (fun o op => eqb (o.order_id o) (op.order_id op))
                (um.orders v db) (order_products db) x Hx) as [y Hy].
    eexists. split.
    + apply in_map_iff. eexists (order_columns x, _). split; [reflexivity|].
      apply group_by_In. split; [|reflexivity].
      apply in_map_iff. exists (x, y). split; [reflexivity|exact Hy].
    + cbn. auto.
  - intros r Hr. apply in_map_iff in Hr as ([k rows] & <- & Hg).
    apply group_by_In in Hg as [Hk _].
    apply in_map_iff in Hk as ([x y] & <- & Hxy).
    apply left_join_In in Hxy as [Hx _].
    exists x. split; [exact Hx|]. cbn. auto.
Qed.

Lemma max_attained {A} (f : A -> Z) (l : list A) :
  l <> [] ->
  exists a, In a l /\ max (map (fun x => Some (f x)) l) = Some (f a) /\
            forall b, In b l -> f b <= f a.
Proof.
  intros Hne. unfold max. rewrite non_null_map_Some.
  destruct l as [|a0 l]; [congruence|]. clear Hne. cbn [map].
  induction l as [|b l IH].
  - exists a0. cbn. split; [auto|]. split; [reflexivity|].
    intros b [<-|[]]; lia.
  - destruct IH as (a & Ha & Hv & Hle). injection Hv as Hv.
    cbn [map fold_right]. rewrite Hv.
    destruct (Z.max_spec (f b) (f a)) as [[Hlt ->]|[Hge ->]].
    + exists a. split; [destruct Ha as [<-|Ha]; [left|right; right]; auto|].
      split; [reflexivity|].
      intros c [<-|[<-|Hc]]; [apply Hle; left; reflexivity|lia|].
      apply Hle; right; exact Hc.
    + exists b. split; [right; left; reflexivity|]. split; [reflexivity|].
      intros c [<-|[<-|Hc]]; [|lia|].
      * specialize (Hle a0 (or_introl eq_refl)). lia.
      * specialize (Hle c (or_intror Hc)). lia.
Qed.

(** The rows of a user group of [user_metrics] are the [orders_joined] rows
    of the user's kept orders. *)
Lemma user_group_rows v db u :
  (forall r, In r (filter (fun a => eqb (um.oj.user_id a) u)
                     (filter (fun r => min_orders v <=? um.oj.order_number r)
                             (um.orders_joined v db))) ->
     exists x, In x (kept_orders v db u) /\
       um.oj.order_id r = o.order_id x /\
       um.oj.order_number r = o.order_number x) /\
  (forall x, In x (kept_orders v db u) ->
     exists r, In r (filter (fun a => eqb (um.oj.user_id a) u)
                       (filter (fun r => min_orders v <=? um.oj.order_number r)
                               (um.orders_joined v db))) /\
       um.oj.order_id r = o.order_id x /\
       um.oj.order_number r = o.order_number x).
Proof.
  destruct (orders_joined_columns v db) as [Hto Hfrom]. split.
  - intros r Hr. apply filter_In in Hr as [Hr Hu]. apply eqb_true in Hu.
    apply filter_In in Hr as [Hr Hmin]. apply Z.leb_le in Hmin.
    destruct (Hfrom r Hr) as (x & Hx & Ei & Eu & En).
    exists x. split; [|auto].
    apply kept_orders_In. split; [|lia].
    apply evaluated_orders_In. unfold um.orders in Hx.
    apply filter_In in Hx as [Hx He]. repeat split; auto. congruence.
  - intros x Hx. apply kept_orders_In in Hx as [Hx Hmin].
    apply evaluated_orders_In in Hx as (Hx & He & Hu).
    destruct (Hto x) as (r & Hr & Ei & Eu & En).
    { unfold um.orders. apply filter_In; auto. }
    exists r. split; [|auto].
    apply filter_In. split; [|apply eqb_true; congruence].
    apply filter_In. split; [exact Hr|]. apply Z.leb_le. lia.
Qed.

(** The groups of [user_metrics] and the rows computed from them. *)
Lemma user_metrics_row v db t r :
  um.model v db = Ok t -> In r t ->
  exists rows,
    rows = filter (fun a => eqb (um.oj.user_id a) (um.user_id r))
             (filter (fun r => min_orders v <=? um.oj.order_number r)
                     (um.orders_joined v db)) /\
    rows <> [] /\
    um.user_total_orders r =
      max (map (fun r => Some (um.oj.order_number r)) rows) /\
    um.total_items_ordered r =
      sum (map (fun r => Some (um.oj.basket_size r)) rows) /\
    um.total_orders r =
      count_distinct (map (fun r => Some (um.oj.order_id r)) rows).
Proof.
  intros Hm Hr. unfold um.model, um.user_metrics in Hm.
  destruct (select_rows _ _ _ Hm) as [Hfrom _].
  destruct (Hfrom r Hr) as ([k rows] & Hg & E).
  pose proof (group_rows_nonempty _ _ _ Hg) as Hne. cbn [snd] in Hne.
  apply group_by_In in Hg as [_ Hrows].
  cbv zeta in E. apply bind_ok in E as (q & _ & E).
  inversion E; subst r; cbn [um.user_id um.user_total_orders
    um.total_items_ordered um.total_orders fst snd] in *.
  exists rows. repeat split; auto.
Qed.

Lemma user_metrics_users v db t u :
  um.model v db = Ok t ->
  In u (map um.user_id t) <-> kept_orders v db u <> [].
Proof.
  intros Hm. destruct (user_group_rows v db u) as [Hrk Hkr]. split.
  - intros Hu. apply in_map_iff in Hu as (r & <- & Hr).
    destruct (user_metrics_row v db t r Hm Hr) as (rows & Hrows & Hne & _).
    destruct rows as [|r0 rows']; [congruence|].
    destruct (user_group_rows v db (um.user_id r)) as [Hrk' _].
    destruct (Hrk' r0) as (x & Hx & _).
    { rewrite <- Hrows. left; reflexivity. }
    intros E. rewrite E in Hx. exact Hx.
  - intros Hne. destruct (kept_orders v db u) as [|x xs] eqn:E; [congruence|].
    destruct (Hkr x (or_introl eq_refl)) as (r0 & Hr0 & _).
    unfold um.model, um.user_metrics in Hm.
    destruct (select_rows _ _ _ Hm) as [_ Hto].
    destruct (Hto (u, filter (fun a => eqb (um.oj.user_id a) u)
                     (filter (fun r => min_orders v <=? um.oj.order_number r)
                             (um.orders_joined v db)))) as (b & Hb & Eb).
    { apply group_by_In. split; [|reflexivity].
      apply filter_In in Hr0 as [Hr0 Hu]. apply eqb_true in Hu.
      apply in_map_iff. exists r0. auto. }
    cbv zeta in Eb. apply bind_ok in Eb as (q & _ & Eb).
    apply in_map_iff. exists b. split; [|exact Hb].
    inversion Eb; reflexivity.
Qed.

Lemma user_metrics_highest v db t r :
  um.model v db = Ok t -> In r t ->
  exists x, In x (evaluated_orders v db (um.user_id r)) /\
    um.user_total_orders r = Some (o.order_number x) /\
    min_orders v <= o.order_number x /\
    forall y, In y (evaluated_orders v db (um.user_id r)) ->
              o.order_number y <= o.order_number x.
Proof.
  intros Hm Hr.
  destruct (user_metrics_row v db t r Hm Hr) as (rows & Hrows & Hne & Ht & _).
  destruct (user_group_rows v db (um.user_id r)) as [Hrk Hkr].
  rewrite <- Hrows in Hrk, Hkr.
  destruct (max_attained um.oj.order_number rows Hne) as (a & Ha & Hmax & Hle).
  destruct (Hrk a Ha) as (x & Hx & _ & En).
  apply kept_orders_In in Hx as [Hx Hmin].
  exists x. split; [exact Hx|]. split; [congruence|]. split; [exact Hmin|].
  intros y Hy.
  destruct (Z.le_gt_cases (min_orders v) (o.order_number y)) as [Hk|Hk]; [|lia].
  destruct (Hkr y) as (b & Hb & _ & Enb).
  { apply kept_orders_In. auto. }
  specialize (Hle b Hb). lia.
Qed.

(** X1.  [user_total_orders] is [max(order_number)]: a user has a row in
    the user metrics exactly when one of the user's orders in the
    evaluation partition is numbered [min_orders] or more, and the value is
    then the highest order number of the user in the partition, whatever
    the number of orders. *)
Theorem user_total_orders_is_highest_number v db t :
  um.model v db = Ok t ->
  (forall u, In u (map um.user_id t) <-> kept_orders v db u <> []) /\
  (forall r, In r t ->
     exists x, In x (evaluated_orders v db (um.user_id r)) /\
       um.user_total_orders r = Some (o.order_number x) /\
       min_orders v <= o.order_number x /\
       forall y, In y (evaluated_orders v db (um.user_id r)) ->
                 o.order_number y <= o.order_number x).
Proof.
  intros Hm. split; [intros u; apply user_metrics_users; exact Hm|].
  intros r Hr. apply (user_metrics_highest v db t r Hm Hr).
Qed.

Lemma user_total_orders_is_highest_number_witness :
  match um.model Sample.v Sample.db with
  | Ok t =>
      forall r, In r t ->
        exists x, In x (evaluated_orders Sample.v Sample.db (um.user_id r)) /\
          um.user_total_orders r = Some (o.order_number x)
  | Raise _ => False
  end.
Proof.
  destruct (um.model Sample.v Sample.db) as [t|e] eqn:E;
    [|vm_compute in E; discriminate].
  intros r Hr.
  destruct (user_total_orders_is_highest_number Sample.v Sample.db t E)
    as [_ H].
  destruct (H r Hr) as (x & Hx & Hv & _). exists x. auto.
Defined.

Lemma select_raise_inv {A B} (f : A -> result B) (l : list A) e :
  select f l = Raise e -> exists a, In a l /\ f a = Raise e.
Proof.
  induction l as [|a l IH]; cbn [select]; [discriminate|].
  destruct (f a) as [b|e0] eqn:Ea; cbn [bind].
  - destruct (select f l) as [bs|e1]; cbn [bind]; [discriminate|].
    intros E. destruct IH as (a' & Ha' & Ef); [exact E|].
    exists a'. split; [right; exact Ha'|exact Ef].
  - intros E. exists a. split; [left; reflexivity|congruence].
Qed.

Lemma zsum_perm (l l' : list Z) : Permutation l l' -> zsum l = zsum l'.
Proof.
  induction 1 as [|x l l' _ IH|x y l|l l' l'' _ IH1 _ IH2];
    unfold zsum in *; cbn [fold_right]; lia.
Qed.

Lemma zsum_zero (l : list Z) :
  (forall x, In x l -> 0 <= x) -> zsum l = 0 -> forall x, In x l -> x = 0.
Proof.
  induction l as [|a l IH]; cbn; intros Hpos Hz x Hx; [contradiction|].
  assert (Ha : 0 <= a) by (apply Hpos; left; reflexivity).
  assert (Hl : 0 <= zsum l).
  { clear -Hpos. induction l as [|b l IH]; cbn; [lia|].
    assert (0 <= b) by (apply Hpos; right; left; reflexivity).
    assert (0 <= zsum l); [|unfold zsum in *; lia].
    apply IH. intros y [<-|Hy]; apply Hpos; [left|right; right]; auto. }
  unfold zsum in *. destruct Hx as [<-|Hx]; [lia|].
  apply IH; auto; lia.
Qed.

Lemma zsum_all_zero (l : list Z) : (forall x, In x l -> x = 0) -> zsum l = 0.
Proof.
  induction l as [|a l IH]; cbn; intros Hz; [reflexivity|].
  rewrite (Hz a (or_introl eq_refl)). apply IH. intros; apply Hz; right; auto.
Qed.

(** [reordered_items] is never NULL: the CASE gives 0 for the NULL row of
    an order without lines. *)
Lemma reordered_items_not_null v db r :
  In r (um.orders_joined v db) -> exists z, um.oj.reordered_items r = Some z.
Proof.
  unfold um.orders_joined. intros Hr.
  apply in_map_iff in Hr as ([k rows] & <- & Hg).
  pose proof (group_rows_nonempty _ _ _ Hg) as Hne. cbn [fst snd] in *.
  destruct k as [[[[[? ?] ?] ?] ?] ?]. cbn [um.oj.reordered_items].
  unfold reordered_flag, sum.
  rewrite (non_null_map_Some
             (fun r : o.row * option op.row =>
                if eqb (option_map op.is_reordered (snd r)) (Some 1)
                then 1 else 0)).
  destruct rows; [congruence|]. cbn [map]. eauto.
Qed.

Lemma sum_not_null {A} (f : A -> option Z) (l : list A) :
  l <> [] -> (forall x, In x l -> exists z, f x = Some z) ->
  exists s, sum (map f l) = Some s.
Proof.
  intros Hne Hs. unfold sum. destruct l as [|a l]; [congruence|].
  destruct (Hs a (or_introl eq_refl)) as [z Ez]. cbn [map non_null].
  rewrite Ez. eauto.
Qed.

(** What the select list of [user_metrics] does on a group: it fails
    exactly when the baskets of the group sum to 0. *)
Lemma user_metrics_group v db (g : Z * list um.oj.row) :
  In g (group_by um.oj.user_id
          (filter (fun r => min_orders v <=? um.oj.order_number r)
                  (um.orders_joined v db))) ->
  exists s,
    sum (map um.oj.reordered_items (snd g)) = Some s /\
    sum (map (fun r => Some (um.oj.basket_size r)) (snd g)) =
      Some (zsum (map um.oj.basket_size (snd g))) /\
    div (numq (sum (map um.oj.reordered_items (snd g))))
        (numq (sum (map (fun r => Some (um.oj.basket_size r)) (snd g)))) =
      if zsum (map um.oj.basket_size (snd g)) =? 0
      then Raise DivisionByZero
      else Ok (Some (Qred (inject_Z s /
                           inject_Z (zsum (map um.oj.basket_size (snd g)))))).
Proof.
  intros Hg. pose proof (group_rows_nonempty _ _ _ Hg) as Hne.
  destruct g as [k rows]. cbn [snd] in *.
  apply group_by_In in Hg as [_ Hrows].
  destruct (sum_not_null um.oj.reordered_items rows Hne) as [s Hs].
  { intros x Hx. rewrite Hrows in Hx.
    apply filter_In in Hx as [Hx _]. apply filter_In in Hx as [Hx _].
    eapply reordered_items_not_null; exact Hx. }
  assert (Hb : sum (map (fun r => Some (um.oj.basket_size r)) rows) =
               Some (zsum (map um.oj.basket_size rows))).
  { unfold sum. rewrite non_null_map_Some.
    destruct rows; [congruence|reflexivity]. }
  exists s. split; [exact Hs|]. split; [exact Hb|].
  rewrite Hs, Hb. cbn [numq option_map div].
  destruct (zsum (map um.oj.basket_size rows) =? 0) eqn:Ez.
  - apply Z.eqb_eq in Ez. rewrite Ez. reflexivity.
  - apply Z.eqb_neq in Ez.
    destruct (Qeq_bool (inject_Z (zsum (map um.oj.basket_size rows))) 0)
      eqn:Eq; [|reflexivity].
    apply Qeq_bool_iff in Eq. unfold Qeq, inject_Z in Eq. cbn in Eq. lia.
Qed.

(** With unique order ids, the rows of a user group carry the number of
    lines of the user's kept orders. *)
Lemma user_group_baskets v db u :
  NoDup (map o.order_id (orders db)) ->
  (forall r, In r (filter (fun a => eqb (um.oj.user_id a) u)
                     (filter (fun r => min_orders v <=? um.oj.order_number r)
                             (um.orders_joined v db))) ->
     exists x, In x (kept_orders v db u) /\
       um.oj.order_id r = o.order_id x /\
       um.oj.basket_size r = lines_of db x) /\
  (forall x, In x (kept_orders v db u) ->
     exists r, In r (filter (fun a => eqb (um.oj.user_id a) u)
                       (filter (fun r => min_orders v <=? um.oj.order_number r)
                               (um.orders_joined v db))) /\
       um.oj.order_id r = o.order_id x /\
       um.oj.basket_size r = lines_of db x).
Proof.
  intros Hnd.
  destruct (ScenarioFacts.orders_joined_rows v db Hnd) as [Hto Hfrom]. split.
  - intros r Hr. apply filter_In in Hr as [Hr Hu]. apply eqb_true in Hu.
    apply filter_In in Hr as [Hr Hmin]. apply Z.leb_le in Hmin.
    destruct (Hfrom r Hr) as (x & Hx & Ei & Eu & En & Eb).
    exists x. split; [|auto].
    apply kept_orders_In. split; [|lia].
    apply evaluated_orders_In. unfold um.orders in Hx.
    apply filter_In in Hx as [Hx He]. repeat split; auto. congruence.
  - intros x Hx. apply kept_orders_In in Hx as [Hx Hmin].
    apply evaluated_orders_In in Hx as (Hx & He & Hu).
    destruct (Hto x) as (r & Hr & Ei & Eu & En & Eb).
    { unfold um.orders. apply filter_In; auto. }
    exists r. split; [|auto].
    apply filter_In. split; [|apply eqb_true; congruence].
    apply filter_In. split; [exact Hr|]. apply Z.leb_le. lia.
Qed.

Lemma lines_of_nonneg db x : 0 <= lines_of db x.
Proof. unfold lines_of, count_star. lia. Qed.

(** X2.  The user metrics fail, with a division by zero, exactly when some
    user has orders numbered [min_orders] or more in the evaluation
    partition and none of them has an order line. *)
Theorem user_order_metrics_fails_iff v db :
  NoDup (map o.order_id (orders db)) ->
  um.model v db = Raise DivisionByZero <->
  exists u, kept_orders v db u <> [] /\
            forall x, In x (kept_orders v db u) -> lines_of db x = 0.
Proof.
  intros Hnd. unfold um.model, um.user_metrics. split.
  - intros Hm. apply select_raise_inv in Hm as ([u rows] & Hg & E).
    destruct (user_metrics_group v db _ Hg) as (s & _ & _ & Hd).
    pose proof (group_rows_nonempty _ _ _ Hg) as Hne.
    apply group_by_In in Hg as [_ Hrows]. cbn [fst snd] in *.
    cbv zeta in E. cbn [snd] in E. rewrite Hd in E.
    destruct (zsum (map um.oj.basket_size rows) =? 0) eqn:Ez;
      [|cbn in E; discriminate].
    apply Z.eqb_eq in Ez.
    destruct (user_group_baskets v db u Hnd) as [Hrk Hkr].
    rewrite <- Hrows in Hrk, Hkr.
    exists u. split.
    + destruct rows as [|r0 rows']; [congruence|].
      destruct (Hrk r0 (or_introl eq_refl)) as (x & Hx & _).
      intros E0. rewrite E0 in Hx. exact Hx.
    + intros x Hx. destruct (Hkr x Hx) as (r & Hr & _ & Eb).
      rewrite <- Eb. apply (zsum_zero (map um.oj.basket_size rows)); auto.
      * intros z Hz. apply in_map_iff in Hz as (r' & <- & Hr').
        destruct (Hrk r' Hr') as (x' & _ & _ & ->). apply lines_of_nonneg.
      * apply in_map. exact Hr.
  - intros (u & Hne & Hzero).
    destruct (user_group_baskets v db u Hnd) as [Hrk Hkr].
    destruct (kept_orders v db u) as [|x0 xs] eqn:Ek; [congruence|].
    destruct (Hkr x0 (or_introl eq_refl)) as (r0 & Hr0 & _).
    set (rows := filter (fun a => eqb (um.oj.user_id a) u)
                   (filter (fun r => min_orders v <=? um.oj.order_number r)
                           (um.orders_joined v db))) in *.
    assert (Hg : In (u, rows)
                   (group_by um.oj.user_id
                      (filter (fun r => min_orders v <=? um.oj.order_number r)
                              (um.orders_joined v db)))).
    { apply group_by_In. split; [|reflexivity].
      apply filter_In in Hr0 as [Hr0 Hu]. apply eqb_true in Hu.
      apply in_map_iff. exists r0. auto. }
    destruct (user_metrics_group v db _ Hg) as (s & _ & _ & Hd).
    cbn [snd] in Hd.
    assert (Hz : zsum (map um.oj.basket_size rows) = 0).
    { apply zsum_all_zero. intros z Hz.
      apply in_map_iff in Hz as (r & <- & Hr).
      destruct (Hrk r Hr) as (x & Hx & _ & ->). apply Hzero. exact Hx. }
    rewrite Hz in Hd. cbn [Z.eqb] in Hd.
    match goal with
    | |- select ?F ?L = _ =>
        destruct (select_raise F L (u, rows) DivisionByZero Hg) as [e He]
    end.
    { cbv zeta. cbn [snd]. rewrite Hd. reflexivity. }
    destruct e. exact He.
Qed.

Lemma user_order_metrics_fails_iff_witness :
  um.model Sample.v Sample.db_without_lines = Raise DivisionByZero.
Proof.
  apply (proj2 (user_order_metrics_fails_iff Sample.v Sample.db_without_lines
                  ltac:(cbn; repeat (constructor; [cbn; intuition lia|]);
                        constructor))).
  exists 7. split; [vm_compute; discriminate|].
  intros x Hx. vm_compute in Hx.
  destruct Hx as [<-|[]]. reflexivity.
Defined.

Lemma orders_joined_ids v db :
  NoDup (map o.order_id (orders db)) ->
  NoDup (map um.oj.order_id (um.orders_joined v db)).
Proof.
  intros Hnd. unfold um.orders_joined. rewrite map_map.
  apply NoDup_map_inj_in.
  - apply (NoDup_map_inv fst). apply group_by_NoDup.
  - intros [k1 r1] [k2 r2] H1 H2 E.
    apply group_by_In in H1 as [K1 ->]. apply group_by_In in H2 as [K2 ->].
    apply in_map_iff in K1 as ([x1 y1] & <- & J1).
    apply in_map_iff in K2 as ([x2 y2] & <- & J2).
    apply left_join_In in J1 as [X1 _]. apply left_join_In in J2 as [X2 _].
    cbn in E.
    assert (x1 = x2); [|subst; reflexivity].
    unfold um.orders in X1, X2.
    apply filter_In in X1 as [X1 _]. apply filter_In in X2 as [X2 _].
    eapply (NoDup_key_inj o.order_id); eauto.
Qed.

(** With unique order ids, the order ids of a user group are those of the
    user's kept orders. *)
Lemma user_group_ids v db t r :
  NoDup (map o.order_id (orders db)) ->
  um.model v db = Ok t -> In r t ->
  exists rows,
    rows = filter (fun a => eqb (um.oj.user_id a) (um.user_id r))
             (filter (fun r => min_orders v <=? um.oj.order_number r)
                     (um.orders_joined v db)) /\
    NoDup (map um.oj.order_id rows) /\
    Permutation (map um.oj.order_id rows)
                (map o.order_id (kept_orders v db (um.user_id r))).
Proof.
  intros Hnd Hm Hr.
  destruct (user_metrics_row v db t r Hm Hr) as (rows & Hrows & _).
  destruct (user_group_baskets v db (um.user_id r) Hnd) as [Hrk Hkr].
  rewrite <- Hrows in Hrk, Hkr.
  assert (Hids : NoDup (map um.oj.order_id rows)).
  { rewrite Hrows. do 2 apply FeatureKeys.filter_keys_NoDup.
    apply orders_joined_ids; exact Hnd. }
  assert (Hkept : NoDup (map o.order_id (kept_orders v db (um.user_id r)))).
  { unfold kept_orders, evaluated_orders.
    do 3 apply FeatureKeys.filter_keys_NoDup. exact Hnd. }
  exists rows. split; [exact Hrows|]. split; [exact Hids|].
  apply NoDup_Permutation; auto. intros i. rewrite !in_map_iff. split.
  - intros (a & <- & Ha). destruct (Hrk a Ha) as (x & Hx & Ei & _). eauto.
  - intros (x & <- & Hx). destruct (Hkr x Hx) as (a & Ha & Ei & _). eauto.
Qed.

Lemma user_metrics_total_orders v db t r :
  NoDup (map o.order_id (orders db)) ->
  um.model v db = Ok t -> In r t ->
  um.total_orders r = count_star (kept_orders v db (um.user_id r)).
Proof.
  intros Hnd Hm Hr.
  destruct (user_group_ids v db t r Hnd Hm Hr) as (rows & Hrows & Hids & Hperm).
  destruct (user_metrics_row v db t r Hm Hr)
    as (rows' & Hrows' & _ & _ & _ & Horders).
  rewrite <- Hrows in Hrows'. subst rows'.
  rewrite Horders. unfold count_distinct, count_star.
  rewrite non_null_map_Some, nodup_fixed_point by exact Hids.
  rewrite (Permutation_length Hperm), !length_map. reflexivity.
Qed.

(** X3.  [total_orders] and [total_items_ordered] are taken after the
    [min_orders] filter: they count the user's orders numbered
    [min_orders] or more, and the order lines of those orders only. *)
Theorem totals_count_kept_orders_only v db t r :
  NoDup (map o.order_id (orders db)) ->
  um.model v db = Ok t -> In r t ->
  um.total_orders r = count_star (kept_orders v db (um.user_id r)) /\
  um.total_items_ordered r =
    Some (zsum (map (lines_of db) (kept_orders v db (um.user_id r)))).
Proof.
  intros Hnd Hm Hr.
  split; [apply (user_metrics_total_orders v db t r Hnd Hm Hr)|].
  destruct (user_group_ids v db t r Hnd Hm Hr) as (rows & Hrows & Hids & Hperm).
  destruct (user_metrics_row v db t r Hm Hr)
    as (rows' & Hrows' & Hne & _ & Hitems & _).
  rewrite <- Hrows in Hrows'. subst rows'.
  destruct (user_group_baskets v db (um.user_id r) Hnd) as [Hrk _].
  rewrite <- Hrows in Hrk.
  rewrite Hitems. unfold sum. rewrite non_null_map_Some.
  destruct (map um.oj.basket_size rows) as [|b bs] eqn:Eb.
  { destruct rows; [congruence|discriminate]. }
  rewrite <- Eb. f_equal.
  set (g := fun i => count_star
                       (filter (fun l => eqb i (op.order_id l))
                               (order_products db))).
  transitivity (zsum (map g (map um.oj.order_id rows))).
  - f_equal. rewrite map_map. apply map_ext_in. intros a Ha.
    destruct (Hrk a Ha) as (x & _ & Ei & ->). unfold g, lines_of.
    rewrite Ei. reflexivity.
  - rewrite (zsum_perm _ _ (Permutation_map g Hperm)), map_map.
    reflexivity.
Qed.

Lemma totals_count_kept_orders_only_witness :
  match um.model Sample.v Sample.db with
  | Ok t =>
      forall r, In r t ->
        um.total_orders r =
        count_star (kept_orders Sample.v Sample.db (um.user_id r))
  | Raise _ => False
  end.
Proof.
  destruct (um.model Sample.v Sample.db) as [t|e] eqn:E;
    [|vm_compute in E; discriminate].
  intros r Hr.
  apply (totals_count_kept_orders_only Sample.v Sample.db t r); auto.
  cbn. repeat (constructor; [cbn; intuition lia|]). constructor.
Defined.

End UserOrderFacts.

(* ------------------------------------------------------------------------- *)
(** ** Numbered partitions *)

Module NumberingFacts.
Import SQL SQLFacts WindowFacts KeyFacts OrderFacts.

Lemma number_from_range {A} (m : Z) (s : list A) x n :
  In (x, n) (number_from m s) -> m <= n < m + Z.of_nat (length s).
Proof.
  revert m. induction s as [|a s IH]; intros m; cbn [number_from length];
    [intros []|].
  intros [E|Hin]; [inversion E; lia|].
  specialize (IH _ Hin). lia.
Qed.

Lemma number_from_NoDup {A} (m : Z) (s : list A) :
  NoDup (map snd (number_from m s)).
Proof.
  revert m. induction s as [|a s IH]; intros m; cbn [number_from map];
    constructor; [|apply IH].
  intros Hin. apply in_map_iff in Hin as ([y n] & E & Hin). cbn in E. subst n.
  apply number_from_range in Hin. lia.
Qed.

Lemma number_from_first {A} (m : Z) (s : list A) x :
  In (x, m) (number_from m s) -> exists s', s = x :: s'.
Proof.
  destruct s as [|a s]; cbn [number_from]; [intros []|].
  intros [E|Hin]; [inversion E; eauto|].
  apply number_from_range in Hin. lia.
Qed.

Lemma number_from_ordered {A} (k : A -> Z) (m : Z) (s : list A) x n y n' :
  StronglySorted (fun a b => k b <= k a) s ->
  In (x, n) (number_from m s) -> In (y, n') (number_from m s) ->
  k y < k x -> n < n'.
Proof.
  intros Hs. revert m. induction Hs as [|a s Hs IH Hall]; intros m;
    cbn [number_from]; [intros []|].
  intros [Ex|Hx] [Ey|Hy] Hlt.
  - inversion Ex; inversion Ey; subst. lia.
  - inversion Ex; subst. apply number_from_range in Hy. lia.
  - assert (Hin : In x s).
    { rewrite <- (map_fst_number_from (m + 1) s).
      apply (in_map fst _ _ Hx). }
    inversion Ey; subst.
    rewrite Forall_forall in Hall. specialize (Hall x Hin). lia.
  - eapply IH; eauto.
Qed.

(** The row numbered 1 in its partition has the greatest sort key of the
    partition. *)
Lemma first_row_is_greatest {A P} `{EqDec P} (pkey : A -> P) (k : A -> Z)
  (l : list A) (r : A * Z) :
  In r (filter (fun r => snd r =? 1) (row_number pkey (desc k) l)) ->
  snd r = 1 /\ In (fst r) l /\
  forall y, In y l -> pkey y = pkey (fst r) -> k y <= k (fst r).
Proof.
  destruct r as [x n]. cbn [fst snd]. intros Hr.
  apply filter_In in Hr as [Hr Hn]. cbn [snd] in Hn. apply Z.eqb_eq in Hn.
  subst n. split; [reflexivity|].
  apply row_number_In in Hr.
  destruct (number_from_first _ _ _ Hr) as [s' Es].
  pose proof (sort_by_desc_sorted k
                (filter (fun a => eqb (pkey a) (pkey x)) l)) as Hs.
  rewrite Es in Hs. inversion Hs as [|? ? _ Hall]; subst.
  rewrite Forall_forall in Hall.
  assert (Hmem : forall y, In y (x :: s') <->
                           In y l /\ pkey y = pkey x).
  { intros y. rewrite <- Es, sort_by_In, filter_In, eqb_true. tauto. }
  split; [apply (Hmem x); left; reflexivity|].
  intros y Hy Hk.
  destruct (proj2 (Hmem y) (conj Hy Hk)) as [<-|Hin]; [lia|].
  apply Hall; exact Hin.
Qed.

(** Every partition has a row numbered 1. *)
Lemma first_row_exists {A P} `{EqDec P} (pkey : A -> P) (le : A -> A -> bool)
  (l : list A) (x : A) :
  In x l ->
  exists r, In r (filter (fun r => snd r =? 1) (row_number pkey le l)) /\
            pkey (fst r) = pkey x.
Proof.
  intros Hx.
  assert (Hk : In (pkey x)
                 (map (fun r => pkey (fst r))
                      (filter (fun r => snd r =? 1) (row_number pkey le l)))).
  { rewrite first_rows_keys, group_by_keys. apply nodup_In.
    apply in_map; exact Hx. }
  apply in_map_iff in Hk as (r & E & Hr). eauto.
Qed.

Lemma NoDup_flat_map_keyed {G B K N} (kg : G -> K) (h : G -> list B)
  (phi : B -> K * N) (gs : list G) :
  NoDup (map kg gs) ->
  (forall g b, In g gs -> In b (h g) -> fst (phi b) = kg g) ->
  (forall g, In g gs -> NoDup (map phi (h g))) ->
  NoDup (map phi (flat_map h gs)).
Proof.
  induction gs as [|g gs IH]; cbn [map flat_map]; intros Hk Hkey Hnd;
    [constructor|].
  inversion Hk as [|? ? Hng Hk']; subst.
  rewrite map_app. apply NoDup_app.
  - apply Hnd; left; reflexivity.
  - apply IH; auto.
    + intros g' b Hg' Hb. apply Hkey; [right|]; assumption.
    + intros g' Hg'. apply Hnd; right; assumption.
  - intros a Ha Ha'. apply in_map_iff in Ha as (b & <- & Hb).
    apply in_map_iff in Ha' as (b' & E & Hb').
    apply in_flat_map in Hb' as (g' & Hg' & Hb').
    apply Hng. apply in_map_iff. exists g'. split; [|exact Hg'].
    rewrite <- (Hkey g' b' (or_intror Hg') Hb'), E.
    apply Hkey; [left; reflexivity|exact Hb].
Qed.

(** [row_number() over (partition by pkey order by k desc)] numbers every
    partition from 1 to its size. *)
Lemma row_number_ranks {A P} `{EqDec P} (pkey : A -> P) (k : A -> Z)
  (l : list A) :
  ranks_partitions pkey k l (row_number pkey (desc k) l).
Proof.
  split; [apply row_number_rows|]. split; [|split].
  - intros x n Hx. apply row_number_In in Hx.
    apply number_from_range in Hx.
    rewrite (Permutation_length (sort_by_perm _ _)) in Hx.
    unfold count_star. lia.
  - unfold row_number.
    apply (NoDup_flat_map_keyed fst).
    + apply group_by_NoDup.
    + intros g b Hg Hb. cbn [fst].
      assert (Hin : In (fst b) (sort_by (desc k) (snd g))).
      { rewrite <- (map_fst_number_from 1 (sort_by (desc k) (snd g))).
        apply in_map; exact Hb. }
      apply sort_by_In in Hin.
      apply (group_rows_key pkey l g (fst b) Hg Hin).
    + intros g Hg.
      apply (NoDup_map_inv snd). rewrite map_map. cbn [snd].
      apply number_from_NoDup.
  - intros x n y m Hx Hy Hk Hlt.
    apply row_number_In in Hx. apply row_number_In in Hy.
    rewrite <- Hk in Hy.
    eapply (number_from_ordered k); eauto.
    apply sort_by_desc_sorted.
Qed.

End NumberingFacts.

(* ------------------------------------------------------------------------- *)
(** ** The product metrics and the product features *)

Module ProductFacts.
Import SQL SQLFacts DivisionFacts WindowFacts KeyFacts IntermediateKeys
  OrderFacts DayPartFacts NumberingFacts.
Module pm := int_instacart__product_metrics.
Module pfm := instacart__product_features.

Lemma count_distinct_positive {A B} `{EqDec B} (f : A -> B) (l : list A) :
  l <> [] -> 1 <= count_distinct (map (fun x => Some (f x)) l).
Proof.
  intros Hne. unfold count_distinct. rewrite non_null_map_Some.
  destruct l as [|a l]; [congruence|].
  assert (Hin : In (f a) (nodup eq_dec (map f (a :: l))))
    by (apply nodup_In; left; reflexivity).
  destruct (nodup eq_dec (map f (a :: l))); [contradiction|].
  cbn [length]. lia.
Qed.

Lemma sum_flags {A} (f : A -> option Z) (rows : list A) :
  rows <> [] ->
  sum (map (fun r => reordered_flag (f r)) rows) =
  Some (Z.of_nat (length (filter (fun r => eqb (f r) (Some 1)) rows))).
Proof.
  intros Hne. unfold reordered_flag.
  exact (count_when_some (fun r => eqb (f r) (Some 1)) rows Hne).
Qed.

Lemma div_nonzero (x : Q) (z : Z) :
  z <> 0 ->
  div (Some x) (Some (inject_Z z)) = Ok (Some (Qred (x / inject_Z z))).
Proof.
  intros Hz. unfold div.
  destruct (Qeq_bool (inject_Z z) 0) eqn:E; [|reflexivity].
  apply Qeq_bool_iff in E. unfold Qeq, inject_Z in E. cbn in E. lia.
Qed.

(** What the select list of [product_metrics] computes on a group. *)
Lemma product_metrics_group
  (g : Z * Z * Z * list (op.row * o.row * p.row)) :
  snd g <> [] ->
  exists b,
    (let rows : list (op.row * o.row * p.row) := snd g in
     let product_orders :=
       count_distinct (map (fun r => Some (op.order_id (fst (fst r)))) rows) in
     let product_reorders :=
       sum (map (fun r => reordered_flag (Some (op.is_reordered (fst (fst r)))))
                rows) in
     product_reorder_rate <-
       div (numq product_reorders) (num product_orders) ;;
     Ok {| pm.product_id := fst (fst (fst g));
           pm.aisle_id := snd (fst (fst g));
           pm.department_id := snd (fst g);
           pm.product_orders := product_orders;
           pm.product_reorders := product_reorders;
           pm.product_reorder_rate := product_reorder_rate;
           pm.product_avg_cart_position :=
             avg (map (fun r => Some (op.cart_position (fst (fst r)))) rows) |})
    = Ok b /\
    1 <= pm.product_orders b /\
    exists n, 0 <= n /\
      pm.product_reorders b = Some n /\
      pm.product_reorder_rate b =
        Some (Qred (inject_Z n / inject_Z (pm.product_orders b))).
Proof.
  destruct g as [k rows]. cbn [fst snd]. intros Hne. cbv zeta.
  rewrite (sum_flags (fun r : op.row * o.row * p.row =>
                        Some (op.is_reordered (fst (fst r)))) rows Hne).
  pose proof (count_distinct_positive
                (fun r : op.row * o.row * p.row => op.order_id (fst (fst r)))
                rows Hne) as Hc.
  cbn [numq option_map]. unfold num. rewrite div_nonzero by lia.
  cbn [bind]. eexists. split; [reflexivity|].
  cbn [pm.product_orders pm.product_reorders pm.product_reorder_rate].
  split; [exact Hc|]. eexists. split; [|split; reflexivity]. lia.
Qed.

Lemma product_metrics_total v db : exists t, pm.model v db = Ok t.
Proof.
  unfold pm.model, pm.product_metrics. apply select_total. intros g Hg.
  destruct (product_metrics_group g (group_rows_nonempty _ _ _ Hg))
    as (b & Hb & _).
  exists b. exact Hb.
Qed.

(** X4.  The product metrics never fail: every group holds at least one
    order line, so [count(distinct order_id)], the unguarded denominator of
    [product_reorder_rate], is at least 1; the rate is the number of
    reordered lines over the number of orders. *)
Theorem product_metrics_never_fail v db :
  exists t,
    pm.model v db = Ok t /\
    forall r, In r t ->
      1 <= pm.product_orders r /\
      exists n, 0 <= n /\
        pm.product_reorders r = Some n /\
        pm.product_reorder_rate r =
          Some (Qred (inject_Z n / inject_Z (pm.product_orders r))).
Proof.
  destruct (product_metrics_total v db) as [t Ht].
  exists t. split; [exact Ht|]. intros r Hr.
  unfold pm.model, pm.product_metrics in Ht.
  destruct (select_rows _ _ _ Ht) as [Hfrom _].
  destruct (Hfrom r Hr) as (g & Hg & Hf).
  destruct (product_metrics_group g (group_rows_nonempty _ _ _ Hg))
    as (b & Hb & Hprop).
  assert (E : Ok b = Ok r) by (rewrite <- Hb; exact Hf).
  injection E as <-. exact Hprop.
Qed.

(** X5.  The popularity rankings number the products of every department
    (aisle) from 1 to the number of products of the department (aisle): no
    rank is shared, even between products with the same number of orders,
    and a product with more orders has a smaller rank. *)
Theorem popularity_ranks_are_row_numbers (product_metrics : list pm.row) :
  ranks_partitions pm.department_id pm.product_orders product_metrics
    (pfm.department_rankings product_metrics) /\
  ranks_partitions pm.aisle_id pm.product_orders product_metrics
    (pfm.aisle_rankings product_metrics).
Proof.
  split; apply row_number_ranks.
Qed.

(** A row of ProductFeatures and the rows it is joined from. *)
Lemma product_features_row v db t r :
  pfm.model v db = Ok t -> In r t ->
  exists pms p pmr a d dr ar ds pph ppd,
    pm.model v db = Ok pms /\
    In p (products db) /\ In pmr pms /\
    p.product_id p = pm.product_id pmr /\
    In d (departments db) /\ p.department_id p = d.department_id d /\
    In a (aisles db) /\ p.aisle_id p = a.aisle_id a /\
    In dr (pfm.department_rankings pms) /\
    p.product_id p = pm.product_id (fst dr) /\
    In ar (pfm.aisle_rankings pms) /\
    p.product_id p = pm.product_id (fst ar) /\
    In ds (pfm.department_stats pms) /\
    match pph with
    | Some x => In x (pfm.product_peak_hours v db) /\
                p.product_id p = pfm.pph.product_id (fst x)
    | None => forall x, In x (pfm.product_peak_hours v db) ->
                        p.product_id p <> pfm.pph.product_id (fst x)
    end /\
    match ppd with
    | Some x => In x (pfm.product_peak_days v db) /\
                p.product_id p = pfm.ppd.product_id (fst x)
    | None => forall x, In x (pfm.product_peak_days v db) ->
                        p.product_id p <> pfm.ppd.product_id (fst x)
    end /\
    pfm.product_id r = p.product_id p /\
    pfm.aisle_id r = a.aisle_id a /\
    pfm.department_id r = d.department_id d /\
    pfm.product_orders r = pm.product_orders pmr /\
    pfm.product_reorder_rate r = pm.product_reorder_rate pmr /\
    pfm.department_popularity_rank r = snd dr /\
    pfm.aisle_popularity_rank r = snd ar /\
    pfm.peak_hour r = option_map (fun x => pfm.pph.peak_hour (fst x)) pph /\
    pfm.peak_day r = option_map (fun x => pfm.ppd.peak_day (fst x)) ppd.
Proof.
  unfold pfm.model, pfm.final. intros Ht Hr.
  apply bind_ok in Ht as (pms & Hpm & Ht).
  destruct (select_rows _ _ _ Ht) as [Hfrom _].
  destruct (Hfrom r Hr)
    as ([[[[[[[[p0 pm0] a0] d0] dr0] ar0] ds0] pph0] ppd0] & Hj & E).
  apply bind_ok in E as (q1 & _ & E). apply bind_ok in E as (q2 & _ & E).
  injection E as <-.
  apply left_join_In in Hj as [Hj Hppd].
  apply left_join_In in Hj as [Hj Hpph].
  apply inner_join_In in Hj as (Hj & Hds & _).
  apply inner_join_In in Hj as (Hj & Har & Ear).
  apply inner_join_In in Hj as (Hj & Hdr & Edr).
  apply inner_join_In in Hj as (Hj & Hd & Ed).
  apply inner_join_In in Hj as (Hj & Ha & Ea).
  apply inner_join_In in Hj as (Hp & Hpmr & Epm).
  apply eqb_true in Ear, Edr, Ed, Ea, Epm.
  exists pms, p0, pm0, a0, d0, dr0, ar0, ds0, pph0, ppd0.
  repeat (split; [first [assumption | reflexivity]|]).
  split.
  { destruct pph0 as [x|].
    - destruct Hpph as [Hx Ex]. apply eqb_true in Ex. auto.
    - intros x Hx. specialize (Hpph x Hx). apply eqb_false in Hpph.
      exact Hpph. }
  split.
  { destruct ppd0 as [x|].
    - destruct Hppd as [Hx Ex]. apply eqb_true in Ex. auto.
    - intros x Hx. specialize (Hppd x Hx). apply eqb_false in Hppd.
      exact Hppd. }
  cbn. repeat split; reflexivity.
Qed.

(** A row of the product metrics comes from an order line of its product
    in the evaluation partition, and carries the aisle and the department
    of a catalogue row of the product. *)
Lemma product_metrics_source v db pms pmr :
  pm.model v db = Ok pms -> In pmr pms ->
  exists l x c,
    In l (order_products db) /\ In x (orders db) /\ In c (products db) /\
    in_eval_set v x = true /\
    op.order_id l = o.order_id x /\
    op.product_id l = pm.product_id pmr /\
    p.product_id c = pm.product_id pmr /\
    p.aisle_id c = pm.aisle_id pmr /\
    p.department_id c = pm.department_id pmr.
Proof.
  unfold pm.model, pm.product_metrics. intros Hm Hr.
  destruct (select_rows _ _ _ Hm) as [Hfrom _].
  destruct (Hfrom pmr Hr) as ([k rows] & Hg & E).
  cbv zeta in E. apply bind_ok in E as (q & _ & E). injection E as <-.
  apply group_by_In in Hg as [Hk _].
  apply in_map_iff in Hk as ([[l x] c] & <- & Hj).
  apply inner_join_In in Hj as (Hj & Hc & Ec).
  apply inner_join_In in Hj as (Hl & Hx & Ex).
  apply eqb_true in Ec, Ex. unfold pm.orders in Hx.
  apply filter_In in Hx as [Hx He].
  exists l, x, c. cbn in *. repeat split; auto.
Qed.

Lemma peak_hour_count v db (x : pfm.pph.row) :
  In x (pfm.orders_per_hour v db) ->
  pfm.pph.orders_in_hour x =
    purchases_at_hour v db (pfm.pph.product_id x) (pfm.pph.peak_hour x) /\
  0 < pfm.pph.orders_in_hour x.
Proof.
  unfold pfm.orders_per_hour. intros Hx.
  apply in_map_iff in Hx as ([[pid h] rows] & <- & Hg).
  pose proof (group_rows_nonempty _ _ _ Hg) as Hne.
  apply group_by_In in Hg as [_ ->]. cbn in *.
  split; [reflexivity|].
  unfold count_star.
  destruct (filter _ (pfm.purchases v db)); [congruence|cbn [length]; lia].
Qed.

Lemma peak_day_count v db (x : pfm.ppd.row) :
  In x (pfm.orders_per_day v db) ->
  pfm.ppd.orders_in_day x =
    purchases_on_day v db (pfm.ppd.product_id x) (pfm.ppd.peak_day x) /\
  0 < pfm.ppd.orders_in_day x.
Proof.
  unfold pfm.orders_per_day. intros Hx.
  apply in_map_iff in Hx as ([[pid h] rows] & <- & Hg).
  pose proof (group_rows_nonempty _ _ _ Hg) as Hne.
  apply group_by_In in Hg as [_ ->]. cbn in *.
  split; [reflexivity|].
  unfold count_star.
  destruct (filter _ (pfm.purchases v db)); [congruence|cbn [length]; lia].
Qed.

Lemma hour_group_exists v db (pid h : Z) :
  0 < purchases_at_hour v db pid h ->
  exists x, In x (pfm.orders_per_hour v db) /\
            pfm.pph.product_id x = pid /\ pfm.pph.peak_hour x = h.
Proof.
  unfold purchases_at_hour, count_star. intros Hpos.
  destruct (filter (fun r : op.row * o.row =>
                      eqb (op.product_id (fst r), o.order_hour_of_day (snd r))
                          (pid, h)) (pfm.purchases v db)) as [|r rs] eqn:E;
    [cbn in Hpos; lia|].
  assert (Hr : In r (r :: rs)) by (left; reflexivity).
  rewrite <- E in Hr. apply filter_In in Hr as [Hr Hk]. apply eqb_true in Hk.
  eexists. split.
  - unfold pfm.orders_per_hour. apply in_map_iff.
    eexists ((pid, h), _). split; [reflexivity|].
    apply group_by_In. split; [|reflexivity].
    apply in_map_iff. exists r. auto.
  - cbn. auto.
Qed.

Lemma day_group_exists v db (pid h : Z) :
  0 < purchases_on_day v db pid h ->
  exists x, In x (pfm.orders_per_day v db) /\
            pfm.ppd.product_id x = pid /\ pfm.ppd.peak_day x = h.
Proof.
  unfold purchases_on_day, count_star. intros Hpos.
  destruct (filter (fun r : op.row * o.row =>
                      eqb (op.product_id (fst r), o.order_dow (snd r))
                          (pid, h)) (pfm.purchases v db)) as [|r rs] eqn:E;
    [cbn in Hpos; lia|].
  assert (Hr : In r (r :: rs)) by (left; reflexivity).
  rewrite <- E in Hr. apply filter_In in Hr as [Hr Hk]. apply eqb_true in Hk.
  eexists. split.
  - unfold pfm.orders_per_day. apply in_map_iff.
    eexists ((pid, h), _). split; [reflexivity|].
    apply group_by_In. split; [|reflexivity].
    apply in_map_iff. exists r. auto.
  - cbn. auto.
Qed.

Lemma purchases_at_hour_nonneg v db pid h : 0 <= purchases_at_hour v db pid h.
Proof. unfold purchases_at_hour, count_star. lia. Qed.

Lemma purchases_on_day_nonneg v db pid h : 0 <= purchases_on_day v db pid h.
Proof. unfold purchases_on_day, count_star. lia. Qed.

(** A product of the product metrics has a purchase in the rows that the
    peak CTEs group. *)
Lemma product_has_purchase v db pms pmr :
  pm.model v db = Ok pms -> In pmr pms ->
  exists r, In r (pfm.purchases v db) /\
            op.product_id (fst r) = pm.product_id pmr.
Proof.
  intros Hm Hr.
  destruct (product_metrics_source v db pms pmr Hm Hr)
    as (l & x & c & Hl & Hx & _ & He & Ex & El & _).
  exists (l, x). split; [|exact El].
  unfold pfm.purchases. apply filter_In. split; [|exact He].
  apply inner_join_In. repeat split; auto. apply eqb_true; exact Ex.
Qed.

(** X6.  [peak_hour] and [peak_day] of ProductFeatures are never NULL, and
    they are an hour and a day with the greatest number of order lines of
    the product in the evaluation partition. *)
Theorem peak_hour_and_day_are_busiest v db t r :
  pfm.model v db = Ok t -> In r t ->
  exists h d,
    pfm.peak_hour r = Some h /\ pfm.peak_day r = Some d /\
    0 < purchases_at_hour v db (pfm.product_id r) h /\
    0 < purchases_on_day v db (pfm.product_id r) d /\
    (forall h', purchases_at_hour v db (pfm.product_id r) h' <=
                purchases_at_hour v db (pfm.product_id r) h) /\
    (forall d', purchases_on_day v db (pfm.product_id r) d' <=
                purchases_on_day v db (pfm.product_id r) d).
Proof.
  intros Ht Hr.
  destruct (product_features_row v db t r Ht Hr)
    as (pms & p0 & pmr & a0 & d0 & dr & ar & ds & pph & ppd & Hpm & Hp & Hpmr
        & Epm & _ & _ & _ & _ & _ & _ & _ & _ & _ & Hpph & Hppd & Eid & _ & _
        & _ & _ & _ & _ & Eh & Ed).
  destruct (product_has_purchase v db pms pmr Hpm Hpmr) as (u & Hu & Eu).
  rewrite Eid, Eh, Ed. clear Eh Ed.
  assert (Hh : exists x, pph = Some x).
  { destruct pph as [x|]; [eauto|]. exfalso.
    assert (Hg : In (op.product_id (fst u), o.order_hour_of_day (snd u),
                     filter (fun r : op.row * o.row =>
                               eqb (op.product_id (fst r),
                                    o.order_hour_of_day (snd r))
                                   (op.product_id (fst u),
                                    o.order_hour_of_day (snd u)))
                            (pfm.purchases v db))
                    (group_by (fun r : op.row * o.row =>
                                 (op.product_id (fst r),
                                  o.order_hour_of_day (snd r)))
                              (pfm.purchases v db))).
    { apply group_by_In. split; [|reflexivity].
      apply in_map_iff. exists u. auto. }
    apply (in_map (fun g =>
             {| pfm.pph.product_id := fst (fst g);
                pfm.pph.peak_hour := snd (fst g);
                pfm.pph.orders_in_hour := count_star (snd g) |})) in Hg.
    destruct (first_row_exists pfm.pph.product_id
                (desc pfm.pph.orders_in_hour) _ _ Hg) as (x & Hx & Ex).
    apply (Hpph x Hx). cbn in Ex. congruence. }
  assert (Hd : exists x, ppd = Some x).
  { destruct ppd as [x|]; [eauto|]. exfalso.
    assert (Hg : In (op.product_id (fst u), o.order_dow (snd u),
                     filter (fun r : op.row * o.row =>
                               eqb (op.product_id (fst r), o.order_dow (snd r))
                                   (op.product_id (fst u), o.order_dow (snd u)))
                            (pfm.purchases v db))
                    (group_by (fun r : op.row * o.row =>
                                 (op.product_id (fst r), o.order_dow (snd r)))
                              (pfm.purchases v db))).
    { apply group_by_In. split; [|reflexivity].
      apply in_map_iff. exists u. auto. }
    apply (in_map (fun g =>
             {| pfm.ppd.product_id := fst (fst g);
                pfm.ppd.peak_day := snd (fst g);
                pfm.ppd.orders_in_day := count_star (snd g) |})) in Hg.
    destruct (first_row_exists pfm.ppd.product_id
                (desc pfm.ppd.orders_in_day) _ _ Hg) as (x & Hx & Ex).
    apply (Hppd x Hx). cbn in Ex. congruence. }
  destruct Hh as [xh ->]. destruct Hd as [xd ->].
  destruct Hpph as [Hxh Exh]. destruct Hppd as [Hxd Exd].
  apply first_row_is_greatest in Hxh as (_ & Hinh & Hmaxh).
  apply first_row_is_greatest in Hxd as (_ & Hind & Hmaxd).
  destruct (peak_hour_count v db _ Hinh) as [Ech Hposh].
  destruct (peak_day_count v db _ Hind) as [Ecd Hposd].
  rewrite <- Exh in Ech. rewrite <- Exd in Ecd.
  exists (pfm.pph.peak_hour (fst xh)), (pfm.ppd.peak_day (fst xd)).
  cbn [option_map].
  repeat split; try lia.
  - intros h'.
    destruct (Z_le_gt_dec (purchases_at_hour v db (p.product_id p0) h') 0)
      as [Hz|Hp'].
    + rewrite <- Ech. lia.
    + destruct (hour_group_exists v db (p.product_id p0) h' ltac:(lia))
        as (y & Hy & Ep & Ehh).
      destruct (peak_hour_count v db y Hy) as [Ecy _].
      assert (Hle : pfm.pph.orders_in_hour y <=
                    pfm.pph.orders_in_hour (fst xh))
        by (apply Hmaxh; [exact Hy|congruence]).
      rewrite Ep, Ehh in Ecy. lia.
  - intros d'.
    destruct (Z_le_gt_dec (purchases_on_day v db (p.product_id p0) d') 0)
      as [Hz|Hp'].
    + rewrite <- Ecd. lia.
    + destruct (day_group_exists v db (p.product_id p0) d' ltac:(lia))
        as (y & Hy & Ep & Edd).
      destruct (peak_day_count v db y Hy) as [Ecy _].
      assert (Hle : pfm.ppd.orders_in_day y <=
                    pfm.ppd.orders_in_day (fst xd))
        by (apply Hmaxd; [exact Hy|congruence]).
      rewrite Ep, Edd in Ecy. lia.
Qed.

Lemma peak_hour_and_day_are_busiest_witness :
  match pfm.model Sample.v Sample.db with
  | Ok t => forall r, In r t -> exists h d,
              pfm.peak_hour r = Some h /\ pfm.peak_day r = Some d
  | Raise _ => False
  end.
Proof.
  destruct (pfm.model Sample.v Sample.db) as [t|e] eqn:E;
    [|vm_compute in E; discriminate].
  intros r Hr.
  destruct (peak_hour_and_day_are_busiest Sample.v Sample.db t r E Hr)
    as (h & d & Hh & Hd & _).
  exists h, d. auto.
Defined.

(** With unique product ids in the catalogue, the ranks of a row of
    ProductFeatures are those that the ranking CTEs give to the metrics row
    of the product. *)
Lemma feature_rank_row v db t r :
  NoDup (map p.product_id (products db)) ->
  pfm.model v db = Ok t -> In r t ->
  exists pms pmr,
    pm.model v db = Ok pms /\
    In (pmr, pfm.department_popularity_rank r) (pfm.department_rankings pms) /\
    In (pmr, pfm.aisle_popularity_rank r) (pfm.aisle_rankings pms) /\
    pm.product_id pmr = pfm.product_id r /\
    pm.department_id pmr = pfm.department_id r /\
    pm.aisle_id pmr = pfm.aisle_id r /\
    pm.product_orders pmr = pfm.product_orders r.
Proof.
  intros Hnd Ht Hr.
  destruct (product_features_row v db t r Ht Hr)
    as (pms & p0 & pmr & a0 & d0 & dr & ar & ds & pph & ppd & Hpm & Hp & Hpmr
        & Epm & _ & Ed & _ & Ea & Hdr & Edr & Har & Ear & _ & _ & _ & Eid
        & Eaid & Edid & Eord & _ & Erd & Era & _).
  pose proof (product_metrics_keys v db pms Hnd Hpm) as Hkeys.
  destruct (product_metrics_source v db pms pmr Hpm Hpmr)
    as (_ & _ & c0 & _ & _ & Hc & _ & _ & _ & Ecid & Eca & Ecd).
  assert (c0 = p0)
    by (apply (NoDup_key_inj p.product_id (products db)); congruence).
  subst c0.
  assert (Hfst : forall (ranked : list (pm.row * Z)) x,
            Permutation (map fst ranked) pms -> In x ranked ->
            p.product_id p0 = pm.product_id (fst x) -> fst x = pmr).
  { intros ranked x Hperm Hx Ex.
    apply (NoDup_key_inj pm.product_id pms); auto; [|congruence].
    eapply Permutation_in; [exact Hperm|]. apply in_map; exact Hx. }
  exists pms, pmr. split; [exact Hpm|].
  rewrite Erd, Era.
  split.
  { rewrite <- (Hfst _ dr (row_number_rows _ _ _) Hdr Edr).
    destruct dr; exact Hdr. }
  split.
  { rewrite <- (Hfst _ ar (row_number_rows _ _ _) Har Ear).
    destruct ar; exact Har. }
  repeat split; congruence.
Qed.

(** X7.  In ProductFeatures, with unique product ids in the catalogue: the
    ranks start at 1; of two products of one department (aisle) the one
    with more orders has the smaller rank; and two products of one
    department (aisle) never share a rank. *)
Theorem feature_ranks_order_products v db t r1 r2 :
  NoDup (map p.product_id (products db)) ->
  pfm.model v db = Ok t -> In r1 t -> In r2 t ->
  1 <= pfm.department_popularity_rank r1 /\
  1 <= pfm.aisle_popularity_rank r1 /\
  (pfm.department_id r1 = pfm.department_id r2 ->
   (pfm.product_orders r2 < pfm.product_orders r1 ->
    pfm.department_popularity_rank r1 < pfm.department_popularity_rank r2) /\
   (pfm.product_id r1 <> pfm.product_id r2 ->
    pfm.department_popularity_rank r1 <> pfm.department_popularity_rank r2)) /\
  (pfm.aisle_id r1 = pfm.aisle_id r2 ->
   (pfm.product_orders r2 < pfm.product_orders r1 ->
    pfm.aisle_popularity_rank r1 < pfm.aisle_popularity_rank r2) /\
   (pfm.product_id r1 <> pfm.product_id r2 ->
    pfm.aisle_popularity_rank r1 <> pfm.aisle_popularity_rank r2)).
Proof.
  intros Hnd Ht H1 H2.
  destruct (feature_rank_row v db t r1 Hnd Ht H1)
    as (pms & x1 & Hpm & Hd1 & Ha1 & Ei1 & Ed1 & Ea1 & Eo1).
  destruct (feature_rank_row v db t r2 Hnd Ht H2)
    as (pms' & x2 & Hpm' & Hd2 & Ha2 & Ei2 & Ed2 & Ea2 & Eo2).
  rewrite Hpm in Hpm'. injection Hpm' as <-.
  destruct (row_number_ranks pm.department_id pm.product_orders pms)
    as (_ & Hrd & Hnd_d & Hord_d).
  destruct (row_number_ranks pm.aisle_id pm.product_orders pms)
    as (_ & Hra & Hnd_a & Hord_a).
  split; [apply (Hrd x1 _ Hd1)|]. split; [apply (Hra x1 _ Ha1)|].
  split.
  - intros Ed. split.
    + intros Hlt. apply (Hord_d x1 _ x2 _ Hd1 Hd2); [congruence|lia].
    + intros Hne En.
      assert (E : (x1, pfm.department_popularity_rank r1) =
                  (x2, pfm.department_popularity_rank r2)).
      { apply (NoDup_key_inj
                 (fun r : pm.row * Z => (pm.department_id (fst r), snd r))
                 (pfm.department_rankings pms)); auto.
        cbn [fst snd]. congruence. }
      injection E as E _. congruence.
  - intros Ea. split.
    + intros Hlt. apply (Hord_a x1 _ x2 _ Ha1 Ha2); [congruence|lia].
    + intros Hne En.
      assert (E : (x1, pfm.aisle_popularity_rank r1) =
                  (x2, pfm.aisle_popularity_rank r2)).
      { apply (NoDup_key_inj
                 (fun r : pm.row * Z => (pm.aisle_id (fst r), snd r))
                 (pfm.aisle_rankings pms)); auto.
        cbn [fst snd]. congruence. }
      injection E as E _. congruence.
Qed.

Lemma feature_ranks_order_products_witness :
  match pfm.model Sample.v Sample.db with
  | Ok t => forall r, In r t -> 1 <= pfm.department_popularity_rank r
  | Raise _ => False
  end.
Proof.
  destruct (pfm.model Sample.v Sample.db) as [t|e] eqn:E;
    [|vm_compute in E; discriminate].
  intros r Hr.
  apply (feature_ranks_order_products Sample.v Sample.db t r r); auto.
  cbn. repeat (constructor; [cbn; intuition lia|]). constructor.
Defined.

Lemma product_metrics_of_line v db pms l x c :
  pm.model v db = Ok pms ->
  In l (order_products db) -> In x (orders db) -> In c (products db) ->
  in_eval_set v x = true -> op.order_id l = o.order_id x ->
  op.product_id l = p.product_id c ->
  exists pmr, In pmr pms /\ pm.product_id pmr = p.product_id c /\
              pm.aisle_id pmr = p.aisle_id c /\
              pm.department_id pmr = p.department_id c.
Proof.
  unfold pm.model, pm.product_metrics. intros Hm Hl Hx Hc He Ex Ep.
  destruct (select_rows _ _ _ Hm) as [_ Hto].
  match type of Hto with
  | forall a, In a (group_by ?key ?J) -> _ =>
      assert (Hg : In (key (l, x, c),
                       filter (fun r => eqb (key r) (key (l, x, c))) J)
                      (group_by key J))
  end.
  { apply group_by_In. split; [|reflexivity].
    apply in_map_iff. exists (l, x, c). split; [reflexivity|].
    apply inner_join_In. split; [|split; [exact Hc|apply eqb_true; exact Ep]].
    apply inner_join_In. split; [exact Hl|].
    split; [|apply eqb_true; exact Ex].
    unfold pm.orders. apply filter_In. auto. }
  destruct (Hto _ Hg) as (b & Hb & E).
  cbv zeta in E. apply bind_ok in E as (q & _ & E). injection E as <-.
  eexists. split; [exact Hb|]. cbn. auto.
Qed.

Lemma ranked_row_exists {A P} `{EqDec P} (pkey : A -> P) (le : A -> A -> bool)
  (l : list A) (x : A) :
  In x l -> exists n, In (x, n) (row_number pkey le l).
Proof.
  intros Hx.
  assert (Hin : In x (map fst (row_number pkey le l))).
  { eapply Permutation_in; [apply Permutation_sym, row_number_rows|exact Hx]. }
  apply in_map_iff in Hin as ([y n] & E & Hin). cbn in E. subst y. eauto.
Qed.

(** X19.  ProductFeatures keeps a product exactly when the catalogue has a
    row for it with its aisle and its department, and an order line of the
    product belongs to an order of the evaluation partition; the inner
    joins drop every other product without notice. *)
Theorem product_features_products v db t i :
  pfm.model v db = Ok t ->
  In i (map pfm.product_id t) <->
  sold_in_partition v db i /\
  exists c, In c (products db) /\ p.product_id c = i /\ fully_described db c.
Proof.
  intros Ht. split.
  - intros Hi. apply in_map_iff in Hi as (r & <- & Hr).
    destruct (product_features_row v db t r Ht Hr)
      as (pms & p0 & pmr & a0 & d0 & dr & ar & ds & pph & ppd & Hpm & Hp & Hpmr
          & Epm & Hd & Ed & Ha & Ea & _ & _ & _ & _ & _ & _ & _ & Eid & _).
    destruct (product_metrics_source v db pms pmr Hpm Hpmr)
      as (l & x & c & Hl & Hx & _ & He & Ex & El & _).
    rewrite Eid. split.
    + exists l, x. repeat split; auto. congruence.
    + exists p0. split; [exact Hp|]. split; [reflexivity|].
      split; [exists a0|exists d0]; auto.
  - intros [(l & x & Hl & Hx & He & Ex & El)
            (c & Hc & <- & (a0 & Ha & Ea) & (d0 & Hd & Ed))].
    unfold pfm.model, pfm.final in Ht.
    apply bind_ok in Ht as (pms & Hpm & Ht).
    destruct (product_metrics_of_line v db pms l x c Hpm Hl Hx Hc He Ex El)
      as (pmr & Hpmr & Eid & Eaid & Edid).
    destruct (ranked_row_exists pm.department_id (desc pm.product_orders)
                pms pmr Hpmr) as [n Hdr].
    destruct (ranked_row_exists pm.aisle_id (desc pm.product_orders)
                pms pmr Hpmr) as [m Har].
    assert (Hds : In {| pfm.ds.department_id := pm.department_id pmr;
                        pfm.ds.avg_dept_orders :=
                          avg (map (fun r => Some (pm.product_orders r))
                                   (filter (fun a => eqb (pm.department_id a)
                                                         (pm.department_id pmr))
                                           pms));
                        pfm.ds.avg_dept_reorder_rate :=
                          avgq (map pm.product_reorder_rate
                                    (filter (fun a => eqb (pm.department_id a)
                                                          (pm.department_id pmr))
                                            pms)) |}
                    (pfm.department_stats pms)).
    { unfold pfm.department_stats. apply in_map_iff.
      eexists (pm.department_id pmr, _). split; [reflexivity|].
      apply group_by_In. split; [apply in_map; exact Hpmr|reflexivity]. }
    match type of Hds with In ?x _ => set (ds := x) in * end.
    assert (Hj : In (c, pmr, a0, d0, (pmr, n), (pmr, m), ds)
                   (inner_join
                      (fun '(p, _, _, _, _, _) (ds : pfm.ds.row) =>
                         eqb (p.department_id p) (pfm.ds.department_id ds))
                   (inner_join
                      (fun '(p, _, _, _, _) (ar : pm.row * Z) =>
                         eqb (p.product_id p) (pm.product_id (fst ar)))
                   (inner_join
                      (fun '(p, _, _, _) (dr : pm.row * Z) =>
                         eqb (p.product_id p) (pm.product_id (fst dr)))
                   (inner_join
                      (fun '(p, _, _) (d : d.row) =>
                         eqb (p.department_id p) (d.department_id d))
                   (inner_join
                      (fun '(p, _) (a : a.row) =>
                         eqb (p.aisle_id p) (a.aisle_id a))
                   (inner_join
                      (fun (p : p.row) (pm : pm.row) =>
                         eqb (p.product_id p) (pm.product_id pm))
                      (products db) pms)
                      (aisles db))
                      (departments db))
                      (pfm.department_rankings pms))
                      (pfm.aisle_rankings pms))
                      (pfm.department_stats pms))).
    { apply inner_join_In. split; [|split; [exact Hds|]].
      2:{ apply eqb_true. cbn. congruence. }
      apply inner_join_In. split; [|split; [exact Har|]].
      2:{ apply eqb_true. cbn. congruence. }
      apply inner_join_In. split; [|split; [exact Hdr|]].
      2:{ apply eqb_true. cbn. congruence. }
      apply inner_join_In. split; [|split; [exact Hd|]].
      2:{ apply eqb_true. congruence. }
      apply inner_join_In. split; [|split; [exact Ha|]].
      2:{ apply eqb_true. congruence. }
      apply inner_join_In. split; [exact Hc|]. split; [exact Hpmr|].
      apply eqb_true. congruence. }
    destruct (ScenarioFacts.left_join_covers
                (fun '(p, _, _, _, _, _, _) (pph : pfm.pph.row * Z) =>
                   eqb (p.product_id p) (pfm.pph.product_id (fst pph)))
                _ (pfm.product_peak_hours v db) _ Hj) as [pph Hpph].
    destruct (ScenarioFacts.left_join_covers
                (fun '(p, _, _, _, _, _, _, _) (ppd : pfm.ppd.row * Z) =>
                   eqb (p.product_id p) (pfm.ppd.product_id (fst ppd)))
                _ (pfm.product_peak_days v db) _ Hpph) as [ppd Hppd].
    destruct (select_rows _ _ _ Ht) as [_ Hto].
    destruct (Hto _ Hppd) as (r & Hr & E).
    apply bind_ok in E as (q1 & _ & E). apply bind_ok in E as (q2 & _ & E).
    injection E as <-. apply in_map_iff. eexists. split; [|exact Hr].
    reflexivity.
Qed.

Lemma product_features_products_witness :
  match pfm.model Sample.v Sample.db with
  | Ok t => In 100 (map pfm.product_id t)
  | Raise _ => False
  end.
Proof.
  destruct (pfm.model Sample.v Sample.db) as [t|e] eqn:E;
    [|vm_compute in E; discriminate].
  apply (proj2 (product_features_products Sample.v Sample.db t 100 E)).
  split.
  - exists (Sample.a_line 1 100 1 0), Sample.o1.
    cbn. repeat split; auto.
  - exists (Sample.a_product 100 "milk" 1 1).
    split; [cbn; auto|]. split; [reflexivity|]. split.
    + exists {| a.aisle_id := 1; a.aisle_name := "dairy" |}. cbn. auto.
    + exists {| d.department_id := 1; d.department_name := "food" |}.
      cbn. auto.
Defined.

End ProductFacts.

(* ------------------------------------------------------------------------- *)
(** ** Where the feature pass can fail *)

Module PipelineFacts.
Import SQL SQLFacts DivisionFacts WindowFacts KeyFacts DayPartFacts.
Module um := int_instacart__user_order_metrics.
Module upm := int_instacart__user_product_metrics.
Module uf := instacart__user_features.
Module pfm := instacart__product_features.
Module ofe := instacart__order_features.
Module upf := instacart__user_product_features.

Lemma user_product_metrics_total v db : exists t, upm.model v db = Ok t.
Proof.
  unfold upm.model, upm.user_product_metrics. apply select_total.
  intros g _. cbv zeta. guarded. eauto.
Qed.

Lemma product_features_total v db : exists t, pfm.model v db = Ok t.
Proof.
  unfold pfm.model, pfm.final.
  destruct (ProductFacts.product_metrics_total v db) as [pms ->]. cbn [bind].
  apply select_total.
  intros [[[[[[[[p0 pm0] a0] d0] dr0] ar0] ds0] pph0] ppd0] _.
  guarded. guarded. eauto.
Qed.

Lemma reorder_stats_never_fail v db : exists t, uf.reorder_stats v db = Ok t.
Proof.
  unfold uf.reorder_stats. apply select_total. intros g _.
  cbv zeta. guarded. eauto.
Qed.

Lemma user_features_follow_metrics v db :
  (forall e, um.model v db = Raise e -> uf.model v db = Raise e) /\
  (forall ums, um.model v db = Ok ums -> exists t, uf.model v db = Ok t).
Proof.
  unfold uf.model, uf.final, uf.user_metrics. split.
  - intros e ->. reflexivity.
  - intros ums ->. cbn [bind].
    destruct (reorder_stats_never_fail v db) as [rss ->]. cbn [bind].
    apply select_total. intros [[[a b] c] d] _. guarded. eauto.
Qed.

Lemma user_product_normalized_total upms ufs pfs :
  exists t, upf.user_product_normalized upms ufs pfs = Ok t.
Proof.
  unfold upf.user_product_normalized. apply select_total.
  intros [[a b] c] _. guarded. guarded. guarded. eauto.
Qed.

(** X8.  The only division of the feature pass that can fail is
    [overall_reorder_rate] of the user metrics.  ProductFeatures and
    OrderFeatures are computed for every input; UserFeatures and
    UserProductFeatures fail, for all users, exactly when the user metrics
    fail. *)
Theorem feature_pass_fails_with_user_metrics_only v db :
  (exists t, pfm.model v db = Ok t) /\
  (exists t, ofe.model v db = Ok t) /\
  (forall e, um.model v db = Raise e ->
     uf.model v db = Raise e /\ upf.model v db = Raise e) /\
  (forall ums, um.model v db = Ok ums ->
     (exists t, uf.model v db = Ok t) /\ (exists t, upf.model v db = Ok t)).
Proof.
  destruct (user_features_follow_metrics v db) as [Hfail Hok].
  destruct (user_product_metrics_total v db) as [upms Hupm].
  destruct (product_features_total v db) as [pfs Hpf].
  split; [eauto|]. split; [apply order_features_total|]. split.
  - intros e He. split; [apply Hfail; exact He|].
    unfold upf.model, upf.final. rewrite Hupm. cbn [bind].
    rewrite (Hfail e He). reflexivity.
  - intros ums Hum. destruct (Hok ums Hum) as [ufs Huf].
    split; [eauto|].
    unfold upf.model, upf.final. rewrite Hupm. cbn [bind].
    rewrite Huf. cbn [bind]. rewrite Hpf. cbn [bind]. cbv zeta.
    destruct (user_product_normalized_total upms ufs
                (upf.product_features pfs)) as [n ->].
    cbn [bind]. eauto.
Qed.

End PipelineFacts.

(* ------------------------------------------------------------------------- *)
(** ** UserFeatures: which users it keeps and what it reports *)

Module UserFeatureFacts.
Import SQL SQLFacts DivisionFacts WindowFacts KeyFacts DayPartFacts
  NumberingFacts UserOrderFacts.
Module uf := instacart__user_features.

(** A row of UserFeatures and the rows it is joined from. *)
Lemma user_features_row v db t r :
  uf.model v db = Ok t -> In r t ->
  exists ums rss a b c d,
    um.model v db = Ok ums /\ uf.reorder_stats v db = Ok rss /\
    In a ums /\ In b (uf.distinct_products v db) /\ In c rss /\
    In d (uf.last_order_per_user v db) /\
    um.user_id a = uf.user_id r /\ uf.dp.user_id b = uf.user_id r /\
    uf.rs.user_id c = uf.user_id r /\ o.user_id (fst d) = uf.user_id r /\
    uf.user_total_orders r = um.user_total_orders a /\
    uf.distinct_products_count r = uf.dp.distinct_products_count b /\
    uf.total_reordered_products r = uf.rs.total_reordered_products c /\
    uf.reorder_rate r = uf.rs.reorder_rate c /\
    uf.last_order_dow r = o.order_dow (fst d) /\
    uf.last_order_hour r = o.order_hour_of_day (fst d) /\
    uf.last_order_days_since_prior r = o.days_since_prior_order (fst d).
Proof.
  unfold uf.model, uf.final, uf.user_metrics. intros Ht Hr.
  apply bind_ok in Ht as (ums & Hum & Ht).
  apply bind_ok in Ht as (rss & Hrs & Ht).
  destruct (select_rows _ _ _ Ht) as [Hfrom _].
  destruct (Hfrom r Hr) as ([[[a b] c] d] & Hj & E).
  apply bind_ok in E as (q & _ & E). injection E as <-.
  apply inner_join_In in Hj as (Hj & Hd & Ed).
  apply inner_join_In in Hj as (Hj & Hc & Ec).
  apply inner_join_In in Hj as (Ha & Hb & Eb).
  apply eqb_true in Ed, Ec, Eb. cbn [fst] in *.
  exists ums, rss, a, b, c, d. cbn.
  repeat split; auto; congruence.
Qed.

Lemma purchases_of_user v db u :
  In u (map (fun r : o.row * op.row => o.user_id (fst r))
          (filter (fun r => in_eval_set v (fst r))
             (inner_join (fun o op => eqb (o.order_id o) (op.order_id op))
                (orders db) (order_products db)))) <->
  has_purchase v db u.
Proof.
  unfold has_purchase. rewrite in_map_iff. split.
  - intros ([x l] & Eu & Hxl). apply filter_In in Hxl as [Hxl He].
    apply inner_join_In in Hxl as (Hx & Hl & E). apply eqb_true in E.
    cbn [fst] in *. exists x, l. split; [|auto].
    apply evaluated_orders_In. auto.
  - intros (x & l & Hx & Hl & E).
    apply evaluated_orders_In in Hx as (Hx & He & Hu).
    exists (x, l). split; [exact Hu|].
    apply filter_In. split; [|exact He].
    apply inner_join_In. repeat split; auto. apply eqb_true. auto.
Qed.

Lemma distinct_products_users v db u :
  In u (map uf.dp.user_id (uf.distinct_products v db)) <->
  has_purchase v db u.
Proof.
  rewrite <- purchases_of_user. unfold uf.distinct_products.
  rewrite map_map. cbn [uf.dp.user_id].
  rewrite group_by_keys, nodup_In. reflexivity.
Qed.

Lemma reorder_stats_users v db rss u :
  uf.reorder_stats v db = Ok rss ->
  In u (map uf.rs.user_id rss) <-> has_purchase v db u.
Proof.
  intros Hm. rewrite <- purchases_of_user.
  unfold uf.reorder_stats in Hm.
  apply (select_keys _ fst uf.rs.user_id _ _) in Hm.
  - rewrite Hm, group_by_keys, nodup_In. reflexivity.
  - intros g b Hb. cbv zeta in Hb. apply bind_ok in Hb as (q & _ & Hb).
    injection Hb as <-. reflexivity.
Qed.

Lemma last_order_users v db u :
  In u (map (fun r : o.row * Z => o.user_id (fst r))
            (uf.last_order_per_user v db)) <->
  evaluated_orders v db u <> [].
Proof.
  unfold uf.last_order_per_user, uf.last_orders.
  rewrite first_rows_keys, group_by_keys, nodup_In, in_map_iff. split.
  - intros (x & Eu & Hx) E.
    assert (Hin : In x (evaluated_orders v db u)).
    { apply evaluated_orders_In. apply filter_In in Hx as [Hx He]. auto. }
    rewrite E in Hin. exact Hin.
  - intros Hne. destruct (evaluated_orders v db u) as [|x xs] eqn:E;
      [congruence|].
    assert (Hin : In x (evaluated_orders v db u))
      by (rewrite E; left; reflexivity).
    apply evaluated_orders_In in Hin as (Hx & He & Hu).
    exists x. split; [exact Hu|]. apply filter_In. auto.
Qed.

(** X9.  UserFeatures keeps a user exactly when the user has, in the
    evaluation partition, an order numbered [min_orders] or more and an
    order line; the inner joins drop every other user without notice. *)
Theorem user_features_users v db t u :
  uf.model v db = Ok t ->
  In u (map uf.user_id t) <->
  kept_orders v db u <> [] /\ has_purchase v db u.
Proof.
  intros Ht. split.
  - intros Hu. apply in_map_iff in Hu as (r & <- & Hr).
    destruct (user_features_row v db t r Ht Hr)
      as (ums & rss & a & b & c & d & Hum & _ & Ha & Hb & _ & _ & Ea & Eb & _).
    split.
    + apply (user_metrics_users v db ums _ Hum).
      rewrite <- Ea. apply in_map; exact Ha.
    + apply distinct_products_users. rewrite <- Eb. apply in_map; exact Hb.
  - intros [Hk Hp].
    unfold uf.model, uf.final, uf.user_metrics in Ht.
    apply bind_ok in Ht as (ums & Hum & Ht).
    apply bind_ok in Ht as (rss & Hrs & Ht).
    destruct (select_rows _ _ _ Ht) as [_ Hto].
    apply (user_metrics_users v db ums u Hum) in Hk as Ha.
    apply in_map_iff in Ha as (a & Ea & Ha).
    apply distinct_products_users in Hp as Hb.
    apply in_map_iff in Hb as (b & Eb & Hb).
    apply (reorder_stats_users v db rss u Hrs) in Hp as Hc.
    apply in_map_iff in Hc as (c & Ec & Hc).
    assert (Hd : In u (map (fun r : o.row * Z => o.user_id (fst r))
                          (uf.last_order_per_user v db))).
    { apply last_order_users. destruct Hp as (x & _ & Hx & _).
      intros E. rewrite E in Hx. exact Hx. }
    apply in_map_iff in Hd as (d & Ed & Hd).
    destruct (Hto (a, b, c, d)) as (r & Hr & E).
    { apply inner_join_In. split; [|split; [exact Hd|]].
      - apply inner_join_In. split; [|split; [exact Hc|]].
        + apply inner_join_In. split; [exact Ha|split; [exact Hb|]].
          apply eqb_true; congruence.
        + cbn [fst]. apply eqb_true; congruence.
      - cbn [fst]. apply eqb_true; congruence. }
    apply in_map_iff. exists r. split; [|exact Hr].
    apply bind_ok in E as (q & _ & E). injection E as <-. exact Ea.
Qed.

Lemma user_features_users_witness :
  match uf.model Sample.v Sample.db with
  | Ok t => In 7 (map uf.user_id t)
  | Raise _ => False
  end.
Proof.
  destruct (uf.model Sample.v Sample.db) as [t|e] eqn:E;
    [|vm_compute in E; discriminate].
  apply (proj2 (user_features_users Sample.v Sample.db t 7 E)).
  split; [vm_compute; discriminate|].
  exists Sample.o1, (Sample.a_line 1 100 1 0).
  split; [vm_compute; auto|]. split; [cbn; auto|reflexivity].
Defined.

(** X10.  The last-order columns of UserFeatures are those of an order of
    the user with the highest order number in the evaluation partition, and
    [user_total_orders] is the number of that order. *)
Theorem last_order_is_highest_numbered v db t r :
  uf.model v db = Ok t -> In r t ->
  exists x,
    In x (evaluated_orders v db (uf.user_id r)) /\
    (forall y, In y (evaluated_orders v db (uf.user_id r)) ->
               o.order_number y <= o.order_number x) /\
    uf.last_order_dow r = o.order_dow x /\
    uf.last_order_hour r = o.order_hour_of_day x /\
    uf.last_order_days_since_prior r = o.days_since_prior_order x /\
    uf.user_total_orders r = Some (o.order_number x).
Proof.
  intros Ht Hr.
  destruct (user_features_row v db t r Ht Hr)
    as (ums & rss & a & b & c & d & Hum & _ & Ha & _ & _ & Hd & Ea & _ & _
        & Ed & Et & _ & _ & _ & Edow & Eh & Eds).
  unfold uf.last_order_per_user, uf.last_orders in Hd.
  apply first_row_is_greatest in Hd as (_ & Hin & Hmax).
  apply filter_In in Hin as [Hin He].
  assert (Hx : In (fst d) (evaluated_orders v db (uf.user_id r)))
    by (apply evaluated_orders_In; auto).
  assert (Hmax' : forall y, In y (evaluated_orders v db (uf.user_id r)) ->
                    o.order_number y <= o.order_number (fst d)).
  { intros y Hy. apply evaluated_orders_In in Hy as (Hy & Hey & Hu).
    apply Hmax; [apply filter_In; auto|congruence]. }
  exists (fst d). repeat split; auto.
  destruct (user_metrics_highest v db ums a Hum Ha)
    as (x' & Hx' & Hv & _ & Hle).
  rewrite Ea in Hx', Hle.
  rewrite Et, Hv. f_equal.
  specialize (Hle _ Hx). specialize (Hmax' _ Hx'). lia.
Qed.

Lemma last_order_is_highest_numbered_witness :
  match uf.model Sample.v Sample.db with
  | Ok t => forall r, In r t ->
              exists x, uf.last_order_dow r = o.order_dow x /\
                        uf.user_total_orders r = Some (o.order_number x)
  | Raise _ => False
  end.
Proof.
  destruct (uf.model Sample.v Sample.db) as [t|e] eqn:E;
    [|vm_compute in E; discriminate].
  intros r Hr.
  destruct (last_order_is_highest_numbered Sample.v Sample.db t r E Hr)
    as (x & _ & _ & Hd & _ & _ & Hn).
  exists x. auto.
Defined.

End UserFeatureFacts.

(* ------------------------------------------------------------------------- *)
(** ** OrderFeatures: its rows, empty orders and the look back *)

Module OrderFeatureFacts.
Import SQL SQLFacts DivisionFacts WindowFacts KeyFacts IntermediateKeys
  FeatureKeys OrderFacts DayPartFacts NumberingFacts.
Module ofe := instacart__order_features.

(** A row of [order_metrics] and the group it is computed from. *)
Lemma order_metrics_row v db oms om :
  ofe.order_metrics v db = Ok oms -> In om oms ->
  exists x rows q,
    In x (ofe.orders v db) /\
    rows = filter (fun r : o.row * option op.row =>
                     eqb (order_columns (fst r)) (order_columns x))
             (left_join (fun o op => eqb (o.order_id o) (op.order_id op))
                (ofe.orders v db) (order_products db)) /\
    rows <> [] /\
    div (numq (sum (map (fun r => reordered_flag
                                    (option_map op.is_reordered (snd r)))
                        rows)))
        (nullif (num (count (map (fun r => option_map op.product_id (snd r))
                                 rows))) 0) = Ok q /\
    om = {| ofe.om.order_id := o.order_id x;
            ofe.om.user_id := o.user_id x;
            ofe.om.order_number := o.order_number x;
            ofe.om.order_dow := o.order_dow x;
            ofe.om.order_hour_of_day := o.order_hour_of_day x;
            ofe.om.days_since_prior_order := o.days_since_prior_order x;
            ofe.om.basket_size :=
              count (map (fun r => option_map op.product_id (snd r)) rows);
            ofe.om.num_reordered_items :=
              sum (map (fun r => reordered_flag
                                   (option_map op.is_reordered (snd r))) rows);
            ofe.om.reorder_ratio := q;
            ofe.om.avg_cart_position :=
              avg (map (fun r => option_map op.cart_position (snd r)) rows);
            ofe.om.min_cart_position :=
              min (map (fun r => option_map op.cart_position (snd r)) rows);
            ofe.om.max_cart_position :=
              max (map (fun r => option_map op.cart_position (snd r)) rows) |}.
Proof.
  unfold ofe.order_metrics. intros Hm Hom.
  destruct (select_rows _ _ _ Hm) as [Hfrom _].
  destruct (Hfrom om Hom) as ([k rows] & Hg & E).
  pose proof (group_rows_nonempty _ _ _ Hg) as Hne.
  apply group_by_In in Hg as [Hk Hrows].
  apply in_map_iff in Hk as ([x y] & Hk & Hxy).
  apply left_join_In in Hxy as [Hx _].
  cbv zeta in E. cbn [fst snd] in *.
  apply bind_ok in E as (q & Hq & E).
  exists x, rows, q. subst k.
  split; [exact Hx|]. split; [exact Hrows|]. split; [exact Hne|].
  split; [exact Hq|]. injection E as <-. reflexivity.
Qed.

(** A row of OrderFeatures and the rows it is joined from. *)
Lemma order_features_columns v db t r :
  ofe.model v db = Ok t -> In r t ->
  exists oms om pom pd q1 q2,
    ofe.order_metrics v db = Ok oms /\ In om oms /\
    match pom with
    | Some x => In x (ofe.prev_order_metrics v db oms) /\
                ofe.om.order_id om = ofe.pom.order_id x
    | None => forall x, In x (ofe.prev_order_metrics v db oms) ->
                        ofe.om.order_id om <> ofe.pom.order_id x
    end /\
    match pd with
    | Some x => In x (ofe.product_diversity v db) /\
                ofe.om.order_id om = ofe.pd.order_id x
    | None => forall x, In x (ofe.product_diversity v db) ->
                        ofe.om.order_id om <> ofe.pd.order_id x
    end /\
    div (numq (option_map ofe.pd.unique_aisles pd))
        (nullif (num (ofe.om.basket_size om)) 0) = Ok q1 /\
    div (numq (option_map ofe.pd.unique_departments pd))
        (nullif (num (ofe.om.basket_size om)) 0) = Ok q2 /\
    r = {| ofe.order_id := ofe.om.order_id om;
           ofe.user_id := ofe.om.user_id om;
           ofe.order_number := ofe.om.order_number om;
           ofe.order_dow := ofe.om.order_dow om;
           ofe.order_hour_of_day := ofe.om.order_hour_of_day om;
           ofe.days_since_prior_order := ofe.om.days_since_prior_order om;
           ofe.basket_size := ofe.om.basket_size om;
           ofe.num_reordered_items := ofe.om.num_reordered_items om;
           ofe.reorder_ratio := ofe.om.reorder_ratio om;
           ofe.avg_cart_position := ofe.om.avg_cart_position om;
           ofe.min_cart_position := ofe.om.min_cart_position om;
           ofe.max_cart_position := ofe.om.max_cart_position om;
           ofe.unique_aisles := option_map ofe.pd.unique_aisles pd;
           ofe.unique_departments := option_map ofe.pd.unique_departments pd;
           ofe.aisle_diversity_ratio := q1;
           ofe.department_diversity_ratio := q2;
           ofe.basket_size_delta :=
             sub (Some (ofe.om.basket_size om))
                 (match pom with
                  | Some x => ofe.pom.prev_basket_size x
                  | None => None
                  end);
           ofe.reorder_ratio_delta :=
             subq (ofe.om.reorder_ratio om)
                  (match pom with
                   | Some x => ofe.pom.prev_reorder_ratio x
                   | None => None
                   end);
           ofe.same_day_as_last_order :=
             ofe.same_as (ofe.om.order_dow om)
               (match pom with
                | Some x => ofe.pom.prev_order_dow x
                | None => None
                end);
           ofe.similar_hour_as_last_order :=
             ofe.within_3 (ofe.om.order_hour_of_day om)
               (match pom with
                | Some x => ofe.pom.prev_order_hour x
                | None => None
                end);
           ofe.day_part := day_part_of (ofe.om.order_hour_of_day om) |}.
Proof.
  unfold ofe.model, ofe.final. intros Ht Hr.
  apply bind_ok in Ht as (oms & Hom & Ht).
  destruct (select_rows _ _ _ Ht) as [Hfrom _].
  destruct (Hfrom r Hr) as ([[om pom] pd] & Hj & E).
  cbv zeta in E.
  apply bind_ok in E as (q1 & Hq1 & E). apply bind_ok in E as (q2 & Hq2 & E).
  injection E as <-.
  apply left_join_In in Hj as [Hj Hpd].
  apply left_join_In in Hj as [Hin Hpom].
  exists oms, om, pom, pd, q1, q2.
  split; [exact Hom|]. split; [exact Hin|].
  split.
  { destruct pom as [x|].
    - destruct Hpom as [Hx Ex]. apply eqb_true in Ex. auto.
    - intros x Hx. specialize (Hpom x Hx). apply eqb_false in Hpom.
      exact Hpom. }
  split.
  { destruct pd as [x|].
    - destruct Hpd as [Hx Ex]. apply eqb_true in Ex. auto.
    - intros x Hx. specialize (Hpd x Hx). apply eqb_false in Hpd.
      exact Hpd. }
  split; [exact Hq1|]. split; [exact Hq2|]. reflexivity.
Qed.

Lemma flagged_le_counted (rows : list (o.row * option op.row)) :
  (length (filter (fun r => eqb (option_map op.is_reordered (snd r))
                                (Some 1%Z)) rows)
   <= length (non_null (map (fun r => option_map op.product_id (snd r)) rows)))%nat.
Proof.
  induction rows as [|[x [l|]] rows IH];
    cbn [filter map non_null snd option_map]; [cbn; lia| |].
  - destruct (eqb (Some (op.is_reordered l)) (Some 1)); cbn [length]; lia.
  - replace (eqb (@None Z) (Some 1)) with false by reflexivity. exact IH.
Qed.

Lemma fraction_bounds (n c : Z) :
  0 <= n <= c -> 0 < c ->
  (0 <= Qred (inject_Z n / inject_Z c) <= 1)%Q.
Proof.
  intros Hn Hc. rewrite Qred_correct.
  assert (Hc' : (0 < inject_Z c)%Q).
  { unfold Qlt, inject_Z. cbn. lia. }
  split.
  - apply Qle_shift_div_l; [exact Hc'|]. rewrite Qmult_0_l.
    unfold Qle, inject_Z. cbn. lia.
  - apply Qle_shift_div_r; [exact Hc'|]. rewrite Qmult_1_l.
    unfold Qle, inject_Z. cbn. lia.
Qed.

Lemma nullif_count (c : Z) :
  nullif (num c) 0 = if c =? 0 then None else Some (inject_Z c).
Proof.
  unfold nullif, num.
  destruct (Qeq_bool (inject_Z c) 0) eqn:E; destruct (c =? 0) eqn:Ec;
    try reflexivity.
  - apply Qeq_bool_iff in E. unfold Qeq, inject_Z in E. cbn in E.
    apply Z.eqb_neq in Ec. lia.
  - apply Z.eqb_eq in Ec. subst c. discriminate.
Qed.

(** X11.  In OrderFeatures the number of reordered items of an order is
    never NULL and never exceeds the basket size; [reorder_ratio] is NULL
    for an order without lines and a fraction between 0 and 1 otherwise. *)
Theorem reorder_ratio_is_a_fraction v db t r :
  ofe.model v db = Ok t -> In r t ->
  exists n,
    ofe.num_reordered_items r = Some n /\
    0 <= n <= ofe.basket_size r /\
    (ofe.basket_size r = 0 -> ofe.reorder_ratio r = None) /\
    (0 < ofe.basket_size r ->
     ofe.reorder_ratio r =
       Some (Qred (inject_Z n / inject_Z (ofe.basket_size r))) /\
     (0 <= Qred (inject_Z n / inject_Z (ofe.basket_size r)) <= 1)%Q).
Proof.
  intros Ht Hr.
  destruct (order_features_columns v db t r Ht Hr)
    as (oms & om & pom & pd & q1 & q2 & Hom & Hin & _ & _ & _ & _ & ->).
  destruct (order_metrics_row v db oms om Hom Hin)
    as (x & rows & q & _ & _ & Hne & Hq & ->).
  cbn [ofe.num_reordered_items ofe.basket_size ofe.reorder_ratio
       ofe.om.num_reordered_items ofe.om.basket_size ofe.om.reorder_ratio].
  rewrite (ProductFacts.sum_flags
             (fun r : o.row * option op.row =>
                option_map op.is_reordered (snd r)) rows Hne) in *.
  pose proof (flagged_le_counted rows) as Hle.
  unfold count in *.
  set (n := Z.of_nat (length (filter _ rows))) in *.
  set (c := Z.of_nat (length (non_null _))) in *.
  assert (Hn : 0 <= n <= c) by (unfold n, c; lia).
  exists n. split; [reflexivity|]. split; [exact Hn|].
  rewrite nullif_count in Hq. cbn [numq option_map] in Hq.
  split.
  - intros Ec. rewrite Ec in Hq. cbn in Hq. congruence.
  - intros Hc. destruct (c =? 0) eqn:Ec; [apply Z.eqb_eq in Ec; lia|].
    rewrite ProductFacts.div_nonzero in Hq by lia.
    injection Hq as <-. split; [reflexivity|].
    apply fraction_bounds; lia.
Qed.

Lemma reorder_ratio_is_a_fraction_witness :
  match ofe.model Sample.v Sample.db with
  | Ok t => forall r, In r t ->
              exists n, ofe.num_reordered_items r = Some n /\
                        0 <= n <= ofe.basket_size r
  | Raise _ => False
  end.
Proof.
  destruct (ofe.model Sample.v Sample.db) as [t|e] eqn:E;
    [|vm_compute in E; discriminate].
  intros r Hr.
  destruct (reorder_ratio_is_a_fraction Sample.v Sample.db t r E Hr)
    as (n & Hn & Hb & _).
  exists n. auto.
Defined.

Lemma all_null_rows (rows : list (o.row * option op.row)) :
  count (map (fun r => option_map op.product_id (snd r)) rows) = 0 ->
  forall r, In r rows -> snd r = None.
Proof.
  unfold count. induction rows as [|[x [l|]] rows IH];
    cbn [map non_null snd option_map length]; intros Hc r Hr;
    [contradiction|lia|].
  destruct Hr as [<-|Hr]; [reflexivity|]. apply IH; assumption.
Qed.

Lemma aggregates_of_null_rows {B} (f : op.row -> B)
  (rows : list (o.row * option op.row)) :
  (forall r, In r rows -> snd r = None) ->
  non_null (map (fun r => option_map f (snd r)) rows) = [].
Proof.
  induction rows as [|r rows IH]; intros Hn; [reflexivity|].
  cbn [map non_null]. rewrite (Hn r (or_introl eq_refl)). cbn [option_map].
  apply IH. intros; apply Hn; right; assumption.
Qed.

(** X12.  An order of the evaluation partition without order lines keeps
    its row in OrderFeatures: with [basket_size] = 0 the number of
    reordered items is 0 and the ratio, the cart positions, the aisle and
    department counts and both diversity ratios are NULL; and no order line
    carries the id of the order. *)
Theorem order_without_lines_keeps_its_row v db t r :
  ofe.model v db = Ok t -> In r t -> ofe.basket_size r = 0 ->
  (forall l, In l (order_products db) -> op.order_id l <> ofe.order_id r) /\
  ofe.num_reordered_items r = Some 0 /\
  ofe.reorder_ratio r = None /\
  ofe.avg_cart_position r = None /\
  ofe.min_cart_position r = None /\
  ofe.max_cart_position r = None /\
  ofe.unique_aisles r = None /\
  ofe.unique_departments r = None /\
  ofe.aisle_diversity_ratio r = None /\
  ofe.department_diversity_ratio r = None /\
  ofe.reorder_ratio_delta r = None.
Proof.
  intros Ht Hr.
  destruct (order_features_columns v db t r Ht Hr)
    as (oms & om & pom & pd & q1 & q2 & Hom & Hin & _ & Hpd & Hq1 & Hq2 & ->).
  destruct (order_metrics_row v db oms om Hom Hin)
    as (x & rows & q & Hx & Hrows & Hne & Hq & ->).
  cbn [ofe.order_id ofe.num_reordered_items ofe.basket_size ofe.reorder_ratio
       ofe.avg_cart_position ofe.min_cart_position ofe.max_cart_position
       ofe.unique_aisles ofe.unique_departments ofe.aisle_diversity_ratio
       ofe.department_diversity_ratio ofe.reorder_ratio_delta
       ofe.om.order_id ofe.om.num_reordered_items ofe.om.basket_size
       ofe.om.reorder_ratio ofe.om.avg_cart_position ofe.om.min_cart_position
       ofe.om.max_cart_position] in *.
  intros Hc. pose proof (all_null_rows rows Hc) as Hnull.
  assert (Hlines : forall l, In l (order_products db) ->
                             op.order_id l <> o.order_id x).
  { intros l Hl E. destruct rows as [|[x' y] rows']; [congruence|].
    pose proof (Hnull (x', y) (or_introl eq_refl)) as Hy.
    cbn in Hy. subst y.
    assert (Hr0 : In (x', None) ((x', None) :: rows'))
      by (left; reflexivity).
    rewrite Hrows in Hr0. apply filter_In in Hr0 as [Hr0 Hk].
    apply eqb_true in Hk. cbn [fst] in Hk.
    apply left_join_In in Hr0 as [_ Hno]. specialize (Hno l Hl).
    apply eqb_false in Hno. apply Hno.
    unfold order_columns in Hk. congruence. }
  assert (Hpd' : pd = None).
  { destruct pd as [y|]; [exfalso|reflexivity]. destruct Hpd as [Hy Ey].
    unfold ofe.product_diversity in Hy.
    apply in_map_iff in Hy as ([k g] & <- & Hg).
    apply group_by_In in Hg as [Hk _].
    apply in_map_iff in Hk as ([[x0 l0] p0] & <- & Hj).
    apply inner_join_In in Hj as (Hj & _ & _).
    apply inner_join_In in Hj as (_ & Hl0 & E0). apply eqb_true in E0.
    cbn in Ey. apply (Hlines l0 Hl0). congruence. }
  subst pd. cbn [option_map numq div] in Hq1, Hq2.
  injection Hq1 as <-. injection Hq2 as <-.
  rewrite Hc, nullif_count in Hq. cbn [Z.eqb] in Hq.
  rewrite (ProductFacts.sum_flags
             (fun r : o.row * option op.row =>
                option_map op.is_reordered (snd r)) rows Hne) in *.
  cbn [numq option_map div] in Hq. injection Hq as <-.
  unfold avg, min, max. rewrite map_map.
  unfold avgq.
  replace (map (fun x0 : o.row * option op.row =>
                  option_map inject_Z (option_map op.cart_position (snd x0)))
               rows)
    with (map (fun r : o.row * option op.row =>
                 option_map (fun l => inject_Z (op.cart_position l)) (snd r))
              rows)
    by (apply map_ext; intros [? [?|]]; reflexivity).
  rewrite (aggregates_of_null_rows
             (fun l => inject_Z (op.cart_position l)) rows Hnull).
  rewrite (aggregates_of_null_rows op.cart_position rows Hnull).
  repeat split; auto.
  f_equal. f_equal.
  rewrite (proj2 (filter_nil_iff _ rows)); [reflexivity|].
  intros r0 Hr0. rewrite (Hnull r0 Hr0). reflexivity.
Qed.

Lemma order_without_lines_keeps_its_row_witness :
  match ofe.model Sample.v Sample.db_without_lines with
  | Ok t => forall r, In r t -> ofe.reorder_ratio r = None
  | Raise _ => False
  end.
Proof.
  destruct (ofe.model Sample.v Sample.db_without_lines) as [t|e] eqn:E;
    [|vm_compute in E; discriminate].
  intros r Hr.
  apply (order_without_lines_keeps_its_row
           Sample.v Sample.db_without_lines t r E Hr).
  revert r Hr. vm_compute in E. injection E as <-.
  intros r [<-|[<-|[<-|[<-|[]]]]]; reflexivity.
Defined.

(** X13.  With unique order ids, OrderFeatures has exactly one row for
    every order of the evaluation partition, with or without order lines,
    and no row for an order of another partition. *)
Theorem one_row_per_evaluated_order v db t :
  NoDup (map o.order_id (orders db)) ->
  ofe.model v db = Ok t ->
  Permutation (map ofe.order_id t)
              (map o.order_id (filter (in_eval_set v) (orders db))).
Proof.
  intros Hnd Ht. apply NoDup_Permutation.
  - apply (order_features_keys v db t Hnd Ht).
  - apply filter_keys_NoDup; exact Hnd.
  - intros i. rewrite !in_map_iff. split.
    + intros (r & <- & Hr).
      destruct (order_features_columns v db t r Ht Hr)
        as (oms & om & pom & pd & q1 & q2 & Hom & Hin & _ & _ & _ & _ & ->).
      destruct (order_metrics_row v db oms om Hom Hin)
        as (x & rows & q & Hx & _ & _ & _ & ->).
      exists x. split; [reflexivity|exact Hx].
    + intros (x & <- & Hx).
      unfold ofe.model, ofe.final in Ht.
      apply bind_ok in Ht as (oms & Hom & Ht).
      destruct (ScenarioFacts.order_metrics_rows v db oms Hnd Hom) as [Hto _].
      destruct (Hto x Hx) as (om & Hin & Eid & _).
      destruct (ScenarioFacts.left_join_covers
                  (fun (om : ofe.om.row) (pom : ofe.pom.row) =>
                     eqb (ofe.om.order_id om) (ofe.pom.order_id pom))
                  oms (ofe.prev_order_metrics v db oms) om Hin) as [pom Hpom].
      destruct (ScenarioFacts.left_join_covers
                  (fun (j : ofe.om.row * option ofe.pom.row) (pd : ofe.pd.row) =>
                     eqb (ofe.om.order_id (fst j)) (ofe.pd.order_id pd))
                  _ (ofe.product_diversity v db) (om, pom) Hpom) as [pd Hpd].
      destruct (select_rows _ _ _ Ht) as [_ Hrows].
      destruct (Hrows (om, pom, pd) Hpd) as (r & Hr & E).
      cbv zeta in E.
      apply bind_ok in E as (q1 & _ & E). apply bind_ok in E as (q2 & _ & E).
      injection E as <-. eexists. split; [|exact Hr]. exact Eid.
Qed.

Lemma one_row_per_evaluated_order_witness :
  match ofe.model Sample.v Sample.db with
  | Ok t => Permutation (map ofe.order_id t) [1; 2; 3; 4]
  | Raise _ => False
  end.
Proof.
  destruct (ofe.model Sample.v Sample.db) as [t|e] eqn:E;
    [|vm_compute in E; discriminate].
  apply (one_row_per_evaluated_order Sample.v Sample.db t); [|exact E].
  cbn. repeat (constructor; [cbn; intuition lia|]). constructor.
Defined.

Lemma with_prev_adjacent {A} (prev0 : option A) (s : list A) x q :
  In (x, q) (with_prev prev0 s) ->
  (q = prev0 /\ exists s', s = x :: s') \/
  (exists s1 p s2, q = Some p /\ s = s1 ++ p :: x :: s2).
Proof.
  revert prev0. induction s as [|a s IH]; intros prev0; cbn [with_prev];
    [intros []|].
  intros [E|Hin].
  - injection E as -> ->. left. eauto.
  - right. destruct (IH _ Hin) as [[-> [s' ->]]|(s1 & p & s2 & -> & ->)].
    + exists [], a, s'. auto.
    + exists (a :: s1), p, s2. auto.
Qed.

Lemma sorted_neighbours {A} (R : A -> A -> Prop) (s1 : list A) p x s2 :
  StronglySorted R (s1 ++ p :: x :: s2) ->
  R p x /\ (forall z, In z s1 -> R z p) /\ (forall z, In z s2 -> R x z).
Proof.
  induction s1 as [|a s1 IH]; cbn [app]; intros Hs.
  - inversion Hs as [|? ? Hs' Hall]; subst.
    inversion Hs' as [|? ? _ Hall']; subst.
    rewrite Forall_forall in Hall, Hall'.
    split; [apply Hall; left; reflexivity|].
    split; [intros z []|exact Hall'].
  - inversion Hs as [|? ? Hs' Hall]; subst.
    destruct (IH Hs') as (Hpx & H1 & H2).
    rewrite Forall_forall in Hall.
    split; [exact Hpx|]. split; [|exact H2].
    intros z [<-|Hz]; [|apply H1; exact Hz].
    apply Hall. apply in_or_app. right. left. reflexivity.
Qed.

Lemma NoDup_neighbours {A K} (key : A -> K) (s1 : list A) p x s2 :
  NoDup (map key (s1 ++ p :: x :: s2)) -> key p <> key x.
Proof.
  rewrite map_app. intros Hnd. apply NoDup_app_remove_l in Hnd.
  cbn [map] in Hnd. inversion Hnd as [|? ? Hn _]; subst.
  intros E. apply Hn. left. symmetry. exact E.
Qed.

(** With unique order ids: the order that the [lag] columns of a row of
    OrderFeatures read, if any, and what the row does with it. *)
Lemma order_features_previous v db t r :
  NoDup (map o.order_id (orders db)) ->
  ofe.model v db = Ok t -> In r t ->
  exists prev : option o.row,
    match prev with
    | Some y =>
        In y (evaluated_orders v db (ofe.user_id r)) /\
        o.order_id y <> ofe.order_id r /\
        o.order_number y <= ofe.order_number r /\
        forall z, In z (evaluated_orders v db (ofe.user_id r)) ->
          ~ (o.order_number y < o.order_number z < ofe.order_number r)
    | None =>
        forall z, In z (evaluated_orders v db (ofe.user_id r)) ->
          ofe.order_number r <= o.order_number z
    end /\
    ofe.basket_size_delta r =
      sub (Some (ofe.basket_size r)) (option_map (lines_of db) prev) /\
    ofe.same_day_as_last_order r =
      ofe.same_as (ofe.order_dow r) (option_map o.order_dow prev) /\
    ofe.similar_hour_as_last_order r =
      ofe.within_3 (ofe.order_hour_of_day r)
        (option_map o.order_hour_of_day prev).
Proof.
  intros Hnd Ht Hr.
  destruct (order_features_columns v db t r Ht Hr)
    as (oms & om & pom & pd & q1 & q2 & Hom & Hin & Hpom & _ & _ & _ & ->).
  cbn [ofe.basket_size_delta ofe.user_id ofe.order_id ofe.order_number
       ofe.basket_size ofe.same_day_as_last_order
       ofe.similar_hour_as_last_order ofe.order_dow ofe.order_hour_of_day].
  destruct (ScenarioFacts.order_metrics_rows v db oms Hnd Hom) as [Hto Hfrom].
  destruct (Hfrom om Hin) as (x & Hx & Eid & Eu & En & Eb).
  pose proof (order_metrics_keys v db oms Hnd Hom) as Hkeys.
  set (J := inner_join (fun (o : o.row) (om : ofe.om.row) =>
                          eqb (o.order_id o) (ofe.om.order_id om))
              (ofe.orders v db) oms).
  set (k := fun r : o.row * ofe.om.row => o.order_number (fst r)).
  set (s := sort_by (asc k)
              (filter (fun a : o.row * ofe.om.row =>
                         eqb (o.user_id (fst a)) (o.user_id x)) J)).
  assert (HJ : In (x, om) J).
  { apply inner_join_In. repeat split; auto. apply eqb_true. auto. }
  assert (Hs : forall a, In a s <-> In a J /\ o.user_id (fst a) = o.user_id x).
  { intros a. unfold s. rewrite sort_by_In, filter_In, eqb_true. tauto. }
  assert (Hsorted : StronglySorted (fun a b => k a <= k b) s)
    by apply sort_by_sorted.
  assert (Hids : NoDup (map (fun a : o.row * ofe.om.row => o.order_id (fst a))
                            s)).
  { apply (Permutation_key_NoDup _ _ _ (sort_by_perm _ _)).
    apply filter_keys_NoDup.
    apply (inner_join_keys o.order_id).
    - apply (unique_match ofe.om.order_id o.order_id); [exact Hkeys|].
      intros a b E. apply eqb_true in E. auto.
    - apply filter_keys_NoDup; exact Hnd. }
  assert (Hmember : forall z, In z (evaluated_orders v db (o.user_id x)) ->
            exists omz, In (z, omz) s).
  { intros z Hz. apply UserOrderFacts.evaluated_orders_In in Hz
      as (Hz & He & Hu).
    assert (Hz' : In z (ofe.orders v db)) by (apply filter_In; auto).
    destruct (Hto z Hz') as (omz & Hinz & Eidz & _).
    exists omz. apply Hs. split; [|exact Hu].
    apply inner_join_In. repeat split; auto. apply eqb_true. auto. }
  assert (Hlag : exists prev,
            In ((x, om), prev)
               (lag_row (fun r : o.row * ofe.om.row => o.user_id (fst r))
                        (asc k) J)).
  { assert (Hin' : In (x, om)
                     (map fst (lag_row
                        (fun r : o.row * ofe.om.row => o.user_id (fst r))
                        (asc k) J))).
    { eapply Permutation_in;
        [apply Permutation_sym, lag_row_rows|exact HJ]. }
    apply in_map_iff in Hin' as ([a prev] & E & Hin'). cbn in E. subst a.
    eauto. }
  destruct Hlag as [prev Hlag].
  assert (Hprev : pom =
            Some {| ofe.pom.user_id := o.user_id x;
                    ofe.pom.order_number := o.order_number x;
                    ofe.pom.order_id := o.order_id x;
                    ofe.pom.prev_basket_size :=
                      option_map (fun q => ofe.om.basket_size (snd q)) prev;
                    ofe.pom.prev_reorder_ratio :=
                      match prev with
                      | Some q => ofe.om.reorder_ratio (snd q)
                      | None => None
                      end;
                    ofe.pom.prev_order_dow :=
                      option_map (fun q => o.order_dow (fst q)) prev;
                    ofe.pom.prev_order_hour :=
                      option_map (fun q => o.order_hour_of_day (fst q))
                                 prev |}).
  { pose proof (in_map
                  (fun r : (o.row * ofe.om.row) * option (o.row * ofe.om.row) =>
                     let '(o, _) := fst r in
                     let prev := snd r in
                     {| ofe.pom.user_id := o.user_id o;
                        ofe.pom.order_number := o.order_number o;
                        ofe.pom.order_id := o.order_id o;
                        ofe.pom.prev_basket_size :=
                          option_map (fun q => ofe.om.basket_size (snd q)) prev;
                        ofe.pom.prev_reorder_ratio :=
                          match prev with
                          | Some q => ofe.om.reorder_ratio (snd q)
                          | None => None
                          end;
                        ofe.pom.prev_order_dow :=
                          option_map (fun q => o.order_dow (fst q)) prev;
                        ofe.pom.prev_order_hour :=
                          option_map (fun q => o.order_hour_of_day (fst q))
                                     prev |})
                  _ _ Hlag) as Hrow.
    cbn [fst snd] in Hrow.
    match type of Hrow with
    | In ?a _ => change (In a (ofe.prev_order_metrics v db oms)) in Hrow
    end.
    destruct pom as [q|].
    - destruct Hpom as [Hq Eq]. f_equal.
      apply (NoDup_key_inj ofe.pom.order_id
               (ofe.prev_order_metrics v db oms)); auto.
      + apply prev_order_metrics_keys; assumption.
      + cbn. congruence.
    - exfalso. apply (Hpom _ Hrow). cbn. exact Eid. }
  rewrite Hprev, Eu, En.
  cbn [ofe.pom.prev_basket_size ofe.pom.prev_order_dow
       ofe.pom.prev_order_hour].
  clear Hprev.
  apply lag_row_In in Hlag. cbn [fst] in Hlag. fold s in Hlag.
  apply with_prev_adjacent in Hlag
    as [[-> [s' Es]]|(s1 & [y omy] & s2 & -> & Es)].
  - exists None. cbn [option_map]. split; [|auto].
    intros z Hz.
    destruct (Hmember z Hz) as [omz Hin_s].
    rewrite Es in Hin_s, Hsorted.
    inversion Hsorted as [|? ? _ Hall]; subst.
    rewrite Forall_forall in Hall.
    destruct Hin_s as [E|Hin_s]; [injection E as <- _; lia|].
    apply (Hall _ Hin_s).
  - exists (Some y). cbn [option_map snd fst].
    assert (Hy : In (y, omy) s)
      by (rewrite Es; apply in_or_app; right; left; reflexivity).
    apply Hs in Hy as [Hy Hyu]. cbn [fst] in Hyu.
    apply inner_join_In in Hy as (Hy & Homy & Ey). apply eqb_true in Ey.
    destruct (Hfrom omy Homy) as (y' & Hy' & Eidy & _ & _ & Eby).
    assert (y' = y).
    { unfold ofe.orders in Hy, Hy'.
      apply filter_In in Hy as [Hy _]. apply filter_In in Hy' as [Hy' _].
      apply (NoDup_key_inj o.order_id (orders db)); auto. congruence. }
    subst y'.
    rewrite Es in Hsorted, Hids.
    destruct (sorted_neighbours _ _ _ _ _ Hsorted) as (Hyx & Hbefore & Hafter).
    apply NoDup_neighbours in Hids. cbn [fst] in Hids.
    unfold k in Hyx, Hbefore, Hafter. cbn [fst] in Hyx.
    split; [|rewrite Eby; auto].
    split.
    { apply UserOrderFacts.evaluated_orders_In.
      unfold ofe.orders in Hy. apply filter_In in Hy as [Hy He]. auto. }
    split; [congruence|]. split; [exact Hyx|].
    intros z Hz [Hlo Hhi].
    destruct (Hmember z Hz) as [omz Hin_s]. rewrite Es in Hin_s.
    apply in_app_or in Hin_s as [Hin_s|[E|[E|Hin_s]]].
    + specialize (Hbefore _ Hin_s). cbn [fst] in Hbefore. lia.
    + injection E as -> _. lia.
    + injection E as -> _. lia.
    + specialize (Hafter _ Hin_s). cbn [fst] in Hafter. lia.
Qed.

(** X14.  With unique order ids, [basket_size_delta] of an order compares
    it with the order placed just before it by the same user in the
    evaluation partition: an order that is not the row itself, with an
    order number not above, and with no order of the user numbered strictly
    between the two.  The delta is NULL exactly for an order that no order
    of the user precedes. *)
Theorem basket_size_delta_looks_back v db t r :
  NoDup (map o.order_id (orders db)) ->
  ofe.model v db = Ok t -> In r t ->
  match ofe.basket_size_delta r with
  | Some d =>
      exists y, In y (evaluated_orders v db (ofe.user_id r)) /\
        o.order_id y <> ofe.order_id r /\
        o.order_number y <= ofe.order_number r /\
        d = ofe.basket_size r - lines_of db y /\
        forall z, In z (evaluated_orders v db (ofe.user_id r)) ->
          ~ (o.order_number y < o.order_number z < ofe.order_number r)
  | None =>
      forall z, In z (evaluated_orders v db (ofe.user_id r)) ->
        ofe.order_number r <= o.order_number z
  end.
Proof.
  intros Hnd Ht Hr.
  destruct (order_features_previous v db t r Hnd Ht Hr)
    as ([y|] & Hprev & -> & _); cbn [option_map sub].
  - destruct Hprev as (Hy & Hid & Hn & Hbetween).
    exists y. repeat split; auto.
  - exact Hprev.
Qed.

Lemma basket_size_delta_looks_back_witness :
  match ofe.model Sample.v Sample.db with
  | Ok t =>
      forall r, In r t ->
        match ofe.basket_size_delta r with
        | Some d =>
            exists y, o.order_id y <> ofe.order_id r /\
                      d = ofe.basket_size r - lines_of Sample.db y
        | None =>
            forall z, In z (evaluated_orders Sample.v Sample.db (ofe.user_id r)) ->
                      ofe.order_number r <= o.order_number z
        end
  | Raise _ => False
  end.
Proof.
  destruct (ofe.model Sample.v Sample.db) as [t|e] eqn:E;
    [|vm_compute in E; discriminate].
  intros r Hr.
  assert (Hnd : NoDup (map o.order_id (orders Sample.db))).
  { cbn. repeat (constructor; [cbn; intuition lia|]). constructor. }
  pose proof (basket_size_delta_looks_back Sample.v Sample.db t r Hnd E Hr)
    as H.
  destruct (ofe.basket_size_delta r) as [d|]; [|exact H].
  destruct H as (y & _ & Hid & _ & Hd & _). exists y. auto.
Defined.

(** X26.  With unique order ids, the time flags of an order compare it
    with the order placed just before it by the same user in the evaluation
    partition: an order that is not the row itself, with an order number
    not above, and with no order of the user numbered strictly between the
    two.  [same_day_as_last_order] is 1 exactly when that order has the
    same day of the week, and [similar_hour_as_last_order] is 1 exactly
    when the two hours differ by at most 3 on the clock face read as a line
    (23 h and 1 h differ by 22); both are 0 for an order that no order of
    the user precedes. *)
Theorem time_flags_compare_with_previous_order v db t r :
  NoDup (map o.order_id (orders db)) ->
  ofe.model v db = Ok t -> In r t ->
  match ofe.basket_size_delta r with
  | Some d =>
      exists y, In y (evaluated_orders v db (ofe.user_id r)) /\
        o.order_id y <> ofe.order_id r /\
        o.order_number y <= ofe.order_number r /\
        (forall z, In z (evaluated_orders v db (ofe.user_id r)) ->
           ~ (o.order_number y < o.order_number z < ofe.order_number r)) /\
        d = ofe.basket_size r - lines_of db y /\
        (ofe.same_day_as_last_order r = 1 <->
         ofe.order_dow r = o.order_dow y) /\
        (ofe.similar_hour_as_last_order r = 1 <->
         Z.abs (ofe.order_hour_of_day r - o.order_hour_of_day y) <= 3) /\
        (ofe.same_day_as_last_order r = 0 \/
         ofe.same_day_as_last_order r = 1) /\
        (ofe.similar_hour_as_last_order r = 0 \/
         ofe.similar_hour_as_last_order r = 1)
  | None =>
      (forall z, In z (evaluated_orders v db (ofe.user_id r)) ->
         ofe.order_number r <= o.order_number z) /\
      ofe.same_day_as_last_order r = 0 /\
      ofe.similar_hour_as_last_order r = 0
  end.
Proof.
  intros Hnd Ht Hr.
  destruct (order_features_previous v db t r Hnd Ht Hr)
    as ([y|] & Hprev & -> & -> & ->); cbn [option_map sub].
  - destruct Hprev as (Hy & Hid & Hn & Hbetween).
    exists y. split; [exact Hy|]. split; [exact Hid|].
    split; [exact Hn|]. split; [exact Hbetween|]. split; [reflexivity|].
    unfold ofe.same_as, ofe.within_3. cbn [sub].
    destruct (Z.abs (ofe.order_dow r - o.order_dow y) =? 0) eqn:E1;
      destruct (Z.abs (ofe.order_hour_of_day r - o.order_hour_of_day y) <=? 3)
        eqn:E2;
      rewrite ?Z.eqb_eq, ?Z.eqb_neq, ?Z.leb_le, ?Z.leb_gt in *;
      repeat split; intros; try lia; auto.
  - split; [exact Hprev|]. split; reflexivity.
Qed.

Lemma time_flags_compare_with_previous_order_witness :
  match ofe.model Sample.v Sample.db with
  | Ok t =>
      forall r, In r t ->
        match ofe.basket_size_delta r with
        | Some d =>
            exists y, In y (evaluated_orders Sample.v Sample.db (ofe.user_id r)) /\
              o.order_number y <= ofe.order_number r /\
              (ofe.same_day_as_last_order r = 1 <->
               ofe.order_dow r = o.order_dow y)
        | None => ofe.same_day_as_last_order r = 0
        end
  | Raise _ => False
  end.
Proof.
  destruct (ofe.model Sample.v Sample.db) as [t|e] eqn:E;
    [|vm_compute in E; discriminate].
  intros r Hr.
  assert (Hnd : NoDup (map o.order_id (orders Sample.db))).
  { cbn. repeat (constructor; [cbn; intuition lia|]). constructor. }
  pose proof (time_flags_compare_with_previous_order
                Sample.v Sample.db t r Hnd E Hr) as H.
  destruct (ofe.basket_size_delta r) as [d|].
  - destruct H as (y & Hy & _ & Hn & _ & _ & Hday & _). exists y. auto.
  - exact (proj1 (proj2 H)).
Defined.

End OrderFeatureFacts.

(* ------------------------------------------------------------------------- *)
(** ** UserProductFeatures: what it joins and how it counts recency *)

Module UserProductFacts.
Import SQL SQLFacts DivisionFacts WindowFacts KeyFacts DayPartFacts
  NumberingFacts UserOrderFacts.
Module upm := int_instacart__user_product_metrics.
Module uf := instacart__user_features.
Module pfm := instacart__product_features.
Module upf := instacart__user_product_features.

(** A row of UserProductFeatures and the rows it is joined from. *)
Lemma user_product_features_row v db t r :
  upf.model v db = Ok t -> In r t ->
  exists upms ufs pfs a b c lp,
    upm.model v db = Ok upms /\ uf.model v db = Ok ufs /\
    pfm.model v db = Ok pfs /\
    In a upms /\ In b ufs /\ In c pfs /\
    upm.user_id a = uf.user_id b /\ upm.product_id a = pfm.product_id c /\
    match lp with
    | Some x => In x (upf.last_purchase v db) /\
                upm.user_id a = upf.lp.user_id x /\
                upm.product_id a = upf.lp.product_id x
    | None => forall x, In x (upf.last_purchase v db) ->
                ~ (upm.user_id a = upf.lp.user_id x /\
                   upm.product_id a = upf.lp.product_id x)
    end /\
    upf.user_id r = upm.user_id a /\
    upf.product_id r = upm.product_id a /\
    upf.up_orders r = upm.up_orders a /\
    upf.last_purchase_order_number r =
      option_map upf.lp.last_purchase_order_number lp /\
    upf.orders_since_last_purchase r =
      sub (uf.user_total_orders b)
          (option_map upf.lp.last_purchase_order_number lp).
Proof.
  unfold upf.model, upf.final. intros Ht Hr.
  apply bind_ok in Ht as (upms & Hupm & Ht).
  apply bind_ok in Ht as (ufs & Huf & Ht).
  apply bind_ok in Ht as (pfs & Hpf & Ht). cbv zeta in Ht.
  apply bind_ok in Ht as (upns & _ & Ht). injection Ht as <-.
  apply in_map_iff in Hr
    as ([[[[[[[a b] c] lp] uptp] upn] ddp] dd] & <- & Hj).
  apply left_join_In in Hj as [Hj _].
  apply left_join_In in Hj as [Hj _].
  apply left_join_In in Hj as [Hj _].
  apply left_join_In in Hj as [Hj _].
  apply left_join_In in Hj as [Hj Hlp].
  apply inner_join_In in Hj as (Hj & Hc & Ec).
  apply inner_join_In in Hj as (Ha & Hb & Eb).
  apply eqb_true in Ec, Eb.
  unfold upf.product_features in Hc.
  apply in_map_iff in Hc as (c' & <- & Hc). cbn in Ec.
  exists upms, ufs, pfs, a, b, c', lp.
  repeat (split; [assumption|]).
  split.
  { destruct lp as [x|].
    - destruct Hlp as [Hx Ex]. apply andb_true_iff in Ex as [E1 E2].
      apply eqb_true in E1, E2. auto.
    - intros x Hx [E1 E2]. specialize (Hlp x Hx).
      apply andb_false_iff in Hlp as [E|E]; apply eqb_false in E; auto. }
  cbn. repeat split; reflexivity.
Qed.

Lemma purchases_of_In v db u p x :
  In x (purchases_of v db u p) <->
  In x (upf.purchases v db) /\ o.user_id (fst x) = u /\
  op.product_id (snd x) = p.
Proof.
  unfold purchases_of. rewrite filter_In, eqb_true. split.
  - intros [H E]. injection E as E1 E2. auto.
  - intros (H & E1 & E2). split; [exact H|congruence].
Qed.

(** A pair of the user-product metrics has a purchase. *)
Lemma user_product_metrics_source v db upms a :
  upm.model v db = Ok upms -> In a upms ->
  exists x, In x (purchases_of v db (upm.user_id a) (upm.product_id a)).
Proof.
  unfold upm.model, upm.user_product_metrics. intros Hm Ha.
  destruct (select_rows _ _ _ Hm) as [Hfrom _].
  destruct (Hfrom a Ha) as ([[u p] rows] & Hg & E).
  cbv zeta in E. apply bind_ok in E as (q & _ & E). injection E as <-.
  apply group_by_In in Hg as [Hk _].
  apply in_map_iff in Hk as (x & Ek & Hx). injection Ek as Eu Ep.
  exists x. apply purchases_of_In. cbn. auto.
Qed.

Lemma user_product_metrics_of_purchase v db upms u p :
  upm.model v db = Ok upms -> purchases_of v db u p <> [] ->
  exists a, In a upms /\ upm.user_id a = u /\ upm.product_id a = p.
Proof.
  unfold upm.model, upm.user_product_metrics. intros Hm Hne.
  destruct (purchases_of v db u p) as [|x xs] eqn:E; [congruence|].
  assert (Hx : In x (purchases_of v db u p)) by (rewrite E; left; reflexivity).
  apply purchases_of_In in Hx as (Hx & Eu & Ep).
  destruct (select_rows _ _ _ Hm) as [_ Hto].
  match type of Hto with
  | forall a, In a (group_by ?key ?J) -> _ =>
      assert (Hg : In ((u, p), filter (fun r => eqb (key r) (u, p)) J)
                      (group_by key J))
  end.
  { apply group_by_In. split; [|reflexivity].
    apply in_map_iff. exists x. split; [congruence|exact Hx]. }
  destruct (Hto _ Hg) as (b & Hb & Eb).
  cbv zeta in Eb. apply bind_ok in Eb as (q & _ & Eb). injection Eb as <-.
  eexists. split; [exact Hb|]. cbn. auto.
Qed.

(** X15.  UserProductFeatures has a row for a (user, product) pair exactly
    when the user bought the product in the evaluation partition, the user
    has a row in UserFeatures and the product has a row in
    ProductFeatures; the inner joins drop the other pairs without
    notice. *)
Theorem user_product_pairs v db t :
  upf.model v db = Ok t ->
  exists ufs pfs,
    uf.model v db = Ok ufs /\ pfm.model v db = Ok pfs /\
    forall u p,
      In (u, p) (map (fun r => (upf.user_id r, upf.product_id r)) t) <->
      purchases_of v db u p <> [] /\
      In u (map uf.user_id ufs) /\ In p (map pfm.product_id pfs).
Proof.
  intros Ht. pose proof Ht as Ht'.
  unfold upf.model, upf.final in Ht'.
  apply bind_ok in Ht' as (upms & Hupm & Ht').
  apply bind_ok in Ht' as (ufs & Huf & Ht').
  apply bind_ok in Ht' as (pfs & Hpf & Ht'). cbv zeta in Ht'.
  apply bind_ok in Ht' as (upns & _ & Ht'). injection Ht' as Ht'.
  exists ufs, pfs. split; [exact Huf|]. split; [exact Hpf|].
  intros u p. split.
  - intros Hin. apply in_map_iff in Hin as (r & E & Hr). injection E as <- <-.
    destruct (user_product_features_row v db t r Ht Hr)
      as (upms' & ufs' & pfs' & a & b & c & lp & Hupm' & Huf' & Hpf' & Ha & Hb
          & Hc & Eb & Ec & _ & Eu & Ep & _).
    rewrite Hupm in Hupm'. injection Hupm' as <-.
    rewrite Huf in Huf'. injection Huf' as <-.
    rewrite Hpf in Hpf'. injection Hpf' as <-.
    destruct (user_product_metrics_source v db upms a Hupm Ha) as [x Hx].
    rewrite Eu, Ep. split.
    + intros E. rewrite E in Hx. exact Hx.
    + rewrite Eb, Ec. split; apply in_map; assumption.
  - intros (Hne & Hu & Hp).
    destruct (user_product_metrics_of_purchase v db upms u p Hupm Hne)
      as (a & Ha & Eu & Ep).
    apply in_map_iff in Hu as (b & Eb & Hb).
    apply in_map_iff in Hp as (c & Ec & Hc).
    assert (Hj : In (a, b,
                     {| upf.pf.product_id := pfm.product_id c;
                        upf.pf.product_orders := pfm.product_orders c;
                        upf.pf.product_reorder_rate :=
                          pfm.product_reorder_rate c |})
                   (inner_join
                      (fun '(upm, _) (pf : upf.pf.row) =>
                         eqb (upm.product_id upm) (upf.pf.product_id pf))
                      (inner_join
                         (fun (upm : upm.row) (uf : uf.row) =>
                            eqb (upm.user_id upm) (uf.user_id uf))
                         upms ufs)
                      (upf.product_features pfs))).
    { apply inner_join_In. split; [|split].
      - apply inner_join_In. repeat split; auto. apply eqb_true. congruence.
      - unfold upf.product_features. apply in_map_iff. eauto.
      - apply eqb_true. cbn. congruence. }
    destruct (ScenarioFacts.left_join_covers
                (fun '(upm, _, _) (lp : upf.lp.row) =>
                   eqb (upm.user_id upm) (upf.lp.user_id lp)
                   && eqb (upm.product_id upm) (upf.lp.product_id lp))
                _ (upf.last_purchase v db) _ Hj) as [x1 H1].
    destruct (ScenarioFacts.left_join_covers
                (fun '(upm, _, _, _) (uptp : upf.uptp.row) =>
                   eqb (upm.user_id upm) (upf.uptp.user_id uptp)
                   && eqb (upm.product_id upm) (upf.uptp.product_id uptp))
                _ (upf.user_product_time_patterns v db) _ H1) as [x2 H2].
    destruct (ScenarioFacts.left_join_covers
                (fun '(upm, _, _, _, _) (upn : upf.upn.row) =>
                   eqb (upm.user_id upm) (upf.upn.user_id upn)
                   && eqb (upm.product_id upm) (upf.upn.product_id upn))
                _ upns _ H2) as [x3 H3].
    destruct (ScenarioFacts.left_join_covers
                (fun '(upm, _, _, _, _, _) (ddp : upf.ddp.row) =>
                   eqb (upm.user_id upm) (upf.ddp.user_id ddp)
                   && eqb (upm.product_id upm) (upf.ddp.product_id ddp))
                _ (upf.dominant_day_parts v db) _ H3) as [x4 H4].
    destruct (ScenarioFacts.left_join_covers
                (fun '(upm, _, _, _, _, _, _) (dd : upf.dd.row) =>
                   eqb (upm.user_id upm) (upf.dd.user_id dd)
                   && eqb (upm.product_id upm) (upf.dd.product_id dd))
                _ (upf.dominant_dows v db) _ H4) as [x5 H5].
    rewrite <- Ht'. rewrite map_map. apply in_map_iff.
    eexists. split; [|exact H5]. cbn. congruence.
Qed.

Lemma user_product_pairs_witness :
  match upf.model Sample.v Sample.db with
  | Ok t => exists ufs, uf.model Sample.v Sample.db = Ok ufs
  | Raise _ => False
  end.
Proof.
  destruct (upf.model Sample.v Sample.db) as [t|e] eqn:E;
    [|vm_compute in E; discriminate].
  destruct (user_product_pairs Sample.v Sample.db t E)
    as (ufs & pfs & Hu & _).
  exists ufs. exact Hu.
Defined.

(** The row of [last_purchase] of a pair is a purchase of the pair with the
    highest order number. *)
Lemma last_purchase_row v db lp :
  In lp (upf.last_purchase v db) ->
  exists x,
    In x (purchases_of v db (upf.lp.user_id lp) (upf.lp.product_id lp)) /\
    upf.lp.last_purchase_order_number lp = o.order_number (fst x) /\
    forall y,
      In y (purchases_of v db (upf.lp.user_id lp) (upf.lp.product_id lp)) ->
      o.order_number (fst y) <= o.order_number (fst x).
Proof.
  unfold upf.last_purchase, upf.user_product_recency. intros Hlp.
  apply in_map_iff in Hlp as ([x n] & <- & Hx).
  apply first_row_is_greatest in Hx as (_ & Hin & Hmax). cbn [fst snd] in *.
  exists x. cbn. split; [apply purchases_of_In; auto|]. split; [reflexivity|].
  intros y Hy. apply purchases_of_In in Hy as (Hy & Eu & Ep).
  apply Hmax; [exact Hy|congruence].
Qed.

Lemma last_purchase_exists v db u p x :
  In x (purchases_of v db u p) ->
  exists lp, In lp (upf.last_purchase v db) /\
             upf.lp.user_id lp = u /\ upf.lp.product_id lp = p.
Proof.
  intros Hx. apply purchases_of_In in Hx as (Hx & Eu & Ep).
  destruct (first_row_exists
              (fun r : o.row * op.row => (o.user_id (fst r), op.product_id (snd r)))
              (desc (fun r : o.row * op.row => o.order_number (fst r)))
              (upf.purchases v db) x Hx) as ([y n] & Hy & Ek).
  cbn [fst] in Ek. injection Ek as E1 E2.
  eexists. split.
  - unfold upf.last_purchase, upf.user_product_recency.
    apply in_map_iff. exists (y, n). split; [reflexivity|exact Hy].
  - cbn. split; congruence.
Qed.

(** X16.  In UserProductFeatures [last_purchase_order_number] is never
    NULL: it is the highest order number among the user's orders of the
    evaluation partition that contain the product.
    [orders_since_last_purchase] is the distance from there to the user's
    highest order number in the partition, and is never negative. *)
Theorem last_purchase_is_most_recent v db t r :
  upf.model v db = Ok t -> In r t ->
  exists x z,
    In x (purchases_of v db (upf.user_id r) (upf.product_id r)) /\
    (forall y, In y (purchases_of v db (upf.user_id r) (upf.product_id r)) ->
               o.order_number (fst y) <= o.order_number (fst x)) /\
    In z (evaluated_orders v db (upf.user_id r)) /\
    (forall y, In y (evaluated_orders v db (upf.user_id r)) ->
               o.order_number y <= o.order_number z) /\
    upf.last_purchase_order_number r = Some (o.order_number (fst x)) /\
    upf.orders_since_last_purchase r =
      Some (o.order_number z - o.order_number (fst x)) /\
    0 <= o.order_number z - o.order_number (fst x).
Proof.
  intros Ht Hr.
  destruct (user_product_features_row v db t r Ht Hr)
    as (upms & ufs & pfs & a & b & c & lp & Hupm & Huf & _ & Ha & Hb & _
        & Eb & _ & Hlp & Eu & Ep & _ & Elp & Esince).
  destruct (user_product_metrics_source v db upms a Hupm Ha) as [x0 Hx0].
  destruct lp as [l|].
  2:{ exfalso. destruct (last_purchase_exists v db _ _ x0 Hx0)
        as (l & Hl & E1 & E2).
      apply (Hlp l Hl). auto. }
  destruct Hlp as (Hl & E1 & E2).
  destruct (last_purchase_row v db l Hl) as (x & Hx & En & Hmax).
  rewrite <- E1, <- E2, <- Eu, <- Ep in Hx, Hmax.
  destruct (UserFeatureFacts.user_features_row v db ufs b Huf Hb)
    as (ums & rss & a' & _ & _ & _ & Hum & _ & Ha' & _ & _ & _ & Ea' & _ & _
        & _ & Etot & _).
  destruct (user_metrics_highest v db ums a' Hum Ha')
    as (z & Hz & Hv & _ & Hle).
  rewrite Ea', <- Eb, <- Eu in Hz, Hle.
  exists x, z. split; [exact Hx|]. split; [exact Hmax|].
  split; [exact Hz|]. split; [exact Hle|].
  rewrite Elp, Esince, Etot, Hv. cbn [option_map sub]. rewrite En.
  split; [reflexivity|]. split; [reflexivity|].
  assert (Hin : In (fst x) (evaluated_orders v db (upf.user_id r))).
  { apply purchases_of_In in Hx as (Hx & Exu & _).
    unfold upf.purchases in Hx. destruct x as [xo xl].
    apply inner_join_In in Hx as (Hx & _ & _).
    unfold upf.orders in Hx. apply filter_In in Hx as [Hx He].
    apply evaluated_orders_In. auto. }
  specialize (Hle _ Hin). lia.
Qed.

Lemma last_purchase_is_most_recent_witness :
  match upf.model Sample.v Sample.db with
  | Ok t => forall r, In r t ->
              exists d, upf.orders_since_last_purchase r = Some d /\ 0 <= d
  | Raise _ => False
  end.
Proof.
  destruct (upf.model Sample.v Sample.db) as [t|e] eqn:E;
    [|vm_compute in E; discriminate].
  intros r Hr.
  destruct (last_purchase_is_most_recent Sample.v Sample.db t r E Hr)
    as (x & z & _ & _ & _ & _ & _ & Hd & Hpos).
  eexists. split; [exact Hd|exact Hpos].
Defined.

(** The time-pattern side of a row of UserProductFeatures. *)
Lemma user_product_features_patterns v db t r :
  upf.model v db = Ok t -> In r t ->
  exists upms a uptp ddp dd,
    upm.model v db = Ok upms /\ In a upms /\
    upf.user_id r = upm.user_id a /\ upf.product_id r = upm.product_id a /\
    match uptp with
    | Some x => In x (upf.user_product_time_patterns v db) /\
                upm.user_id a = upf.uptp.user_id x /\
                upm.product_id a = upf.uptp.product_id x
    | None => forall x, In x (upf.user_product_time_patterns v db) ->
                ~ (upm.user_id a = upf.uptp.user_id x /\
                   upm.product_id a = upf.uptp.product_id x)
    end /\
    match ddp with
    | Some x => In x (upf.dominant_day_parts v db) /\
                upm.user_id a = upf.ddp.user_id x /\
                upm.product_id a = upf.ddp.product_id x
    | None => forall x, In x (upf.dominant_day_parts v db) ->
                ~ (upm.user_id a = upf.ddp.user_id x /\
                   upm.product_id a = upf.ddp.product_id x)
    end /\
    match dd with
    | Some x => In x (upf.dominant_dows v db) /\
                upm.user_id a = upf.dd.user_id x /\
                upm.product_id a = upf.dd.product_id x
    | None => forall x, In x (upf.dominant_dows v db) ->
                ~ (upm.user_id a = upf.dd.user_id x /\
                   upm.product_id a = upf.dd.product_id x)
    end /\
    upf.dominant_day_part r = option_map upf.ddp.dominant_day_part ddp /\
    upf.dominant_dow r = option_map upf.dd.dominant_dow dd /\
    upf.morning_purchases r = upf.col uptp upf.uptp.morning_purchases /\
    upf.midday_purchases r = upf.col uptp upf.uptp.midday_purchases /\
    upf.evening_purchases r = upf.col uptp upf.uptp.evening_purchases /\
    upf.night_purchases r = upf.col uptp upf.uptp.night_purchases.
Proof.
  unfold upf.model, upf.final. intros Ht Hr.
  apply bind_ok in Ht as (upms & Hupm & Ht).
  apply bind_ok in Ht as (ufs & Huf & Ht).
  apply bind_ok in Ht as (pfs & Hpf & Ht). cbv zeta in Ht.
  apply bind_ok in Ht as (upns & _ & Ht). injection Ht as <-.
  apply in_map_iff in Hr
    as ([[[[[[[a b] c] lp] uptp] upn] ddp] dd] & <- & Hj).
  apply left_join_In in Hj as [Hj Hdd].
  apply left_join_In in Hj as [Hj Hddp].
  apply left_join_In in Hj as [Hj _].
  apply left_join_In in Hj as [Hj Huptp].
  apply left_join_In in Hj as [Hj _].
  apply inner_join_In in Hj as (Hj & _ & _).
  apply inner_join_In in Hj as (Ha & _ & _).
  exists upms, a, uptp, ddp, dd.
  split; [exact Hupm|]. split; [exact Ha|].
  split; [reflexivity|]. split; [reflexivity|].
  split.
  { destruct uptp as [x|].
    - destruct Huptp as [Hx Ex]. apply andb_true_iff in Ex as [E1 E2].
      apply eqb_true in E1, E2. auto.
    - intros x Hx [E1 E2]. specialize (Huptp x Hx).
      apply andb_false_iff in Huptp as [E|E]; apply eqb_false in E; auto. }
  split.
  { destruct ddp as [x|].
    - destruct Hddp as [Hx Ex]. apply andb_true_iff in Ex as [E1 E2].
      apply eqb_true in E1, E2. auto.
    - intros x Hx [E1 E2]. specialize (Hddp x Hx).
      apply andb_false_iff in Hddp as [E|E]; apply eqb_false in E; auto. }
  split.
  { destruct dd as [x|].
    - destruct Hdd as [Hx Ex]. apply andb_true_iff in Ex as [E1 E2].
      apply eqb_true in E1, E2. auto.
    - intros x Hx [E1 E2]. specialize (Hdd x Hx).
      apply andb_false_iff in Hdd as [E|E]; apply eqb_false in E; auto. }
  cbn. repeat split; reflexivity.
Qed.

Lemma time_patterns_exist v db u p x :
  In x (purchases_of v db u p) ->
  exists y, In y (upf.user_product_time_patterns v db) /\
            upf.uptp.user_id y = u /\ upf.uptp.product_id y = p.
Proof.
  intros Hx. apply purchases_of_In in Hx as (Hx & Eu & Ep).
  eexists. split.
  - unfold upf.user_product_time_patterns. apply in_map_iff.
    eexists ((u, p), _). split; [reflexivity|].
    apply group_by_In. split; [|reflexivity].
    apply in_map_iff. exists x. split; [congruence|exact Hx].
  - cbn. auto.
Qed.

Lemma dominant_dow_range (y : upf.uptp.row) : 0 <= upf.dominant_dow_of y <= 6.
Proof.
  unfold upf.dominant_dow_of. cbv zeta.
  repeat match goal with
         | |- context [if ?b then _ else _] => destruct b
         end; lia.
Qed.

Lemma dominant_day_part_label (y : upf.uptp.row) :
  In (upf.dominant_day_part_of y) [morning; midday; evening; night].
Proof.
  unfold upf.dominant_day_part_of. cbv zeta.
  repeat match goal with
         | |- context [if ?b then _ else _] => destruct b
         end; cbn; auto.
Qed.

(** X18.  The left joins of UserProductFeatures always find their row:
    for every row the four day-part counts are non-NULL,
    [dominant_day_part] is one of the four labels and [dominant_dow] is a
    day between 0 and 6, both computed from the time patterns of the pair
    itself. *)
Theorem time_patterns_are_never_null v db t r :
  upf.model v db = Ok t -> In r t ->
  exists y m mi e n,
    In y (upf.user_product_time_patterns v db) /\
    upf.uptp.user_id y = upf.user_id r /\
    upf.uptp.product_id y = upf.product_id r /\
    upf.morning_purchases r = Some m /\ upf.midday_purchases r = Some mi /\
    upf.evening_purchases r = Some e /\ upf.night_purchases r = Some n /\
    upf.dominant_day_part r = Some (upf.dominant_day_part_of y) /\
    In (upf.dominant_day_part_of y) [morning; midday; evening; night] /\
    upf.dominant_dow r = Some (upf.dominant_dow_of y) /\
    0 <= upf.dominant_dow_of y <= 6.
Proof.
  intros Ht Hr.
  destruct (user_product_features_patterns v db t r Ht Hr)
    as (upms & a & uptp & ddp & dd & Hupm & Ha & Eu & Ep & Huptp & Hddp & Hdd
        & Eddp & Edd & Em & Emi & Ee & En).
  destruct (user_product_metrics_source v db upms a Hupm Ha) as [x0 Hx0].
  destruct (time_patterns_exist v db _ _ x0 Hx0) as (y & Hy & Eyu & Eyp).
  pose proof (FeatureKeys.time_patterns_keys v db) as Hkeys.
  assert (Hsame : forall y', In y' (upf.user_product_time_patterns v db) ->
            upm.user_id a = upf.uptp.user_id y' ->
            upm.product_id a = upf.uptp.product_id y' -> y' = y).
  { intros y' Hy' E1 E2.
    apply (NoDup_key_inj
             (fun r => (upf.uptp.user_id r, upf.uptp.product_id r))
             (upf.user_product_time_patterns v db)); auto. congruence. }
  destruct uptp as [y1|]; [|exfalso; apply (Huptp y Hy); auto].
  destruct Huptp as (Hy1 & E1 & E2).
  rewrite (Hsame y1 Hy1 E1 E2) in *. clear Hy1 E1 E2.
  destruct ddp as [q|].
  2:{ exfalso. apply (Hddp {| upf.ddp.user_id := upf.uptp.user_id y;
                             upf.ddp.product_id := upf.uptp.product_id y;
                             upf.ddp.dominant_day_part :=
                               upf.dominant_day_part_of y |}).
      - unfold upf.dominant_day_parts. apply in_map_iff. eauto.
      - cbn. auto. }
  destruct Hddp as (Hq & E1 & E2).
  unfold upf.dominant_day_parts in Hq.
  apply in_map_iff in Hq as (y2 & <- & Hy2). cbn in E1, E2.
  rewrite (Hsame y2 Hy2 E1 E2) in *. clear Hy2 E1 E2.
  destruct dd as [q|].
  2:{ exfalso. apply (Hdd {| upf.dd.user_id := upf.uptp.user_id y;
                            upf.dd.product_id := upf.uptp.product_id y;
                            upf.dd.dominant_dow := upf.dominant_dow_of y |}).
      - unfold upf.dominant_dows. apply in_map_iff. eauto.
      - cbn. auto. }
  destruct Hdd as (Hq & E1 & E2).
  unfold upf.dominant_dows in Hq.
  apply in_map_iff in Hq as (y3 & <- & Hy3). cbn in E1, E2.
  rewrite (Hsame y3 Hy3 E1 E2) in *. clear Hy3 E1 E2.
  destruct (time_patterns_row v db y Hy)
    as (rows & _ & Hne & _ & _ & _ & _ & _ & _ & _ & Hm & Hmi & He & Hn).
  rewrite count_when_some in Hm by exact Hne.
  rewrite count_when_some in Hmi by exact Hne.
  rewrite count_when_some in He by exact Hne.
  rewrite count_when_some in Hn by exact Hne.
  cbn [upf.col] in Em, Emi, Ee, En. cbn [option_map] in Eddp, Edd.
  exists y. do 4 eexists.
  split; [exact Hy|]. split; [congruence|]. split; [congruence|].
  split; [rewrite Em; exact Hm|]. split; [rewrite Emi; exact Hmi|].
  split; [rewrite Ee; exact He|]. split; [rewrite En; exact Hn|].
  split; [exact Eddp|]. split; [apply dominant_day_part_label|].
  split; [exact Edd|apply dominant_dow_range].
Qed.

Lemma time_patterns_are_never_null_witness :
  match upf.model Sample.v Sample.db with
  | Ok t => forall r, In r t ->
              exists l k, upf.dominant_day_part r = Some l /\
                          upf.dominant_dow r = Some k /\ 0 <= k <= 6
  | Raise _ => False
  end.
Proof.
  destruct (upf.model Sample.v Sample.db) as [t|e] eqn:E;
    [|vm_compute in E; discriminate].
  intros r Hr.
  destruct (time_patterns_are_never_null Sample.v Sample.db t r E Hr)
    as (y & m & mi & e & n & _ & _ & _ & _ & _ & _ & _ & Hl & _ & Hk & Hrange).
  eauto.
Defined.

End UserProductFacts.

(* ------------------------------------------------------------------------- *)
(** ** The reorder rate of a user *)

Module ReorderRateFacts.
Import SQL SQLFacts DivisionFacts WindowFacts KeyFacts DayPartFacts
  UserOrderFacts UserFeatureFacts.

Lemma zsum_flags_bounds {A} (f : A -> Z) (l : list A) :
  (forall x, In x l -> f x = 0 \/ f x = 1) ->
  0 <= zsum (map f l) <= Z.of_nat (length l).
Proof.
  induction l as [|a l IH]; intros Hf; cbn [map length]; [cbn; lia|].
  assert (Ha : f a = 0 \/ f a = 1) by (apply Hf; left; reflexivity).
  assert (Hl : 0 <= zsum (map f l) <= Z.of_nat (length l))
    by (apply IH; intros; apply Hf; right; assumption).
  change (zsum (f a :: map f l)) with (f a + zsum (map f l)). lia.
Qed.

(** X17.  When every order line carries a 0/1 reorder flag,
    [total_reordered_products] of UserFeatures lies between 0 and the
    number of order lines of the user, which is at least 1, and
    [reorder_rate] is their quotient, a fraction between 0 and 1 that is
    never NULL. *)
Theorem user_reorder_rate_is_a_fraction v db t r :
  (forall l, In l (order_products db) ->
             op.is_reordered l = 0 \/ op.is_reordered l = 1) ->
  uf.model v db = Ok t -> In r t ->
  exists n,
    uf.total_reordered_products r = Some n /\
    0 <= n <= lines_of_user v db (uf.user_id r) /\
    0 < lines_of_user v db (uf.user_id r) /\
    uf.reorder_rate r =
      Some (Qred (inject_Z n / inject_Z (lines_of_user v db (uf.user_id r)))) /\
    (0 <= Qred (inject_Z n / inject_Z (lines_of_user v db (uf.user_id r)))
     <= 1)%Q.
Proof.
  intros Hflags Ht Hr.
  destruct (user_features_row v db t r Ht Hr)
    as (ums & rss & a & b & c & d & _ & Hrs & _ & _ & Hc & _ & _ & _ & Ec & _
        & _ & _ & Etot & Erate & _).
  rewrite Etot, Erate, <- Ec. clear Etot Erate.
  unfold uf.reorder_stats in Hrs.
  destruct (select_rows _ _ _ Hrs) as [Hfrom _].
  destruct (Hfrom c Hc) as ([u rows] & Hg & E).
  pose proof (group_rows_nonempty _ _ _ Hg) as Hne.
  apply group_by_In in Hg as [_ Hrows]. cbn [fst snd] in *.
  cbv zeta in E. apply bind_ok in E as (q & Hq & E). injection E as <-.
  cbn [uf.rs.user_id uf.rs.total_reordered_products uf.rs.reorder_rate].
  assert (Hlen : lines_of_user v db u = Z.of_nat (length rows))
    by (unfold lines_of_user, count_star; rewrite Hrows; reflexivity).
  assert (Hpos : 0 < Z.of_nat (length rows))
    by (destruct rows; [congruence|cbn [length]; lia]).
  assert (Hsum : sum (map (fun r : o.row * op.row =>
                             Some (op.is_reordered (snd r))) rows) =
                 Some (zsum (map (fun r : o.row * op.row =>
                                    op.is_reordered (snd r)) rows))).
  { unfold sum. rewrite non_null_map_Some.
    destruct rows; [congruence|reflexivity]. }
  assert (Hb : 0 <= zsum (map (fun r : o.row * op.row =>
                                 op.is_reordered (snd r)) rows)
               <= Z.of_nat (length rows)).
  { apply zsum_flags_bounds. intros [x l] Hx. cbn [snd]. apply Hflags.
    rewrite Hrows in Hx. apply filter_In in Hx as [Hx _].
    apply filter_In in Hx as [Hx _].
    apply inner_join_In in Hx as (_ & Hl & _). exact Hl. }
  rewrite Hsum in *. rewrite Hlen.
  unfold count in Hq. rewrite non_null_map_Some, length_map in Hq.
  rewrite OrderFeatureFacts.nullif_count in Hq.
  destruct (Z.of_nat (length rows) =? 0) eqn:Ez;
    [apply Z.eqb_eq in Ez; lia|].
  cbn [numq option_map] in Hq.
  rewrite ProductFacts.div_nonzero in Hq by lia. injection Hq as <-.
  eexists. split; [reflexivity|]. split; [exact Hb|]. split; [exact Hpos|].
  split; [reflexivity|].
  apply OrderFeatureFacts.fraction_bounds; lia.
Qed.

Lemma user_reorder_rate_is_a_fraction_witness :
  match uf.model Sample.v Sample.db with
  | Ok t => forall r, In r t ->
              exists n, uf.total_reordered_products r = Some n /\
                        0 <= n <= lines_of_user Sample.v Sample.db (uf.user_id r)
  | Raise _ => False
  end.
Proof.
  destruct (uf.model Sample.v Sample.db) as [t|e] eqn:E;
    [|vm_compute in E; discriminate].
  intros r Hr.
  destruct (user_reorder_rate_is_a_fraction Sample.v Sample.db t r)
    as (n & Hn & Hb & _); auto.
  - intros l Hl. cbn in Hl.
    repeat (destruct Hl as [<-|Hl]; [cbn; auto|]). contradiction.
  - exists n. auto.
Defined.

End ReorderRateFacts.

(* ------------------------------------------------------------------------- *)
(** ** The average number of products per order *)

Module AverageFacts.
Import SQL SQLFacts DivisionFacts WindowFacts KeyFacts DayPartFacts
  UserOrderFacts UserFeatureFacts.

Lemma user_features_average v db t r :
  uf.model v db = Ok t -> In r t ->
  exists ums a b,
    um.model v db = Ok ums /\ In a ums /\ In b (uf.distinct_products v db) /\
    um.user_id a = uf.user_id r /\ uf.dp.user_id b = uf.user_id r /\
    uf.distinct_products_count r = uf.dp.distinct_products_count b /\
    div (num (uf.dp.distinct_products_count b))
        (nullif (num (um.total_orders a)) 0)
      = Ok (uf.avg_unique_products_per_order r).
Proof.
  unfold uf.model, uf.final, uf.user_metrics. intros Ht Hr.
  apply bind_ok in Ht as (ums & Hum & Ht).
  apply bind_ok in Ht as (rss & Hrs & Ht).
  destruct (select_rows _ _ _ Ht) as [Hfrom _].
  destruct (Hfrom r Hr) as ([[[a b] c] d] & Hj & E).
  apply bind_ok in E as (q & Hq & E). injection E as <-.
  apply inner_join_In in Hj as (Hj & _ & _).
  apply inner_join_In in Hj as (Hj & _ & _).
  apply inner_join_In in Hj as (Ha & Hb & Eb).
  apply eqb_true in Eb.
  exists ums, a, b. cbn. repeat split; auto.
Qed.

(** X20.  [avg_unique_products_per_order] divides two counts taken over
    different orders: the distinct products of all the user's orders of the
    evaluation partition, over the number of the user's orders numbered
    [min_orders] or more.  With unique order ids that number is at least 1
    and the value is never NULL. *)
Theorem avg_unique_products_mixes_order_sets v db t r :
  NoDup (map o.order_id (orders db)) ->
  uf.model v db = Ok t -> In r t ->
  uf.distinct_products_count r =
    count_distinct (map Some (products_of_user v db (uf.user_id r))) /\
  0 < count_star (kept_orders v db (uf.user_id r)) /\
  uf.avg_unique_products_per_order r =
    Some (Qred (inject_Z (uf.distinct_products_count r) /
                inject_Z (count_star (kept_orders v db (uf.user_id r))))).
Proof.
  intros Hnd Ht Hr.
  destruct (user_features_average v db t r Ht Hr)
    as (ums & a & b & Hum & Ha & Hb & Ea & Eb & Ec & Hq).
  pose proof (user_metrics_total_orders v db ums a Hnd Hum Ha) as Etot.
  rewrite Ea in Etot.
  assert (Hpos : 0 < count_star (kept_orders v db (uf.user_id r))).
  { assert (Hk : kept_orders v db (uf.user_id r) <> []).
    { apply (user_metrics_users v db ums _ Hum). rewrite <- Ea.
      apply in_map; exact Ha. }
    unfold count_star.
    destruct (kept_orders v db (uf.user_id r)); [congruence|cbn [length]; lia]. }
  split.
  { rewrite Ec. unfold uf.distinct_products in Hb.
    apply in_map_iff in Hb as ([u rows] & <- & Hg).
    apply group_by_In in Hg as [_ ->]. cbn in Eb |- *. subst u.
    unfold products_of_user. rewrite map_map. reflexivity. }
  split; [exact Hpos|].
  rewrite Etot, OrderFeatureFacts.nullif_count in Hq.
  destruct (count_star (kept_orders v db (uf.user_id r)) =? 0) eqn:Ez;
    [apply Z.eqb_eq in Ez; lia|].
  unfold num in Hq. rewrite ProductFacts.div_nonzero in Hq by lia.
  injection Hq as <-. rewrite Ec. reflexivity.
Qed.

Lemma avg_unique_products_mixes_order_sets_witness :
  match uf.model Sample.v Sample.db with
  | Ok t => forall r, In r t ->
              uf.avg_unique_products_per_order r =
              Some (Qred (inject_Z (uf.distinct_products_count r) /
                          inject_Z (count_star
                                      (kept_orders Sample.v Sample.db
                                                   (uf.user_id r)))))
  | Raise _ => False
  end.
Proof.
  destruct (uf.model Sample.v Sample.db) as [t|e] eqn:E;
    [|vm_compute in E; discriminate].
  intros r Hr.
  apply (avg_unique_products_mixes_order_sets Sample.v Sample.db t r); auto.
  cbn. repeat (constructor; [cbn; intuition lia|]). constructor.
Defined.

End AverageFacts.

(* ------------------------------------------------------------------------- *)
(** ** The window macro: one output row per source row *)

Module WindowMacroFacts.
Import SQL SQLFacts time_windows time_windows_facts.

Section FanOut.
Context {Row col KV : Type} `{EqDec col} `{EqDec KV}.
Variable key_val : col -> Row -> option KV.
Variable ts_val : col -> Row -> option Z.
Variable metric_val : col -> Row -> option Q.

Local Abbreviation generate :=
  (calculate_time_window_aggs key_val ts_val metric_val).

Lemma distinct_NoDup {X} `{EqDec X} (l : list X) :
  distinct l = true -> NoDup l.
Proof.
  induction l as [|x l IH]; cbn [distinct]; intros Hd; [constructor|].
  apply andb_prop in Hd as [Hx Hl]. constructor; [|auto].
  intros Hin. apply negb_true_iff in Hx.
  assert (Hex : existsb (eqb x) l = true)
    by (apply existsb_exists; exists x; split; [exact Hin|apply eqb_refl]).
  congruence.
Qed.

Lemma metric_columns_NoDup (ms : list col) (w : Z) :
  NoDup ms -> NoDup (flat_map (fun m => [sum_day m w; avg_day m w]) ms).
Proof.
  induction ms as [|m ms IH]; cbn [flat_map]; intros Hnd; [constructor|].
  inversion Hnd as [|? ? Hm Hms]; subst. cbn [app].
  assert (Hfresh : forall c,
            In c (flat_map (fun m => [sum_day m w; avg_day m w]) ms) ->
            c <> sum_day m w /\ c <> avg_day m w).
  { intros c Hc. apply in_flat_map in Hc as (m' & Hm' & [<-|[<-|[]]]);
      split; intros E; inversion E; subst; contradiction. }
  constructor.
  - intros [E|Hin]; [discriminate|]. apply Hfresh in Hin as [Hin _]. auto.
  - constructor; [|auto].
    intros Hin. apply Hfresh in Hin as [_ Hin]. auto.
Qed.

Lemma column_names_NoDup (ms : list col) (ws : list Z) :
  NoDup ms -> NoDup ws ->
  NoDup (flat_map (fun w => flat_map (fun m => [sum_day m w; avg_day m w]) ms)
                  ws).
Proof.
  intros Hms. induction ws as [|w ws IH]; cbn [flat_map]; intros Hws;
    [constructor|].
  inversion Hws as [|? ? Hw Hws']; subst.
  apply NoDup_app.
  - apply metric_columns_NoDup, Hms.
  - auto.
  - intros c Hc Hc'.
    apply in_flat_map in Hc as (m & _ & Hc).
    apply in_flat_map in Hc' as (w' & Hw' & Hc').
    apply in_flat_map in Hc' as (m' & _ & Hc').
    assert (w' = w); [|congruence].
    destruct Hc as [<-|[<-|[]]]; destruct Hc' as [E|[E|[]]];
      inversion E; reflexivity.
Qed.


End FanOut.


End WindowMacroFacts.

(* ------------------------------------------------------------------------- *)
(** ** The diversity of an order *)

Module DiversityFacts.
Import SQL SQLFacts DivisionFacts WindowFacts KeyFacts IntermediateKeys
  FeatureKeys DayPartFacts OrderFeatureFacts.

Lemma inner_join_filter_length {A B} (on : A -> B -> bool) (f : A -> bool)
  (l : list A) (r : list B) :
  (forall a, (length (filter (on a) r) <= 1)%nat) ->
  (length (filter (fun j => f (fst j)) (inner_join on l r))
   <= length (filter f l))%nat.
Proof.
  intros Hu. unfold inner_join.
  induction l as [|a l IH]; cbn [flat_map filter]; [cbn; lia|].
  rewrite filter_app, length_app.
  assert (Hblock : (length (filter (fun j : A * B => f (fst j))
                              (map (pair a) (filter (on a) r)))
                    <= if f a then 1 else 0)%nat).
  { destruct (f a) eqn:Ea.
    - rewrite filter_all by (intros j Hj; apply in_map_iff in Hj
                               as (b & <- & _); exact Ea).
      rewrite length_map. apply Hu.
    - rewrite (proj2 (filter_nil_iff _ _))
        by (intros j Hj; apply in_map_iff in Hj as (b & <- & _); exact Ea).
      cbn. lia. }
  destruct (f a); cbn [length] in *; lia.
Qed.

Lemma count_distinct_bounds {A B} `{EqDec B} (f : A -> B) (l : list A) :
  l <> [] ->
  1 <= count_distinct (map (fun x => Some (f x)) l) <= Z.of_nat (length l).
Proof.
  intros Hne. split; [apply ProductFacts.count_distinct_positive; exact Hne|].
  unfold count_distinct. rewrite non_null_map_Some.
  assert (Hle : (length (nodup eq_dec (map f l)) <= length (map f l))%nat).
  { apply NoDup_incl_length; [apply NoDup_nodup|].
    intros x Hx. apply nodup_In in Hx. exact Hx. }
  rewrite length_map in Hle. lia.
Qed.

(** The joined rows of an order in [product_diversity] are at most as many
    as its order lines. *)
Lemma diversity_rows_bound v db x :
  NoDup (map o.order_id (orders db)) ->
  NoDup (map p.product_id (products db)) ->
  In x (ofe.orders v db) ->
  Z.of_nat
    (length
       (filter (fun r : o.row * op.row * p.row =>
                  eqb (o.order_id (fst (fst r))) (o.order_id x))
          (inner_join
             (fun (r : o.row * op.row) p =>
                eqb (op.product_id (snd r)) (p.product_id p))
             (inner_join (fun o op => eqb (o.order_id o) (op.order_id op))
                (ofe.orders v db) (order_products db))
             (products db))))
  <= lines_of db x.
Proof.
  intros Hnd Hp Hx.
  pose proof (inner_join_filter_length
                (fun (r : o.row * op.row) p =>
                   eqb (op.product_id (snd r)) (p.product_id p))
                (fun r : o.row * op.row => eqb (o.order_id (fst r)) (o.order_id x))
                (inner_join (fun o op => eqb (o.order_id o) (op.order_id op))
                   (ofe.orders v db) (order_products db))
                (products db)) as Hlen.
  cbn beta in Hlen.
  assert (Hu : forall a : o.row * op.row,
            (length (filter (fun p => eqb (op.product_id (snd a)) (p.product_id p))
                            (products db)) <= 1)%nat).
  { apply (unique_match p.product_id (fun a : o.row * op.row =>
                                        op.product_id (snd a))); [exact Hp|].
    intros a b E. apply eqb_true in E. auto. }
  specialize (Hlen Hu).
  assert (Hblock : filter (fun r : o.row * op.row =>
                             eqb (o.order_id (fst r)) (o.order_id x))
                     (inner_join (fun o op => eqb (o.order_id o) (op.order_id op))
                        (ofe.orders v db) (order_products db))
                   = map (pair x)
                       (filter (fun l => eqb (o.order_id x) (op.order_id l))
                               (order_products db))).
  { unfold inner_join.
    apply (ScenarioFacts.flat_map_rows_of
             (fun a => map (pair a)
                         (filter (fun l => eqb (o.order_id a) (op.order_id l))
                                 (order_products db)))
             fst o.order_id (ofe.orders v db) x).
    - intros a b Hb. apply in_map_iff in Hb as (l & <- & _). reflexivity.
    - apply (NoDup_map_inv o.order_id). apply filter_keys_NoDup; exact Hnd.
    - exact Hx.
    - intros a Ha E. unfold ofe.orders in Ha, Hx.
      apply filter_In in Ha as [Ha _]. apply filter_In in Hx as [Hx' _].
      apply (NoDup_key_inj o.order_id (orders db)); auto. }
  rewrite Hblock, length_map in Hlen.
  unfold lines_of, count_star. lia.
Qed.

(** X22.  With unique order ids and unique product ids in the catalogue,
    the aisle and department counts of an order lie between 1 and its
    basket size, and both diversity ratios are fractions between 0 and 1;
    they are NULL together, for an order none of whose lines has a product
    of the catalogue. *)
Theorem diversity_ratios_are_fractions v db t r :
  NoDup (map o.order_id (orders db)) ->
  NoDup (map p.product_id (products db)) ->
  ofe.model v db = Ok t -> In r t ->
  match ofe.unique_aisles r, ofe.unique_departments r with
  | Some ua, Some ud =>
      1 <= ua <= ofe.basket_size r /\ 1 <= ud <= ofe.basket_size r /\
      ofe.aisle_diversity_ratio r =
        Some (Qred (inject_Z ua / inject_Z (ofe.basket_size r))) /\
      ofe.department_diversity_ratio r =
        Some (Qred (inject_Z ud / inject_Z (ofe.basket_size r))) /\
      (0 <= Qred (inject_Z ua / inject_Z (ofe.basket_size r)) <= 1)%Q /\
      (0 <= Qred (inject_Z ud / inject_Z (ofe.basket_size r)) <= 1)%Q
  | None, None =>
      ofe.aisle_diversity_ratio r = None /\
      ofe.department_diversity_ratio r = None
  | _, _ => False
  end.
Proof.
  intros Hnd Hp Ht Hr.
  destruct (order_features_columns v db t r Ht Hr)
    as (oms & om & pom & pd & q1 & q2 & Hom & Hin & _ & Hpd & Hq1 & Hq2 & ->).
  cbn [ofe.unique_aisles ofe.unique_departments ofe.basket_size
       ofe.aisle_diversity_ratio ofe.department_diversity_ratio].
  destruct pd as [y|]; cbn [option_map] in *.
  2:{ cbn [numq option_map div] in Hq1, Hq2. split; congruence. }
  destruct Hpd as [Hy Ey].
  destruct (ScenarioFacts.order_metrics_rows v db oms Hnd Hom) as [_ Hfrom].
  destruct (Hfrom om Hin) as (x & Hx & Eid & _ & _ & Eb).
  unfold ofe.product_diversity in Hy.
  apply in_map_iff in Hy as ([i rows] & <- & Hg).
  pose proof (group_rows_nonempty _ _ _ Hg) as Hne.
  apply group_by_In in Hg as [_ Hrows]. cbn [fst snd] in *.
  cbn [ofe.pd.order_id ofe.pd.unique_aisles ofe.pd.unique_departments] in *.
  assert (Hlen : Z.of_nat (length rows) <= ofe.om.basket_size om).
  { rewrite Eb, Hrows. rewrite <- Ey, Eid.
    apply diversity_rows_bound; assumption. }
  pose proof (count_distinct_bounds
                (fun r : o.row * op.row * p.row => p.aisle_id (snd r))
                rows Hne) as Ha.
  pose proof (count_distinct_bounds
                (fun r : o.row * op.row * p.row => p.department_id (snd r))
                rows Hne) as Hd.
  set (ua := count_distinct (map (fun r : o.row * op.row * p.row =>
                                    Some (p.aisle_id (snd r))) rows)) in *.
  set (ud := count_distinct (map (fun r : o.row * op.row * p.row =>
                                    Some (p.department_id (snd r))) rows)) in *.
  rewrite nullif_count in Hq1, Hq2.
  destruct (ofe.om.basket_size om =? 0) eqn:Ez;
    [apply Z.eqb_eq in Ez; lia|].
  cbn [numq option_map] in Hq1, Hq2.
  rewrite ProductFacts.div_nonzero in Hq1, Hq2 by lia.
  injection Hq1 as <-. injection Hq2 as <-.
  split; [lia|]. split; [lia|]. split; [reflexivity|]. split; [reflexivity|].
  split; apply fraction_bounds; lia.
Qed.

Lemma diversity_ratios_are_fractions_witness :
  match ofe.model Sample.v Sample.db with
  | Ok t => forall r, In r t ->
              match ofe.unique_aisles r with
              | Some ua => 1 <= ua <= ofe.basket_size r
              | None => ofe.aisle_diversity_ratio r = None
              end
  | Raise _ => False
  end.
Proof.
  destruct (ofe.model Sample.v Sample.db) as [t|e] eqn:E;
    [|vm_compute in E; discriminate].
  intros r Hr.
  assert (Hnd : NoDup (map o.order_id (orders Sample.db))).
  { cbn. repeat (constructor; [cbn; intuition lia|]). constructor. }
  assert (Hp : NoDup (map p.product_id (products Sample.db))).
  { cbn. repeat (constructor; [cbn; intuition lia|]). constructor. }
  pose proof (diversity_ratios_are_fractions Sample.v Sample.db t r Hnd Hp E Hr)
    as H.
  destruct (ofe.unique_aisles r) as [ua|], (ofe.unique_departments r) as [ud|];
    try contradiction; tauto.
Defined.

End DiversityFacts.

(* ------------------------------------------------------------------------- *)
(** ** The user-product metrics *)

Module UserProductMetricFacts.
Import SQL SQLFacts DivisionFacts WindowFacts KeyFacts DayPartFacts
  UserOrderFacts UserProductFacts.

Lemma nodup_map_le {A K L} `{EqDec K} `{EqDec L} (f : A -> K) (g : A -> L)
  (l : list A) :
  (forall a b, In a l -> In b l -> g a = g b -> f a = f b) ->
  (length (nodup eq_dec (map f l)) <= length (nodup eq_dec (map g l)))%nat.
Proof.
  induction l as [|a l IH]; intros Hfg; [cbn; lia|].
  assert (IH' : (length (nodup eq_dec (map f l))
                 <= length (nodup eq_dec (map g l)))%nat).
  { apply IH. intros; apply Hfg; auto; right; assumption. }
  cbn [map nodup].
  destruct (in_dec eq_dec (f a) (map f l)) as [Hf|Hf];
    destruct (in_dec eq_dec (g a) (map g l)) as [Hg|Hg]; cbn [length]; try lia.
  exfalso. apply Hf. apply in_map_iff in Hg as (b & Eb & Hb).
  apply in_map_iff. exists b. split; [|exact Hb].
  apply Hfg; [right; exact Hb|left; reflexivity|exact Eb].
Qed.

Lemma distinct_in_range (l : list Z) (m : Z) :
  0 <= m -> NoDup l -> (forall x, In x l -> 1 <= x <= m) ->
  Z.of_nat (length l) <= m.
Proof.
  intros Hm Hnd Hr.
  assert (Hincl : incl l (map Z.of_nat (seq 1 (Z.to_nat m)))).
  { intros x Hx. specialize (Hr x Hx). apply in_map_iff.
    exists (Z.to_nat x). split; [lia|]. apply in_seq. lia. }
  apply (NoDup_incl_length Hnd) in Hincl.
  rewrite length_map, length_seq in Hincl. lia.
Qed.

(** A row of the user-product metrics and the purchases it counts. *)
Lemma user_product_metrics_row v db upms a :
  upm.model v db = Ok upms -> In a upms ->
  exists rows,
    rows = purchases_of v db (upm.user_id a) (upm.product_id a) /\
    rows <> [] /\
    upm.up_orders a =
      count_distinct (map (fun r : o.row * op.row => Some (o.order_id (fst r)))
                          rows) /\
    upm.up_last_order_id a =
      max (map (fun r : o.row * op.row => Some (o.order_number (fst r))) rows) /\
    upm.up_orders_since_last a = upm.up_last_order_id a /\
    div (num (upm.up_orders a))
        (nullif (numq (upm.up_last_order_id a)) 0) = Ok (upm.up_orders_ratio a).
Proof.
  unfold upm.model, upm.user_product_metrics. intros Hm Ha.
  destruct (select_rows _ _ _ Hm) as [Hfrom _].
  destruct (Hfrom a Ha) as ([[u p] rows] & Hg & E).
  pose proof (group_rows_nonempty _ _ _ Hg) as Hne.
  apply group_by_In in Hg as [_ Hrows]. cbn [fst snd] in *.
  cbv zeta in E. apply bind_ok in E as (q & Hq & E). injection E as <-.
  exists rows. cbn. repeat split; auto.
Qed.

(** X23.  When order numbers start at 1 and a user has no two orders with
    the same number, [up_orders], the number of orders of the user that
    contain the product, is at least 1 and at most the highest order number
    among them, and [up_orders_ratio] is their quotient, a fraction between
    0 and 1.  [up_last_order_id] and [up_orders_since_last] both hold that
    highest order number. *)
Theorem up_orders_ratio_is_a_fraction v db t r :
  (forall x, In x (orders db) -> 1 <= o.order_number x) ->
  (forall x y, In x (orders db) -> In y (orders db) ->
     o.user_id x = o.user_id y -> o.order_number x = o.order_number y ->
     o.order_id x = o.order_id y) ->
  upm.model v db = Ok t -> In r t ->
  exists x,
    In x (purchases_of v db (upm.user_id r) (upm.product_id r)) /\
    (forall y, In y (purchases_of v db (upm.user_id r) (upm.product_id r)) ->
               o.order_number (fst y) <= o.order_number (fst x)) /\
    upm.up_last_order_id r = Some (o.order_number (fst x)) /\
    upm.up_orders_since_last r = Some (o.order_number (fst x)) /\
    1 <= upm.up_orders r <= o.order_number (fst x) /\
    upm.up_orders_ratio r =
      Some (Qred (inject_Z (upm.up_orders r) /
                  inject_Z (o.order_number (fst x)))) /\
    (0 <= Qred (inject_Z (upm.up_orders r) /
                inject_Z (o.order_number (fst x))) <= 1)%Q.
Proof.
  intros Hpos Hdistinct Ht Hr.
  destruct (user_product_metrics_row v db t r Ht Hr)
    as (rows & Hrows & Hne & Eorders & Elast & Esince & Hq).
  destruct (max_attained (fun r : o.row * op.row => o.order_number (fst r))
              rows Hne) as (x & Hx & Hmax & Hle).
  assert (Hin : forall y, In y rows ->
            In (fst y) (orders db) /\ o.user_id (fst y) = upm.user_id r).
  { intros [yo yl] Hy. rewrite Hrows in Hy.
    apply purchases_of_In in Hy as (Hy & Eu & _).
    unfold upf.purchases in Hy. apply inner_join_In in Hy as (Hy & _ & _).
    unfold upf.orders in Hy. apply filter_In in Hy as [Hy _]. auto. }
  assert (Hbound : 1 <= upm.up_orders r <= o.order_number (fst x)).
  { rewrite Eorders. split.
    - apply ProductFacts.count_distinct_positive. exact Hne.
    - unfold count_distinct. rewrite non_null_map_Some.
      pose proof (nodup_map_le
                    (fun r : o.row * op.row => o.order_id (fst r))
                    (fun r : o.row * op.row => o.order_number (fst r))
                    rows) as Hle'.
      assert (Hnum : Z.of_nat
                       (length (nodup eq_dec
                                  (map (fun r : o.row * op.row =>
                                          o.order_number (fst r)) rows)))
                     <= o.order_number (fst x)).
      { apply distinct_in_range; [|apply NoDup_nodup|].
        { specialize (Hpos (fst x) (proj1 (Hin x Hx))). lia. }
        intros n Hn. apply nodup_In in Hn.
        apply in_map_iff in Hn as (y & <- & Hy).
        split; [apply Hpos; apply (Hin y Hy)|apply Hle; exact Hy]. }
      assert ((length (nodup eq_dec
                         (map (fun r : o.row * op.row => o.order_id (fst r))
                              rows))
               <= length (nodup eq_dec
                            (map (fun r : o.row * op.row =>
                                    o.order_number (fst r)) rows)))%nat);
        [|lia].
      apply Hle'. intros a b Ha Hb E.
      destruct (Hin a Ha) as [Ha1 Ha2]. destruct (Hin b Hb) as [Hb1 Hb2].
      apply Hdistinct; auto. congruence. }
  rewrite Hrows in Hx, Hle.
  exists x. split; [exact Hx|]. split; [exact Hle|].
  rewrite Esince, Elast, Hmax. split; [reflexivity|]. split; [reflexivity|].
  split; [exact Hbound|].
  rewrite Elast, Hmax in Hq. cbn [numq option_map] in Hq.
  change (Some (inject_Z (o.order_number (fst x))))
    with (num (o.order_number (fst x))) in Hq.
  rewrite OrderFeatureFacts.nullif_count in Hq.
  destruct (o.order_number (fst x) =? 0) eqn:Ez;
    [apply Z.eqb_eq in Ez; lia|].
  unfold num in Hq. rewrite ProductFacts.div_nonzero in Hq by lia.
  injection Hq as <-. split; [reflexivity|].
  apply OrderFeatureFacts.fraction_bounds; lia.
Qed.

Lemma up_orders_ratio_is_a_fraction_witness :
  match upm.model Sample.v Sample.db with
  | Ok t => forall r, In r t ->
              exists x : o.row * op.row,
                upm.up_last_order_id r = Some (o.order_number (fst x)) /\
                1 <= upm.up_orders r <= o.order_number (fst x)
  | Raise _ => False
  end.
Proof.
  destruct (upm.model Sample.v Sample.db) as [t|e] eqn:E;
    [|vm_compute in E; discriminate].
  intros r Hr.
  destruct (up_orders_ratio_is_a_fraction Sample.v Sample.db t r)
    as (x & _ & _ & Hl & _ & Hb & _); auto.
  - intros x Hx. cbn in Hx.
    repeat (destruct Hx as [<-|Hx]; [cbn; lia|]). contradiction.
  - intros x y Hx Hy. cbn in Hx, Hy.
    repeat (destruct Hx as [<-|Hx];
            [repeat (destruct Hy as [<-|Hy];
                     [cbn; intros; first [reflexivity|lia]|]);
             contradiction|]).
    contradiction.
  - exists x. auto.
Defined.

End UserProductMetricFacts.

(* ------------------------------------------------------------------------- *)
(** ** Versions and names of feature views *)

Module ConfigFacts.
Import config CompositeKey.
Open Scope string_scope.

Lemma append_assoc (s t u : string) : (s ++ t) ++ u = s ++ (t ++ u).
Proof. induction s as [|c s IH]; cbn; [|rewrite IH]; reflexivity. Qed.

Lemma append_inv_head (s t u : string) : s ++ t = s ++ u -> t = u.
Proof.
  induction s as [|c s IH]; cbn; intros E; [exact E|].
  injection E as E. apply IH; exact E.
Qed.

(** X24.  A version string determines its numbers: two calls of
    [create_version] with the same defaults give the same string only for
    the same major and minor numbers; and the [version] of a feature view
    configuration is [create_version] of its numbers under the shipped
    defaults. *)
Theorem version_strings_are_unambiguous :
  (forall d major minor major' minor',
     create_version d major minor = create_version d major' minor' ->
     major = major' /\ minor = minor') /\
  (forall self,
     version self =
     create_version defaults (major_version self) (minor_version self)).
Proof.
  split; [|reflexivity].
  intros d a b a' b' E. unfold create_version in E.
  apply append_inv_head in E.
  apply (concat_key_inj a b a' b'). exact E.
Qed.

Section NameFacts.
Variable upper : string -> string.
Hypothesis upper_app : forall s t, upper (s ++ t) = upper s ++ upper t.
Hypothesis upper_separator : upper "_" = "_".

(** X25.  [full_name] of a configuration is [create_feature_view_name] of
    its domain, entity and feature type under the shipped defaults, an empty
    domain being left out; and the names are ambiguous: a domain and an
    entity give the name of the empty domain with the entity
    [domain_entity]. *)
Theorem feature_view_names_collide :
  (forall self,
     full_name upper self =
     create_feature_view_name upper defaults (domain self) (entity self)
       (feature_type self)) /\
  (forall d entity feature_type,
     create_feature_view_name upper d "" entity feature_type =
     upper (feature_view_prefix d) ++ "_" ++ upper entity ++ "_"
       ++ upper feature_type) /\
  (forall d domain entity feature_type,
     truthy domain = true ->
     create_feature_view_name upper d "" (domain ++ "_" ++ entity)
       feature_type =
     create_feature_view_name upper d domain entity feature_type).
Proof.
  split; [|split].
  - intros self. unfold full_name, create_feature_view_name.
    destruct (truthy (domain self)); reflexivity.
  - reflexivity.
  - intros d dom ent ft Hd. unfold create_feature_view_name.
    rewrite Hd. cbn [truthy insert firstn skipn app join_upper map
                     String.concat].
    rewrite !upper_app, upper_separator, !append_assoc. reflexivity.
Qed.

End NameFacts.

Lemma upper_ascii_app (s t : string) :
  upper_ascii (s ++ t) = upper_ascii s ++ upper_ascii t.
Proof. induction s as [|c s IH]; cbn; [|rewrite IH]; reflexivity. Qed.

Lemma feature_view_names_collide_witness :
  create_feature_view_name upper_ascii defaults "" "retail_customer" "behavior"
  = create_feature_view_name upper_ascii defaults "retail" "customer" "behavior".
Proof.
  exact (proj2 (proj2 (feature_view_names_collide upper_ascii
                         upper_ascii_app eq_refl))
           defaults "retail" "customer" "behavior" eq_refl).
Defined.

End ConfigFacts.

(* ------------------------------------------------------------------------- *)
(** ** The department averages *)

Module DepartmentFacts.
Import SQL SQLFacts DivisionFacts WindowFacts KeyFacts DayPartFacts
  ProductFacts.

Lemma qsum_at_least (l : list Q) :
  (forall q, In q l -> (1 <= q)%Q) ->
  (inject_Z (Z.of_nat (length l)) <= qsum l)%Q.
Proof.
  induction l as [|a l IH]; intros Hl; [cbn; apply Qle_refl|].
  cbn [length qsum fold_right].
  rewrite Nat2Z.inj_succ, <- Z.add_1_l, inject_Z_plus.
  apply Qplus_le_compat.
  - apply Hl. left. reflexivity.
  - apply IH. intros; apply Hl; right; assumption.
Qed.

Lemma avg_at_least_one {A} (f : A -> Z) (l : list A) :
  l <> [] -> (forall x, In x l -> 1 <= f x) ->
  exists q, avg (map (fun x => Some (f x)) l) = Some q /\ (1 <= q)%Q.
Proof.
  intros Hne Hf. unfold avg, avgq. rewrite map_map. cbn [option_map].
  rewrite (non_null_map_Some (fun x => inject_Z (f x))).
  destruct l as [|a l]; [congruence|]. cbn [map].
  eexists. split; [reflexivity|].
  change (inject_Z (f a) :: map (fun x => inject_Z (f x)) l)
    with (map (fun x => inject_Z (f x)) (a :: l)).
  set (vs := map (fun x => inject_Z (f x)) (a :: l)).
  rewrite Qred_correct.
  assert (Hlen : (0 < inject_Z (Z.of_nat (length vs)))%Q).
  { unfold vs. cbn [map length]. unfold Qlt, inject_Z. cbn. lia. }
  apply Qle_shift_div_l; [exact Hlen|]. rewrite Qmult_1_l.
  apply qsum_at_least. intros q Hq. unfold vs in Hq.
  apply in_map_iff in Hq as (x & <- & Hx).
  specialize (Hf x Hx). unfold Qle, inject_Z. cbn. lia.
Qed.

Lemma div_by_nonzero_value (x y : Q) :
  Qeq_bool y 0 = false -> div (Some x) (Some y) = Ok (Some (Qred (x / y))).
Proof. intros Hy. unfold div. rewrite Hy. reflexivity. Qed.

(** X27.  [department_order_ratio] of ProductFeatures is never NULL and is
    positive: every product of the metrics has at least one order, so the
    average of its department is at least 1 and the [nullif] guard on it
    never fires. *)
Theorem department_order_ratio_is_positive v db t r :
  pfm.model v db = Ok t -> In r t ->
  1 <= pfm.product_orders r /\
  exists q, pfm.department_order_ratio r = Some q /\ (0 < q)%Q.
Proof.
  unfold pfm.model, pfm.final. intros Ht Hr.
  apply bind_ok in Ht as (pms & Hpm & Ht).
  destruct (select_rows _ _ _ Ht) as [Hfrom _].
  destruct (Hfrom r Hr)
    as ([[[[[[[[p0 pm0] a0] d0] dr0] ar0] ds0] pph0] ppd0] & Hj & E).
  apply bind_ok in E as (q1 & Hq1 & E). apply bind_ok in E as (q2 & _ & E).
  injection E as <-.
  cbn [pfm.product_orders pfm.department_order_ratio].
  apply left_join_In in Hj as [Hj _].
  apply left_join_In in Hj as [Hj _].
  apply inner_join_In in Hj as (Hj & Hds & _).
  apply inner_join_In in Hj as (Hj & _ & _).
  apply inner_join_In in Hj as (Hj & _ & _).
  apply inner_join_In in Hj as (Hj & _ & _).
  apply inner_join_In in Hj as (Hj & _ & _).
  apply inner_join_In in Hj as (_ & Hpm0 & _).
  assert (Hall : forall x, In x pms -> 1 <= pm.product_orders x).
  { intros x Hx. destruct (product_metrics_total v db) as [pms' Hpms'].
    unfold pm.model, pm.product_metrics in Hpm.
    destruct (select_rows _ _ _ Hpm) as [Hfrom' _].
    destruct (Hfrom' x Hx) as (g & Hg & Hf).
    destruct (product_metrics_group g (group_rows_nonempty _ _ _ Hg))
      as (b & Hb & Hone & _).
    assert (Eb : Ok b = Ok x) by (rewrite <- Hb; exact Hf).
    injection Eb as <-. exact Hone. }
  split; [apply Hall; exact Hpm0|].
  unfold pfm.department_stats in Hds.
  apply in_map_iff in Hds as ([dep rows] & <- & Hg).
  pose proof (group_rows_nonempty _ _ _ Hg) as Hne.
  apply group_by_In in Hg as [_ Hrows]. cbn [fst snd] in *.
  cbn [pfm.ds.avg_dept_orders] in Hq1.
  destruct (avg_at_least_one pm.product_orders rows Hne) as (q & Eq & Hq).
  { intros x Hx. apply Hall. rewrite Hrows in Hx.
    apply filter_In in Hx as [Hx _]. exact Hx. }
  rewrite Eq in Hq1. unfold nullif, num in Hq1.
  assert (Hnz : Qeq_bool q 0 = false).
  { destruct (Qeq_bool q 0) eqn:E0; [|reflexivity].
    apply Qeq_bool_iff in E0. rewrite E0 in Hq.
    exfalso. revert Hq. unfold Qle. cbn. lia. }
  rewrite Hnz in Hq1. rewrite (div_by_nonzero_value _ q Hnz) in Hq1.
  assert (E1 : Some (Qred (inject_Z (pm.product_orders pm0) / q)) = q1)
    by congruence.
  rewrite <- E1. eexists. split; [reflexivity|].
  assert (Hqpos : (0 < q)%Q).
  { eapply Qlt_le_trans; [|exact Hq]. reflexivity. }
  eapply Qlt_le_trans;
    [|apply Qle_lteq; right; symmetry; apply Qred_correct].
  apply Qlt_shift_div_l; [exact Hqpos|]. rewrite Qmult_0_l.
  specialize (Hall pm0 Hpm0). unfold Qlt, inject_Z. cbn. lia.
Qed.

Lemma department_order_ratio_is_positive_witness :
  match pfm.model Sample.v Sample.db with
  | Ok t => forall r, In r t ->
              exists q, pfm.department_order_ratio r = Some q /\ (0 < q)%Q
  | Raise _ => False
  end.
Proof.
  destruct (pfm.model Sample.v Sample.db) as [t|e] eqn:E;
    [|vm_compute in E; discriminate].
  intros r Hr.
  exact (proj2 (department_order_ratio_is_positive Sample.v Sample.db t r E Hr)).
Defined.

End DepartmentFacts.
